(* ===== verification/_CoqProject ===== *)
-Q . S2P
Prelude.v
PyStr.v
Search.v
Sorting.v
Concept.v
Scoring.v
ConceptStore.v
Statistics.v
TrustMetrics.v
AddressGenerator.v
JobManager.v
ConceptLearner.v
Outcomes.v
Discovery.v
DataCollector.v
StatFin.v
PopulationGrid.v
OSM.v
AreaDetail.v
Analyze.v
Digitransit.v
AgentBase.v
GeoAgent.v
DemoAgent.v
CompAgent.v
TransitAgent.v
RiskAgent.v
RevenueAgent.v
Orchestrator.v
