(* ===== verification/Prelude.v ===== *)
(** * Spotlight: a verification development of the site-scoring backend

    The repository (src/backend) is a FastAPI service that scores candidate
    restaurant locations, generates ranked address lists, learns concept
    parameters from reported outcomes, and runs recommendation jobs in the
    background with streamed progress.  This library models the numeric and
    stateful core of it and proves what makes that core correct, and where
    the code and its specification part ways.

    ** The program's parts and how they interact

    - ScoringEngine (src/backend/agents/scorer.py): a pure function from a
      feature dictionary and a concept configuration to a score, a revenue
      band and a confidence.  The concept configuration is looked up in the
      database, then in concepts.yaml.
    - Concept store (src/backend/routes/concepts.py): create, update, clone
      and soft-delete concepts, with the weight-sum validation and the
      system-default guard.  The scorer reads the rows it writes.
    - ConceptLearner (src/backend/services/concept_learner.py): records an
      outcome against a prediction (called by main.py's /api/outcomes) and
      retrains the concept: median base revenue, MAPE, variance band and
      correlation weights.  It writes the concept rows the scorer reads.
    - TrustMetrics (src/backend/services/trust_metrics.py): coverage and
      confidence from the feature dictionary and the scorer's component
      scores; main.py's area endpoints call it after the scorer.
    - AddressGenerator (src/backend/services/address_generator.py): samples
      a 3x3 grid around the top areas, scores each point, deduplicates by
      distance, ranks; routes/recommend.py runs it inside a job.
    - JobManager (src/backend/services/job_manager.py) and the routes of
      src/backend/routes/recommend.py: an in-memory registry of jobs and
      one event queue per job.  POST /api/recommend creates a job and starts
      [run_recommendation_job] in the background, which emits stage events
      and completes or fails the job; the SSE route drains the queue until
      the completion marker; GET /api/jobs reads the registry.
    - HTTP endpoints of src/backend/main.py: POST /api/search (classifies
      the query and tells the client which flow to open), POST /api/outcomes (parses the
      prediction id, stores an Outcome row, then calls the learner),
      /api/discover (the Helsinki area list scored and ranked, or one postal
      area), GET /api/area/{area_id} (the page of one heat-map tile: score,
      trust, why bullets and insights), POST /api/analyze (the per-address
      analysis meant for the agent orchestrator), GET /api/accuracy, and the method-information report.

    - DataCollector (src/backend/agents/data_collector.py): the feature
      dictionary of an area from four services and an income table; both
      area routes of main.py call it.
    - StatFinService (src/backend/services/statfin.py): the PAAVO
      demographics of a postal code, from a 30-day cache, the PXWeb API,
      or a hard-coded table; main.py's postal routes call it.
    - PopulationGridService (src/backend/services/population_grid.py): the
      1 km grid of Statistics Finland from a WFS server, with an in-memory
      cache of bounding boxes; the collectors ask it for the population
      within 1 km of a point.
    - OSMService (src/backend/services/osm.py): competitors, transit stops
      and a point-of-interest count from the Overpass API; the collectors
      call its three queries.
    - DigitransitService (src/backend/services/digitransit.py): Pelias
      geocoding; the site collector geocodes each address with it and the
      address generator reverse-geocodes each candidate point with it.
    - The agent layer (src/backend/agents/agno): six specialist agents and
      an orchestrator.  [OrchestratorAgent.analyze_site] calls GEO
      (geo_agent.py: geocoding and its grades), DEMO (demo_agent.py:
      demographic fit), COMP (comp_agent.py: competition), TRANSIT
      (transit_agent.py: access and walkability), RISK (risk_agent.py:
      confidence and risk factors from the four earlier results) and
      REVENUE (revenue_agent.py: revenue from all five), then synthesises
      a recommendation.  Each agent asks a language model for a reasoning
      text and computes its scores in Python.  Nothing instantiates the
      orchestrator: main.py comments it out, and the package's imports
      fail on an undefined [Optional] before Python 3.14.

    ** Files, in dependency order

    - Prelude.v (this file): the Python value model (dictionary values that
      are absent, [None], or a number), the exception monad [res] with its
      notation [x <- c ;; k] in [py_scope], Python's [round], [int()],
      [min], [max] and float comparisons, the tactics [qcase], [qsplit],
      [py_div_ok], [res_inv], [qeval], and the hint database [spotlight].
    - PyStr.v, Module [PyStr]: Python's [str.strip], [str.replace],
      [int(s)] on strings (sign, digits, underscores between digits, the
      ValueError message) and [str(n)] on integers.
    - Search.v, Module [Search]: [universal_search], [_detect_search_type]
      with its three regular expressions written out as scans, and
      [_extract_addresses].
    - Sorting.v: [sorted(..., key=..., reverse=True)] as a stable insertion
      sort [sort_by] over a Section key, with its permutation and
      sortedness lemmas and the prefix lemmas used for [[:limit]].
    - Concept.v: the [Concept] row, its [Weights], and the configuration
      dictionary the scorer builds from a row.
    - Scoring.v, Module [ScoringEngine]: one definition per method of
      scorer.py; [calculate_score] composes them exactly as the method does.
    - ConceptStore.v, Module [ConceptStore]: the store of customers and
      concept rows, one definition per route handler, and the step relation
      [step] of route requests with its reachability closure [reachable].
    - Statistics.v: [sorted], [statistics.median], [statistics.mean], and
      the class [SqrtOp] of square roots ([x ** 0.5]) with an executable
      instance.
    - TrustMetrics.v, Module [TrustMetrics]: [calculate_coverage] (with
      the validation of the [DataCoverage] model), [calculate_confidence],
      and main.py's scoring step [score_with_trust].
    - AddressGenerator.v, Module [AddressGenerator]: every method of the
      class, over a Section variable for the great-circle distance, one
      for the reverse-geocoding service and one for Python's string hash.
    - JobManager.v, Module [JobManager]: the registry as a [State] of two
      stdpp [gmap]s keyed by job id (jobs and queues), one definition per
      method of [JobManager] ([create_job], [emit_stage_update],
      [complete_job], [fail_job], [get_job], [cleanup_expired_jobs]), the
      SSE loop [stream_session], the three route handlers, the background
      task [run_recommendation_job], and the step relation [step] that
      interleaves requests, background runs and queue reads, with its
      closure [reachable].
    - ConceptLearner.v, Module [ConceptLearner]: the database the learner
      reads and writes as a record, [record_outcome], [retrain_concept],
      [optimize_weights] and [calculate_correlation], and [record_outcomes],
      a sequence of submissions.
    - Outcomes.v, Module [Outcomes]: the application database (learner
      tables and Outcome rows), the /api/outcomes handler [submit_outcome]
      in the order the code commits, and [get_accuracy_stats].
    - Discovery.v, Module [Discovery]: [get_method_info], the area
      validation of [AreaOpportunity], [discover_helsinki],
      [analyze_postal_area] and the dispatch [discover_opportunities], over
      Section variables for the data collector and the demographics service.
    - DataCollector.v, Module [DataCollector]: [collect_area_data] over its
      services as Section variables, and [_estimate_income_for_area].
    - StatFin.v, Module [StatFin]: the service's cache as the state
      [StatFinState], [get_demographics_by_postal_code] as a function of
      the state and the time, [_fetch_from_pxweb_api] with the JSON-stat
      parsing (the HTTP exchange and pyproj are Section variables),
      [_get_demo_data_helsinki] with Python's dictionary-literal
      semantics, and the calls in time order as [reachable].
    - PopulationGrid.v, Module [PopulationGrid]: the cache as the state
      [GridState] (keys compared by [bbox_eq], an equivalence with
      [cache_lookup] as a morphism), [get_population_grid] with the GeoJSON
      parsing, [get_population_in_area], [get_heatmap_data_for_city] and
      [generate_mock_heatmap_data]; the WFS server and the haversine
      distance are Section variables; the calls in time order are
      [reachable], and [population_service] is the collector's call.
    - OSM.v, Module [OSM]: the three queries with their Overpass QL texts,
      the loops over the answer's elements and the sorts by distance; the
      server, [str] of a float and the haversine formula are Section
      variables; [competitor_service], [transit_service] and
      [walkability_service] are the collector's calls.
    - AreaDetail.v, Module [AreaDetail]: [generate_why_bullets],
      [_generate_insights] and [get_area_detail]; its last theorems
      instantiate the collector of [Discovery] and of the detail route with
      [DataCollector.collect_area_data] over arbitrary services.
    - Analyze.v, Module [Analyze]: [collect_site_data] of the data
      collector and [analyze_sites] with its request validation and its
      per-address loop.
    - Digitransit.v, Module [Digitransit]: [geocode_address],
      [reverse_geocode], [search_places] and [is_helsinki_area] over the
      Pelias server as a Section variable, the reading of the reverse
      answer in [AddressGenerator._reverse_geocode] over JSON values
      ([address_from_result]), and the two clients instantiated with the
      service.
    - AgentBase.v: the agents' names (the model's [self.run] is a Section
      variable [run : AgentName -> res string] of each agent file),
      [str.lower] on ASCII, the formatting of [None] with [:,] (TypeError)
      and [l[0]] (IndexError).
    - GeoAgent.v, DemoAgent.v, CompAgent.v, TransitAgent.v, RiskAgent.v,
      RevenueAgent.v, one Module per agent: its entry method over a
      result record per earlier agent, its private scorers and raters one
      definition each, its insights as constructors carrying the values
      their f-strings format.  GeoAgent's geocoder is a Section variable;
      [digitransit_geocoder] is DigitransitService's dictionary.  The
      transit agent reads [OSM.Transit], the competition agent
      [OSM.Competitor].
    - Orchestrator.v, Module [Orchestrator]: [analyze_site] (the six
      agents in order over a [RawData] record with the orchestrator's
      defaults applied) and [_synthesize_analysis]; the rule the synthesis
      prompt states to the model is [prompt_recommendation].

    ** Modelling choices

    - Python floats are modelled as exact rationals [Q].  Every comparison
      and branch of the code is kept; IEEE rounding error is not modelled.
      [round(x, n)] is round-half-to-even of the exact value ([py_round]);
      [int()] truncates ([py_int]).
    - Python exceptions are values: [Raise TypeError] for a comparison or
      arithmetic on [None], [Raise ZeroDivisionError] for a division by
      zero (every division goes through [py_div]), [ValueError],
      [HTTPException status detail], [IntegrityError] for a unique
      constraint, [AttributeError], [ValidationError] for a pydantic model,
      [NameError name] for a global that is not defined, [IndexError].
      A handler that raises leaves the database as it was, except where the
      code commits first: /api/outcomes commits its Outcome row before the
      learner runs, and [submit_outcome] returns that state with the error.
    - A dictionary value is [pyval]: an absent key is distinguished from a
      key holding [None], because [d.get(k, 0)] defaults only in the first
      case.  Dictionaries whose keys the code fixes are records; the
      component-score dictionary is an association list; the job registry
      and queues are [gmap]s, since the code only inserts, reads and
      deletes by key.
    - An answer of an external server is a status and a body:
      [raise_for_status] passes a 2xx status only (httpx raises
      [HTTPStatusError], an [HTTPError], for any other), and a body that
      does not decode raises [json.JSONDecodeError], a [ValueError].  A
      JSON object whose keys the code reads is a record of options (a
      missing key is [None]); the one the address generator reads
      generically is the inductive [Digitransit.json].
    - An [asyncio.Queue] is a list (put appends, get takes the head).  The
      background task is split at its await on [generate_candidates] into
      [run_start] and [run_finish], and the step relation may run either
      half, a request or a queue read in any order.
    - Square roots and the haversine distance are not computable on [Q]:
      the first is the class [SqrtOp] (non-negative, positive on positive
      numbers, zero at zero), the second a Section variable, constrained
      only by the meridian lower bound [111000 * |lat1 - lat2|] metres
      where a theorem needs it.

    ** What the theorems show

    - Scoring: totality on valid concepts, the [0, 100] score and [0.6, 1]
      confidence bounds, the ordered revenue band, the spec's sample points,
      and the two ways the scorer fails.
    - Concept store: every reachable store keeps weights summing to within
      [0.95, 1.05] and unique ids; system defaults are never changed;
      delete is soft; and two gaps of the validation (accepted weights
      summing to 1.05 score 105; for any store and active customer concept,
      a PATCH setting both income bounds to one value is accepted and then
      makes scoring at that income divide by zero).
    - Learner: the error paths of [record_outcome]; retraining sets the
      median, band and MAPE and triggers exactly at five outcomes; the
      re-optimised weights sum to one; along any sequence of submissions
      the weights stay valid and each prediction has one outcome; and, for
      any database, a stored snapshot whose metro distance is [None] makes
      every submission for a concept with 19 or more outcomes raise
      TypeError, so the concept is never retrained again.
    - Trust metrics: coverage is always valid; the confidence main.py
      reports is capped at 0.7.
    - Candidates: the deduplication keeps candidates pairwise at least the
      minimum distance apart and is the spec's greedy pass, but does not
      maximise the total score; the pipeline returns at most [limit]
      ranked, sorted, separated candidates; every candidate gets the
      default population and the decision PASS.
    - Jobs: every reachable registry has a queue for exactly its jobs and
      never forgets a job; a background run for an unknown id changes
      nothing; a request, its run and one stream deliver the job's events
      ending in the completion marker; [stream_session] equals the
      reference "take every queued event up to the marker"; the cleanup
      removes exactly the expired jobs; [recommend_addresses] validates its
      request as the spec says.
    - Search: the HTTP 400 branch of [universal_search] is dead; a
      [";"]-joined list of clean addresses comes back as that comparison;
      street-first addresses (the docstring's own example) and addresses
      whose street starts with a Nordic letter (the character class is
      double-encoded in main.py) are routed to a discovery of the whole
      query as a city.
    - Area routes with the real collector: Töölö is never discovered and
      its detail page never renders, whatever the services answer (its
      name in main.py is double-encoded and misses the income table); the
      id of every discovered area leads [get_area_detail] back to the same
      area.
    - PAAVO service: the cache invariant (every entry is an answer of the
      API for the code of its key, no later than now) holds along every
      time-ordered sequence of calls; each answer is API data less than 30
      days old or the table when the API has nothing (refinement); with a
      time-independent API the cache is transparent (equivalence); the
      duplicated table key answers its later row; without the API no
      postal discovery succeeds.
    - Population grid: along any time-ordered sequence of calls the cached
      service answers what the server answered for a box with the same
      key, or the empty grid on an HTTP error (refinement); a cached box is
      never refreshed; the population of an area is computed without
      error and its age shares are percentages when the cells are
      consistent; a heat-map point has an intensity in (0, 50].  Two
      findings: a server outage reaches the scorer as a measured population
      of 0 (coverage unchanged), while an empty polygon ring raises and
      reads as missing data; and the centre of a cell is the mean of its
      closed ring, a tenth of the side off towards the first corner.
    - Overpass: competitors come back one per node, sorted by distance,
      so the five an analysis keeps are the nearest; the reported nearest
      metro and tram distances are those of the stop the server lists
      first (never below the nearest one, the access bonus never above
      it); and the [out count] query makes the point-of-interest count at
      most 1, so the walkability score is always 20.
    - Geocoding: [_reverse_geocode] looks for Pelias' [features] in a
      dictionary that never has them, so every candidate address is the
      synthetic one; an address Pelias does not find fails the site
      collection with the collector's ValueError.
    - Analysis: [POST /api/analyze] never answers a result (the global
      [orchestrator] it calls is commented out) and never its own 400s
      (the request model already bounds the addresses).
    - Agents: the synthesis raises IndexError exactly when the transit
      score reaches 75 without a transit insight (the demographic and
      competition quotes are safe); whenever the model answers and the
      first four agents succeed, [analyze_site] raises exactly that
      IndexError or returns; below an opportunity score of 55 the code's
      recommendation is the opposite of the rule the prompt states; with
      DigitransitService as geocoder the confidence is never high and the
      location premium never applies; every successful analysis has a
      confidence in [24, 94], an opportunity score in [0, 100], a revenue
      of at least 16,800 euros and an ordered revenue range.
    - Endpoints: [str(n)] is parsed back by the handler's id parser (round
      trip); any sequence of outcome submissions keeps the database
      invariant; [submit_outcome] refines the learner's [record_outcome]
      with one stored row; a learner failure leaves a stored outcome whose
      retry is refused; the discovery response for Helsinki and the
      TypeError of a postal area without income data.

    ** Bounds and fuel

    - [str_nat] (decimal digits) runs with fuel [n + 1] for [n], and
      [PyStr.dec] with [log2 n + 1], more than the number of digits;
      [PyStr.py_replace] with [length s + 1], more than the number of
      occurrences; [JobManager.stream_session] with [length q + 1] for the
      queue [q] it drains, one more than the events it can take
      ([stream_session_reference] shows this fuel is enough).  Every other
      loop of the code is over a finite list and is a [fold_left] or a
      structural recursion.
    - The witnesses evaluate the definitions with [vm_compute] on sample
      data (a concept, five and twenty predictions, complete features, a
      two-job registry).  [sum] keeps partial sums in lowest terms so that
      the correlation of twenty outcomes evaluates quickly.

    ** Not modelled

    - Wall-clock timing of the job pipeline ([asyncio.sleep], durations):
      times are arguments.  Each job manager method runs to completion
      between two awaits, so the step relation interleaves whole methods.
    - main.py's [_check_cannibalization] and the ranking of
      /api/analyze: unreachable, see above.  The health routes: constant
      answers.  The texts of bullets and insights: each is a constructor
      carrying the values its f-string formats.
    - The network exchanges of the external services: each server is a
      Section variable from the request (a query text, a box, an endpoint
      and its parameters) and the time to the answer, [None] for a
      transport error; the haversine formula and the text of a float
      ([str], [.4f]) are Section variables, outside exact arithmetic.
    - services/hsy.py: no module imports it (the routes and collectors use
      the population grid of population_grid.py).  Of the agent layer:
      the prompt texts (only their formatting errors are modelled), the
      agno [Agent] configuration of each [__init__], the [_format_*]
      helpers that only build prompt text, [str.title], and the drivers'
      description strings; the model's answer is the variable [run].
    - [get_concept_stats]: a read-only report.  StatFin's
      [estimate_population_in_radius] and [calculate_income_fit_score]:
      called by no route.
*)

From Stdlib Require Export QArith Qround Qminmax Qabs Lqa ZArith String List Bool Lia.
Export ListNotations.

Declare Scope py_scope.
Delimit Scope py_scope with py.
Open Scope Q_scope.

(** ** Python exceptions as values *)

Inductive exn : Type :=
| TypeError
| ZeroDivisionError
| ValueError (msg : string)
| KeyError (key : string)
| HTTPException (status_code : Z) (detail : string)
| IntegrityError
| AttributeError
| StatisticsError
| ValidationError
| NameError (name : string)
| IndexError.

Inductive res (A : Type) : Type :=
| Ok (a : A)
| Raise (e : exn).
Arguments Ok {A} a.
Arguments Raise {A} e.

Definition bind {A B : Type} (c : res A) (k : A -> res B) : res B :=
  match c with
  | Ok a => k a
  | Raise e => Raise e
  end.

Notation "x <- c ;; k" := (bind c (fun x => k))
  (at level 65, c at next level, right associativity) : py_scope.
Open Scope py_scope.

(** A loop that stops at the first exception. *)
Fixpoint map_res {A B : Type} (f : A -> res B) (l : list A) : res (list B) :=
  match l with
  | [] => Ok []
  | x :: l' => y <- f x ;; ys <- map_res f l' ;; Ok (y :: ys)
  end.

(** ** Dictionary values *)

(** The value a dictionary lookup can see: the key is absent, or present
    with [None], or present with a number. *)
Inductive pyval : Type :=
| Absent
| PyNone
| PyNum (q : Q).

(** [d.get(k)]: an absent key reads as [None]. *)
Definition get (v : pyval) : pyval :=
  match v with Absent => PyNone | v => v end.

(** [d.get(k, dflt)]: only an absent key takes the default. *)
Definition get_default (v : pyval) (dflt : Q) : pyval :=
  match v with Absent => PyNum dflt | v => v end.

(** [x is not None] after a [d.get(k)]. *)
Definition is_not_none (v : pyval) : bool :=
  match get v with PyNum _ => true | _ => false end.

(** Using a value in a comparison or in arithmetic: [None] raises. *)
Definition num (v : pyval) : res Q :=
  match v with PyNum q => Ok q | _ => Raise TypeError end.

(** ** Python comparisons and arithmetic on floats *)

(** [a <= b], [a < b], [a >= b], [a > b], [a == b] on floats. *)
Definition Qleb (a b : Q) : bool := Qle_bool a b.
Definition Qltb (a b : Q) : bool := negb (Qle_bool b a).
Definition Qgeb (a b : Q) : bool := Qle_bool b a.
Definition Qgtb (a b : Q) : bool := negb (Qle_bool a b).
Definition Qeqb (a b : Q) : bool := Qeq_bool a b.

Definition py_div (a b : Q) : res Q :=
  if Qeqb b 0 then Raise ZeroDivisionError else Ok (a / b).

(** [min(a, b)] returns [a] unless [b < a]; [max(a, b)] returns [a]
    unless [b > a]. *)
Definition py_min (a b : Q) : Q := if Qltb b a then b else a.
Definition py_max (a b : Q) : Q := if Qgtb b a then b else a.

(** Round half to even of a rational to an integer: [round(x)]. *)
Definition py_round_int (x : Q) : Z :=
  let f := Qfloor x in
  let r := x - inject_Z f in
  match Qcompare r (1 # 2) with
  | Lt => f
  | Gt => (f + 1)%Z
  | Eq => if Z.even f then f else (f + 1)%Z
  end.

(** [round(x, n)] for [n] decimal digits. *)
Definition py_round (x : Q) (n : nat) : Q :=
  inject_Z (py_round_int (x * inject_Z (10 ^ Z.of_nat n))) / inject_Z (10 ^ Z.of_nat n).

(** [int(x)] truncates toward zero. *)
Definition py_int (x : Q) : Z := Z.quot (Qnum x) (Zpos (Qden x)).

(** ** Reasoning about the comparisons *)

Lemma Qle_bool_spec (a b : Q) : BoolSpec (a <= b) (b < a) (Qle_bool a b).
Proof.
  destruct (Qle_bool a b) eqn:E; constructor.
  - now apply Qle_bool_iff.
  - apply Qnot_le_lt. intros H. apply Qle_bool_iff in H. congruence.
Qed.

Lemma Qeq_bool_spec (a b : Q) : BoolSpec (a == b) (~ a == b) (Qeq_bool a b).
Proof.
  destruct (Qeq_bool a b) eqn:E; constructor.
  - now apply Qeq_bool_iff.
  - now apply Qeq_bool_neq.
Qed.

(** [qcase] splits on the first float comparison of the goal (or of a
    hypothesis) and leaves the corresponding order fact in context. *)
Ltac qcase :=
  unfold Qleb, Qltb, Qgeb, Qgtb, Qeqb in *;
  match goal with
  | |- context [Qle_bool ?a ?b] => destruct (Qle_bool_spec a b)
  | |- context [Qeq_bool ?a ?b] => destruct (Qeq_bool_spec a b)
  | H : context [Qle_bool ?a ?b] |- _ => destruct (Qle_bool_spec a b)
  | H : context [Qeq_bool ?a ?b] |- _ => destruct (Qeq_bool_spec a b)
  end; cbn [negb andb orb bind] in *.

(** [qsplit] splits on every comparison and closes what [lra] closes. *)
Ltac qsplit := repeat (qcase; try (exfalso; lra)); try lra.

Create HintDb spotlight.

Lemma py_div_ok (a b : Q) : ~ b == 0 -> py_div a b = Ok (a / b).
Proof. intros H. unfold py_div. qcase; [contradiction | reflexivity]. Qed.

Lemma py_div_zero (a b : Q) : b == 0 -> py_div a b = Raise ZeroDivisionError.
Proof. intros H. unfold py_div. qcase; [reflexivity | contradiction]. Qed.

Lemma py_min_le_l a b : py_min a b <= a.
Proof. unfold py_min. qsplit. Qed.
Lemma py_min_le_r a b : py_min a b <= b.
Proof. unfold py_min. qsplit. Qed.
Lemma py_min_glb a b c : c <= a -> c <= b -> c <= py_min a b.
Proof. unfold py_min. qsplit. Qed.
Lemma py_max_ge_l a b : a <= py_max a b.
Proof. unfold py_max. qsplit. Qed.
Lemma py_max_ge_r a b : b <= py_max a b.
Proof. unfold py_max. qsplit. Qed.
Lemma py_max_lub a b c : a <= c -> b <= c -> py_max a b <= c.
Proof. unfold py_max. qsplit. Qed.

#[export] Hint Resolve py_min_le_l py_min_le_r py_min_glb
  py_max_ge_l py_max_ge_r py_max_lub : spotlight.

(** ** Rounding *)

#[export] Instance py_round_int_Proper : Proper (Qeq ==> eq) py_round_int.
Proof.
  intros x y Hxy. unfold py_round_int.
  rewrite (Qfloor_comp x y Hxy).
  assert (Hr : x - inject_Z (Qfloor y) == y - inject_Z (Qfloor y)) by (rewrite Hxy; reflexivity).
  rewrite Hr. reflexivity.
Qed.

#[export] Instance py_round_Proper : Proper (Qeq ==> eq ==> Qeq) py_round.
Proof. intros x y Hxy n m <-. unfold py_round. now rewrite Hxy. Qed.

Lemma py_round_int_floor x :
  (Qfloor x <= py_round_int x <= Qfloor x + 1)%Z.
Proof.
  unfold py_round_int.
  destruct (Qcompare_spec (x - inject_Z (Qfloor x)) (1 # 2)); try lia.
  destruct (Z.even (Qfloor x)); lia.
Qed.

Lemma py_round_int_Z z : py_round_int (inject_Z z) = z.
Proof.
  unfold py_round_int. rewrite Qfloor_Z.
  destruct (Qcompare_spec (inject_Z z - inject_Z z) (1 # 2)); try reflexivity;
    exfalso; ring_simplify (inject_Z z - inject_Z z) in H; lra.
Qed.

Lemma py_round_int_mono x y : x <= y -> (py_round_int x <= py_round_int y)%Z.
Proof.
  intros Hxy.
  pose proof (Qfloor_resp_le x y Hxy) as Hf.
  destruct (Z.eq_dec (Qfloor x) (Qfloor y)) as [Heq | Hne].
  - unfold py_round_int. rewrite Heq.
    set (f := Qfloor y) in *.
    destruct (Qcompare_spec (x - inject_Z f) (1 # 2));
      destruct (Qcompare_spec (y - inject_Z f) (1 # 2));
      try (destruct (Z.even f)); try lia; exfalso; lra.
  - pose proof (py_round_int_floor x). pose proof (py_round_int_floor y). lia.
Qed.

Lemma py_round_mono x y n : x <= y -> py_round x n <= py_round y n.
Proof.
  intros Hxy. unfold py_round.
  assert (Hp : 0 < inject_Z (10 ^ Z.of_nat n)).
  { rewrite <- (Qfloor_Z 0) at 1. unfold Qlt. simpl. lia. }
  apply Qmult_le_compat_r; [| apply Qlt_le_weak, Qinv_lt_0_compat; exact Hp].
  rewrite <- Zle_Qle. apply py_round_int_mono.
  apply Qmult_le_compat_r; [exact Hxy | now apply Qlt_le_weak].
Qed.

Lemma py_round_range lo hi x n :
  lo <= x <= hi -> py_round lo n <= py_round x n /\ py_round x n <= py_round hi n.
Proof. intros [H1 H2]. split; now apply py_round_mono. Qed.

(** ** Division facts used by every bound *)

Lemma Qdiv_nonneg a b : 0 <= a -> 0 < b -> 0 <= a / b.
Proof.
  intros Ha Hb. apply Qle_shift_div_l; [exact Hb|]. rewrite Qmult_0_l. exact Ha.
Qed.

Lemma Qdiv_le_one a b : 0 < b -> a <= b -> a / b <= 1.
Proof. intros Hb Hab. apply Qle_shift_div_r; [exact Hb | lra]. Qed.

Lemma Qdiv_ge_one a b : 0 < b -> b <= a -> 1 <= a / b.
Proof. intros Hb Hab. apply Qle_shift_div_l; [exact Hb | lra]. Qed.

Lemma Qdiv_self a : ~ a == 0 -> a / a == 1.
Proof. intros H. unfold Qdiv. now apply Qmult_inv_r. Qed.

Lemma Qdiv_mul_l k a : ~ a == 0 -> (k * a) / a == k.
Proof. intros H. unfold Qdiv. rewrite <- Qmult_assoc, Qmult_inv_r by exact H. ring. Qed.

Lemma Qdiv_2 x : x / 2 == x * (1 # 2).
Proof. reflexivity. Qed.

Lemma Qdiv_Zpos x (p : positive) : x / (Zpos p # 1) == x * (1 # p).
Proof. reflexivity. Qed.

Lemma Qnonzero_of_lt a : 0 < a -> ~ a == 0.
Proof. intros H E. rewrite E in H. discriminate. Qed.

Lemma Qnonzero_of_gt a b : 0 < b -> b < a -> ~ a == 0.
Proof. intros H1 H2 E. rewrite E in H2. lra. Qed.

#[export] Hint Resolve Qdiv_nonneg Qdiv_le_one Qnonzero_of_lt : spotlight.

(** A division by a value known to be non-zero computes. *)
Ltac py_div_ok :=
  rewrite py_div_ok by (first [apply Qnonzero_of_lt; lra | eapply Qnonzero_of_gt; lra | lra]);
  cbn [bind].

(** ** Inverting a computation that returned [Ok] *)

Lemma bind_Ok {A B} (c : res A) (k : A -> res B) b :
  bind c k = Ok b -> exists a, c = Ok a /\ k a = Ok b.
Proof. destruct c; simpl; [eauto | discriminate]. Qed.

Lemma num_Ok v q : num v = Ok q -> v = PyNum q.
Proof. destruct v; simpl; congruence. Qed.

Lemma Ok_inj {A} (a b : A) : Ok a = Ok b -> a = b.
Proof. congruence. Qed.

(** A loop whose every step returns runs to the end. *)
Lemma map_res_total {A B} (f : A -> res B) (l : list A) :
  (forall x, In x l -> exists y, f x = Ok y) -> exists ys, map_res f l = Ok ys.
Proof.
  induction l as [|x l IH]; intros H; [now exists []|]. cbn [map_res].
  destruct (H x (or_introl eq_refl)) as [y ->]. cbn [bind].
  destruct IH as [ys ->]; [intros z Hz; exact (H z (or_intror Hz))|]. now exists (y :: ys).
Qed.

(** A loop whose every step returns or raises [e], and one of whose steps
    raises [e], raises [e]. *)
Lemma map_res_raise {A B} (f : A -> res B) (l : list A) e :
  (forall x, In x l -> (exists y, f x = Ok y) \/ f x = Raise e) ->
  (exists x, In x l /\ f x = Raise e) -> map_res f l = Raise e.
Proof.
  induction l as [|x l IH]; intros H [z [Hz Hf]]; [destruct Hz|]. cbn [map_res].
  destruct (H x (or_introl eq_refl)) as [[y Hy]|Hy]; rewrite Hy; cbn [bind]; [|reflexivity].
  destruct Hz as [<-|Hz]; [congruence|].
  rewrite (IH (fun x' Hx' => H x' (or_intror Hx')) (ex_intro _ z (conj Hz Hf))). reflexivity.
Qed.

(** A computation that returns, and whose every result satisfies [P],
    returns a result satisfying [P]. *)
Lemma ok_and {A} (c : res A) (P : A -> Prop) :
  (exists a, c = Ok a) -> (forall a, c = Ok a -> P a) -> exists a, c = Ok a /\ P a.
Proof. intros (a & E) H. exists a. split; [exact E | exact (H a E)]. Qed.

(** [res_inv H] splits the binds of [H : c = Ok _] into one equation per
    step, discarding the branches that raise. *)
Ltac res_inv H :=
  repeat match type of H with
  | context [bind ?c _] =>
      let E := fresh "E" in
      destruct c eqn:E; cbn [bind] in H; [| discriminate H]
  end.

(** [exists_ok] answers a goal [exists a, c = Ok a /\ _] whose [c] is
    closed with the value [c] evaluates to, leaving the rest of the goal
    with the equation [Hok] in context; used by the witnesses. *)
Ltac exists_ok :=
  match goal with |- exists a, ?c = Ok a /\ _ =>
    let v := eval vm_compute in c in
    match v with
    | Ok ?x => exists x; let H := fresh "Hok" in assert (H : c = Ok x) by (vm_compute; reflexivity); split; [exact H|]
    end
  end.

(** [exists_some] is [exists_ok] for a lookup: a goal
    [exists a, c = Some a /\ _] with [c] closed. *)
Ltac exists_some :=
  match goal with |- exists a, ?c = Some a /\ _ =>
    let v := eval vm_compute in c in
    match v with
    | Some ?x => exists x; let H := fresh "Hsome" in assert (H : c = Some x) by (vm_compute; reflexivity); split; [exact H|]
    end
  end.

(** [qeval] closes a conjunction of closed comparisons on rationals by
    evaluation; used by the witnesses. *)
Ltac qeval :=
  repeat match goal with |- _ /\ _ => split end;
  vm_compute; first [reflexivity | discriminate | (let H := fresh in intro H; discriminate H)].

(** ** Rounding to two decimals *)

Lemma py_round_int_err x : x - (1 # 2) <= inject_Z (py_round_int x) <= x + (1 # 2).
Proof.
  pose proof (Qfloor_le x). pose proof (Qlt_floor x). rewrite inject_Z_plus in *.
  change (inject_Z 1) with 1 in *.
  unfold py_round_int.
  destruct (Qcompare_spec (x - inject_Z (Qfloor x)) (1 # 2));
    try (destruct (Z.even (Qfloor x))); rewrite ?inject_Z_plus; change (inject_Z 1) with 1; lra.
Qed.

Lemma py_round2_def x : py_round x 2 = inject_Z (py_round_int (x * 100)) / 100.
Proof. reflexivity. Qed.

Lemma py_round2_err x : x - (1 # 200) <= py_round x 2 <= x + (1 # 200).
Proof.
  rewrite py_round2_def. pose proof (py_round_int_err (x * 100)).
  rewrite Qdiv_Zpos. lra.
Qed.

Lemma py_round2_exact z : py_round (inject_Z z / 100) 2 == inject_Z z / 100.
Proof.
  rewrite py_round2_def.
  assert (E : inject_Z z / 100 * 100 == inject_Z z) by (rewrite Qdiv_Zpos; ring).
  rewrite E, py_round_int_Z. reflexivity.
Qed.

Lemma py_round2_range x : 0 <= x <= 1 -> 0 <= py_round x 2 <= 1.
Proof.
  intros Hx. destruct (py_round_range 0 1 x 2 Hx) as [H1 H2].
  split; [eapply Qle_trans; [|exact H1] | eapply Qle_trans; [exact H2|]]; now vm_compute.
Qed.

(** Rounding leaves an integer unchanged, so it keeps a value between two
    integers between them (a score in [0, 100] stays there). *)
Lemma py_round_Z z n : py_round (inject_Z z) n == inject_Z z.
Proof.
  unfold py_round. rewrite <- inject_Z_mult, py_round_int_Z, inject_Z_mult.
  assert (Hp : ~ inject_Z (10 ^ Z.of_nat n) == 0).
  { intros E. apply (Z.pow_nonzero 10 (Z.of_nat n)); [lia|lia|]. apply inject_Z_injective. exact E. }
  field. exact Hp.
Qed.

Lemma py_round_Zrange (lo hi : Z) x n :
  inject_Z lo <= x <= inject_Z hi -> inject_Z lo <= py_round x n <= inject_Z hi.
Proof.
  intros Hx. destruct (py_round_range _ _ x n Hx) as [H1 H2].
  rewrite py_round_Z in H1, H2. split; assumption.
Qed.
