(* ===== verification/PyStr.v ===== *)
(** * PyStr: the Python string operations the handlers of main.py use

    Strings are [String.string], byte strings of ASCII characters; the
    Python [str] methods are modelled on that alphabet.  [is_space] is
    [str.isspace] restricted to ASCII (tab to carriage return, the four
    separators 0x1c-0x1f, and space); [strip] is [str.strip()];
    [py_replace old new s] is [s.replace(old, new)] for a non-empty
    [old]; [py_int_str] is [int(s)] on a string (surrounding whitespace,
    an optional sign, decimal digits with single underscores between
    them, otherwise [ValueError]); [py_str_Z] is [str(n)] of an
    integer.  The round trip [int(str(n)) == n] is [py_int_str_str]. *)

From S2P Require Import Prelude.
From Stdlib Require Import Ascii.
Local Open Scope string_scope.

Module PyStr.

Definition is_space (c : ascii) : bool :=
  let n := nat_of_ascii c in ((9 <=? n) && (n <=? 13) || (28 <=? n) && (n <=? 32))%nat.

Fixpoint lstrip (s : string) : string :=
  match s with
  | EmptyString => EmptyString
  | String c s' => if is_space c then lstrip s' else s
  end.

Fixpoint rstrip (s : string) : string :=
  match s with
  | EmptyString => EmptyString
  | String c s' =>
      let r := rstrip s' in
      match r with
      | EmptyString => if is_space c then EmptyString else String c EmptyString
      | _ => String c r
      end
  end.

Definition strip (s : string) : string := rstrip (lstrip s).

(** [s.replace(old, new)]: the occurrences of [old] from left to right,
    without overlap.  Each round consumes at least one character, so
    [length s + 1] rounds suffice. *)
Fixpoint replace_fuel (fuel : nat) (old new s : string) : string :=
  match fuel with
  | O => s
  | S f =>
      match s with
      | EmptyString => EmptyString
      | String c s' =>
          if String.prefix old s
          then (new ++ replace_fuel f old new (substring (String.length old) (String.length s) s))%string
          else String c (replace_fuel f old new s')
      end
  end.

Definition py_replace (old new s : string) : string := replace_fuel (S (String.length s)) old new s.

Definition is_digit (c : ascii) : bool := let n := nat_of_ascii c in ((48 <=? n) && (n <=? 57))%nat.

Definition digit_val (c : ascii) : Z := Z.of_nat (nat_of_ascii c - 48)%nat.

(** The digits of [int()]'s literal: [prev] tells whether the last
    character read was a digit (an underscore must follow one and precede
    one; the literal must not be empty). *)
Fixpoint parse_digits (s : string) (acc : Z) (prev : bool) : option Z :=
  match s with
  | EmptyString => if prev then Some acc else None
  | String c s' =>
      if is_digit c then parse_digits s' (10 * acc + digit_val c) true
      else if Ascii.eqb c "_" && prev then parse_digits s' acc false
      else None
  end.

Definition py_int_str (s : string) : res Z :=
  let t := strip s in
  let parsed :=
    match t with
    | String c t' =>
        if Ascii.eqb c "-" then option_map Z.opp (parse_digits t' 0 false)
        else if Ascii.eqb c "+" then parse_digits t' 0 false
        else parse_digits t 0 false
    | EmptyString => None
    end in
  match parsed with
  | Some n => Ok n
  | None => Raise (ValueError ("invalid literal for int() with base 10: " ++ s))
  end.

(** [str(n)]: the decimal digits of [n >= 0], most significant first,
    built from the last; [fuel] rounds print up to [fuel] digits. *)
Fixpoint dec_fuel (fuel : nat) (n : Z) (acc : string) : string :=
  match fuel with
  | O => acc
  | S f =>
      let acc' := String (ascii_of_nat (48 + Z.to_nat (n mod 10))%nat) acc in
      if (n <? 10)%Z then acc' else dec_fuel f (n / 10) acc'
  end.

(** [Z.log2 n + 1] rounds: a number below [2 ^ k] has at most [k]
    decimal digits. *)
Definition dec (n : Z) : string := dec_fuel (S (Z.to_nat (Z.log2 n))) n "".

Definition py_str_Z (n : Z) : string := if (n <? 0)%Z then String "-" (dec (- n)) else dec n.

Fixpoint all_chars (p : ascii -> bool) (s : string) : bool :=
  match s with
  | EmptyString => true
  | String c s' => p c && all_chars p s'
  end.

(** ** Stripping *)

Lemma lstrip_id c s : is_space c = false -> lstrip (String c s) = String c s.
Proof. intros H. cbn [lstrip]. now rewrite H. Qed.

Lemma rstrip_id s : all_chars (fun c => negb (is_space c)) s = true -> rstrip s = s.
Proof.
  induction s as [|c s IH]; [reflexivity|]. cbn [all_chars rstrip].
  intros [Hc Hs]%andb_prop. rewrite (IH Hs). apply negb_true_iff in Hc.
  destruct s; [now rewrite Hc | reflexivity].
Qed.

Lemma strip_id c s :
  all_chars (fun c => negb (is_space c)) (String c s) = true -> strip (String c s) = String c s.
Proof.
  intros H. unfold strip. cbn [all_chars] in H. apply andb_prop in H as [Hc Hs].
  apply negb_true_iff in Hc. rewrite lstrip_id by exact Hc. apply rstrip_id.
  cbn [all_chars]. rewrite Hc, Hs. reflexivity.
Qed.

(** ** Digits *)

Lemma digit_char k : (k < 10)%nat ->
  is_digit (ascii_of_nat (48 + k)) = true /\ digit_val (ascii_of_nat (48 + k)) = Z.of_nat k /\
  is_space (ascii_of_nat (48 + k)) = false.
Proof.
  intros Hk. unfold is_digit, digit_val, is_space.
  rewrite nat_ascii_embedding by lia.
  split; [apply andb_true_iff; split; apply Nat.leb_le; lia|].
  split; [f_equal; lia|].
  apply orb_false_iff; split; apply andb_false_iff; right; apply Nat.leb_gt; lia.
Qed.

Lemma digit_not_sign c : is_digit c = true -> Ascii.eqb c "-" = false /\ Ascii.eqb c "+" = false.
Proof.
  intros H. split; apply Ascii.eqb_neq; intros ->; discriminate H.
Qed.

Lemma dec_fuel_S f n acc :
  dec_fuel (S f) n acc =
  if (n <? 10)%Z then String (ascii_of_nat (48 + Z.to_nat (n mod 10))%nat) acc
  else dec_fuel f (n / 10)%Z (String (ascii_of_nat (48 + Z.to_nat (n mod 10))%nat) acc).
Proof. reflexivity. Qed.

(** The characters [str(n)] prints are digits: any test true on the
    digits is true on all of them. *)
Definition digit_test (p : ascii -> bool) : Prop := forall c, is_digit c = true -> p c = true.

Lemma dec_fuel_spec fuel n acc :
  (0 <= n < 10 ^ Z.of_nat (S fuel))%Z ->
  parse_digits (dec_fuel (S fuel) n acc) 0 false = parse_digits acc n true /\
  (forall p, digit_test p -> all_chars p (dec_fuel (S fuel) n acc) = all_chars p acc) /\
  exists c rest, dec_fuel (S fuel) n acc = String c rest /\ is_digit c = true.
Proof.
  revert n acc. induction fuel as [|f IH]; intros n acc Hn;
    assert (Hm : (0 <= n mod 10 < 10)%Z) by (apply Z.mod_pos_bound; lia);
    destruct (digit_char (Z.to_nat (n mod 10)%Z) ltac:(lia)) as (Hd & Hv & _);
    rewrite dec_fuel_S; destruct (Z.ltb_spec n 10) as [Hlt|Hge].
  1, 3: rewrite (Z.mod_small n 10) in * by lia; cbn [parse_digits all_chars]; rewrite Hd, Hv, Z2Nat.id by lia;
    split; [f_equal; lia | split; [intros p Hp; now rewrite (Hp _ Hd) | eexists _, _; split; [reflexivity | exact Hd]]].
  - cbn in Hn. lia.
  - rewrite Nat2Z.inj_succ, Z.pow_succ_r in Hn by lia.
    destruct (IH (n / 10)%Z (String (ascii_of_nat (48 + Z.to_nat (n mod 10))%nat) acc)) as (H1 & H2 & H3);
      [split; [apply Z.div_pos; lia | apply Z.div_lt_upper_bound; lia]|].
    rewrite H1. cbn [parse_digits]. rewrite Hd, Hv, Z2Nat.id by lia.
    split; [f_equal; rewrite (Z.div_mod n 10) at 3 by lia; ring|].
    split; [intros p Hp; rewrite (H2 p Hp); cbn [all_chars]; now rewrite (Hp _ Hd) | exact H3].
Qed.

Lemma dec_spec n : (0 <= n)%Z ->
  parse_digits (dec n) 0 false = Some n /\ (forall p, digit_test p -> all_chars p (dec n) = true) /\
  exists c rest, dec n = String c rest /\ is_digit c = true.
Proof.
  intros Hn. unfold dec. destruct (dec_fuel_spec (Z.to_nat (Z.log2 n)) n "") as (H1 & H2 & H3).
  - split; [exact Hn|]. rewrite Nat2Z.inj_succ, Z2Nat.id by apply Z.log2_nonneg.
    destruct (Z.eq_dec n 0) as [->|Hne]; [reflexivity|].
    apply Z.lt_le_trans with (2 ^ Z.succ (Z.log2 n))%Z; [apply Z.log2_spec; lia|].
    apply Z.pow_le_mono_l. split; [lia | lia].
  - exact (conj H1 (conj (fun p Hp => H2 p Hp) H3)).
Qed.

Lemma digit_test_nonspace : digit_test (fun c => negb (is_space c)).
Proof.
  intros c Hd. apply negb_true_iff. unfold is_digit, is_space in *.
  apply andb_prop in Hd as [H1 H2]. apply Nat.leb_le in H1, H2.
  apply orb_false_iff; split; apply andb_false_iff; right; apply Nat.leb_gt; lia.
Qed.

(** The round trip [int(str(n)) == n]. *)
Lemma py_int_str_str n : py_int_str (py_str_Z n) = Ok n.
Proof.
  unfold py_int_str, py_str_Z. destruct (Z.ltb_spec n 0) as [Hlt|Hge].
  - destruct (dec_spec (- n) ltac:(lia)) as (H1 & H2 & _).
    rewrite strip_id by (cbn [all_chars]; rewrite (H2 _ digit_test_nonspace); reflexivity).
    cbn [Ascii.eqb]. rewrite H1. cbn [option_map]. now rewrite Z.opp_involutive.
  - destruct (dec_spec n Hge) as (H1 & H2 & c & rest & E & Hd). rewrite E in *.
    rewrite strip_id by (rewrite ?E; exact (H2 _ digit_test_nonspace)).
    destruct (digit_not_sign c Hd) as [-> ->]. rewrite H1. reflexivity.
Qed.

(** ** [str.replace] *)

Lemma substring_all s m : (String.length s <= m)%nat -> substring 0 m s = s.
Proof.
  revert m. induction s as [|c s IH]; intros m Hm; [destruct m; reflexivity|].
  destruct m as [|m]; cbn in Hm; [lia|]. cbn [substring]. f_equal. apply IH. lia.
Qed.

Lemma prefix_app a s : String.prefix a (a ++ s) = true.
Proof. induction a as [|c a IH]; [destruct s; reflexivity|]. cbn. destruct (ascii_dec c c); [exact IH | congruence]. Qed.

Lemma length_append a s : String.length (a ++ s) = (String.length a + String.length s)%nat.
Proof. induction a as [|c a IH]; [reflexivity|]. cbn. now rewrite IH. Qed.

Lemma substring_app a s m : substring (String.length a) m (a ++ s) = substring 0 m s.
Proof. induction a as [|c a IH]; [reflexivity|]. exact IH. Qed.

(** A string in which the first character of [old] never occurs holds no
    occurrence of [old]. *)
Lemma replace_fuel_none f o old new s :
  all_chars (fun c => negb (Ascii.eqb c o)) s = true -> replace_fuel f (String o old) new s = s.
Proof.
  revert s. induction f as [|f IH]; intros s Hs; [reflexivity|]. destruct s as [|c s]; [reflexivity|].
  cbn [all_chars] in Hs. apply andb_prop in Hs as [Hc Hs]. apply negb_true_iff, Ascii.eqb_neq in Hc.
  cbn [replace_fuel String.prefix]. destruct (ascii_dec o c) as [->|_]; [congruence|].
  now rewrite IH.
Qed.

Lemma py_replace_prefix o old s :
  all_chars (fun c => negb (Ascii.eqb c o)) s = true -> py_replace (String o old) "" (String o old ++ s) = s.
Proof.
  intros Hs. unfold py_replace. cbn [replace_fuel]. rewrite prefix_app.
  change (String o (old ++ s)) with (String o old ++ s). rewrite substring_app, substring_all by (rewrite length_append; lia).
  cbn [append]. apply replace_fuel_none, Hs.
Qed.


(** ** Stripping and concatenation *)

Lemma string_app_assoc a b c : ((a ++ b) ++ c)%string = (a ++ (b ++ c))%string.
Proof. induction a as [|x a IH]; cbn; [reflexivity | now rewrite IH]. Qed.

Lemma all_chars_app p a b : all_chars p (a ++ b) = all_chars p a && all_chars p b.
Proof. induction a as [|x a IH]; cbn; [reflexivity | now rewrite IH, andb_assoc]. Qed.

Lemma lstrip_app a t : lstrip a <> EmptyString -> lstrip (a ++ t) = (lstrip a ++ t)%string.
Proof.
  induction a as [|c a IH]; cbn; [congruence|]. destruct (is_space c); [exact IH | reflexivity].
Qed.

Lemma rstrip_app a t : rstrip t <> EmptyString -> rstrip (a ++ t) = (a ++ rstrip t)%string.
Proof.
  intros Ht. induction a as [|c a IH]; [reflexivity|]. cbn [append rstrip]. rewrite IH.
  destruct a; cbn [append]; [destruct (rstrip t); congruence | reflexivity].
Qed.

Lemma lstrip_shorter s : lstrip s = s \/ (String.length (lstrip s) < String.length s)%nat.
Proof.
  induction s as [|c s IH]; cbn; [now left|]. destruct (is_space c); [right|now left].
  destruct IH as [->|H]; lia.
Qed.

Lemma rstrip_length s : (String.length (rstrip s) <= String.length s)%nat.
Proof.
  induction s as [|c s IH]; cbn; [lia|]. destruct (rstrip s); [destruct (is_space c)|]; cbn in *; lia.
Qed.

(** [a.strip() == a] means that neither side strips anything. *)
Lemma strip_fixed a : strip a = a -> lstrip a = a /\ rstrip a = a.
Proof.
  unfold strip. intros H. destruct (lstrip_shorter a) as [E|E].
  - rewrite E in H. now split.
  - pose proof (rstrip_length (lstrip a)). rewrite H in *. lia.
Qed.

End PyStr.
