(* ===== verification/Search.v ===== *)
(** * Search: the routing of POST /api/search (src/backend/main.py)

    [universal_search] strips the query, classifies it with
    [detect_search_type] (main.py's [_detect_search_type]) and answers a
    [UniversalSearchResponse] telling the client which flow to open:
    discovery for a city or a postal code, a single site, or a comparison
    of the addresses [extract_addresses] ([_extract_addresses]) splits out.

    Strings are byte strings as in [PyStr]; the three regular expressions
    of [_detect_search_type] are written out as the scans they perform.
    [\d] and [\s] are the ASCII digits and [PyStr.is_space]; a string
    holding non-ASCII text is its UTF-8 encoding, and the non-ASCII
    members of the address pattern's character class are matched as their
    UTF-8 byte sequences.  Unicode digits and whitespace beyond ASCII are
    not classified. *)

From S2P Require Import Prelude PyStr.
From Stdlib Require Import Ascii.
Local Open Scope string_scope.

Module Search.
Import PyStr.

Definition newline : ascii := ascii_of_nat 10.

(** [c in s] for a one-character [c]. *)
Fixpoint has_char (c : ascii) (s : string) : bool :=
  match s with
  | EmptyString => false
  | String d s' => Ascii.eqb d c || has_char c s'
  end.

(** [s.split(sep)] for a one-character separator: the pieces between
    separators, empty ones included. *)
Fixpoint split_on (sep : ascii) (s : string) : list string :=
  match s with
  | EmptyString => [""]
  | String c s' =>
      if Ascii.eqb c sep then "" :: split_on sep s'
      else match split_on sep s' with
           | w :: ws => String c w :: ws
           | [] => [String c ""]
           end
  end.

(** [s.split()]: the maximal runs of non-whitespace characters. *)
Fixpoint split_ws (s : string) : list string :=
  match s with
  | EmptyString => []
  | String c s' =>
      if is_space c then split_ws s'
      else match s' with
           | String c' _ =>
               if is_space c' then String c "" :: split_ws s'
               else match split_ws s' with
                    | w :: ws => String c w :: ws
                    | [] => [String c ""]
                    end
           | EmptyString => [String c ""]
           end
  end.

(** [re.search(r'\d', s)]. *)
Fixpoint has_digit (s : string) : bool :=
  match s with
  | EmptyString => false
  | String c s' => is_digit c || has_digit s'
  end.

(** [re.match(r'^\d{5}$', s)] on a string without a newline. *)
Definition is_postal (s : string) : bool :=
  (String.length s =? 5)%nat && all_chars is_digit s.

Definition is_ascii_letter (c : ascii) : bool :=
  let n := nat_of_ascii c in ((65 <=? n) && (n <=? 90) || (97 <=? n) && (n <=? 122))%nat.

(** [s] starts with the UTF-8 encoding [bs] of one character. *)
Fixpoint starts_with_bytes (bs : list nat) (s : string) : bool :=
  match bs, s with
  | [], _ => true
  | b :: bs', String c s' => (nat_of_ascii c =? b)%nat && starts_with_bytes bs' s'
  | _ :: _, EmptyString => false
  end.

(** The non-ASCII members of the character class as main.py spells it.
    The file holds the UTF-8 text of [äöåÄÖÅ] decoded once more as
    Windows-1252, so the class Python compiles holds the seven code points
    [Ã ¤ ¶ ¥ „ – …] (U+00C3, U+00A4, U+00B6, U+00A5, U+201E, U+2013,
    U+2026) and none of the Nordic letters; here each is its UTF-8 byte
    sequence. *)
Definition class_extra : list (list nat) :=
  [[195; 131]; [194; 164]; [194; 182]; [194; 165]; [226; 128; 158]; [226; 128; 147]; [226; 128; 166]]%nat.

(** [s] starts with a character of the class [[A-Za-zÃ¤Ã¶Ã¥Ã„Ã–Ã…]]. *)
Definition starts_with_letter (s : string) : bool :=
  match s with
  | String c _ => is_ascii_letter c || existsb (fun bs => starts_with_bytes bs s) class_extra
  | EmptyString => false
  end.

(** [s] starts with [\s+] followed by a letter. *)
Fixpoint spaces_then_letter (s : string) : bool :=
  match s with
  | EmptyString => false
  | String c s' => is_space c && (starts_with_letter s' || spaces_then_letter s')
  end.

(** [re.search(r'\d+\s+[A-Za-zÃ¤Ã¶Ã¥Ã„Ã–Ã…]+', s)]: some digit is followed by
    whitespace and a letter (the last digit of a match of [\d+] is). *)
Fixpoint address_like (s : string) : bool :=
  match s with
  | EmptyString => false
  | String c s' => is_digit c && spaces_then_letter s' || address_like s'
  end.

Definition detect_search_type (query : string) : string :=
  if has_char newline query || has_char ";" query then "multiple_addresses"
  else if is_postal (strip query) then "postal_code"
  else if (List.length (split_ws query) <=? 2)%nat && negb (has_digit query) then "city"
  else if address_like query then "single_address"
  else "city".

(** [[addr.strip() for addr in query.split(sep) if addr.strip()]]. *)
Definition stripped_pieces (sep : ascii) (query : string) : list string :=
  List.map strip (List.filter (fun a => negb (String.eqb (strip a) "")) (split_on sep query)).

Definition extract_addresses (query : string) : list string :=
  if has_char newline query then stripped_pieces newline query
  else if has_char ";" query then stripped_pieces ";" query
  else [strip query].

Record UniversalSearchRequest := mkSearchRequest {
  sr_query : string;
  sr_concept : option string
}.

Record UniversalSearchResponse := mkSearchResponse {
  search_type : string;
  city : option string;
  addresses : option (list string);
  requires_concept : bool
}.

(** [True if not request.concept else False]. *)
Definition concept_missing (concept : option string) : bool :=
  match concept with Some c => String.eqb c "" | None => true end.

Definition universal_search (request : UniversalSearchRequest) : res UniversalSearchResponse :=
  let query := strip (sr_query request) in
  let rc := concept_missing (sr_concept request) in
  let st := detect_search_type query in
  if String.eqb st "city" then Ok (mkSearchResponse "discovery" (Some query) None rc)
  else if String.eqb st "postal_code" then Ok (mkSearchResponse "discovery" (Some query) None rc)
  else if String.eqb st "single_address" then Ok (mkSearchResponse "single_site" None (Some [query]) rc)
  else if String.eqb st "multiple_addresses" then
    Ok (mkSearchResponse "comparison" None (Some (extract_addresses query)) rc)
  else Raise (HTTPException 400 "Could not parse search query").


(** An address as a client would list it: non-empty, already stripped,
    free of the two separators. *)
Definition clean_address (a : string) : bool :=
  negb (String.eqb a "") && String.eqb (strip a) a && negb (has_char ";" a) && negb (has_char newline a).

(** A word of ASCII letters. *)
Definition letters (w : string) : bool := negb (String.eqb w "") && all_chars is_ascii_letter w.

(** The Nordic letters the character class was meant to hold, as the
    UTF-8 bytes a query carries: [ä ö å Ä Ö Å]. *)
Definition utf8_pair (a b : nat) : string := String (ascii_of_nat a) (String (ascii_of_nat b) EmptyString).
Definition nordic_letters : list string := map (utf8_pair 195) [164; 182; 165; 132; 150; 133]%nat.

(** ** Lemmas *)

Lemma has_char_app c a b : has_char c (a ++ b) = has_char c a || has_char c b.
Proof. induction a as [|d a IH]; cbn; [reflexivity | now rewrite IH, orb_assoc]. Qed.

Lemma has_char_all p c s : all_chars p s = true -> p c = false -> has_char c s = false.
Proof.
  induction s as [|d s IH]; cbn; [reflexivity|]. intros [Hd Hs]%andb_prop Hc.
  rewrite (IH Hs Hc). destruct (Ascii.eqb_spec d c); [congruence | reflexivity].
Qed.

Lemma split_on_app sep a t :
  has_char sep a = false -> split_on sep (a ++ String sep t) = a :: split_on sep t.
Proof.
  induction a as [|c a IH]; cbn; [now rewrite Ascii.eqb_refl|].
  intros [Hc Ha]%orb_false_elim. rewrite Hc, (IH Ha). reflexivity.
Qed.

Lemma split_on_single sep a : has_char sep a = false -> split_on sep a = [a].
Proof.
  induction a as [|c a IH]; cbn; [reflexivity|].
  intros [Hc Ha]%orb_false_elim. rewrite Hc, (IH Ha). reflexivity.
Qed.

Lemma concat_cons sep a b l :
  String.concat (String sep "") (a :: b :: l) = (a ++ String sep (String.concat (String sep "") (b :: l)))%string.
Proof. reflexivity. Qed.

Lemma split_on_concat sep l :
  l <> [] -> Forall (fun a => has_char sep a = false) l ->
  split_on sep (String.concat (String sep "") l) = l.
Proof.
  intros Hne Hl. induction Hl as [|a l Ha Hl IH]; [congruence|].
  destruct l as [|b l]; [exact (split_on_single sep a Ha)|].
  rewrite concat_cons, split_on_app by exact Ha. f_equal. apply IH. discriminate.
Qed.

Lemma has_char_concat c sep l :
  Ascii.eqb sep c = false -> Forall (fun a => has_char c a = false) l ->
  has_char c (String.concat (String sep "") l) = false.
Proof.
  intros Hs Hl. induction Hl as [|a l Ha Hl IH]; [reflexivity|].
  destruct l as [|b l]; [exact Ha|]. rewrite concat_cons, has_char_app. cbn [has_char].
  now rewrite Ha, Hs, IH.
Qed.

Lemma clean_address_spec a :
  clean_address a = true ->
  a <> "" /\ lstrip a = a /\ rstrip a = a /\ has_char ";" a = false /\ has_char newline a = false.
Proof.
  unfold clean_address. intros H. repeat apply andb_prop in H as [H ?].
  apply negb_true_iff in H. apply String.eqb_neq in H.
  repeat match goal with Hn : negb _ = true |- _ => apply negb_true_iff in Hn end.
  match goal with Hs : String.eqb (strip a) a = true |- _ =>
    apply String.eqb_eq, strip_fixed in Hs as [? ?] end.
  now repeat split.
Qed.

Lemma rstrip_concat sep a l :
  a <> "" -> rstrip a = a -> Forall (fun b => clean_address b = true) l ->
  rstrip (String.concat (String sep "") (a :: l)) = String.concat (String sep "") (a :: l).
Proof.
  intros Hne Hra Hl. revert a Hne Hra. induction Hl as [|b l Hb Hl IH]; intros a Hne Hra; [exact Hra|].
  apply clean_address_spec in Hb as (Hbne & _ & Hrb & _).
  assert (String.concat (String sep "") (b :: l) <> "") as Hc.
  { destruct l; [exact Hbne|]. rewrite concat_cons. destruct b; [congruence|discriminate]. }
  rewrite concat_cons, rstrip_app; cbn [rstrip]; rewrite (IH b Hbne Hrb);
    destruct (String.concat _ (b :: l)); congruence.
Qed.

Lemma strip_concat sep l :
  l <> [] -> Forall (fun a => clean_address a = true) l ->
  strip (String.concat (String sep "") l) = String.concat (String sep "") l.
Proof.
  intros Hne Hl. unfold strip. destruct l as [|a l]; [congruence|].
  inversion Hl as [|? ? Ha Hrest]; subst. apply clean_address_spec in Ha as (Hne' & Hla & Hra & _).
  destruct l as [|b l]; [cbn [String.concat]; now rewrite Hla|].
  rewrite concat_cons, lstrip_app, Hla by congruence. rewrite <- concat_cons.
  exact (rstrip_concat sep a (b :: l) Hne' Hra Hrest).
Qed.


Lemma stripped_pieces_concat sep l :
  l <> [] -> Forall (fun a => clean_address a = true) l -> Forall (fun a => has_char sep a = false) l ->
  stripped_pieces sep (String.concat (String sep "") l) = l.
Proof.
  intros Hne Hl Hs. unfold stripped_pieces. rewrite split_on_concat by assumption.
  clear Hne Hs. induction Hl as [|a l Ha Hl IH]; [reflexivity|].
  apply clean_address_spec in Ha as (Hne & Hla & Hra & _).
  assert (strip a = a) as Hsa by (unfold strip; now rewrite Hla).
  cbn [filter map]. apply String.eqb_neq in Hne. rewrite Hsa, Hne. cbn [negb map]. now rewrite Hsa, IH.
Qed.

Lemma detect_search_type_cases q :
  In (detect_search_type q) ["multiple_addresses"; "postal_code"; "city"; "single_address"].
Proof.
  unfold detect_search_type.
  repeat match goal with |- context [if ?b then _ else _] => destruct b end; cbn; tauto.
Qed.

(** ** Characters of an address *)

Lemma all_chars_impl (p q : ascii -> bool) s :
  (forall c, p c = true -> q c = true) -> all_chars p s = true -> all_chars q s = true.
Proof.
  intros Hpq. induction s as [|c s IH]; cbn; [reflexivity|].
  intros [Hc Hs]%andb_prop. now rewrite (Hpq c Hc), (IH Hs).
Qed.

Lemma letter_not_digit c : is_ascii_letter c = true -> is_digit c = false /\ is_space c = false.
Proof.
  unfold is_ascii_letter, is_digit, is_space. generalize (nat_of_ascii c) as n. intros n H.
  assert (57 < n)%nat as Hn.
  { apply orb_prop in H as [H|H]; apply andb_prop in H as [H _]; apply Nat.leb_le in H; lia. }
  rewrite (proj2 (Nat.leb_gt n 57) Hn), (proj2 (Nat.leb_gt n 13) ltac:(lia)), (proj2 (Nat.leb_gt n 32) ltac:(lia)).
  now rewrite !andb_false_r.
Qed.

Lemma has_digit_app a b : has_digit (a ++ b) = has_digit a || has_digit b.
Proof. induction a as [|c a IH]; cbn; [reflexivity | now rewrite IH, orb_assoc]. Qed.

(** Characters that are not digits never start a match of the address
    pattern. *)
Lemma address_like_skip a t :
  all_chars (fun c => negb (is_digit c)) a = true -> address_like (a ++ t) = address_like t.
Proof.
  induction a as [|c a IH]; cbn; [reflexivity|]. intros [Hc Ha]%andb_prop.
  apply negb_true_iff in Hc. now rewrite Hc, (IH Ha).
Qed.

(** After a run of digits, a match must start at the character that
    follows the run. *)
Lemma address_like_digits d x t :
  all_chars is_digit d = true -> spaces_then_letter (String x t) = false ->
  address_like (d ++ String x t) = address_like (String x t).
Proof.
  intros Hd Hx. induction d as [|c d IH]; [reflexivity|]. cbn [all_chars] in Hd.
  apply andb_prop in Hd as [Hc Hd]. cbn [append address_like]. rewrite (IH Hd).
  assert (spaces_then_letter (d ++ String x t) = false) as ->; [|now rewrite andb_false_r].
  destruct d as [|c' d]; [exact Hx|]. cbn [append spaces_then_letter].
  cbn [all_chars] in Hd. apply andb_prop in Hd as [Hc' _].
  apply digit_test_nonspace, negb_true_iff in Hc'. now rewrite Hc'.
Qed.

(** The last digit of a run followed by a space and a member of the class
    is a match. *)
Lemma address_like_digits_space d t :
  d <> "" -> all_chars is_digit d = true -> starts_with_letter t = true ->
  address_like (d ++ String " " t) = true.
Proof.
  intros Hne Hd Ht. induction d as [|c d IH]; [congruence|]. cbn [all_chars] in Hd.
  apply andb_prop in Hd as [Hc Hd]. cbn [append address_like].
  destruct d as [|c' d]; [cbn [append spaces_then_letter]; now rewrite Hc, Ht|].
  rewrite (IH ltac:(discriminate) Hd). apply orb_true_r.
Qed.


Lemma address_like_none s :
  all_chars (fun c => negb (is_digit c)) s = true -> address_like s = false.
Proof.
  induction s as [|c s IH]; cbn; [reflexivity|]. intros [Hc Hs]%andb_prop.
  apply negb_true_iff in Hc. now rewrite Hc, (IH Hs).
Qed.

Lemma rstrip_keep a t : rstrip t = t -> t <> "" -> rstrip (a ++ t) = (a ++ t)%string.
Proof. intros H1 H2. rewrite rstrip_app, H1; congruence. Qed.

Lemma letters_chars (q : ascii -> bool) w :
  (forall c, is_ascii_letter c = true -> q c = true) -> letters w = true -> all_chars q w = true.
Proof. intros Hq Hw. apply andb_prop in Hw as [_ Hw]. exact (all_chars_impl _ _ w Hq Hw). Qed.

(** ** The routing of a query *)

(** The [HTTPException(400, "Could not parse search query")] branch
    of [universal_search] is dead: every query is answered with one of the
    three search types, the empty query as a discovery of the city [""]
    and a lone [";"] as a comparison of no addresses. *)
Theorem universal_search_total (req : UniversalSearchRequest) :
  (exists r, universal_search req = Ok r /\ In (search_type r) ["discovery"; "single_site"; "comparison"]) /\
  universal_search (mkSearchRequest "" (sr_concept req)) =
    Ok (mkSearchResponse "discovery" (Some "") None (concept_missing (sr_concept req))) /\
  universal_search (mkSearchRequest ";" (sr_concept req)) =
    Ok (mkSearchResponse "comparison" None (Some []) (concept_missing (sr_concept req))).
Proof.
  split; [|split; reflexivity]. unfold universal_search. cbv zeta.
  destruct (detect_search_type_cases (strip (sr_query req))) as [E|[E|[E|[E|[]]]]]; rewrite <- E;
    cbn; eexists; split; first [reflexivity | tauto].
Qed.

(** Joining at least two clean addresses with [";"] and searching
    for the result gives back a comparison of exactly those addresses:
    [_extract_addresses] inverts [";".join]. *)
Theorem comparison_roundtrip (addrs : list string) (concept : option string) :
  (2 <= List.length addrs)%nat -> Forall (fun a => clean_address a = true) addrs ->
  universal_search (mkSearchRequest (String.concat ";" addrs) concept) =
    Ok (mkSearchResponse "comparison" None (Some addrs) (concept_missing concept)).
Proof.
  intros Hlen Hl. destruct addrs as [|a [|b l]]; cbn [List.length] in Hlen; [lia|lia|].
  pose proof (Forall_impl _ (fun a Ha => proj1 (proj2 (proj2 (proj2 (clean_address_spec a Ha))))) Hl) as Hs.
  pose proof (Forall_impl _ (fun a Ha => proj2 (proj2 (proj2 (proj2 (clean_address_spec a Ha))))) Hl) as Hn.
  assert (has_char newline (String.concat ";" (a :: b :: l)) = false) as Hnl
    by (apply has_char_concat; [reflexivity | exact Hn]).
  assert (has_char ";" (String.concat ";" (a :: b :: l)) = true) as Hsc
    by (rewrite concat_cons, has_char_app; cbn [has_char]; now rewrite Ascii.eqb_refl, !orb_true_r).
  unfold universal_search. cbv zeta. cbn [sr_query sr_concept].
  rewrite strip_concat by (discriminate || exact Hl).
  unfold detect_search_type, extract_addresses. rewrite Hnl, Hsc.
  rewrite stripped_pieces_concat by (discriminate || assumption). reflexivity.
Qed.

(** An address written the Finnish way, street name first
    ("Mannerheimintie 20, Helsinki", the docstring's own example of a
    single address), is routed to a discovery of the city named by the
    whole query: no digit of it is followed by whitespace and a letter. *)
Theorem street_first_address_is_city (street town : string) (n : Z) (concept : option string) :
  letters street = true -> letters town = true -> (0 <= n)%Z ->
  universal_search (mkSearchRequest (street ++ " " ++ py_str_Z n ++ ", " ++ town) concept) =
    Ok (mkSearchResponse "discovery" (Some (street ++ " " ++ py_str_Z n ++ ", " ++ town)) None
          (concept_missing concept)).
Proof.
  intros Hs Ht Hn.
  assert (py_str_Z n = dec n) as -> by (unfold py_str_Z; destruct (Z.ltb_spec n 0); [lia|reflexivity]).
  destruct (dec_spec n Hn) as (_ & Hall & d0 & drest & Ed & Hd0).
  assert (Hns : forall c, is_ascii_letter c = true -> negb (is_space c) = true)
    by (intros c Hc; now rewrite (proj2 (letter_not_digit c Hc))).
  assert (Hnd : forall c, is_ascii_letter c = true -> negb (is_digit c) = true)
    by (intros c Hc; now rewrite (proj1 (letter_not_digit c Hc))).
  destruct street as [|c0 s0]; [discriminate|].
  assert (is_ascii_letter c0 = true) as Hc0 by (apply andb_prop in Hs as [_ Hs]; now apply andb_prop in Hs as [? _]).
  set (q := (String c0 s0 ++ " " ++ dec n ++ ", " ++ town)%string).
  assert (strip q = q) as Hq.
  { unfold strip, q. cbn [append]. rewrite lstrip_id by apply (letter_not_digit c0 Hc0).
    assert (town <> "") as Htne by (apply andb_prop in Ht as [Ht _]; now apply negb_true_iff, String.eqb_neq in Ht).
    assert (rstrip town = town) as Hrt by apply rstrip_id, (letters_chars _ _ Hns Ht).
    apply (rstrip_keep (String c0 s0)); [|discriminate].
    apply (rstrip_keep " "); [|rewrite Ed; discriminate].
    apply rstrip_keep; [|discriminate].
    exact (rstrip_keep ", " town Hrt Htne). }
  set (p := fun c => is_ascii_letter c || is_digit c || Ascii.eqb c " " || Ascii.eqb c ",").
  assert (all_chars p q = true) as Hp.
  { assert (Hlp : forall c, is_ascii_letter c = true -> p c = true) by (intros c Hc; unfold p; now rewrite Hc).
    assert (Hdp : digit_test p) by (intros c Hc; unfold p; now rewrite Hc, orb_true_r).
    unfold q. rewrite !all_chars_app, (letters_chars p _ Hlp Hs), (letters_chars p _ Hlp Ht), (Hall p Hdp).
    reflexivity. }
  assert (address_like q = false) as Hal.
  { unfold q. rewrite address_like_skip by (apply (letters_chars _ _ Hnd Hs)). cbn [append address_like].
    rewrite address_like_digits by (reflexivity || (apply Hall; now intros c Hc)). cbn [address_like].
    now rewrite address_like_none by (apply (letters_chars _ _ Hnd Ht)). }
  assert (has_digit q = true) as Hdig.
  { unfold q. rewrite has_digit_app. cbn [append has_digit]. rewrite has_digit_app, Ed. cbn [has_digit].
    now rewrite Hd0, !orb_true_r. }
  unfold universal_search. cbv zeta. cbn [sr_query sr_concept]. fold q. rewrite Hq.
  unfold detect_search_type. rewrite Hq, (has_char_all p newline q Hp eq_refl), (has_char_all p ";" q Hp eq_refl), Hal, Hdig.
  unfold is_postal. unfold q at 2. cbn [all_chars append]. rewrite (proj1 (letter_not_digit c0 Hc0)).
  now rewrite !andb_false_r.
Qed.

Lemma nordic_letter_facts l :
  In l nordic_letters ->
  l <> "" /\ has_char newline l = false /\ has_char ";" l = false /\
  all_chars (fun c => negb (is_digit c)) l = true /\
  forall t, starts_with_letter (l ++ t) = false /\ spaces_then_letter (l ++ t) = false.
Proof.
  cbn [nordic_letters map In]. intros H.
  repeat destruct H as [<-|H]; [..|contradiction]; repeat split; try reflexivity; discriminate.
Qed.

(** A query of a number, a space and a word is routed on the address
    pattern alone. *)
Lemma number_first_route d x concept :
  d <> "" -> all_chars is_digit d = true -> x <> "" -> rstrip x = x ->
  has_char newline x = false -> has_char ";" x = false ->
  universal_search (mkSearchRequest (d ++ " " ++ x) concept) =
    if address_like (d ++ " " ++ x)
    then Ok (mkSearchResponse "single_site" None (Some [(d ++ " " ++ x)%string]) (concept_missing concept))
    else Ok (mkSearchResponse "discovery" (Some (d ++ " " ++ x)) None (concept_missing concept)).
Proof.
  intros Hdne Hd Hxne Hrx Hnx Hsx. set (q := (d ++ " " ++ x)%string).
  assert (strip q = q) as Hq.
  { destruct d as [|d0 dr]; [congruence|]. unfold strip, q. cbn [append].
    cbn [all_chars] in Hd. apply andb_prop in Hd as [Hd0 _].
    apply digit_test_nonspace, negb_true_iff in Hd0. rewrite lstrip_id by exact Hd0.
    apply (rstrip_keep (String d0 dr)); [apply (rstrip_keep " "); assumption | discriminate]. }
  assert (has_char newline q = false) as Hnl
    by (unfold q; rewrite has_char_app, (has_char_all _ newline _ Hd eq_refl); cbn [append has_char]; now rewrite Hnx).
  assert (has_char ";" q = false) as Hsc
    by (unfold q; rewrite has_char_app, (has_char_all _ ";" _ Hd eq_refl); cbn [append has_char]; now rewrite Hsx).
  assert (is_postal q = false) as Hpost.
  { unfold is_postal, q. rewrite all_chars_app. cbn [append all_chars].
    assert (is_digit " " = false) as -> by reflexivity. now rewrite !andb_false_r. }
  assert (has_digit q = true) as Hdig.
  { destruct d as [|d0 dr]; [congruence|]. unfold q. rewrite has_digit_app. cbn [all_chars has_digit] in *.
    apply andb_prop in Hd as [-> _]. reflexivity. }
  unfold universal_search. cbv zeta. cbn [sr_query sr_concept]. fold q. rewrite Hq.
  unfold detect_search_type. rewrite Hq, Hnl, Hsc, Hpost, Hdig, andb_false_r.
  destruct (address_like q); reflexivity.
Qed.

(** The character class of the address pattern was saved with its
    Nordic letters double-encoded: a number followed by a street name
    that starts with [ä ö å Ä Ö Å] is not recognised as an address and is
    routed to a discovery of the city named by the whole query, while the
    same query with an ASCII initial is routed to a single site. *)
Theorem nordic_street_not_detected (n : Z) (l w : string) (concept : option string) :
  (0 <= n)%Z -> In l nordic_letters -> letters w = true ->
  universal_search (mkSearchRequest (py_str_Z n ++ " " ++ l ++ w) concept) =
    Ok (mkSearchResponse "discovery" (Some (py_str_Z n ++ " " ++ l ++ w)) None (concept_missing concept)) /\
  (forall c, is_ascii_letter c = true ->
   universal_search (mkSearchRequest (py_str_Z n ++ " " ++ String c w) concept) =
     Ok (mkSearchResponse "single_site" None (Some [(py_str_Z n ++ " " ++ String c w)%string])
           (concept_missing concept))).
Proof.
  intros Hn Hl Hw.
  assert (py_str_Z n = dec n) as -> by (unfold py_str_Z; destruct (Z.ltb_spec n 0); [lia|reflexivity]).
  destruct (dec_spec n Hn) as (_ & Hall & d0 & drest & Ed & _).
  assert (all_chars is_digit (dec n) = true) as Hd by (apply Hall; now intros c Hc).
  assert (dec n <> "") as Hdne by (rewrite Ed; discriminate).
  assert (w <> "") as Hwne by (apply andb_prop in Hw as [Hw _]; now apply negb_true_iff, String.eqb_neq in Hw).
  assert (Hns : forall c, is_ascii_letter c = true -> negb (is_space c) = true)
    by (intros c Hc; now rewrite (proj2 (letter_not_digit c Hc))).
  assert (rstrip w = w) as Hrw by apply rstrip_id, (letters_chars _ _ Hns Hw).
  pose proof (letters_chars _ _ (fun c H => H) Hw) as Hwl.
  split.
  - destruct (nordic_letter_facts l Hl) as (Hlne & Hnl & Hsl & Hld & Ht).
    rewrite number_first_route;
      [|exact Hdne|exact Hd|destruct l; [congruence|discriminate]|exact (rstrip_keep l w Hrw Hwne)
       |rewrite has_char_app, Hnl; exact (has_char_all _ newline _ Hwl eq_refl)
       |rewrite has_char_app, Hsl; exact (has_char_all _ ";" _ Hwl eq_refl)].
    cbn [append]. rewrite address_like_digits by (exact Hd || (cbn [spaces_then_letter]; now rewrite (proj1 (Ht w)), (proj2 (Ht w)))).
    cbn [address_like]. rewrite address_like_skip, address_like_none by (exact Hld || apply (letters_chars _ _ (fun c Hc => proj2 (negb_true_iff _) (proj1 (letter_not_digit c Hc))) Hw)).
    reflexivity.
  - intros c Hc. assert (all_chars is_ascii_letter (String c w) = true) as Hcw by (cbn [all_chars]; now rewrite Hc).
    rewrite number_first_route;
      [|exact Hdne|exact Hd|discriminate|apply rstrip_id, (all_chars_impl _ _ _ Hns Hcw)
       |exact (has_char_all _ newline _ Hcw eq_refl)|exact (has_char_all _ ";" _ Hcw eq_refl)].
    cbn [append]. rewrite address_like_digits_space by (exact Hdne || exact Hd || (cbn [starts_with_letter]; now rewrite Hc)).
    reflexivity.
Qed.

(** The docstring's example of several addresses, separated by commas,
    is a discovery of one city: only newlines and semicolons separate. *)
Example docstring_comma_list_is_city :
  universal_search (mkSearchRequest "addr1, addr2, addr3" (Some "QSR")) =
    Ok (mkSearchResponse "discovery" (Some "addr1, addr2, addr3") None false).
Proof. vm_compute. reflexivity. Qed.

(** ** Witnesses *)

Lemma comparison_roundtrip_witness :
  (2 <= List.length ["Mannerheimintie 20"; "Aleksanterinkatu 52"])%nat /\
  Forall (fun a => clean_address a = true) ["Mannerheimintie 20"; "Aleksanterinkatu 52"] /\
  universal_search (mkSearchRequest "Mannerheimintie 20;Aleksanterinkatu 52" (Some "QSR")) =
    Ok (mkSearchResponse "comparison" None (Some ["Mannerheimintie 20"; "Aleksanterinkatu 52"]) false).
Proof.
  assert (H1 : (2 <= List.length ["Mannerheimintie 20"; "Aleksanterinkatu 52"])%nat) by (cbn; lia).
  assert (H2 : Forall (fun a => clean_address a = true) ["Mannerheimintie 20"; "Aleksanterinkatu 52"])
    by (repeat constructor).
  pose proof (comparison_roundtrip ["Mannerheimintie 20"; "Aleksanterinkatu 52"] (Some "QSR") H1 H2) as T.
  repeat (split; [assumption|]). exact T.
Defined.

Lemma street_first_address_is_city_witness :
  letters "Mannerheimintie" = true /\ letters "Helsinki" = true /\ (0 <= 20)%Z /\
  universal_search (mkSearchRequest "Mannerheimintie 20, Helsinki" (Some "QSR")) =
    Ok (mkSearchResponse "discovery" (Some "Mannerheimintie 20, Helsinki") None false).
Proof.
  assert (H1 : letters "Mannerheimintie" = true) by (vm_compute; reflexivity).
  assert (H2 : letters "Helsinki" = true) by (vm_compute; reflexivity).
  assert (H3 : (0 <= 20)%Z) by lia.
  pose proof (street_first_address_is_city "Mannerheimintie" "Helsinki" 20 (Some "QSR") H1 H2 H3) as T.
  repeat (split; [assumption|]). exact T.
Defined.

Lemma nordic_street_not_detected_witness :
  (0 <= 12)%Z /\ In (utf8_pair 195 150) nordic_letters /\ letters "stra" = true /\
  (universal_search (mkSearchRequest (py_str_Z 12 ++ " " ++ utf8_pair 195 150 ++ "stra") (Some "QSR")) =
     Ok (mkSearchResponse "discovery" (Some (py_str_Z 12 ++ " " ++ utf8_pair 195 150 ++ "stra")) None false) /\
   (forall c, is_ascii_letter c = true ->
    universal_search (mkSearchRequest (py_str_Z 12 ++ " " ++ String c "stra") (Some "QSR")) =
      Ok (mkSearchResponse "single_site" None (Some [(py_str_Z 12 ++ " " ++ String c "stra")%string]) false))).
Proof.
  assert (H1 : (0 <= 12)%Z) by lia.
  assert (H2 : In (utf8_pair 195 150) nordic_letters) by (vm_compute; tauto).
  assert (H3 : letters "stra" = true) by (vm_compute; reflexivity).
  pose proof (nordic_street_not_detected 12 (utf8_pair 195 150) "stra" (Some "QSR") H1 H2 H3) as T.
  repeat (split; [assumption|]). exact T.
Defined.

End Search.
