(* ===== verification/Sorting.v ===== *)
(** * Sorting: Python's [list.sort(key=..., reverse=True)] and the list
    lemmas the sorted outputs share

    [sort_by key] is the stable descending sort: insertion of each element
    after every element whose key is at least its own, in list order, so
    that elements with equal keys keep their original order, as Python's
    sort (stable also with [reverse=True]) keeps them.  It is used for the
    candidates of AddressGenerator.v and the areas of Discovery.v. *)

From S2P Require Import Prelude.
From Stdlib Require Import Sorted Permutation.

Section SortBy.
Context {A : Type} (key : A -> Q).

Fixpoint insert_by (c : A) (l : list A) : list A :=
  match l with
  | [] => [c]
  | d :: l' => if Qgeb (key d) (key c) then d :: insert_by c l' else c :: l
  end.

Definition sort_by (l : list A) : list A := fold_left (fun acc c => insert_by c acc) l [].

(** [a] may come before [b] in a list sorted by descending key. *)
Definition key_ge (a b : A) : Prop := key b <= key a.

Lemma Qgeb_true a b : b <= a -> Qgeb a b = true.
Proof. intros H. unfold Qgeb. now apply Qle_bool_iff. Qed.

Lemma insert_by_perm c l : Permutation (c :: l) (insert_by c l).
Proof.
  induction l as [|d l IH]; simpl; [reflexivity|].
  destruct (Qgeb (key d) (key c)); [|reflexivity].
  etransitivity; [apply perm_swap | now constructor].
Qed.

Lemma insert_by_sorted c l : StronglySorted key_ge l -> StronglySorted key_ge (insert_by c l).
Proof.
  induction l as [|d l IH]; simpl; intros H; [repeat constructor|].
  apply StronglySorted_inv in H as [Hl Hd]. unfold Qgeb. qcase.
  - constructor; [exact (IH Hl)|]. rewrite Forall_forall in *. intros x Hx.
    apply (Permutation_in _ (Permutation_sym (insert_by_perm c l))) in Hx as [<- | Hx];
      [exact H | exact (Hd x Hx)].
  - constructor; [constructor; assumption|]. constructor; [unfold key_ge; lra|].
    rewrite Forall_forall in *. intros x Hx. specialize (Hd x Hx). unfold key_ge in *. lra.
Qed.

(** Inserting an element whose key is no more than all the others appends it. *)
Lemma insert_by_last c l : Forall (fun d => key_ge d c) l -> insert_by c l = l ++ [c].
Proof.
  induction 1 as [|d l Hd _ IH]; simpl; [reflexivity|].
  rewrite Qgeb_true by exact Hd. now rewrite IH.
Qed.

Lemma sort_by_spec l : Permutation l (sort_by l) /\ StronglySorted key_ge (sort_by l).
Proof.
  unfold sort_by. enough (forall acc, StronglySorted key_ge acc ->
    Permutation (acc ++ l) (fold_left (fun acc c => insert_by c acc) l acc) /\
    StronglySorted key_ge (fold_left (fun acc c => insert_by c acc) l acc)) as H
    by (exact (H [] (SSorted_nil _))).
  induction l as [|c l IH]; intros acc Hacc; simpl; [rewrite app_nil_r; split; [reflexivity | exact Hacc]|].
  destruct (IH (insert_by c acc) (insert_by_sorted c acc Hacc)) as [Hp Hs]. split; [|exact Hs].
  etransitivity; [|exact Hp]. rewrite <- Permutation_middle.
  change (c :: acc ++ l) with ((c :: acc) ++ l). apply Permutation_app_tail, insert_by_perm.
Qed.

End SortBy.

Local Open Scope list_scope.

Lemma StronglySorted_middle {A} (R : A -> A -> Prop) l1 x l2 :
  StronglySorted R (l1 ++ x :: l2) -> StronglySorted R (l1 ++ l2) /\ Forall (fun y => R y x) l1.
Proof.
  induction l1 as [|y l1 IH]; simpl; intros H.
  - split; [now apply StronglySorted_inv in H as [H _] | constructor].
  - apply StronglySorted_inv in H as [H Hy]. destruct (IH H) as [H1 H2].
    apply Forall_app in Hy as [Hy1 Hy2]. inversion Hy2; subst.
    split; [constructor; [exact H1 | apply Forall_app; split; assumption] | constructor; assumption].
Qed.

Lemma ForallOrdPairs_snoc {A} (R : A -> A -> Prop) l x :
  ForallOrdPairs R l -> Forall (fun a => R a x) l -> ForallOrdPairs R (l ++ [x]).
Proof.
  induction 1 as [|a l Ha Hl IH]; simpl; intros Hx.
  - repeat constructor.
  - inversion Hx; subst. constructor; [apply Forall_app; split; [exact Ha | repeat constructor; assumption]|].
    apply IH. assumption.
Qed.

Lemma In_firstn {A} n (l : list A) x : In x (firstn n l) -> In x l.
Proof. intros H. rewrite <- (firstn_skipn n l). apply in_or_app. now left. Qed.

Lemma ForallOrdPairs_firstn {A} (R : A -> A -> Prop) n l :
  ForallOrdPairs R l -> ForallOrdPairs R (firstn n l).
Proof.
  revert l. induction n as [|n IH]; intros [|a l] H; simpl; [constructor | constructor | constructor |].
  inversion H; subst. constructor; [|now apply IH].
  rewrite Forall_forall in *. intros y Hy. exact (H2 y (In_firstn _ _ _ Hy)).
Qed.

Lemma StronglySorted_firstn {A} (R : A -> A -> Prop) n l :
  StronglySorted R l -> StronglySorted R (firstn n l).
Proof.
  revert l. induction n as [|n IH]; intros [|a l] H; simpl; [constructor | constructor | constructor |].
  apply StronglySorted_inv in H as [H Ha]. constructor; [now apply IH|].
  rewrite Forall_forall in *. intros y Hy. exact (Ha y (In_firstn _ _ _ Hy)).
Qed.

(** Sorting a list already sorted by descending key changes nothing: the
    sort is stable. *)
Lemma sort_by_id {A} (key : A -> Q) l : StronglySorted (key_ge key) l -> sort_by key l = l.
Proof.
  unfold sort_by. enough (forall acc, StronglySorted (key_ge key) (acc ++ l) ->
    fold_left (fun acc c => insert_by key c acc) l acc = acc ++ l) as H by exact (H []).
  induction l as [|c l IH]; intros acc Hs; simpl; [now rewrite app_nil_r|].
  destruct (StronglySorted_middle _ acc c l Hs) as [_ Hge].
  rewrite insert_by_last by exact Hge.
  rewrite IH by (rewrite <- app_assoc; exact Hs). now rewrite <- app_assoc.
Qed.

Lemma StronglySorted_weaken {A} (R S : A -> A -> Prop) l :
  (forall a b, R a b -> S a b) -> StronglySorted R l -> StronglySorted S l.
Proof.
  intros H. induction 1 as [|a l _ IH Ha]; constructor; [exact IH|].
  eapply Forall_impl; [exact (H a) | exact Ha].
Qed.

(** [sorted(l, key=f)]: the stable ascending sort is the descending sort
    on [- f]. *)
Lemma sort_by_ascending {A} (f : A -> Q) l :
  Permutation l (sort_by (fun x => - f x) l) /\ StronglySorted (fun a b => f a <= f b) (sort_by (fun x => - f x) l).
Proof.
  destruct (sort_by_spec (fun x => - f x) l) as [Hp Hs]. split; [exact Hp|].
  refine (StronglySorted_weaken _ _ _ _ Hs). intros a b H. unfold key_ge in H. cbv beta in H. lra.
Qed.

(** In a sorted list, the head is related to every element, and every
    element of a prefix to every element of the rest. *)
Lemma StronglySorted_head {A} (R : A -> A -> Prop) l m x :
  (forall a, R a a) -> StronglySorted R l -> hd_error l = Some m -> In x l -> R m x.
Proof.
  intros Hr Hs Hm Hx. destruct l as [|a l]; [discriminate|]. injection Hm as ->.
  apply StronglySorted_inv in Hs as [_ Hf]. destruct Hx as [<-|Hx]; [apply Hr|].
  exact (proj1 (Forall_forall _ _) Hf x Hx).
Qed.

Lemma StronglySorted_app_rel {A} (R : A -> A -> Prop) l1 l2 a b :
  StronglySorted R (l1 ++ l2) -> In a l1 -> In b l2 -> R a b.
Proof.
  induction l1 as [|c l1 IH]; simpl; [intros _ []|]. intros Hs [<-|Ha] Hb.
  - apply StronglySorted_inv in Hs as [_ Hf]. apply (proj1 (Forall_forall _ _) Hf). apply in_or_app. now right.
  - apply StronglySorted_inv in Hs as [Hs _]. exact (IH Hs Ha Hb).
Qed.
