(* ===== verification/Concept.v ===== *)
(** * Concept: the concept entity and the configuration the scorer reads

    [Concept] is the row of the [concepts] table
    (src/backend/models/database.py, class Concept); [ConceptConfig] is the
    dictionary that ScoringEngine._db_concept_to_config builds from it, and
    also the shape of an entry of concepts.yaml.  Weights are the JSON
    column [weights]; every writer of that column (routes/concepts.py and
    ConceptLearner._optimize_weights) writes the same five keys, so they are
    a record here. *)

From S2P Require Import Prelude.

Record Weights := mkWeights {
  w_population : Q;
  w_income : Q;
  w_access : Q;
  w_competition : Q;
  w_walkability : Q
}.

(** [sum(weights.values())] *)
Definition weights_sum (w : Weights) : Q :=
  w_population w + w_income w + w_access w + w_competition w + w_walkability w.

Definition weights_nonneg (w : Weights) : Prop :=
  0 <= w_population w /\ 0 <= w_income w /\ 0 <= w_access w /\
  0 <= w_competition w /\ 0 <= w_walkability w.

Record Concept := mkConcept {
  c_id : string;
  c_customer_id : string;
  c_name : string;
  c_category : string;
  c_description : option string;
  c_base_revenue_eur : Z;
  c_revenue_variance : Q;
  c_target_income_min : Z;
  c_target_income_max : Z;
  c_optimal_population_density : Z;
  c_target_competitors_per_1k : Q;
  c_weights : Weights;
  c_outcomes_count : Z;
  c_avg_prediction_error : option Q;
  c_last_trained_at : option Z;
  c_is_system_default : bool;
  c_is_active : option bool
}.

(** The SQL test [column == True]: a NULL column does not match. *)
Definition sql_true (b : option bool) : bool :=
  match b with Some true => true | _ => false end.

Record ConceptConfig := mkConfig {
  cfg_name : string;
  cfg_base_revenue_eur : Q;
  cfg_target_income_min : Q;
  cfg_target_income_max : Q;
  cfg_optimal_population_density : Q;
  cfg_target_competitors_per_1k : Q;
  cfg_weights : Weights
}.

(** ScoringEngine._db_concept_to_config *)
Definition db_concept_to_config (c : Concept) : ConceptConfig :=
  {| cfg_name := c_name c;
     cfg_base_revenue_eur := inject_Z (c_base_revenue_eur c);
     cfg_target_income_min := inject_Z (c_target_income_min c);
     cfg_target_income_max := inject_Z (c_target_income_max c);
     cfg_optimal_population_density := inject_Z (c_optimal_population_density c);
     cfg_target_competitors_per_1k := c_target_competitors_per_1k c;
     cfg_weights := c_weights c |}.

(** The parameters under which every formula of the scorer is defined:
    the conditions the create endpoint's field validators impose
    ([gt=0] on every number), plus a non-empty income range. *)
Definition config_valid (cfg : ConceptConfig) : Prop :=
  0 <= cfg_base_revenue_eur cfg /\
  0 < cfg_target_income_min cfg /\
  cfg_target_income_min cfg < cfg_target_income_max cfg /\
  0 < cfg_optimal_population_density cfg /\
  0 < cfg_target_competitors_per_1k cfg.

(** Writing back one row of the table keeps a property every row has. *)
Lemma map_replace_Forall (P : Concept -> Prop) (l : list Concept) (id : string) (c : Concept) :
  P c -> Forall P l -> Forall P (map (fun c' => if String.eqb (c_id c') id then c else c') l).
Proof.
  intros Hc Hf. apply Forall_map. eapply Forall_impl; [|exact Hf].
  intros c' Hc'. now destruct (String.eqb (c_id c') id).
Qed.

(** After the write-back, the first row with the written id is the written row. *)
Lemma find_map_replace (l : list Concept) (id : string) (c : Concept) :
  c_id c = id -> find (fun x => String.eqb (c_id x) id) l <> None ->
  find (fun x => String.eqb (c_id x) id) (map (fun c' => if String.eqb (c_id c') id then c else c') l)
  = Some c.
Proof.
  intros Hid. induction l as [|c' l IH]; simpl; [congruence|].
  destruct (String.eqb_spec (c_id c') id) as [E|E]; simpl.
  - rewrite Hid, String.eqb_refl. reflexivity.
  - destruct (String.eqb_spec (c_id c') id); [contradiction | exact IH].
Qed.
