(* ===== verification/Scoring.v ===== *)
(** * Scoring: the ScoringEngine of src/backend/agents/scorer.py

    The feature dictionary is the record [Features]: one [pyval] per key
    the scorer and the trust metrics read ([Absent] when the key is not in
    the dictionary).  Module [ScoringEngine] has one definition per method
    of the class, composed as [calculate_score] composes them.  The
    database session is an optional list of concept rows (the table in
    query order), the YAML file an association list. *)

From S2P Require Import Prelude Concept.

Record Features := mkFeatures {
  population_1km : pyval;
  population_density : pyval;
  median_income : pyval;
  competitors_count : pyval;
  competitors_per_1k_residents : pyval;
  nearest_metro_distance_m : pyval;
  nearest_tram_distance_m : pyval;
  walkability_poi_count : pyval
}.

Module ScoringEngine.

Record ScoreComponents := mkComponents {
  sc_population : Q;
  sc_income : Q;
  sc_access : Q;
  sc_competition : Q;
  sc_walkability : Q
}.

Record ScoreResult := mkResult {
  score : Q;
  revenue_low : Z;
  revenue_mid : Z;
  revenue_high : Z;
  confidence : Q;
  score_components : ScoreComponents;
  concept_id : option string
}.

(** The first row of the table satisfying the filter: [query.filter().first()]. *)
Definition first_where (p : Concept -> bool) (rows : list Concept) : option Concept :=
  find p rows.

Definition truthy (s : option string) : bool :=
  match s with Some x => negb (String.eqb x "") | None => false end.

(** _get_concept_config: the database first (by id, then the active system
    default of the category), then the YAML file. *)
Definition get_concept_config (db_session : option (list Concept))
    (yaml_concepts : list (string * ConceptConfig))
    (concept_category : string) (concept_id : option string)
    : option ConceptConfig * option string :=
  let from_db :=
    match db_session with
    | Some rows =>
        let by_id :=
          match concept_id with
          | Some cid =>
              if truthy concept_id
              then first_where (fun c => String.eqb (c_id c) cid && sql_true (c_is_active c)) rows
              else None
          | None => None
          end in
        match by_id with
        | Some c => Some (db_concept_to_config c, Some (c_id c))
        | None =>
            match first_where (fun c => String.eqb (c_category c) concept_category
                                        && c_is_system_default c && sql_true (c_is_active c)) rows with
            | Some c => Some (db_concept_to_config c, Some (c_id c))
            | None => None
            end
        end
    | None => None
    end in
  match from_db with
  | Some r => (Some (fst r), snd r)
  | None =>
      match find (fun kv => String.eqb (fst kv) concept_category) yaml_concepts with
      | Some kv => (Some (snd kv), None)
      | None => (None, None)
      end
  end.

(** _calculate_population_score *)
Definition calculate_population_score (density : pyval) (optimal : Q) : res Q :=
  d <- num density ;;
  if Qgeb d optimal then Ok 100
  else if Qleb d 0 then Ok 0
  else r <- py_div d optimal ;; Ok (r * 100).

(** _calculate_income_score *)
Definition calculate_income_score (median_income : pyval) (target_min target_max : Q) : res Q :=
  m <- num median_income ;;
  if Qltb m target_min then
    g <- py_div (target_min - m) target_min ;;
    let penalty := py_min (g * 100) 50 in
    Ok (py_max (50 - penalty) 0)
  else if Qgtb m target_max then
    g <- py_div (m - target_max) target_max ;;
    let penalty := py_min (g * 50) 25 in
    Ok (py_max (75 - penalty) 50)
  else
    let middle := (target_min + target_max) / 2 in
    let distance_from_middle := Qabs (m - middle) in
    let max_distance := (target_max - target_min) / 2 in
    r <- py_div distance_from_middle max_distance ;;
    let score := 100 - r * 15 in
    Ok (py_max score 85).

(** _calculate_access_score: the metro bonus, then the tram bonus. *)
Definition metro_bonus (metro_distance_m : pyval) : Q :=
  match metro_distance_m with
  | PyNum d =>
      if Qleb d 200 then 40 else if Qleb d 500 then 30
      else if Qleb d 1000 then 15 else 0
  | _ => 0
  end.

Definition tram_bonus (tram_distance_m : pyval) : Q :=
  match tram_distance_m with
  | PyNum d => if Qleb d 100 then 10 else if Qleb d 300 then 5 else 0
  | _ => 0
  end.

Definition calculate_access_score (metro_distance_m tram_distance_m : pyval) : Q :=
  let score := 50 in
  let score := score + metro_bonus metro_distance_m in
  let score := score + tram_bonus tram_distance_m in
  py_min score 100.

(** _calculate_competition_score.  [None == 0] is false in Python, so a
    [None] value reaches the division and raises there. *)
Definition calculate_competition_score (competitors_per_1k : pyval) (target : Q) : res Q :=
  match competitors_per_1k with
  | PyNum c =>
      if Qeqb c 0 then Ok 40 else
      ratio <- py_div c target ;;
      if Qleb (8 # 10) ratio && Qleb ratio (12 # 10) then Ok 100
      else if Qleb (5 # 10) ratio && Qltb ratio (8 # 10) then Ok 85
      else if Qltb (12 # 10) ratio && Qleb ratio (15 # 10) then Ok 75
      else if Qgtb ratio (15 # 10) then
        let penalty := py_min ((ratio - (15 # 10)) * 30) 50 in
        Ok (py_max (50 - penalty) 20)
      else Ok 60
  | _ => Raise TypeError
  end.

(** _calculate_walkability_score *)
Definition calculate_walkability_score (poi_count : pyval) : res Q :=
  p <- num poi_count ;;
  if Qgeb p 100 then Ok 100
  else if Qgeb p 50 then Ok 85
  else if Qgeb p 25 then Ok 70
  else if Qgeb p 10 then Ok 55
  else Ok (py_max (p * 3) 20).

(** _calculate_revenue, its "Income multiplier" block *)
Definition income_multiplier (m target_mid : Q) : res Q :=
  if Qgtb m 0 then
    x <- py_div m target_mid ;;
    let im := (7 # 10) + x * (3 # 10) in
    Ok (py_max (py_min im (13 # 10)) (7 # 10))
  else Ok 1.

(** _calculate_revenue, its "Competition adjustment" block *)
Definition saturation_penalty (c target_comp : Q) : res Q :=
  if Qgtb c target_comp then
    x <- py_div c target_comp ;;
    Ok (py_min ((x - 1) * (3 # 10)) (4 # 10))
  else Ok 0.

(** _calculate_revenue *)
Definition calculate_revenue (base_revenue : Q) (population_density median_income competitors_per_1k : pyval)
    (cfg : ConceptConfig) : res Q :=
  d <- num population_density ;;
  r <- py_div d (cfg_optimal_population_density cfg) ;;
  let pop_multiplier := py_min r (3 # 2) in
  let target_mid := (cfg_target_income_min cfg + cfg_target_income_max cfg) / 2 in
  m <- num median_income ;;
  im <- income_multiplier m target_mid ;;
  let target_comp := cfg_target_competitors_per_1k cfg in
  c <- num competitors_per_1k ;;
  sp <- saturation_penalty c target_comp ;;
  let revenue := base_revenue * pop_multiplier * im * (1 - sp) in
  Ok (py_max revenue (base_revenue * (5 # 10))).

(** _calculate_confidence *)
Definition confidence_required_fields (f : Features) : list pyval :=
  [population_density f; median_income f; competitors_count f; nearest_metro_distance_m f].

Definition calculate_confidence (f : Features) : Q :=
  let present := length (filter is_not_none (confidence_required_fields f)) in
  let completeness := inject_Z (Z.of_nat present) / 4 in
  (6 # 10) + completeness * (4 # 10).

(** The weighted overall score. *)
Definition overall_score (w : Weights) (c : ScoreComponents) : Q :=
  w_population w * sc_population c + w_income w * sc_income c +
  w_access w * sc_access c + w_competition w * sc_competition c +
  w_walkability w * sc_walkability c.

Definition band_percent (confidence : Q) : Q := (15 # 100) + (15 # 100) * (1 - confidence).

(** calculate_score *)
Definition calculate_score (db_session : option (list Concept))
    (yaml_concepts : list (string * ConceptConfig))
    (features : Features) (concept : string) (concept_id : option string) : res ScoreResult :=
  let (config, used_concept_id) := get_concept_config db_session yaml_concepts concept concept_id in
  match config with
  | None => Raise (ValueError ("Unknown concept: " ++ concept))
  | Some cfg =>
      population_score <- calculate_population_score
        (get_default (population_density features) 0) (cfg_optimal_population_density cfg) ;;
      income_score <- calculate_income_score
        (get_default (median_income features) 0) (cfg_target_income_min cfg) (cfg_target_income_max cfg) ;;
      let access_score := calculate_access_score
        (get (nearest_metro_distance_m features)) (get (nearest_tram_distance_m features)) in
      competition_score <- calculate_competition_score
        (get_default (competitors_per_1k_residents features) 0) (cfg_target_competitors_per_1k cfg) ;;
      walkability_score <- calculate_walkability_score (get_default (walkability_poi_count features) 0) ;;
      let components := mkComponents population_score income_score access_score
                          competition_score walkability_score in
      let overall := overall_score (cfg_weights cfg) components in
      revenue_prediction <- calculate_revenue (cfg_base_revenue_eur cfg)
        (get_default (population_density features) 0) (get_default (median_income features) 0)
        (get_default (competitors_per_1k_residents features) 0) cfg ;;
      let confidence := calculate_confidence features in
      let revenue_mid := revenue_prediction in
      let bp := band_percent confidence in
      let revenue_low := revenue_mid * (1 - bp) in
      let revenue_high := revenue_mid * (1 + bp) in
      Ok {| score := py_round overall 1;
            revenue_low := py_round_int revenue_low;
            revenue_mid := py_round_int revenue_mid;
            revenue_high := py_round_int revenue_high;
            confidence := py_round confidence 2;
            score_components :=
              mkComponents (py_round population_score 1) (py_round income_score 1)
                (py_round access_score 1) (py_round competition_score 1)
                (py_round walkability_score 1);
            concept_id := if truthy used_concept_id then used_concept_id else None |}
  end.

(** get_recommendation *)
Definition get_recommendation (score : Q) : string :=
  if Qgeb score 85 then "strong"
  else if Qgeb score 70 then "moderate"
  else if Qgeb score 55 then "weak"
  else "pass".

(** ** Sample inputs for the witnesses: a quick-service concept and an
    inner-city feature snapshot. *)
Definition sample_config : ConceptConfig :=
  mkConfig "QSR" 1200000 30000 60000 8000 1
    (mkWeights (3 # 10) (2 # 10) (2 # 10) (15 # 100) (15 # 100)).

Definition sample_yaml : list (string * ConceptConfig) := [("QSR"%string, sample_config)].

Definition sample_features : Features :=
  mkFeatures (PyNum 15000) (PyNum 6000) (PyNum 45000) (PyNum 10) (PyNum (12 # 10))
    (PyNum 350) (PyNum 250) (PyNum 40).

(** ** Component scores *)

Lemma population_total d opt : exists s, calculate_population_score (PyNum d) opt = Ok s.
Proof.
  unfold calculate_population_score; cbn [num bind].
  qcase; [eauto|]. qcase; [eauto|]. py_div_ok. eauto.
Qed.

Lemma population_ok_range v opt s :
  calculate_population_score v opt = Ok s -> 0 <= s <= 100.
Proof.
  destruct v as [| |d]; try discriminate. unfold calculate_population_score; cbn [num bind].
  qcase; [intros [= <-]; lra|]. qcase; [intros [= <-]; lra|]. py_div_ok. intros [= <-].
  assert (0 <= d / opt <= 1) by (split; [apply Qdiv_nonneg | apply Qdiv_le_one]; lra).
  lra.
Qed.

(** The population score of a numeric density is computed without an
    error and lies in [0, 100], whatever the concept's optimal density. *)
Theorem population_score_range (d opt : Q) :
  exists s, calculate_population_score (PyNum d) opt = Ok s /\ 0 <= s <= 100.
Proof. apply ok_and; [apply population_total | apply population_ok_range]. Qed.

(** The spec's three points: density 0 scores 0, the optimal density
    scores 100, twice the optimal density scores 100 (capped). *)
Theorem population_score_points (opt : Q) :
  0 < opt ->
  calculate_population_score (PyNum 0) opt = Ok 0 /\
  calculate_population_score (PyNum opt) opt = Ok 100 /\
  calculate_population_score (PyNum (2 * opt)) opt = Ok 100.
Proof. intros H. unfold calculate_population_score; cbn [num bind]. qsplit; easy. Qed.

Lemma population_score_points_witness :
  calculate_population_score (PyNum 0) 8000 = Ok 0 /\
  calculate_population_score (PyNum 8000) 8000 = Ok 100 /\
  calculate_population_score (PyNum (2 * 8000)) 8000 = Ok 100.
Proof. apply population_score_points. qeval. Defined.

Lemma income_below_range m tmin :
  0 < tmin -> m < tmin -> forall g, py_div (tmin - m) tmin = Ok g ->
  0 <= py_max (50 - py_min (g * 100) 50) 0 <= 50.
Proof.
  intros Ht Hm g Hg. rewrite py_div_ok in Hg by (apply Qnonzero_of_lt; lra).
  injection Hg as <-.
  assert (0 <= (tmin - m) / tmin) by (apply Qdiv_nonneg; lra).
  pose proof (py_min_le_r ((tmin - m) / tmin * 100) 50).
  pose proof (py_min_glb ((tmin - m) / tmin * 100) 50 0 ltac:(lra) ltac:(lra)).
  split; [apply py_max_ge_r | apply py_max_lub]; lra.
Qed.

Lemma income_above_range m tmax :
  0 < tmax -> tmax < m -> forall g, py_div (m - tmax) tmax = Ok g ->
  50 <= py_max (75 - py_min (g * 50) 25) 50 <= 75.
Proof.
  intros Ht Hm g Hg. rewrite py_div_ok in Hg by (apply Qnonzero_of_lt; lra).
  injection Hg as <-.
  assert (0 <= (m - tmax) / tmax) by (apply Qdiv_nonneg; lra).
  pose proof (py_min_glb ((m - tmax) / tmax * 50) 25 0 ltac:(lra) ltac:(lra)).
  split; [apply py_max_ge_r | apply py_max_lub]; lra.
Qed.

Lemma income_within_range m tmin tmax :
  tmin < tmax -> tmin <= m <= tmax ->
  85 <= py_max (100 - Qabs (m - (tmin + tmax) / 2) / ((tmax - tmin) / 2) * 15) 85 <= 100.
Proof.
  intros Hlt Hm.
  assert (0 <= Qabs (m - (tmin + tmax) / 2) / ((tmax - tmin) / 2)).
  { apply Qdiv_nonneg; [apply Qabs_nonneg | rewrite Qdiv_2; lra]. }
  split; [apply py_max_ge_r | apply py_max_lub]; lra.
Qed.

Lemma income_total m tmin tmax :
  0 < tmin < tmax -> exists s, calculate_income_score (PyNum m) tmin tmax = Ok s.
Proof.
  intros [H1 H2]. unfold calculate_income_score; cbn [num bind].
  qcase; [qcase|].
  - rewrite py_div_ok by (apply Qnonzero_of_lt; rewrite Qdiv_2; lra). cbn [bind]. eauto.
  - py_div_ok. eauto.
  - py_div_ok. eauto.
Qed.

Lemma income_spec m tmin tmax s :
  0 < tmin < tmax -> calculate_income_score (PyNum m) tmin tmax = Ok s ->
  0 <= s <= 100 /\ (tmin <= m <= tmax -> 85 <= s).
Proof.
  intros [H1 H2]. unfold calculate_income_score; cbn [num bind].
  qcase; [qcase|].
  - rewrite py_div_ok by (apply Qnonzero_of_lt; rewrite Qdiv_2; lra). cbn [bind]. intros <-%Ok_inj.
    pose proof (income_within_range m tmin tmax H2 ltac:(lra)). split; [lra | intros; lra].
  - destruct (py_div (m - tmax) tmax) as [g|e] eqn:Hg; cbn [bind]; [intros [= <-] | discriminate].
    pose proof (income_above_range m tmax ltac:(lra) ltac:(lra) g Hg). split; [lra | intros; lra].
  - destruct (py_div (tmin - m) tmin) as [g|e] eqn:Hg; cbn [bind]; [intros [= <-] | discriminate].
    pose proof (income_below_range m tmin H1 ltac:(lra) g Hg). split; [lra | intros; lra].
Qed.

Lemma income_ok_range v tmin tmax s :
  0 < tmin < tmax -> calculate_income_score v tmin tmax = Ok s -> 0 <= s <= 100.
Proof.
  intros Hv E. destruct v as [| |m]; try discriminate.
  exact (proj1 (income_spec _ _ _ _ Hv E)).
Qed.

(** On a concept with [0 < target_income_min < target_income_max] the
    income score of any numeric income is computed without an error and
    lies in [0, 100]; within the target range it is at least 85. *)
Theorem income_score_range (m tmin tmax : Q) :
  0 < tmin < tmax ->
  exists s, calculate_income_score (PyNum m) tmin tmax = Ok s /\ 0 <= s <= 100 /\
            (tmin <= m <= tmax -> 85 <= s).
Proof. intros Hv. apply ok_and; [apply income_total, Hv | intros s; apply income_spec, Hv]. Qed.

Lemma income_score_range_witness :
  exists s, calculate_income_score (PyNum 45000) 30000 60000 = Ok s /\ 0 <= s <= 100 /\
            (30000 <= 45000 <= 60000 -> 85 <= s).
Proof. apply income_score_range. qeval. Defined.

Lemma metro_bonus_range v : 0 <= metro_bonus v <= 40.
Proof. destruct v; simpl; try lra. qsplit. Qed.

Lemma tram_bonus_range v : 0 <= tram_bonus v <= 10.
Proof. destruct v; simpl; try lra. qsplit. Qed.

Lemma access_range (metro tram : pyval) : 50 <= calculate_access_score metro tram <= 100.
Proof.
  unfold calculate_access_score.
  pose proof (metro_bonus_range metro). pose proof (tram_bonus_range tram).
  split; [apply py_min_glb; lra | apply py_min_le_r].
Qed.

(** The cap [min(score, 100)] of the transit-access score never
    binds: the score is 50 plus the metro and tram bonuses (at most 40
    and 10), so it always lies in [50, 100]. *)
Theorem access_score_range (metro tram : pyval) :
  calculate_access_score metro tram == 50 + metro_bonus metro + tram_bonus tram /\
  50 <= calculate_access_score metro tram <= 100.
Proof.
  split; [|apply access_range].
  unfold calculate_access_score.
  pose proof (metro_bonus_range metro). pose proof (tram_bonus_range tram).
  unfold py_min. qsplit.
Qed.

Lemma competition_ok_range c t s :
  calculate_competition_score c t = Ok s -> 20 <= s <= 100.
Proof.
  unfold calculate_competition_score. destruct c as [| |c]; try discriminate.
  qcase; [intros [= <-]; lra|].
  destruct (py_div c t) as [ratio|e]; cbn [bind]; [|discriminate].
  repeat (qcase; try (intros [= <-]; lra)).
  intros [= <-].
  pose proof (py_min_glb ((ratio - (15 # 10)) * 30) 50 0 ltac:(lra) ltac:(lra)).
  split; [apply py_max_ge_r | apply py_max_lub; lra].
Qed.

Lemma competition_score_total c t :
  ~ t == 0 -> exists s, calculate_competition_score (PyNum c) t = Ok s /\ 20 <= s <= 100.
Proof.
  intros Ht. destruct (calculate_competition_score (PyNum c) t) as [s|e] eqn:E.
  - exists s. split; [reflexivity | eapply competition_ok_range; exact E].
  - exfalso. revert E. unfold calculate_competition_score.
    qcase; [discriminate|]. rewrite py_div_ok by exact Ht. cbn [bind].
    qsplit; discriminate.
Qed.

(** The competition score at the spec's points: the target density of
    competitors scores 100, no competitor scores 40, three times the
    target scores at most 50 and at least 20; for a non-zero target the
    score of any numeric density lies in [20, 100]. *)
Theorem competition_score_points (t : Q) :
  0 < t ->
  calculate_competition_score (PyNum t) t = Ok 100 /\
  calculate_competition_score (PyNum 0) t = Ok 40 /\
  (exists s, calculate_competition_score (PyNum (3 * t)) t = Ok s /\ 20 <= s <= 50) /\
  (forall c, exists s, calculate_competition_score (PyNum c) t = Ok s /\ 20 <= s <= 100).
Proof.
  intros Ht. unfold calculate_competition_score.
  split; [|split; [|split]].
  - qcase; [exfalso; lra|]. py_div_ok.
    pose proof (Qdiv_self t (Qnonzero_of_lt t Ht)). qsplit; reflexivity.
  - qsplit; reflexivity.
  - qcase; [exfalso; lra|]. py_div_ok.
    pose proof (Qdiv_mul_l 3 t (Qnonzero_of_lt t Ht)).
    qsplit. eexists; split; [reflexivity|].
    pose proof (py_min_le_r ((3 * t / t - (15 # 10)) * 30) 50).
    pose proof (py_min_glb ((3 * t / t - (15 # 10)) * 30) 50 0 ltac:(lra) ltac:(lra)).
    split; [apply py_max_ge_r | apply py_max_lub; lra].
  - intros c. apply competition_score_total. now apply Qnonzero_of_lt.
Qed.

Lemma competition_score_points_witness :
  calculate_competition_score (PyNum 1) 1 = Ok 100 /\
  calculate_competition_score (PyNum 0) 1 = Ok 40 /\
  (exists s, calculate_competition_score (PyNum (3 * 1)) 1 = Ok s /\ 20 <= s <= 50) /\
  (forall c, exists s, calculate_competition_score (PyNum c) 1 = Ok s /\ 20 <= s <= 100).
Proof. apply competition_score_points. qeval. Defined.

Lemma walkability_ok_range p s :
  calculate_walkability_score p = Ok s -> 20 <= s <= 100.
Proof.
  unfold calculate_walkability_score. destruct p as [| |p]; try discriminate.
  cbn [num bind]. repeat (qcase; try (intros [= <-]; lra)).
  intros [= <-]. split; [apply py_max_ge_r | apply py_max_lub; lra].
Qed.

Lemma walkability_total p : exists s, calculate_walkability_score (PyNum p) = Ok s.
Proof. unfold calculate_walkability_score; cbn [num bind]. qsplit; eauto. Qed.

(** The walkability score of a numeric point-of-interest count is
    computed without an error and lies in [20, 100]. *)
Theorem walkability_score_range (p : Q) :
  exists s, calculate_walkability_score (PyNum p) = Ok s /\ 20 <= s <= 100.
Proof. apply ok_and; [apply walkability_total | apply walkability_ok_range]. Qed.

Lemma income_multiplier_range m tmid :
  0 < tmid -> exists im, income_multiplier m tmid = Ok im /\ 7 # 10 <= im <= 13 # 10.
Proof.
  intros Ht. unfold income_multiplier. qcase; [eexists; split; [reflexivity | lra]|].
  py_div_ok. eexists; split; [reflexivity|].
  split; [apply py_max_ge_r | apply py_max_lub; [apply Qle_trans with (13 # 10); auto with spotlight|]]; lra.
Qed.

Lemma saturation_penalty_range c t :
  0 < t -> exists sp, saturation_penalty c t = Ok sp /\ 0 <= sp <= 4 # 10.
Proof.
  intros Ht. unfold saturation_penalty. qcase; [eexists; split; [reflexivity | lra]|].
  py_div_ok. eexists; split; [reflexivity|].
  assert (1 <= c / t) by (apply Qdiv_ge_one; lra).
  split; [apply py_min_glb; lra | apply py_min_le_r].
Qed.

Lemma revenue_formula_bounds base pm im sp :
  0 <= base -> pm <= 3 # 2 -> 7 # 10 <= im <= 13 # 10 -> 0 <= sp <= 4 # 10 ->
  base * (1 # 2) <= py_max (base * pm * im * (1 - sp)) (base * (5 # 10)) <= base * (39 # 20).
Proof.
  intros Hb Hpm Him Hsp.
  assert (Hk : 0 <= im * (1 - sp) <= 13 # 10) by (split; nra).
  assert (Hp : pm * (im * (1 - sp)) <= 39 # 20) by nra.
  assert (base * pm * im * (1 - sp) <= base * (39 # 20)) by nra.
  split; [eapply Qle_trans; [|apply py_max_ge_r]; lra | apply py_max_lub; lra].
Qed.

Lemma revenue_total (cfg : ConceptConfig) (base d m c : Q) :
  config_valid cfg -> exists r, calculate_revenue base (PyNum d) (PyNum m) (PyNum c) cfg = Ok r.
Proof.
  intros (Hb & Hmin & Hlt & Hopt & Htc).
  unfold calculate_revenue; cbn [num bind]. py_div_ok.
  assert (Hmid : 0 < (cfg_target_income_min cfg + cfg_target_income_max cfg) / 2)
    by (rewrite Qdiv_2; lra).
  destruct (income_multiplier_range m _ Hmid) as (im & -> & _). cbn [bind].
  destruct (saturation_penalty_range c _ Htc) as (sp & -> & _). cbn [bind].
  eauto.
Qed.

Lemma revenue_ok_range cfg base v1 v2 v3 rev :
  config_valid cfg -> 0 <= base ->
  calculate_revenue base v1 v2 v3 cfg = Ok rev -> base * (1 # 2) <= rev <= base * (39 # 20).
Proof.
  intros (Hb & Hmin & Hlt & Hopt & Htc) Hbase E.
  assert (Hmid : 0 < (cfg_target_income_min cfg + cfg_target_income_max cfg) / 2)
    by (rewrite Qdiv_2; lra).
  unfold calculate_revenue in E. res_inv E. apply Ok_inj in E. subst rev.
  match goal with Ei : income_multiplier ?m _ = Ok _ |- _ =>
    destruct (income_multiplier_range m _ Hmid) as (im & Eim & Him); rewrite Eim in Ei;
    apply Ok_inj in Ei; subst im end.
  match goal with Es : saturation_penalty ?c _ = Ok _ |- _ =>
    destruct (saturation_penalty_range c _ Htc) as (sp & Esp & Hsp); rewrite Esp in Es;
    apply Ok_inj in Es; subst sp end.
  apply revenue_formula_bounds; auto with spotlight.
Qed.

(** On a valid concept the revenue estimate of numeric features is
    computed without an error and lies between half the base revenue (the
    floor) and 1.95 times it (population multiplier 1.5 times income
    multiplier 1.3). *)
Theorem revenue_bounds (cfg : ConceptConfig) (base d m c : Q) :
  config_valid cfg -> 0 <= base ->
  exists r, calculate_revenue base (PyNum d) (PyNum m) (PyNum c) cfg = Ok r /\
            base * (1 # 2) <= r <= base * (39 # 20).
Proof.
  intros Hv Hb. apply ok_and; [apply revenue_total, Hv | intros r; apply revenue_ok_range; assumption].
Qed.

Lemma revenue_bounds_witness :
  exists r, calculate_revenue 1200000 (PyNum 6000) (PyNum 45000) (PyNum (12 # 10)) sample_config = Ok r /\
            1200000 * (1 # 2) <= r <= 1200000 * (39 # 20).
Proof. apply revenue_bounds; [unfold config_valid; simpl | ]; qeval. Defined.

Lemma confidence_bounds (f : Features) : 6 # 10 <= calculate_confidence f <= 1.
Proof.
  unfold calculate_confidence.
  pose proof (filter_length_le is_not_none (confidence_required_fields f)) as Hl.
  set (n := List.length (filter is_not_none (confidence_required_fields f))) in *.
  simpl in Hl.
  assert (H4 : 0 <= inject_Z (Z.of_nat n) <= 4).
  { unfold Qle; simpl; lia. }
  rewrite Qdiv_Zpos. lra.
Qed.

(** The scorer's confidence is [0.6 + 0.1] per required field present,
    so it lies in [0.6, 1]. *)
Theorem confidence_range (f : Features) :
  6 # 10 <= calculate_confidence f <= 1 /\
  (calculate_confidence f == 1 <-> forallb is_not_none (confidence_required_fields f) = true).
Proof.
  split; [apply confidence_bounds|].
  unfold calculate_confidence, confidence_required_fields. cbn [filter forallb].
  repeat match goal with |- context [is_not_none ?v] => destruct (is_not_none v) end;
    vm_compute; split; intros H; first [reflexivity | discriminate H].
Qed.

(** ** The whole scoring call *)


Lemma calculate_score_inv db yaml f concept cid r :
  calculate_score db yaml f concept cid = Ok r ->
  exists cfg used ps inc cs ws rev,
    get_concept_config db yaml concept cid = (Some cfg, used) /\
    calculate_population_score (get_default (population_density f) 0)
      (cfg_optimal_population_density cfg) = Ok ps /\
    calculate_income_score (get_default (median_income f) 0)
      (cfg_target_income_min cfg) (cfg_target_income_max cfg) = Ok inc /\
    calculate_competition_score (get_default (competitors_per_1k_residents f) 0)
      (cfg_target_competitors_per_1k cfg) = Ok cs /\
    calculate_walkability_score (get_default (walkability_poi_count f) 0) = Ok ws /\
    calculate_revenue (cfg_base_revenue_eur cfg) (get_default (population_density f) 0)
      (get_default (median_income f) 0) (get_default (competitors_per_1k_residents f) 0) cfg = Ok rev /\
    score r = py_round (overall_score (cfg_weights cfg)
                (mkComponents ps inc (calculate_access_score (get (nearest_metro_distance_m f))
                   (get (nearest_tram_distance_m f))) cs ws)) 1 /\
    revenue_low r = py_round_int (rev * (1 - band_percent (calculate_confidence f))) /\
    revenue_mid r = py_round_int rev /\
    revenue_high r = py_round_int (rev * (1 + band_percent (calculate_confidence f))) /\
    confidence r = py_round (calculate_confidence f) 2.
Proof.
  unfold calculate_score.
  destruct (get_concept_config db yaml concept cid) as [[cfg|] used] eqn:Ecfg; [|discriminate].
  intros E. res_inv E. injection E as <-.
  do 7 eexists. repeat split; eauto.
Qed.

Lemma overall_score_range w c :
  weights_nonneg w ->
  0 <= sc_population c <= 100 -> 0 <= sc_income c <= 100 -> 0 <= sc_access c <= 100 ->
  0 <= sc_competition c <= 100 -> 0 <= sc_walkability c <= 100 ->
  0 <= overall_score w c <= 100 * weights_sum w.
Proof.
  intros (H1 & H2 & H3 & H4 & H5) ? ? ? ? ?.
  unfold overall_score, weights_sum. split; nra.
Qed.

(** C1: on a valid concept whose weights are non-negative and sum to one,
    every score the engine returns lies in [0, 100] and its confidence in
    [0.6, 1] (after Python's rounding to 1 and 2 decimals). *)
Theorem calculate_score_bounds db yaml f concept cid cfg used r :
  get_concept_config db yaml concept cid = (Some cfg, used) ->
  config_valid cfg -> weights_nonneg (cfg_weights cfg) -> weights_sum (cfg_weights cfg) == 1 ->
  calculate_score db yaml f concept cid = Ok r ->
  0 <= score r <= 100 /\ 6 # 10 <= confidence r <= 1.
Proof.
  intros Ecfg Hv Hw Hs E.
  destruct (calculate_score_inv _ _ _ _ _ _ E)
    as (cfg' & used' & ps & inc & cs & ws & rev & Ecfg' & Ep & Ei & Ec & Ew & _ & Es & _ & _ & _ & Econf).
  rewrite Ecfg in Ecfg'. injection Ecfg' as <- <-.
  pose proof (population_ok_range _ _ _ Ep). pose proof (competition_ok_range _ _ _ Ec).
  pose proof (walkability_ok_range _ _ Ew).
  pose proof Hv as (Hb & Hmin & Hlt & _).
  pose proof (income_ok_range _ _ _ _ (conj Hmin Hlt) Ei).
  pose proof (access_range (get (nearest_metro_distance_m f)) (get (nearest_tram_distance_m f))).
  pose proof (overall_score_range (cfg_weights cfg)
    (mkComponents ps inc (calculate_access_score (get (nearest_metro_distance_m f))
       (get (nearest_tram_distance_m f))) cs ws) Hw) as Ho.
  simpl in Ho. rewrite Hs in Ho.
  specialize (Ho ltac:(lra) ltac:(lra) ltac:(lra) ltac:(lra) ltac:(lra)).
  pose proof (confidence_bounds f).
  rewrite Es, Econf. split.
  - set (o := overall_score _ _) in *.
    destruct (py_round_range 0 100 o 1 ltac:(lra)).
    split; [eapply Qle_trans; [|eassumption]; now vm_compute
           | eapply Qle_trans; [eassumption|]; now vm_compute].
  - destruct (py_round_range (6 # 10) 1 (calculate_confidence f) 2 H4).
    split; [eapply Qle_trans; [|eassumption]; now vm_compute
           | eapply Qle_trans; [eassumption|]; now vm_compute].
Qed.

Lemma calculate_score_bounds_witness :
  exists r, calculate_score None sample_yaml sample_features "QSR" None = Ok r /\
            0 <= score r <= 100 /\ 6 # 10 <= confidence r <= 1.
Proof.
  eexists; split; [reflexivity|].
  apply (calculate_score_bounds None sample_yaml sample_features "QSR" None sample_config None);
    [reflexivity | unfold config_valid; simpl; qeval | unfold weights_nonneg; simpl; qeval
    | qeval | reflexivity].
Defined.

Lemma band_percent_range c : 6 # 10 <= c <= 1 -> 0 <= band_percent c <= 1.
Proof. unfold band_percent. lra. Qed.

(** C2: on a valid concept the returned revenue band is ordered:
    [revenue_low <= revenue_mid <= revenue_high], after each end is rounded
    to an integer separately. *)
Theorem revenue_band_ordered db yaml f concept cid cfg used r :
  get_concept_config db yaml concept cid = (Some cfg, used) -> config_valid cfg ->
  calculate_score db yaml f concept cid = Ok r ->
  (revenue_low r <= revenue_mid r <= revenue_high r)%Z.
Proof.
  intros Ecfg Hv E.
  destruct (calculate_score_inv _ _ _ _ _ _ E)
    as (cfg' & used' & ps & inc & cs & ws & rev & Ecfg' & _ & _ & _ & _ & Er & _ & El & Em & Eh & _).
  rewrite Ecfg in Ecfg'. injection Ecfg' as <- <-.
  pose proof Hv as (Hb & _).
  pose proof (revenue_ok_range _ _ _ _ _ _ Hv Hb Er).
  pose proof (band_percent_range _ (confidence_bounds f)).
  set (bp := band_percent (calculate_confidence f)) in *.
  rewrite El, Em, Eh. split; apply py_round_int_mono; nra.
Qed.

Lemma revenue_band_ordered_witness :
  exists r, calculate_score None sample_yaml sample_features "QSR" None = Ok r /\
            (revenue_low r <= revenue_mid r <= revenue_high r)%Z.
Proof.
  eexists; split; [reflexivity|].
  apply (revenue_band_ordered None sample_yaml sample_features "QSR" None sample_config None);
    [reflexivity | unfold config_valid; simpl; qeval | reflexivity].
Defined.

Lemma get_default_num v d : v <> PyNone -> exists q, get_default v d = PyNum q.
Proof. destruct v; simpl; [eauto | congruence | eauto]. Qed.

(** C5: the scorer is total on valid concepts: when the concept is found,
    its parameters are valid, and none of the four keys the scorer reads
    with a default holds [None], [calculate_score] returns a result. *)
Theorem calculate_score_total db yaml f concept cid cfg used :
  get_concept_config db yaml concept cid = (Some cfg, used) -> config_valid cfg ->
  population_density f <> PyNone -> median_income f <> PyNone ->
  competitors_per_1k_residents f <> PyNone -> walkability_poi_count f <> PyNone ->
  exists r, calculate_score db yaml f concept cid = Ok r.
Proof.
  intros Ecfg Hv Hd Hm Hc Hw.
  pose proof Hv as (Hb & Hmin & Hlt & Hopt & Htc).
  destruct (get_default_num _ 0 Hd) as (d & Ed).
  destruct (get_default_num _ 0 Hm) as (m & Em).
  destruct (get_default_num _ 0 Hc) as (c & Ec).
  destruct (get_default_num _ 0 Hw) as (p & Ep).
  unfold calculate_score. rewrite Ecfg, Ed, Em, Ec, Ep.
  destruct (population_total d (cfg_optimal_population_density cfg)) as (ps & ->).
  destruct (income_total m _ _ (conj Hmin Hlt)) as (inc & ->).
  destruct (competition_score_total c _ (Qnonzero_of_lt _ Htc)) as (cs & -> & _).
  destruct (walkability_total p) as (ws & ->).
  destruct (revenue_total cfg (cfg_base_revenue_eur cfg) d m c Hv) as (rev & ->).
  cbn [bind]. eauto.
Qed.

Lemma calculate_score_total_witness :
  exists r, calculate_score None sample_yaml sample_features "QSR" None = Ok r.
Proof.
  apply (calculate_score_total None sample_yaml sample_features "QSR" None sample_config None);
    [reflexivity | unfold config_valid; simpl; qeval | discriminate ..].
Defined.

(** The scorer's two failure modes: an unknown concept raises
    [ValueError("Unknown concept: ...")]; a known concept with a
    population density present as [None] raises [TypeError] (the
    comparison [None >= optimal]), it does not fall back to a default. *)
Theorem calculate_score_errors db yaml f concept cid :
  (fst (get_concept_config db yaml concept cid) = None ->
   calculate_score db yaml f concept cid = Raise (ValueError ("Unknown concept: " ++ concept))) /\
  (fst (get_concept_config db yaml concept cid) <> None -> population_density f = PyNone ->
   calculate_score db yaml f concept cid = Raise TypeError).
Proof.
  unfold calculate_score.
  destruct (get_concept_config db yaml concept cid) as [[cfg|] used]; simpl.
  - split; [discriminate | intros _ Hd]. now rewrite Hd.
  - split; [reflexivity | contradiction].
Qed.

(** A concept whose income range is a single point
    ([target_income_min = target_income_max], which the update endpoint
    does not reject) makes the income score raise [ZeroDivisionError] for
    an income equal to that point: [max_distance] is 0. *)
Theorem income_score_empty_range_raises (t : Q) :
  0 < t -> calculate_income_score (PyNum t) t t = Raise ZeroDivisionError.
Proof.
  intros Ht. unfold calculate_income_score; cbn [num bind].
  qcase; [|exfalso; lra].
  rewrite py_div_zero; [reflexivity|]. rewrite Qdiv_2. ring.
Qed.

Lemma income_score_empty_range_raises_witness :
  calculate_income_score (PyNum 40000) 40000 40000 = Raise ZeroDivisionError.
Proof. apply income_score_empty_range_raises. qeval. Defined.

End ScoringEngine.
