(* ===== verification/ConceptStore.v ===== *)
(** * ConceptStore: the concept management routes of src/backend/routes/concepts.py

    The database is the record [Store]: the customer ids and the rows of
    the [concepts] table in insertion order.  Each route is one definition
    that returns the new store and the response, or raises
    [HTTPException] with the route's status code.  FastAPI validates the
    request body against the pydantic models before the handler runs, so
    that check ([Field(gt=0)], [Field(ge=0, le=1)]) comes first and
    answers 422.  A PATCH body distinguishes a field that is not sent
    ([Unset]), sent as [null] ([SetNone]) and sent with a value ([SetTo]):
    [model_dump(exclude_unset=True)] keeps the explicit nulls, [setattr]
    writes them, and the commit fails on a NOT NULL column. *)

From S2P Require Import Prelude Concept Scoring.

Module ConceptStore.

Record Store := mkStore {
  customers : list string;
  concepts : list Concept
}.

(** ConceptCreate *)
Record ConceptCreate := mkCreate {
  cc_customer_id : string;
  cc_name : string;
  cc_category : string;
  cc_description : option string;
  cc_base_revenue_eur : Z;
  cc_target_income_min : Z;
  cc_target_income_max : Z;
  cc_optimal_population_density : Z;
  cc_target_competitors_per_1k : Q;
  cc_weights : Weights
}.

Inductive upd (A : Type) : Type :=
| Unset
| SetNone
| SetTo (a : A).
Arguments Unset {A}.
Arguments SetNone {A}.
Arguments SetTo {A} a.

(** ConceptUpdate *)
Record ConceptUpdate := mkUpdate {
  cu_name : upd string;
  cu_description : upd string;
  cu_base_revenue_eur : upd Z;
  cu_target_income_min : upd Z;
  cu_target_income_max : upd Z;
  cu_optimal_population_density : upd Z;
  cu_target_competitors_per_1k : upd Q;
  cu_weights : upd Weights;
  cu_is_active : upd bool
}.

(** ConceptWeights: every weight is [Field(..., ge=0, le=1)]. *)
Definition weights_field_valid (w : Weights) : bool :=
  forallb (fun x => Qleb 0 x && Qleb x 1)
    [w_population w; w_income w; w_access w; w_competition w; w_walkability w].

(** The [gt=0] fields of ConceptCreate, and its weights. *)
Definition concept_create_valid (d : ConceptCreate) : bool :=
  (0 <? cc_base_revenue_eur d)%Z && (0 <? cc_target_income_min d)%Z &&
  (0 <? cc_target_income_max d)%Z && (0 <? cc_optimal_population_density d)%Z &&
  Qltb 0 (cc_target_competitors_per_1k d) && weights_field_valid (cc_weights d).

(** ConceptUpdate: only its weights carry constraints. *)
Definition concept_update_valid (u : ConceptUpdate) : bool :=
  match cu_weights u with SetTo w => weights_field_valid w | _ => true end.

(** [0.95 <= total_weight <= 1.05] *)
Definition weights_in_tolerance (w : Weights) : bool :=
  let total_weight := weights_sum w in
  Qleb (95 # 100) total_weight && Qleb total_weight (105 # 100).

Definition weights_error : exn :=
  HTTPException 400 "Weights must sum to approximately 1.0".

(** [db.query(Concept).filter(Concept.id == concept_id).first()] *)
Definition find_concept (s : Store) (concept_id : string) : option Concept :=
  find (fun c => String.eqb (c_id c) concept_id) (concepts s).

Definition customer_exists (s : Store) (customer_id : string) : bool :=
  existsb (String.eqb customer_id) (customers s).

(** Writing back a modified row (the session flush of the ORM object). *)
Definition replace_concept (s : Store) (c : Concept) : Store :=
  mkStore (customers s)
    (map (fun c' => if String.eqb (c_id c') (c_id c) then c else c') (concepts s)).

(** create_concept; [new_id] is the uuid the column default generates. *)
Definition create_concept (s : Store) (d : ConceptCreate) (new_id : string) : res (Store * Concept) :=
  if negb (concept_create_valid d) then Raise (HTTPException 422 "Unprocessable Entity") else
  if negb (customer_exists s (cc_customer_id d)) then
    Raise (HTTPException 404 ("Customer " ++ cc_customer_id d ++ " not found"))
  else if negb (weights_in_tolerance (cc_weights d)) then Raise weights_error
  else
    let new_concept :=
      {| c_id := new_id; c_customer_id := cc_customer_id d; c_name := cc_name d;
         c_category := cc_category d; c_description := cc_description d;
         c_base_revenue_eur := cc_base_revenue_eur d; c_revenue_variance := 2 # 10;
         c_target_income_min := cc_target_income_min d;
         c_target_income_max := cc_target_income_max d;
         c_optimal_population_density := cc_optimal_population_density d;
         c_target_competitors_per_1k := cc_target_competitors_per_1k d;
         c_weights := cc_weights d; c_outcomes_count := 0;
         c_avg_prediction_error := None; c_last_trained_at := None;
         c_is_system_default := false; c_is_active := Some true |} in
    Ok (mkStore (customers s) (concepts s ++ [new_concept]), new_concept).

(** [setattr] of one field of the PATCH body on a NOT NULL column: an
    explicit null makes the commit fail. *)
Definition set_not_null {A : Type} (u : upd A) (old : A) : res A :=
  match u with Unset => Ok old | SetNone => Raise IntegrityError | SetTo a => Ok a end.

(** The same on a nullable column. *)
Definition set_nullable {A : Type} (u : upd A) (old : option A) : option A :=
  match u with Unset => old | SetNone => None | SetTo a => Some a end.

(** The [for field, value in update_data.items(): setattr(...)] loop and
    the commit that follows it. *)
Definition apply_update (u : ConceptUpdate) (c : Concept) : res Concept :=
  name <- set_not_null (cu_name u) (c_name c) ;;
  base <- set_not_null (cu_base_revenue_eur u) (c_base_revenue_eur c) ;;
  tmin <- set_not_null (cu_target_income_min u) (c_target_income_min c) ;;
  tmax <- set_not_null (cu_target_income_max u) (c_target_income_max c) ;;
  dens <- set_not_null (cu_optimal_population_density u) (c_optimal_population_density c) ;;
  comp <- set_not_null (cu_target_competitors_per_1k u) (c_target_competitors_per_1k c) ;;
  w <- set_not_null (cu_weights u) (c_weights c) ;;
  Ok {| c_id := c_id c; c_customer_id := c_customer_id c; c_name := name;
        c_category := c_category c;
        c_description := set_nullable (cu_description u) (c_description c);
        c_base_revenue_eur := base; c_revenue_variance := c_revenue_variance c;
        c_target_income_min := tmin; c_target_income_max := tmax;
        c_optimal_population_density := dens; c_target_competitors_per_1k := comp;
        c_weights := w; c_outcomes_count := c_outcomes_count c;
        c_avg_prediction_error := c_avg_prediction_error c;
        c_last_trained_at := c_last_trained_at c;
        c_is_system_default := c_is_system_default c;
        c_is_active := set_nullable (cu_is_active u) (c_is_active c) |}.

(** update_concept *)
Definition update_concept (s : Store) (concept_id : string) (u : ConceptUpdate) : res (Store * Concept) :=
  if negb (concept_update_valid u) then Raise (HTTPException 422 "Unprocessable Entity") else
  match find_concept s concept_id with
  | None => Raise (HTTPException 404 ("Concept " ++ concept_id ++ " not found"))
  | Some c =>
      if c_is_system_default c then
        Raise (HTTPException 403 "Cannot modify system default concepts. Clone it first.")
      else
        match cu_weights u with
        | SetTo w => if negb (weights_in_tolerance w) then Raise weights_error else
                     c' <- apply_update u c ;; Ok (replace_concept s c', c')
        | _ => c' <- apply_update u c ;; Ok (replace_concept s c', c')
        end
  end.

(** clone_concept *)
Definition clone_concept (s : Store) (concept_id new_name customer_id new_id : string) : res (Store * Concept) :=
  match find_concept s concept_id with
  | None => Raise (HTTPException 404 ("Source concept " ++ concept_id ++ " not found"))
  | Some src =>
      if negb (customer_exists s customer_id) then
        Raise (HTTPException 404 ("Customer " ++ customer_id ++ " not found"))
      else
        let cloned :=
          {| c_id := new_id; c_customer_id := customer_id; c_name := new_name;
             c_category := c_category src;
             c_description := Some ("Cloned from " ++ c_name src)%string;
             c_base_revenue_eur := c_base_revenue_eur src;
             c_revenue_variance := c_revenue_variance src;
             c_target_income_min := c_target_income_min src;
             c_target_income_max := c_target_income_max src;
             c_optimal_population_density := c_optimal_population_density src;
             c_target_competitors_per_1k := c_target_competitors_per_1k src;
             c_weights := c_weights src; c_outcomes_count := 0;
             c_avg_prediction_error := None; c_last_trained_at := None;
             c_is_system_default := false; c_is_active := Some true |} in
        Ok (mkStore (customers s) (concepts s ++ [cloned]), cloned)
  end.

(** delete_concept: a soft delete. *)
Definition delete_concept (s : Store) (concept_id : string) : res (Store * string) :=
  match find_concept s concept_id with
  | None => Raise (HTTPException 404 ("Concept " ++ concept_id ++ " not found"))
  | Some c =>
      if c_is_system_default c then
        Raise (HTTPException 403 "Cannot delete system default concepts")
      else
        let c' := {| c_id := c_id c; c_customer_id := c_customer_id c; c_name := c_name c;
                     c_category := c_category c; c_description := c_description c;
                     c_base_revenue_eur := c_base_revenue_eur c;
                     c_revenue_variance := c_revenue_variance c;
                     c_target_income_min := c_target_income_min c;
                     c_target_income_max := c_target_income_max c;
                     c_optimal_population_density := c_optimal_population_density c;
                     c_target_competitors_per_1k := c_target_competitors_per_1k c;
                     c_weights := c_weights c; c_outcomes_count := c_outcomes_count c;
                     c_avg_prediction_error := c_avg_prediction_error c;
                     c_last_trained_at := c_last_trained_at c;
                     c_is_system_default := c_is_system_default c;
                     c_is_active := Some false |} in
        Ok (replace_concept s c', "deleted"%string)
  end.

(** get_concept *)
Definition get_concept (s : Store) (concept_id : string) : res Concept :=
  match find_concept s concept_id with
  | None => Raise (HTTPException 404 ("Concept " ++ concept_id ++ " not found"))
  | Some c => Ok c
  end.

(** list_concepts: the optional filters, then the counts of the response. *)
Definition list_concepts (s : Store) (customer_id category : option string) (is_active : bool)
    : list Concept * nat * nat * nat :=
  let rows := concepts s in
  let rows := match customer_id with
              | Some cid => if String.eqb cid "" then rows
                            else filter (fun c => String.eqb (c_customer_id c) cid) rows
              | None => rows end in
  let rows := match category with
              | Some cat => if String.eqb cat "" then rows
                            else filter (fun c => String.eqb (c_category c) cat) rows
              | None => rows end in
  let rows := filter (fun c => match c_is_active c with
                               | Some b => Bool.eqb b is_active | None => false end) rows in
  let system_defaults := List.length (filter c_is_system_default rows) in
  (rows, List.length rows, system_defaults, (List.length rows - system_defaults)%nat).

(** ** The routes as a step relation on the store *)

Inductive route : Type :=
| RCreate (d : ConceptCreate) (new_id : string)
| RUpdate (concept_id : string) (u : ConceptUpdate)
| RClone (concept_id new_name customer_id new_id : string)
| RDelete (concept_id : string).

(** The store after a request, when the handler returns. *)
Definition run_route (s : Store) (r : route) : res Store :=
  match r with
  | RCreate d new_id => p <- create_concept s d new_id ;; Ok (fst p)
  | RUpdate cid u => p <- update_concept s cid u ;; Ok (fst p)
  | RClone cid n cust new_id => p <- clone_concept s cid n cust new_id ;; Ok (fst p)
  | RDelete cid => p <- delete_concept s cid ;; Ok (fst p)
  end.

(** The ids a route inserts: the generated uuids. *)
Definition route_new_id (r : route) : option string :=
  match r with
  | RCreate _ id | RClone _ _ _ id => Some id
  | _ => None
  end.

Definition fresh_for (s : Store) (r : route) : Prop :=
  match route_new_id r with
  | Some id => ~ In id (map c_id (concepts s))
  | None => True
  end.

(** A request that fails leaves the store as it was; a generated uuid is
    never the id of an existing row. *)
Inductive step : Store -> Store -> Prop :=
| step_ok s r s' : fresh_for s r -> run_route s r = Ok s' -> step s s'
| step_err s r e : run_route s r = Raise e -> step s s.

Inductive reachable (s0 : Store) : Store -> Prop :=
| reach_init : reachable s0 s0
| reach_step s s' : reachable s0 s -> step s s' -> reachable s0 s'.

(** Every row's weights are within the tolerance the routes check, and
    ids are unique (the primary key). *)
Definition concept_wf (c : Concept) : Prop := weights_in_tolerance (c_weights c) = true.

Definition store_inv (s : Store) : Prop :=
  Forall concept_wf (concepts s) /\ NoDup (map c_id (concepts s)).

(** ** Sample requests for the witnesses *)

Definition demo_store : Store := mkStore ["cust1"%string] [].

Definition demo_create (w : Weights) : ConceptCreate :=
  mkCreate "cust1" "Burger QSR" "QSR" None 1200000 30000 60000 8000 1 w.

Definition balanced_weights : Weights :=
  mkWeights (3 # 10) (2 # 10) (2 # 10) (15 # 100) (15 # 100).

(** A store holding the seeded system default for the QSR category. *)
Definition sys_concept : Concept :=
  mkConcept "sys1" "system" "QSR default" "QSR" None 1200000 (2 # 10) 30000 60000 8000 1
    balanced_weights 0 None None true (Some true).

Definition sys_store : Store := mkStore ["cust1"%string] [sys_concept].

(** Weights that sum to 0.80, 1.20 and 0.97. *)
Definition weights_080 : Weights := mkWeights (3 # 10) (2 # 10) (1 # 10) (1 # 10) (1 # 10).
Definition weights_120 : Weights := mkWeights (3 # 10) (3 # 10) (2 # 10) (2 # 10) (2 # 10).
Definition weights_097 : Weights := mkWeights (3 # 10) (2 # 10) (2 # 10) (15 # 100) (12 # 100).

(** Weights that sum to 1.05, the upper end of the accepted tolerance. *)
Definition heavy_weights : Weights :=
  mkWeights (35 # 100) (25 # 100) (2 # 10) (15 # 100) (1 # 10).

(** A site where every factor scores 100 for [demo_create]. *)
Definition ideal_features : Features :=
  mkFeatures (PyNum 20000) (PyNum 9000) (PyNum 45000) (PyNum 9) (PyNum 1)
    (PyNum 150) (PyNum 80) (PyNum 120).

(** A PATCH that sets the income range to the single point 30000. *)
Definition collapse_income_range : ConceptUpdate :=
  mkUpdate Unset Unset Unset Unset (SetTo 30000%Z) Unset Unset Unset Unset.

(** The PATCH body [{"target_income_min": v, "target_income_max": v}]. *)
Definition collapse_to (v : Z) : ConceptUpdate :=
  mkUpdate Unset Unset Unset (SetTo v) (SetTo v) Unset Unset Unset Unset.

(** The store after the demo customer created one concept. *)
Definition demo_store1 : Store :=
  match create_concept demo_store (demo_create balanced_weights) "id1" with Ok (s, _) => s | Raise _ => demo_store end.

Definition income_at_floor : Features :=
  mkFeatures (PyNum 20000) (PyNum 9000) (PyNum 30000) (PyNum 9) (PyNum 1)
    (PyNum 150) (PyNum 80) (PyNum 120).

(** ** Row lookups and write-backs *)

Lemma find_concept_Some s id c :
  find_concept s id = Some c -> In c (concepts s) /\ c_id c = id.
Proof.
  unfold find_concept. intros H. apply find_some in H as [Hin Heq].
  now apply String.eqb_eq in Heq.
Qed.

Lemma replace_concept_ids s c :
  map c_id (concepts (replace_concept s c)) = map c_id (concepts s).
Proof.
  simpl. rewrite map_map. apply map_ext. intros c'.
  destruct (String.eqb_spec (c_id c') (c_id c)); congruence.
Qed.

Lemma replace_concept_Forall (P : Concept -> Prop) s c :
  P c -> Forall P (concepts s) -> Forall P (concepts (replace_concept s c)).
Proof.
  intros Hc H. now apply map_replace_Forall.
Qed.

Lemma find_replace_other s c id :
  c_id c <> id -> find_concept (replace_concept s c) id = find_concept s id.
Proof.
  intros Hne. unfold find_concept, replace_concept. simpl.
  induction (concepts s) as [|c' l IH]; simpl; [reflexivity|].
  destruct (String.eqb_spec (c_id c') (c_id c)) as [E|E]; simpl.
  - rewrite E. destruct (String.eqb_spec (c_id c) id); [contradiction|].
    destruct (String.eqb_spec (c_id c') id); [congruence | exact IH].
  - destruct (String.eqb (c_id c') id); [reflexivity | exact IH].
Qed.

Lemma find_concept_app s c id :
  find_concept s id <> None ->
  find_concept (mkStore (customers s) (concepts s ++ [c])) id = find_concept s id.
Proof.
  unfold find_concept. simpl. induction (concepts s) as [|c' l IH]; simpl; [congruence|].
  destruct (String.eqb (c_id c') id); [reflexivity | exact IH].
Qed.

Lemma NoDup_snoc {A} (l : list A) x : NoDup l -> ~ In x l -> NoDup (l ++ [x]).
Proof.
  intros H Hx. apply NoDup_app; [exact H | repeat constructor; auto |].
  intros a Ha [<- | []]. contradiction.
Qed.

Lemma store_inv_snoc s c :
  store_inv s -> concept_wf c -> ~ In (c_id c) (map c_id (concepts s)) ->
  store_inv (mkStore (customers s) (concepts s ++ [c])).
Proof.
  intros [Hw Hd] Hc Hf. split; simpl.
  - apply Forall_app. auto.
  - rewrite map_app. now apply NoDup_snoc.
Qed.

Lemma store_inv_replace s c :
  store_inv s -> concept_wf c -> store_inv (replace_concept s c).
Proof.
  intros [Hw Hd] Hc. split.
  - now apply replace_concept_Forall.
  - now rewrite replace_concept_ids.
Qed.

Lemma store_inv_wf s c : store_inv s -> In c (concepts s) -> concept_wf c.
Proof. intros [Hw _] Hin. eapply Forall_forall; eauto. Qed.

Lemma apply_update_spec u c c' :
  apply_update u c = Ok c' ->
  c_id c' = c_id c /\ c_is_system_default c' = c_is_system_default c /\
  (c_weights c' = c_weights c \/ cu_weights u = SetTo (c_weights c')).
Proof.
  unfold apply_update. intros H. res_inv H. injection H as <-. simpl.
  repeat split. match goal with Ew : set_not_null (cu_weights u) _ = Ok _ |- _ =>
    destruct (cu_weights u); simpl in Ew; inversion Ew; subst; auto end.
Qed.

(** ** Each route keeps the invariant *)

Lemma create_inv s d id s' c :
  store_inv s -> ~ In id (map c_id (concepts s)) ->
  create_concept s d id = Ok (s', c) -> store_inv s'.
Proof.
  intros Hs Hf. unfold create_concept.
  destruct (concept_create_valid d), (customer_exists s (cc_customer_id d)),
    (weights_in_tolerance (cc_weights d)) eqn:Ew; simpl; try discriminate.
  intros [= <- _]. apply store_inv_snoc; auto.
Qed.

Lemma update_inv s id u s' c :
  store_inv s -> update_concept s id u = Ok (s', c) -> store_inv s'.
Proof.
  intros Hs. unfold update_concept. destruct (concept_update_valid u); [|discriminate].
  destruct (find_concept s id) as [c0|] eqn:Ef; [|discriminate]. simpl.
  destruct (c_is_system_default c0); [discriminate|].
  apply find_concept_Some in Ef as [Hin _].
  pose proof (store_inv_wf s c0 Hs Hin) as Hc0.
  assert (forall c', apply_update u c0 = Ok c' ->
            (forall w, cu_weights u = SetTo w -> weights_in_tolerance w = true) ->
            concept_wf c') as Hwf.
  { intros c' Ea Hw. unfold concept_wf.
    destruct (apply_update_spec _ _ _ Ea) as (_ & _ & [E | E]); [rewrite E; exact Hc0 | exact (Hw _ E)]. }
  destruct (cu_weights u) as [| |w] eqn:Eu;
    [| | destruct (weights_in_tolerance w) eqn:Ew; [|discriminate]]; simpl;
    destruct (apply_update u c0) as [c'|] eqn:Ea; try discriminate; simpl;
    intros [= <- _]; apply store_inv_replace; auto;
    apply Hwf; auto; congruence.
Qed.

Lemma clone_inv s id n cust new_id s' c :
  store_inv s -> ~ In new_id (map c_id (concepts s)) ->
  clone_concept s id n cust new_id = Ok (s', c) -> store_inv s'.
Proof.
  intros Hs Hf. unfold clone_concept.
  destruct (find_concept s id) as [src|] eqn:Ef; [|discriminate].
  destruct (customer_exists s cust); [|discriminate]. simpl.
  intros [= <- _]. apply find_concept_Some in Ef as [Hin _].
  apply store_inv_snoc; auto. exact (store_inv_wf s src Hs Hin).
Qed.

Lemma delete_inv s id s' msg :
  store_inv s -> delete_concept s id = Ok (s', msg) -> store_inv s'.
Proof.
  intros Hs. unfold delete_concept.
  destruct (find_concept s id) as [c|] eqn:Ef; [|discriminate].
  destruct (c_is_system_default c); [discriminate|].
  intros [= <- _]. apply find_concept_Some in Ef as [Hin _].
  apply store_inv_replace; auto. exact (store_inv_wf s c Hs Hin).
Qed.

Lemma step_inv s s' : store_inv s -> step s s' -> store_inv s'.
Proof.
  intros Hs Hst. inversion Hst as [? r ? Hf Er | ? r e Er]; subst; [|exact Hs].
  destruct r; simpl in Er, Hf; res_inv Er; injection Er as <-;
    destruct a; simpl in *;
    eauto using create_inv, update_inv, clone_inv, delete_inv.
Qed.

(** C3: every store reachable from a store whose concepts all have
    weights summing to within [0.95, 1.05] and unique ids, by any sequence
    of create, update, clone and delete requests (successful or not), has
    the same property. *)
Theorem reachable_store_inv (s0 s : Store) :
  store_inv s0 -> reachable s0 s -> store_inv s.
Proof. intros H0 Hr. induction Hr; eauto using step_inv. Qed.

Lemma reachable_store_inv_witness :
  exists s1, run_route demo_store (RCreate (demo_create balanced_weights) "id1") = Ok s1 /\ store_inv s1.
Proof.
  eexists; split; [reflexivity|].
  apply (reachable_store_inv demo_store).
  - split; constructor.
  - eapply reach_step; [apply reach_init|].
    apply (step_ok _ (RCreate (demo_create balanced_weights) "id1")); [cbn; tauto | reflexivity].
Defined.

Lemma find_replace_self s c id :
  c_id c = id -> find_concept s id <> None -> find_concept (replace_concept s c) id = Some c.
Proof.
  intros <-. unfold find_concept, replace_concept. simpl.
  induction (concepts s) as [|c' l IH]; simpl; [congruence|].
  destruct (String.eqb_spec (c_id c') (c_id c)) as [E|E]; simpl.
  - now rewrite String.eqb_refl.
  - destruct (String.eqb_spec (c_id c') (c_id c)); [contradiction | exact IH].
Qed.

(** The row a route writes back, when it writes one. *)
Lemma replace_route_keeps_default s c0 c' id c :
  find_concept s (c_id c0) = Some c0 -> c_is_system_default c0 = false -> c_id c' = c_id c0 ->
  find_concept s id = Some c -> c_is_system_default c = true ->
  find_concept (replace_concept s c') id = Some c.
Proof.
  intros E0 Hd0 Hid E Hd. rewrite find_replace_other; [exact E|].
  intros Heq. rewrite Hid in Heq. subst id. congruence.
Qed.

Lemma step_keeps_default s s' id c :
  step s s' -> find_concept s id = Some c -> c_is_system_default c = true ->
  find_concept s' id = Some c.
Proof.
  intros Hst E Hd. inversion Hst as [? r ? Hf Er | ? r e Er]; subst; [|exact E].
  destruct r as [d nid | cid u | cid n cust nid | cid]; simpl in Er; res_inv Er;
    injection Er as <-; destruct a as [s1 c1]; simpl.
  - revert E0. unfold create_concept.
    destruct (concept_create_valid d), (customer_exists s (cc_customer_id d)),
      (weights_in_tolerance (cc_weights d)); simpl; try discriminate.
    intros [= <- _]. rewrite find_concept_app; congruence.
  - revert E0. unfold update_concept. destruct (concept_update_valid u); [|discriminate].
    destruct (find_concept s cid) as [c0|] eqn:Ef; [|discriminate]. simpl.
    destruct (c_is_system_default c0) eqn:Hd0; [discriminate|].
    pose proof (proj2 (find_concept_Some _ _ _ Ef)) as Hid0.
    rewrite <- Hid0 in Ef.
    destruct (cu_weights u) as [| |w]; [| | destruct (weights_in_tolerance w); [|discriminate]];
      simpl; destruct (apply_update u c0) as [c'|] eqn:Ea; try discriminate; simpl;
      intros [= <- _]; eapply replace_route_keeps_default; eauto;
      apply (apply_update_spec _ _ _ Ea).
  - revert E0. unfold clone_concept.
    destruct (find_concept s cid); [|discriminate].
    destruct (customer_exists s cust); [|discriminate]. simpl.
    intros [= <- _]. rewrite find_concept_app; congruence.
  - revert E0. unfold delete_concept.
    destruct (find_concept s cid) as [c0|] eqn:Ef; [|discriminate].
    destruct (c_is_system_default c0) eqn:Hd0; [discriminate|].
    pose proof (proj2 (find_concept_Some _ _ _ Ef)) as Hid0. rewrite <- Hid0 in Ef.
    intros [= <- _]. eapply replace_route_keeps_default; eauto.
Qed.

(** C8: a system-default concept is never modified: in every store
    reachable by the routes it is still found, identical. *)
Theorem system_default_immutable (s0 s : Store) (id : string) (c : Concept) :
  find_concept s0 id = Some c -> c_is_system_default c = true ->
  reachable s0 s -> find_concept s id = Some c.
Proof. intros E Hd Hr. induction Hr; eauto using step_keeps_default. Qed.

Lemma system_default_immutable_witness :
  exists s2, update_concept sys_store "sys1" collapse_income_range =
      Raise (HTTPException 403 "Cannot modify system default concepts. Clone it first.") /\
    run_route sys_store (RCreate (demo_create balanced_weights) "id1") = Ok s2 /\
    find_concept s2 "sys1" = Some sys_concept.
Proof.
  eexists; split; [reflexivity|]. split; [reflexivity|].
  apply (system_default_immutable sys_store); [reflexivity | reflexivity|].
  eapply reach_step; [eapply reach_step; [apply reach_init|]|].
  - apply (step_err _ (RUpdate "sys1" collapse_income_range)
             (HTTPException 403 "Cannot modify system default concepts. Clone it first.")).
    reflexivity.
  - apply (step_ok _ (RCreate (demo_create balanced_weights) "id1")); [cbn; intuition discriminate | reflexivity].
Defined.

(** Deletion is soft: after a successful delete the concept is still
    returned by [get_concept], deactivated, with its parameters unchanged,
    and the table has as many rows as before. *)
Theorem delete_is_soft (s s' : Store) (id msg : string) :
  delete_concept s id = Ok (s', msg) ->
  exists c c', find_concept s id = Some c /\ get_concept s' id = Ok c' /\
    c_is_active c' = Some false /\ c_id c' = c_id c /\ c_weights c' = c_weights c /\
    c_base_revenue_eur c' = c_base_revenue_eur c /\
    List.length (concepts s') = List.length (concepts s).
Proof.
  unfold delete_concept, get_concept.
  destruct (find_concept s id) as [c|] eqn:Ef; [|discriminate].
  destruct (c_is_system_default c); [discriminate|].
  intros [= <- _]. pose proof (proj2 (find_concept_Some _ _ _ Ef)) as Hid.
  do 2 eexists. split; [reflexivity|].
  rewrite find_replace_self by (simpl; congruence). simpl.
  repeat split. apply length_map.
Qed.

Lemma delete_is_soft_witness :
  exists s1 c1 s2 msg, create_concept demo_store (demo_create balanced_weights) "id1" = Ok (s1, c1) /\
    delete_concept s1 "id1" = Ok (s2, msg) /\
    exists c c', find_concept s1 "id1" = Some c /\ get_concept s2 "id1" = Ok c' /\
      c_is_active c' = Some false /\ c_id c' = c_id c /\ c_weights c' = c_weights c /\
      c_base_revenue_eur c' = c_base_revenue_eur c /\
      List.length (concepts s2) = List.length (concepts s1).
Proof.
  do 4 eexists. split; [reflexivity|]. split; [reflexivity|].
  eapply delete_is_soft. reflexivity.
Defined.

Lemma weights_in_tolerance_iff w :
  weights_in_tolerance w = true <-> 95 # 100 <= weights_sum w <= 105 # 100.
Proof.
  unfold weights_in_tolerance. rewrite andb_true_iff. unfold Qleb.
  now rewrite !Qle_bool_iff.
Qed.

(** The weight check of create_concept at the spec's points: weights
    summing to 0.80 or to 1.20 are rejected with 400, weights summing to
    0.97 are accepted (on a request that passes the field validators, for
    an existing customer). *)
Theorem create_weights_validation (s : Store) (d : ConceptCreate) (id : string) :
  concept_create_valid d = true -> customer_exists s (cc_customer_id d) = true ->
  ((weights_sum (cc_weights d) == 8 # 10 \/ weights_sum (cc_weights d) == 12 # 10) ->
     create_concept s d id = Raise weights_error) /\
  (weights_sum (cc_weights d) == 97 # 100 ->
     exists s' c, create_concept s d id = Ok (s', c)).
Proof.
  intros Hv Hc. unfold create_concept. rewrite Hv, Hc. cbn [negb].
  destruct (weights_in_tolerance (cc_weights d)) eqn:E; cbn [negb].
  - apply weights_in_tolerance_iff in E. split; [intros Hs; exfalso; lra | eauto].
  - apply Bool.not_true_iff_false in E. rewrite weights_in_tolerance_iff in E.
    split; [reflexivity | intros Hs; exfalso; apply E; lra].
Qed.

Lemma create_weights_validation_witness :
  create_concept demo_store (demo_create weights_080) "id1" = Raise weights_error /\
  create_concept demo_store (demo_create weights_120) "id1" = Raise weights_error /\
  exists s' c, create_concept demo_store (demo_create weights_097) "id1" = Ok (s', c).
Proof.
  split; [|split].
  - apply (proj1 (create_weights_validation demo_store (demo_create weights_080) "id1" eq_refl eq_refl)).
    left. qeval.
  - apply (proj1 (create_weights_validation demo_store (demo_create weights_120) "id1" eq_refl eq_refl)).
    right. qeval.
  - apply (proj2 (create_weights_validation demo_store (demo_create weights_097) "id1" eq_refl eq_refl)).
    qeval.
Defined.

(** The tolerance the routes accept and the scorer's range disagree:
    a concept created with weights summing to 1.05 (accepted) scores a
    site where every factor is 100 at 105, above the 0-100 range the spec
    promises. *)
Theorem accepted_weights_score_above_100 :
  exists s' c r,
    create_concept demo_store (demo_create heavy_weights) "id1" = Ok (s', c) /\
    ScoringEngine.calculate_score (Some (concepts s')) [] ideal_features "QSR" (Some "id1"%string) = Ok r /\
    100 < ScoringEngine.score r.
Proof. do 3 eexists. split; [reflexivity|]. split; [vm_compute; reflexivity | qeval]. Qed.

(** After the write-back of [c'] over the rows of its id, the first active
    row with that id is [c'], if [c'] is active. *)
Lemma find_replace_active (l : list Concept) (id : string) (c' : Concept) :
  c_id c' = id -> sql_true (c_is_active c') = true ->
  find (fun x => String.eqb (c_id x) id) l <> None ->
  find (fun x => String.eqb (c_id x) id && sql_true (c_is_active x))
    (map (fun x => if String.eqb (c_id x) id then c' else x) l) = Some c'.
Proof.
  intros Hid Ha. induction l as [|x l IH]; simpl; [congruence|].
  destruct (String.eqb_spec (c_id x) id) as [E|E]; simpl.
  - rewrite Hid, String.eqb_refl, Ha. reflexivity.
  - destruct (String.eqb_spec (c_id x) id); [contradiction | exact IH].
Qed.

(** An empty income range [v, v] divides by zero at the income [v]. *)
Lemma income_collapsed_raises (t : Q) : ScoringEngine.calculate_income_score (PyNum t) t t = Raise ZeroDivisionError.
Proof.
  unfold ScoringEngine.calculate_income_score; cbn [num bind]. unfold Qltb, Qgtb.
  rewrite (proj2 (Qle_bool_iff t t) (Qle_refl t)). cbn [negb].
  rewrite py_div_zero; [reflexivity|]. rewrite Qdiv_2. ring.
Qed.

Lemma population_score_ok (d opt : Q) : exists r, ScoringEngine.calculate_population_score (PyNum d) opt = Ok r.
Proof.
  unfold ScoringEngine.calculate_population_score; cbn [num bind]. unfold Qgeb, Qleb.
  destruct (Qle_bool_spec opt d); [eexists; reflexivity|]. destruct (Qle_bool_spec d 0); [eexists; reflexivity|].
  rewrite py_div_ok by (apply Qnonzero_of_lt; lra). eexists; reflexivity.
Qed.

(** C24: the PATCH endpoint validates neither positivity nor the order of
    the income range: for any store, any active customer concept (not a
    system default) and any value [v], the PATCH setting both income bounds
    to [v] is accepted, and afterwards scoring that concept on features
    with a numeric (or absent) density and a median income of [v] raises
    [ZeroDivisionError]. *)
Theorem update_collapsed_range_breaks_scoring s id c v yaml features concept :
  find_concept s id = Some c -> c_is_system_default c = false -> sql_true (c_is_active c) = true ->
  id <> ""%string -> population_density features <> PyNone -> median_income features = PyNum (inject_Z v) ->
  exists s' c',
    update_concept s id (collapse_to v) = Ok (s', c') /\
    c_target_income_min c' = v /\ c_target_income_max c' = v /\
    ScoringEngine.calculate_score (Some (concepts s')) yaml features concept (Some id) = Raise ZeroDivisionError.
Proof.
  intros Hf Hsys Ha Hid Hd Hm. destruct (find_concept_Some _ _ _ Hf) as [_ Hcid].
  unfold update_concept. cbn [concept_update_valid collapse_to cu_weights negb]. rewrite Hf, Hsys.
  cbn [apply_update collapse_to cu_name cu_base_revenue_eur cu_target_income_min cu_target_income_max
       cu_optimal_population_density cu_target_competitors_per_1k cu_weights set_not_null bind].
  eexists _, _. split; [reflexivity|]. split; [reflexivity|]. split; [reflexivity|].
  unfold ScoringEngine.calculate_score, ScoringEngine.get_concept_config, replace_concept, ScoringEngine.first_where.
  cbn [concepts c_id c_is_active]. rewrite Hcid.
  assert (Ht : ScoringEngine.truthy (Some id) = true) by (cbn; now rewrite (proj2 (String.eqb_neq id "") Hid)).
  rewrite Ht, find_replace_active; cbn [c_id c_is_active set_nullable cu_is_active collapse_to];
    [| first [reflexivity | exact Hcid] | exact Ha |].
  2:{ unfold find_concept in Hf. rewrite Hf. discriminate. }
  cbn [fst snd db_concept_to_config cfg_optimal_population_density
       cfg_target_income_min cfg_target_income_max c_optimal_population_density
       c_target_income_min c_target_income_max].
  destruct (population_density features) as [| |d] eqn:Ed; [|contradiction|];
    cbn [get_default];
    [destruct (population_score_ok 0 (inject_Z (c_optimal_population_density c))) as [r ->]
    |destruct (population_score_ok d (inject_Z (c_optimal_population_density c))) as [r ->]];
    cbn [bind]; rewrite Hm; cbn [get_default]; now rewrite income_collapsed_raises.
Qed.

Lemma update_collapsed_range_breaks_scoring_witness :
  exists c, find_concept demo_store1 "id1" = Some c /\
    (c_is_system_default c = false /\ sql_true (c_is_active c) = true /\ "id1"%string <> ""%string /\
     population_density income_at_floor <> PyNone /\ median_income income_at_floor = PyNum (inject_Z 30000) /\
     exists s' c',
       update_concept demo_store1 "id1" (collapse_to 30000) = Ok (s', c') /\
       c_target_income_min c' = 30000%Z /\ c_target_income_max c' = 30000%Z /\
       ScoringEngine.calculate_score (Some (concepts s')) [] income_at_floor "QSR" (Some "id1"%string)
         = Raise ZeroDivisionError).
Proof.
  exists_some. do 2 (split; [reflexivity|]). split; [discriminate|]. split; [discriminate|]. split; [reflexivity|].
  assert (H3 : "id1"%string <> ""%string) by discriminate.
  assert (H4 : population_density income_at_floor <> PyNone) by discriminate.
  exact (update_collapsed_range_breaks_scoring _ _ _ _ [] _ "QSR" Hsome eq_refl eq_refl H3 H4 eq_refl).
Defined.

(** Clone_concept copies the source's scoring parameters into a new,
    active, customer-owned concept whose learning history starts empty,
    and leaves the source row untouched. *)
Theorem clone_copies_parameters (s s' : Store) (id n cust new_id : string) (c : Concept) :
  clone_concept s id n cust new_id = Ok (s', c) ->
  exists src, find_concept s id = Some src /\
    concepts s' = concepts s ++ [c] /\
    c_id c = new_id /\ c_is_system_default c = false /\ c_is_active c = Some true /\
    c_weights c = c_weights src /\ c_base_revenue_eur c = c_base_revenue_eur src /\
    c_revenue_variance c = c_revenue_variance src /\
    c_target_income_min c = c_target_income_min src /\
    c_target_income_max c = c_target_income_max src /\ c_outcomes_count c = 0%Z.
Proof.
  unfold clone_concept. destruct (find_concept s id) as [src|]; [|discriminate].
  destruct (customer_exists s cust); [|discriminate].
  intros [= <- <-]. exists src. repeat split.
Qed.

Lemma clone_copies_parameters_witness :
  exists s1 c1 s2 c, create_concept demo_store (demo_create balanced_weights) "id1" = Ok (s1, c1) /\
    clone_concept s1 "id1" "Burger QSR copy" "cust1" "id2" = Ok (s2, c) /\
    exists src, find_concept s1 "id1" = Some src /\
    concepts s2 = concepts s1 ++ [c] /\
    c_id c = "id2"%string /\ c_is_system_default c = false /\ c_is_active c = Some true /\
    c_weights c = c_weights src /\ c_base_revenue_eur c = c_base_revenue_eur src /\
    c_revenue_variance c = c_revenue_variance src /\
    c_target_income_min c = c_target_income_min src /\
    c_target_income_max c = c_target_income_max src /\ c_outcomes_count c = 0%Z.
Proof.
  do 4 eexists. split; [reflexivity|]. split; [reflexivity|].
  apply (clone_copies_parameters _ _ "id1" "Burger QSR copy" "cust1" "id2"). reflexivity.
Defined.

End ConceptStore.
