(* ===== verification/Statistics.v ===== *)
(** * Statistics: the parts of Python's [statistics] module and builtins the
    learner uses

    [sorted] on floats (an insertion sort, which is stable like
    Python's), [statistics.median] (the middle element, or the mean of the
    two middle elements), [statistics.mean] (exact: Python sums floats as
    fractions), and [x ** 0.5] as the operation of the class [SqrtOp]:
    the theorems hold for any square root that is non-negative, positive
    on positive numbers and zero at zero, and [sqrt_approx] is an executable instance (the
    square root truncated to six decimals) for the witnesses. *)

From S2P Require Import Prelude.
From Stdlib Require Import Sorted Permutation.

Fixpoint insert_sorted (x : Q) (l : list Q) : list Q :=
  match l with
  | [] => [x]
  | y :: l' => if Qltb x y then x :: y :: l' else y :: insert_sorted x l'
  end.

(** [sorted(data)] *)
Fixpoint sorted (l : list Q) : list Q :=
  match l with
  | [] => []
  | x :: l' => insert_sorted x (sorted l')
  end.

(** [sum(data)].  Each partial sum is kept in lowest terms ([Qred] does
    not change its value), so that evaluating the learner's correlations
    on twenty outcomes stays small. *)
Definition sum (l : list Q) : Q := fold_right (fun x acc => Qred (x + acc)) 0 l.

(** [statistics.mean] *)
Definition mean (l : list Q) : res Q :=
  match l with
  | [] => Raise StatisticsError
  | _ => Ok (sum l / inject_Z (Z.of_nat (List.length l)))
  end.

(** [statistics.median] *)
Definition median (l : list Q) : res Q :=
  let data := sorted l in
  let n := List.length data in
  if Nat.eqb n 0 then Raise StatisticsError
  else if Nat.odd n then Ok (nth (n / 2) data 0)
  else let i := (n / 2)%nat in Ok ((nth (i - 1) data 0 + nth i data 0) / 2).

Class SqrtOp := {
  sqrt_op : Q -> Q;
  sqrt_op_nonneg : forall q, 0 <= sqrt_op q;
  sqrt_op_pos : forall q, 0 < q -> 0 < sqrt_op q;
  sqrt_op_zero : forall q, q == 0 -> sqrt_op q == 0
}.

(** The square root of [q] truncated to six decimals. *)
Definition sqrt_approx (q : Q) : Q :=
  Z.sqrt (Qnum q * Zpos (Qden q) * 10 ^ 12) # (Qden q * 1000000).

Lemma sqrt_approx_nonneg q : 0 <= sqrt_approx q.
Proof.
  unfold sqrt_approx, Qle. simpl. rewrite Z.mul_1_r.
  apply Z.sqrt_nonneg.
Qed.

Lemma sqrt_approx_pos q : 0 < q -> 0 < sqrt_approx q.
Proof.
  unfold sqrt_approx, Qlt. simpl. rewrite !Z.mul_1_r. intros Hq.
  apply Z.sqrt_pos. nia.
Qed.

Lemma sqrt_approx_zero q : q == 0 -> sqrt_approx q == 0.
Proof.
  unfold sqrt_approx, Qeq. simpl. rewrite Z.mul_1_r. intros ->. reflexivity.
Qed.

#[export] Instance sqrt_approx_op : SqrtOp :=
  {| sqrt_op := sqrt_approx; sqrt_op_nonneg := sqrt_approx_nonneg;
     sqrt_op_pos := sqrt_approx_pos; sqrt_op_zero := sqrt_approx_zero |}.

(** ** Facts about the statistics *)

Lemma insert_sorted_perm x l : Permutation (x :: l) (insert_sorted x l).
Proof.
  induction l as [|y l IH]; simpl; [reflexivity|].
  destruct (Qltb x y); [reflexivity|].
  etransitivity; [apply perm_swap|]. now constructor.
Qed.

Lemma sorted_perm l : Permutation l (sorted l).
Proof.
  induction l as [|x l IH]; simpl; [reflexivity|].
  etransitivity; [apply perm_skip, IH | apply insert_sorted_perm].
Qed.

Lemma Forall_sorted (P : Q -> Prop) l : Forall P l -> Forall P (sorted l).
Proof.
  rewrite !Forall_forall. intros H x Hx.
  apply H. eapply Permutation_in; [symmetry; apply sorted_perm | exact Hx].
Qed.

Lemma length_sorted l : List.length (sorted l) = List.length l.
Proof. symmetry. apply Permutation_length, sorted_perm. Qed.

Lemma Forall_nth (P : Q -> Prop) l i d : Forall P l -> (i < List.length l)%nat -> P (nth i l d).
Proof. rewrite Forall_forall. intros H Hi. apply H, nth_In, Hi. Qed.

(** The median of values in [[a, b]] is in [[a, b]]. *)
Lemma median_bounds l a b m :
  Forall (fun x => a <= x <= b) l -> median l = Ok m -> a <= m <= b.
Proof.
  intros H. unfold median. rewrite length_sorted.
  pose proof (Forall_sorted _ _ H) as Hs.
  pose proof (length_sorted l) as Hl.
  destruct (Nat.eqb_spec (List.length l) 0) as [E|E]; [discriminate|].
  assert (Hlt : (List.length l / 2 < List.length l)%nat) by (apply Nat.div_lt; lia).
  set (h := (List.length l / 2)%nat) in *. clearbody h.
  destruct (Nat.odd (List.length l)).
  - intros [= <-]. apply (Forall_nth _ _ _ _ Hs). lia.
  - intros [= <-].
    pose proof (Forall_nth _ _ (h - 1) 0 Hs ltac:(lia)).
    pose proof (Forall_nth _ _ h 0 Hs ltac:(lia)).
    cbv beta in *. rewrite Qdiv_2. lra.
Qed.

Lemma sum_nonneg l : Forall (fun x => 0 <= x) l -> 0 <= sum l.
Proof. unfold sum. induction 1; cbn [fold_right]; [lra|]. rewrite Qred_correct. lra. Qed.

Lemma mean_nonneg l m : Forall (fun x => 0 <= x) l -> mean l = Ok m -> 0 <= m.
Proof.
  intros H. unfold mean. destruct l as [|x l']; [discriminate|].
  intros [= <-]. apply Qdiv_nonneg; [exact (sum_nonneg _ H)|].
  unfold Qlt. simpl. lia.
Qed.
