(* ===== verification/TrustMetrics.v ===== *)
(** * TrustMetrics: src/backend/services/trust_metrics.py

    [calculate_coverage] counts, per category, the keys of the feature
    dictionary that are present and not [None], and builds the pydantic
    model [DataCoverage] (fields constrained to [[0, 1]], so construction
    can raise a validation error).  [calculate_confidence] combines the
    coverage with the spread of the component scores and the fraction of
    a fixed list of feature keys found in the dictionary it is given.
    main.py calls it with the scorer's [score_components], whose keys are
    the five factor names: the feature keys are never found there, so the
    completeness term is always zero ([trust_confidence_capped]).

    The component-score dictionary is an association list of factor names
    and floats; [std_dev] is the square root of the class [SqrtOp]. *)

From S2P Require Import Prelude Concept Scoring Statistics.
Local Open Scope string_scope.

Module TrustMetrics.

(** [DataCoverage] of src/backend/models/schemas.py. *)
Record DataCoverage := mkCoverage {
  cov_demographics : Q;
  cov_competition : Q;
  cov_transit : Q;
  cov_overall : Q
}.

Definition in_unit (q : Q) : bool := Qleb 0 q && Qleb q 1.

(** [DataCoverage(...)]: every field is declared with [ge=0, le=1]. *)
Definition DataCoverage_new (demographics competition transit overall : Q) : res DataCoverage :=
  if in_unit demographics && in_unit competition && in_unit transit && in_unit overall
  then Ok (mkCoverage demographics competition transit overall)
  else Raise ValidationError.

(** [sum(1 for f in fields if features.get(f) is not None) / len(fields)] *)
Definition present_fraction (values : list pyval) : Q :=
  inject_Z (Z.of_nat (List.length (filter is_not_none values))) / inject_Z (Z.of_nat (List.length values)).

Definition calculate_coverage (features : Features) : res DataCoverage :=
  let demographics := present_fraction
    [population_1km features; population_density features; median_income features] in
  let competition := present_fraction
    [competitors_count features; competitors_per_1k_residents features] in
  let transit := present_fraction
    [nearest_metro_distance_m features; nearest_tram_distance_m features; walkability_poi_count features] in
  let overall := demographics * (4 # 10) + competition * (3 # 10) + transit * (3 # 10) in
  DataCoverage_new (py_round demographics 2) (py_round competition 2) (py_round transit 2)
    (py_round overall 2).

(** A dictionary from names to floats, and [d.get(k)]. *)
Fixpoint dict_get (d : list (string * Q)) (k : string) : option Q :=
  match d with
  | [] => None
  | (k', v) :: d' => if String.eqb k k' then Some v else dict_get d' k
  end.

(** [d.get(k, dflt)] *)
Definition get_or (d : list (string * Q)) (k : string) (dflt : Q) : Q :=
  match dict_get d k with Some v => v | None => dflt end.

Definition required_features : list string :=
  ["population_1km"; "median_income"; "competitors_count"; "nearest_metro_distance_m";
   "walkability_poi_count"].

Section WithSqrt.
Context `{SqrtOp}.

Definition calculate_confidence (score_components : list (string * Q)) (coverage : DataCoverage) : Q :=
  let coverage_score := cov_overall coverage * (4 # 10) in
  let scores := [get_or score_components "population" 50; get_or score_components "income" 50;
                 get_or score_components "access" 50; get_or score_components "competition" 50] in
  let avg_score := sum scores / inject_Z (Z.of_nat (List.length scores)) in
  let variance := sum (map (fun s => (s - avg_score) * (s - avg_score)) scores)
                  / inject_Z (Z.of_nat (List.length scores)) in
  let std_dev := sqrt_op variance in
  let consistency := py_max 0 (1 - std_dev / 50) in
  let consistency_score := consistency * (3 # 10) in
  let features_present :=
    List.length (filter (fun f => match dict_get score_components f with Some _ => true | None => false end)
                   required_features) in
  let completeness := inject_Z (Z.of_nat features_present) / inject_Z (Z.of_nat (List.length required_features)) in
  let completeness_score := completeness * (3 # 10) in
  let confidence := coverage_score + consistency_score + completeness_score in
  py_round (py_min confidence 1) 2.

(** The [score_components] dictionary of the scorer's result
    (scorer.py, ScoringEngine.calculate_score). *)
Definition score_components_dict (c : ScoringEngine.ScoreComponents) : list (string * Q) :=
  [("population", ScoringEngine.sc_population c); ("income", ScoringEngine.sc_income c);
   ("access", ScoringEngine.sc_access c); ("competition", ScoringEngine.sc_competition c);
   ("walkability", ScoringEngine.sc_walkability c)].

(** The scoring step of main.py's area endpoints: the scorer's result, the
    coverage of the features, and the trust confidence computed from the
    scorer's component scores. *)
Definition score_with_trust (db : option (list Concept)) (yaml : list (string * ConceptConfig))
    (features : Features) (concept : string)
    : res (ScoringEngine.ScoreResult * DataCoverage * Q) :=
  score_result <- ScoringEngine.calculate_score db yaml features concept None ;;
  coverage <- calculate_coverage features ;;
  Ok (score_result, coverage,
      calculate_confidence (score_components_dict (ScoringEngine.score_components score_result)) coverage).

End WithSqrt.

(** Every feature present, at values where the four averaged component
    scores are all 100 under [ScoringEngine.sample_config]. *)
Definition complete_features : Features :=
  mkFeatures (PyNum 20000) (PyNum 9000) (PyNum 45000) (PyNum 9) (PyNum 1)
    (PyNum 150) (PyNum 80) (PyNum 120).

Lemma in_unit_true q : 0 <= q <= 1 -> in_unit q = true.
Proof. intros [H0 H1]. unfold in_unit, Qleb. now rewrite !(proj2 (Qle_bool_iff _ _)). Qed.

Lemma present_fraction_range l : (0 < List.length l)%nat -> 0 <= present_fraction l <= 1.
Proof.
  intros Hl. unfold present_fraction. pose proof (filter_length_le is_not_none l).
  assert (Hpos : 0 < inject_Z (Z.of_nat (List.length l)))
    by (change 0 with (inject_Z 0); rewrite <- Zlt_Qlt; lia).
  split; [apply Qdiv_nonneg; [change 0 with (inject_Z 0); rewrite <- Zle_Qle; lia | exact Hpos]
         | apply Qdiv_le_one; [exact Hpos | rewrite <- Zle_Qle; lia]].
Qed.

(** [calculate_coverage] never fails the [DataCoverage] validation:
    each category's coverage and the weighted overall coverage lie in
    [[0, 1]]. *)
Theorem coverage_valid (f : Features) :
  exists cov, calculate_coverage f = Ok cov /\
    0 <= cov_demographics cov <= 1 /\ 0 <= cov_competition cov <= 1 /\
    0 <= cov_transit cov <= 1 /\ 0 <= cov_overall cov <= 1.
Proof.
  unfold calculate_coverage.
  match goal with |- context [present_fraction ?a * (4 # 10) + present_fraction ?b * (3 # 10)
                              + present_fraction ?c * (3 # 10)] =>
    pose proof (present_fraction_range a ltac:(simpl; lia));
    pose proof (present_fraction_range b ltac:(simpl; lia));
    pose proof (present_fraction_range c ltac:(simpl; lia));
    pose proof (py_round2_range (present_fraction a * (4 # 10) + present_fraction b * (3 # 10)
                                 + present_fraction c * (3 # 10)) ltac:(lra));
    pose proof (py_round2_range (present_fraction a) ltac:(lra));
    pose proof (py_round2_range (present_fraction b) ltac:(lra));
    pose proof (py_round2_range (present_fraction c) ltac:(lra))
  end.
  unfold DataCoverage_new. rewrite !in_unit_true by assumption.
  eexists; split; [reflexivity | cbn; auto].
Qed.

Lemma DataCoverage_new_Ok a b c d cov :
  DataCoverage_new a b c d = Ok cov ->
  0 <= cov_demographics cov <= 1 /\ 0 <= cov_competition cov <= 1 /\
  0 <= cov_transit cov <= 1 /\ 0 <= cov_overall cov <= 1.
Proof.
  unfold DataCoverage_new, in_unit. repeat (qcase; try discriminate).
  intros [= <-]. cbn. repeat split; assumption.
Qed.

Section Confidence.
Context `{SqrtOp}.

(** The trust confidence is the rounding of [min(c, 1)] where [c] is the
    weighted coverage, a consistency in [[0, 1]] and the completeness. *)
Lemma calculate_confidence_parts sc cov :
  exists consistency,
    0 <= consistency <= 1 /\
    calculate_confidence sc cov =
      py_round (py_min (cov_overall cov * (4 # 10) + consistency * (3 # 10) +
        inject_Z (Z.of_nat (List.length (filter (fun f => match dict_get sc f with Some _ => true | None => false end)
                                           required_features))) / 5 * (3 # 10)) 1) 2.
Proof.
  unfold calculate_confidence. cbv zeta.
  match goal with |- context [py_max 0 (1 - sqrt_op ?v / 50)] =>
    exists (py_max 0 (1 - sqrt_op v / 50));
    assert (0 <= sqrt_op v / 50) by (apply Qdiv_nonneg; [apply sqrt_op_nonneg | reflexivity])
  end.
  split; [split; [apply py_max_ge_l | apply py_max_lub; lra] | reflexivity].
Qed.

Lemma completeness_nonneg (n : nat) : 0 <= inject_Z (Z.of_nat n) / 5.
Proof. apply Qdiv_nonneg; [change 0 with (inject_Z 0); rewrite <- Zle_Qle; lia | reflexivity]. Qed.

Lemma completeness_le_one (n : nat) : (n <= 5)%nat -> inject_Z (Z.of_nat n) / 5 <= 1.
Proof. intros Hn. apply Qdiv_le_one; [reflexivity | change 5 with (inject_Z 5); rewrite <- Zle_Qle; lia]. Qed.

(** The scorer's component dictionary has none of the feature keys the
    completeness term looks for. *)
Lemma scorer_components_no_features c :
  filter (fun f => match dict_get (score_components_dict c) f with Some _ => true | None => false end)
    required_features = [].
Proof. reflexivity. Qed.

Lemma scorer_confidence_le c cov :
  cov_overall cov <= 1 -> calculate_confidence (score_components_dict c) cov <= 7 # 10.
Proof.
  intros Hc. destruct (calculate_confidence_parts (score_components_dict c) cov) as (k & Hk & ->).
  rewrite scorer_components_no_features. cbn [List.length Z.of_nat].
  apply Qle_trans with (py_round (7 # 10) 2); [|now vm_compute].
  apply py_round_mono. eapply Qle_trans; [apply py_min_le_l|].
  assert (0 / 5 * (3 # 10) == 0) as -> by reflexivity. nra.
Qed.

Lemma confidence_nonneg sc cov : 0 <= cov_overall cov -> 0 <= calculate_confidence sc cov.
Proof.
  intros Hc. destruct (calculate_confidence_parts sc cov) as (k & Hk & ->).
  match goal with |- context [inject_Z (Z.of_nat ?n) / 5] => pose proof (completeness_nonneg n) end.
  apply py_round2_range. split; [apply py_min_glb; lra | apply py_min_le_r].
Qed.

(** The trust confidence of any component dictionary and any
    coverage with a non-negative overall value lies in [[0, 1]]. *)
Theorem trust_confidence_range sc cov :
  0 <= cov_overall cov -> 0 <= calculate_confidence sc cov <= 1.
Proof.
  intros Hc. destruct (calculate_confidence_parts sc cov) as (k & Hk & ->).
  match goal with |- context [inject_Z (Z.of_nat ?n) / 5] => pose proof (completeness_nonneg n) end.
  apply py_round2_range. split; [apply py_min_glb; lra | apply py_min_le_r].
Qed.

(** C22: the confidence main.py reports next to a score never exceeds
    0.7: it is computed from the scorer's [score_components], whose keys
    are factor names, so none of the five feature keys of the
    completeness term is found and that 30% share is always zero. *)
Theorem score_with_trust_capped db yaml f concept r cov conf :
  score_with_trust db yaml f concept = Ok (r, cov, conf) -> 0 <= conf <= 7 # 10.
Proof.
  unfold score_with_trust. intros E. res_inv E. injection E as <- <- <-.
  match goal with Ec : calculate_coverage f = Ok _ |- _ =>
    destruct (DataCoverage_new_Ok _ _ _ _ _ Ec) as (_ & _ & _ & Hc) end.
  split; [apply confidence_nonneg; lra | apply scorer_confidence_le; lra].
Qed.

End Confidence.

(** The overall coverage is 1 exactly when the eight feature keys are
    all present and not [None]. *)
Theorem coverage_complete f cov :
  calculate_coverage f = Ok cov ->
  (cov_overall cov == 1 <->
   forallb is_not_none [population_1km f; population_density f; median_income f; competitors_count f;
                        competitors_per_1k_residents f; nearest_metro_distance_m f;
                        nearest_tram_distance_m f; walkability_poi_count f] = true).
Proof.
  unfold calculate_coverage, present_fraction. cbn [filter forallb List.length].
  repeat match goal with |- context [is_not_none ?v] => destruct (is_not_none v) end;
    vm_compute; intros E; injection E as <-; vm_compute; split; intros Hc; first [reflexivity | discriminate Hc].
Qed.

(** With every feature present and the four averaged component
    scores all 100 (perfect consistency), the overall coverage is 1 and
    the confidence main.py reports is still 0.7, where the documented
    formula ([0.4 coverage + 0.3 consistency + 0.3 completeness]) gives 1. *)
Theorem full_data_confidence_07 :
  match score_with_trust None ScoringEngine.sample_yaml complete_features "QSR" with
  | Ok (r, cov, conf) =>
      cov_overall cov == 1 /\
      ScoringEngine.sc_population (ScoringEngine.score_components r) == 100 /\
      ScoringEngine.sc_income (ScoringEngine.score_components r) == 100 /\
      ScoringEngine.sc_access (ScoringEngine.score_components r) == 100 /\
      ScoringEngine.sc_competition (ScoringEngine.score_components r) == 100 /\
      conf == 7 # 10
  | Raise _ => False
  end.
Proof. vm_compute. repeat split; reflexivity. Qed.

(** ** Witnesses *)

Lemma coverage_complete_witness :
  exists cov, calculate_coverage complete_features = Ok cov /\ cov_overall cov == 1.
Proof.
  destruct (calculate_coverage complete_features) as [cov|e] eqn:E.
  - exists cov. split; [reflexivity | apply (proj2 (coverage_complete _ _ E)); reflexivity].
  - vm_compute in E. discriminate E.
Defined.

Lemma trust_confidence_range_witness :
  0 <= cov_overall (mkCoverage 1 1 1 1) /\
  0 <= calculate_confidence (score_components_dict (ScoringEngine.mkComponents 100 100 100 100 55))
         (mkCoverage 1 1 1 1) <= 1.
Proof. split; [qeval | apply trust_confidence_range; qeval]. Defined.

Lemma score_with_trust_capped_witness :
  exists r cov conf, score_with_trust None ScoringEngine.sample_yaml complete_features "QSR" = Ok (r, cov, conf) /\
    0 <= conf <= 7 # 10.
Proof.
  destruct (score_with_trust None ScoringEngine.sample_yaml complete_features "QSR") as [[[r cov] conf]|e] eqn:E.
  - exists r, cov, conf. split; [reflexivity | exact (score_with_trust_capped _ _ _ _ _ _ _ E)].
  - vm_compute in E. discriminate E.
Defined.

End TrustMetrics.
