(* ===== verification/AddressGenerator.v ===== *)
(** * AddressGenerator: src/backend/services/address_generator.py

    The candidate pipeline of the recommendation job: a 3x3 grid of
    points around each top area, a reverse-geocoded (or synthetic)
    address per point, a score and a decision per point, then the greedy
    deduplication by distance, the sort by score and the ranking.

    The great-circle distance [_haversine_distance] uses trigonometry on
    floats; it is the Section variable [haversine_distance], and the
    lemmas that need a property of it take that property as a Section
    hypothesis: the great-circle distance is at least the meridian
    distance, [111000 * |lat1 - lat2|] metres (the Earth's radius of
    6,371,000 m times one degree in radians is 111,194.9 m).  The
    reverse-geocoding service is the variable [reverse_geocode_service]
    ([None] when it fails or returns no street), and Python's per-process
    string hash is the variable [py_hash]. *)

From S2P Require Import Prelude Sorting.
From Stdlib Require Import Sorted Permutation.
Local Open Scope string_scope.

Module AddressGenerator.

Inductive Decision := MAKE_OFFER | NEGOTIATE | PASS.

Definition Decision_eq_dec (a b : Decision) : {a = b} + {a <> b}.
Proof. decide equality. Defined.

(** The fields of a candidate dictionary the pipeline reads after scoring. *)
Record Candidate := mkCandidate {
  address : string;
  lat : Q;
  lng : Q;
  area_id : string;
  score : Q;
  revenue_min_eur : Z;
  revenue_max_eur : Z;
  confidence : Q;
  decision : Decision;
  rank : option nat
}.

(** [sorted(candidates, key=lambda x: x['score'], reverse=True)]: a stable
    sort by descending score; an element goes after every element whose
    score is at least its own. *)
Definition insert_desc (c : Candidate) (l : list Candidate) : list Candidate := insert_by score c l.

Definition sort_desc (l : list Candidate) : list Candidate := sort_by score l.

(** [_get_hardcoded_population]: the table of Helsinki areas. *)
Definition hardcoded_areas : list (Q * Q * Z) :=
  [(60170 # 1000, 24938 # 1000, 18000%Z); (60169 # 1000, 24945 # 1000, 16500%Z);
   (60163 # 1000, 24940 # 1000, 15200%Z); (60158 # 1000, 24933 # 1000, 14800%Z);
   (60180 # 1000, 24950 # 1000, 13500%Z); (60175 # 1000, 24965 # 1000, 12000%Z);
   (60195 # 1000, 24925 # 1000, 11500%Z); (60203 # 1000, 24962 # 1000, 10800%Z);
   (60220 # 1000, 24960 # 1000, 9500%Z); (60210 # 1000, 25080 # 1000, 8200%Z);
   (60225 # 1000, 25040 # 1000, 7500%Z); (60160 # 1000, 24880 # 1000, 8800%Z)].

(** The populations [_get_hardcoded_population] can return. *)
Definition table_populations : list Z := 8000%Z :: map (fun '(_, _, p) => p) hardcoded_areas.

(** [_get_helsinki_areas] of main.py: the id, name and centre of each area. *)
Definition helsinki_areas : list (string * string * Q * Q) :=
  [("kamppi", "Kamppi", 601699 # 10000, 249342 # 10000);
   ("kallio", "Kallio", 601847 # 10000, 249504 # 10000);
   ("pasila", "Pasila", 601989 # 10000, 249339 # 10000);
   ("toolo", "TÃ¶Ã¶lÃ¶", 601777 # 10000, 249157 # 10000);
   ("punavuori", "Punavuori", 601585 # 10000, 249398 # 10000);
   ("kruununhaka", "Kruununhaka", 601729 # 10000, 249560 # 10000);
   ("ullanlinna", "Ullanlinna", 601586 # 10000, 249519 # 10000);
   ("eira", "Eira", 601543 # 10000, 249374 # 10000)].

(** The grid offsets of [_generate_candidates_for_area]. *)
Definition offsets : list Q := [-3 # 1000; 0; 3 # 1000].

Definition grid_points (la ln : Q) : list (Q * Q) :=
  flat_map (fun dlat => map (fun dlng => (la + dlat, ln + dlng)) offsets) offsets.

(** [_get_competition_score] and [_get_transit_score] return placeholder
    data: competition score [max(100 - 0.9 * 33.3, 0)] with coverage 0.9;
    transit score [min(max(50 - 250/10, 0) + max(50 - 120/6, 0), 100)] with
    coverage 0.88. *)
Definition competition_score : Q := py_max (100 - (9 # 10) * (333 # 10)) 0.
Definition competition_coverage : Q := 9 # 10.
Definition transit_score : Q := py_min (py_max (50 - 250 / 10) 0 + py_max (50 - 120 / 6) 0) 100.
Definition transit_coverage : Q := 88 # 100.

(** [_get_population_score] for a population from the table. *)
Definition population_score (population : Z) : Q * Q :=
  if (0 <? population)%Z
  then (py_min (inject_Z population / 25000 * 100) 100, 1)
  else (50, 8 # 10).

(** The decision thresholds of [_score_candidate]. *)
Definition decide_site (s conf : Q) : Decision :=
  if Qgeb s 85 && Qgeb conf (80 # 100) then MAKE_OFFER
  else if Qgeb s 70 && Qgeb conf (65 # 100) then NEGOTIATE
  else PASS.

(** The weights dictionary of [_score_candidate]; the crime weight is
    stored but never used in the score. *)
Record RecWeights := mkRecWeights {
  rw_population : Q; rw_income_fit : Q; rw_transit_access : Q;
  rw_competition_inverse : Q; rw_traffic_access : Q; rw_crime_penalty_cap : Q
}.

Definition rec_weights (include_crime : bool) : RecWeights :=
  mkRecWeights (28 # 100) (22 # 100) (20 # 100) (15 # 100) (10 # 100)
    (if include_crime then 5 # 100 else 0).

(** What [_score_candidate] returns for a population score and coverage. *)
Record ScoreData := mkScoreData {
  sd_score : Q;
  sd_revenue_min : Z;
  sd_revenue_max : Z;
  sd_confidence : Q;
  sd_decision : Decision
}.

Definition score_from_population (pop : Q * Q) (include_crime : bool) : ScoreData :=
  let weights := rec_weights include_crime in
  let pop_score := fst pop in
  let income_score := 70 in
  let traffic_score := 60 in
  let s := pop_score * rw_population weights + competition_score * rw_competition_inverse weights +
           transit_score * rw_transit_access weights + income_score * rw_income_fit weights +
           traffic_score * rw_traffic_access weights in
  let base_revenue := 150000 in
  let revenue_min := py_int (base_revenue * (s / 100) * (65 # 100)) in
  let revenue_max := py_int (base_revenue * (s / 100) * (120 # 100)) in
  let conf := py_min ((1 # 2) + snd pop * (2 # 10) + competition_coverage * (2 # 10) +
                      transit_coverage * (1 # 10)) (95 # 100) in
  mkScoreData (py_round s 1) revenue_min revenue_max (py_round conf 2) (decide_site s conf).

(** [_generate_mock_address]: the street, house number and postal code
    derived from the coordinates ([int()] truncates, [%] is Python's
    modulo, non-negative for a positive divisor). *)
Definition streets : list string :=
  ["Mannerheimintie"; "Aleksanterinkatu"; "Esplanadi"; "Fredrikinkatu"; "Bulevardi";
   "Lönnrotinkatu"; "Annankatu"; "Unioninkatu"; "Kaivokatu"; "Mikonkatu";
   "Pohjoisesplanadi"; "Eteläesplanadi"].

Definition street_idx (la ln : Q) : Z := Z.modulo (py_int ((la + ln) * 1000)) (Z.of_nat (List.length streets)).
Definition house_num (la : Q) : Z := (Z.modulo (py_int (Qabs (la - (601 # 10)) * 1000)) 99 + 1)%Z.
Definition postal_num (ln : Q) : Z := (100 + Z.modulo (py_int (ln * 1000)) 890)%Z.

(** Decimal digits of a natural number ([str()] on a non-negative int). *)
Fixpoint digits_fuel (fuel : nat) (n : nat) (acc : string) : string :=
  match fuel with
  | O => acc
  | S fuel' =>
      let acc' := String (Ascii.ascii_of_nat (48 + n mod 10)) acc in
      if (n <? 10)%nat then acc' else digits_fuel fuel' (n / 10) acc'
  end.

Definition str_nat (n : nat) : string := digits_fuel (S n) n "".

Definition generate_mock_address (la ln : Q) : string :=
  let street := nth (Z.to_nat (street_idx la ln)) streets "" in
  let postal := "00" ++ str_nat (Z.to_nat (postal_num ln)) in
  street ++ " " ++ str_nat (Z.to_nat (house_num la)) ++ ", " ++ postal ++ " Helsinki".

(** ** Sample data for the witnesses *)

(** The meridian distance in metres, a lower bound of the great-circle
    distance. *)
Definition meridian_distance (lat1 lng1 lat2 lng2 : Q) : Q := 111000 * Qabs (lat1 - lat2).

Definition cand_at (la s : Q) : Candidate := mkCandidate "" la 0 "" s 0 0 1 PASS None.

Section WithServices.
Variable haversine_distance : Q -> Q -> Q -> Q -> Q.
Variable reverse_geocode_service : Q -> Q -> option string.
Variable py_hash : string -> Z.

(** One iteration of the loop of [_get_hardcoded_population]: the running
    minimum distance ([None] stands for [float('inf')]) and the population
    of the closest area so far. *)
Definition closest_step (la ln : Q) (acc : option Q * Z) (area : Q * Q * Z) : option Q * Z :=
  let '(a_lat, a_lng, a_pop) := area in
  let dist := haversine_distance la ln a_lat a_lng in
  match fst acc with
  | Some m => if Qltb dist m then (Some dist, a_pop) else acc
  | None => (Some dist, a_pop)
  end.

(** [_get_hardcoded_population]: the population of the closest table
    entry when it is within [2.0] of the point, 8000 otherwise. *)
Definition get_hardcoded_population (la ln : Q) : Z :=
  let '(min_dist, closest_pop) := fold_left (closest_step la ln) hardcoded_areas (None, 8000%Z) in
  match min_dist with
  | Some m => if Qltb m 2 then closest_pop else 8000%Z
  | None => 8000%Z
  end.

Definition score_candidate (la ln : Q) (include_crime : bool) : ScoreData :=
  score_from_population (population_score (get_hardcoded_population la ln)) include_crime.

(** [_reverse_geocode]: the service's address, or the synthetic one. *)
Definition reverse_geocode (la ln : Q) : string :=
  match reverse_geocode_service la ln with
  | Some a => a
  | None => generate_mock_address la ln
  end.

Definition make_candidate (aid : string) (p : Q * Q) (include_crime : bool) : Candidate :=
  let sd := score_candidate (fst p) (snd p) include_crime in
  mkCandidate (reverse_geocode (fst p) (snd p)) (fst p) (snd p) aid (sd_score sd)
    (sd_revenue_min sd) (sd_revenue_max sd) (sd_confidence sd) (sd_decision sd) None.

(** [_generate_candidates_for_area]: the addresses are never empty, so no
    point of the grid is skipped. *)
Definition generate_candidates_for_area (aid : string) (la ln : Q) (include_crime : bool) : list Candidate :=
  map (fun p => make_candidate aid p include_crime) (grid_points la ln).

(** [_deduplicate_by_distance]: a candidate is kept when no kept
    candidate is closer than [min_distance_m]. *)
Definition too_close (min_distance_m : Q) (kept : list Candidate) (c : Candidate) : bool :=
  existsb (fun k => Qltb (haversine_distance (lat c) (lng c) (lat k) (lng k)) min_distance_m) kept.

Definition dedup_from (min_distance_m : Q) (kept cands : list Candidate) : list Candidate :=
  fold_left (fun kept c => if too_close min_distance_m kept c then kept else (kept ++ [c])%list) cands kept.

Definition deduplicate_by_distance (cands : list Candidate) (min_distance_m : Q) : list Candidate :=
  match cands with
  | [] => []
  | _ => dedup_from min_distance_m [] (sort_desc cands)
  end.

(** Step 5 of [generate_candidates]: 1-based ranks. *)
Definition set_rank (c : Candidate) (r : nat) : Candidate :=
  mkCandidate (address c) (lat c) (lng c) (area_id c) (score c) (revenue_min_eur c)
    (revenue_max_eur c) (confidence c) (decision c) (Some r).

Fixpoint add_ranks (from : nat) (l : list Candidate) : list Candidate :=
  match l with
  | [] => []
  | c :: l' => set_rank c from :: add_ranks (S from) l'
  end.

(** [city.lower() in ['helsinki', 'espoo', 'vantaa']] (ASCII lower case). *)
Definition lower_ascii (c : Ascii.ascii) : Ascii.ascii :=
  let n := Ascii.nat_of_ascii c in
  if ((65 <=? n) && (n <=? 90))%nat then Ascii.ascii_of_nat (n + 32) else c.

Fixpoint lower (s : string) : string :=
  match s with
  | EmptyString => EmptyString
  | String c s' => String (lower_ascii c) (lower s')
  end.

Definition supported_city (city : string) : bool :=
  existsb (String.eqb (lower city)) ["helsinki"; "espoo"; "vantaa"].

(** [_get_top_areas] for Helsinki: a mock score [70 + hash(name) % 30] per
    area, sorted by descending score, the first [top_n]. *)
Definition area_score (name : string) : Z := (70 + Z.modulo (py_hash name) 30)%Z.

Fixpoint insert_area_desc (a : string * string * Q * Q * Z) (l : list (string * string * Q * Q * Z)) :=
  match l with
  | [] => [a]
  | b :: l' => if (snd a <=? snd b)%Z then b :: insert_area_desc a l' else a :: l
  end.

Definition get_top_areas (top_n : nat) : list (string * string * Q * Q * Z) :=
  firstn top_n (fold_left (fun acc '(id, name, la, ln) =>
                             insert_area_desc ("helsinki_" ++ id, name, la, ln, area_score name) acc)
                  helsinki_areas []).

(** [generate_candidates]: the four top areas (none outside Helsinki,
    Espoo and Vantaa), their grids, the deduplication at 80 m, the sort,
    the first [limit], the ranks. *)
Definition generate_candidates (city : string) (limit : nat) (include_crime : bool) : list Candidate :=
  let top_areas := if supported_city city then get_top_areas 4 else [] in
  let all_candidates :=
    flat_map (fun '(aid, _, la, ln, _) => generate_candidates_for_area aid la ln include_crime) top_areas in
  let deduped := deduplicate_by_distance all_candidates 80 in
  add_ranks 1 (firstn limit (sort_desc deduped)).

(** ** Lists sorted by descending score, and pairwise separation *)

(** [a] comes before [b] in a list sorted by descending score. *)
Definition score_ge (a b : Candidate) : Prop := score b <= score a.

(** [b], kept after [a], is at least [min_distance_m] from it (the
    distance as the code computes it, from the later candidate). *)
Definition separated (min_distance_m : Q) (a b : Candidate) : Prop :=
  min_distance_m <= haversine_distance (lat b) (lng b) (lat a) (lng a).

(** What [RecommendedAddress] of schemas.py accepts of a candidate: a
    rank, a score in [0, 100] and a confidence in [0, 1]. *)
Definition candidate_valid (c : Candidate) : Prop :=
  rank c <> None /\ 0 <= score c <= 100 /\ 0 <= confidence c <= 1.

Local Open Scope list_scope.

Lemma insert_desc_perm c l : Permutation (c :: l) (insert_desc c l).
Proof. apply insert_by_perm. Qed.

Lemma sort_desc_spec l :
  Permutation l (sort_desc l) /\ StronglySorted score_ge (sort_desc l).
Proof. apply sort_by_spec. Qed.

(** Sorting a list that is already sorted by descending score changes
    nothing (the sort is stable). *)
Lemma sort_desc_id l : StronglySorted score_ge l -> sort_desc l = l.
Proof. apply sort_by_id. Qed.

Lemma too_close_false m kept c :
  too_close m kept c = false -> Forall (fun k => separated m k c) kept.
Proof.
  unfold too_close. intros E. apply Forall_forall. intros k Hk.
  destruct (Qle_bool_spec m (haversine_distance (lat c) (lng c) (lat k) (lng k))) as [H|H]; [exact H|].
  rewrite <- Bool.not_true_iff_false in E. exfalso. apply E, existsb_exists. exists k.
  split; [exact Hk|]. unfold Qltb. rewrite Bool.negb_true_iff, <- Bool.not_true_iff_false, Qle_bool_iff.
  intros Hle. apply (Qlt_not_le _ _ H Hle).
Qed.

Lemma too_close_true m kept c :
  too_close m kept c = true ->
  exists k, In k kept /\ haversine_distance (lat c) (lng c) (lat k) (lng k) < m.
Proof.
  unfold too_close. intros (k & Hk & E)%existsb_exists. exists k. split; [exact Hk|].
  unfold Qltb in E. apply Bool.negb_true_iff in E.
  destruct (Qle_bool_spec m (haversine_distance (lat c) (lng c) (lat k) (lng k))); [discriminate | assumption].
Qed.

(** The greedy pass over candidates sorted by descending score: its result
    is sorted, pairwise separated, keeps what was kept, takes only
    candidates it was given, and every candidate it drops is too close to
    a kept one that scores at least as much. *)
Lemma dedup_from_spec m kept rest :
  StronglySorted score_ge (kept ++ rest) -> ForallOrdPairs (separated m) kept ->
  let out := dedup_from m kept rest in
  StronglySorted score_ge out /\ ForallOrdPairs (separated m) out /\
  incl kept out /\ incl out (kept ++ rest) /\
  (forall c, In c rest -> In c out \/
     exists k, In k out /\ score c <= score k /\ haversine_distance (lat c) (lng c) (lat k) (lng k) < m).
Proof.
  revert kept. induction rest as [|c rest IH]; intros kept Hs Hp; simpl.
  - rewrite app_nil_r in *. refine (conj Hs (conj Hp (conj (incl_refl _) (conj (incl_refl _) _)))).
    intros ? [].
  - destruct (too_close m kept c) eqn:Ec.
    + destruct (StronglySorted_middle _ _ _ _ Hs) as [Hs' Hge].
      destruct (IH kept Hs' Hp) as (H1 & H2 & H3 & H4 & H5).
      refine (conj H1 (conj H2 (conj H3 (conj _ _)))).
      * intros x Hx. apply H4, in_app_or in Hx as [Hx|Hx]; apply in_or_app; [now left | now right; right].
      * intros c' [<- | Hc']; [right | exact (H5 c' Hc')].
        destruct (too_close_true _ _ _ Ec) as (k & Hk & Hd). exists k.
        rewrite Forall_forall in Hge. exact (conj (H3 k Hk) (conj (Hge k Hk) Hd)).
    + assert (Hs2 : StronglySorted score_ge ((kept ++ [c]) ++ rest)) by (rewrite <- app_assoc; exact Hs).
      destruct (IH (kept ++ [c]) Hs2 (ForallOrdPairs_snoc _ _ _ Hp (too_close_false _ _ _ Ec)))
        as (H1 & H2 & H3 & H4 & H5).
      refine (conj H1 (conj H2 (conj _ (conj _ _)))).
      * intros x Hx. apply H3, in_or_app. now left.
      * intros x Hx. apply H4 in Hx. rewrite <- app_assoc in Hx. exact Hx.
      * intros c' [<- | Hc']; [left; apply H3, in_or_app; right; now left | exact (H5 c' Hc')].
Qed.

Lemma deduplicate_spec cands m :
  let kept := deduplicate_by_distance cands m in
  StronglySorted score_ge kept /\ ForallOrdPairs (separated m) kept /\ incl kept cands /\
  (forall c, In c cands -> In c kept \/
     exists k, In k kept /\ score c <= score k /\ haversine_distance (lat c) (lng c) (lat k) (lng k) < m).
Proof.
  unfold deduplicate_by_distance. destruct cands as [|c0 cs] eqn:Ec.
  - refine (conj (SSorted_nil _) (conj (FOP_nil _) (conj (incl_refl _) _))). intros ? [].
  - rewrite <- Ec. destruct (sort_desc_spec cands) as [Hp Hs].
    destruct (dedup_from_spec m [] (sort_desc cands) Hs (FOP_nil _)) as (H1 & H2 & _ & H4 & H5).
    refine (conj H1 (conj H2 (conj _ _))).
    + intros x Hx. apply (Permutation_in _ (Permutation_sym Hp)), H4, Hx.
    + intros c Hc. apply H5, (Permutation_in _ Hp), Hc.
Qed.

(** No two candidates the deduplication keeps are closer than the
    minimum distance. *)
Theorem dedup_separated cands m :
  ForallOrdPairs (separated m) (deduplicate_by_distance cands m).
Proof. apply deduplicate_spec. Qed.

(** The deduplication is the greedy pass of the spec: its result is
    sorted by descending score, is drawn from the candidates, and every
    candidate it drops lies within the minimum distance of a kept
    candidate that scores at least as much. *)
Theorem dedup_greedy cands m :
  let kept := deduplicate_by_distance cands m in
  StronglySorted score_ge kept /\ incl kept cands /\
  (forall c, In c cands -> In c kept \/
     exists k, In k kept /\ score c <= score k /\ haversine_distance (lat c) (lng c) (lat k) (lng k) < m).
Proof. destruct (deduplicate_spec cands m) as (H1 & _ & H3 & H4). exact (conj H1 (conj H3 H4)). Qed.

(** ** Scores and decisions of the candidates *)

Lemma hardcoded_population_in la ln : In (get_hardcoded_population la ln) table_populations.
Proof.
  unfold get_hardcoded_population.
  assert (H : forall l acc, incl (map (fun '(_, _, p) => p) l) (map (fun '(_, _, p) => p) hardcoded_areas) ->
            In (snd acc) table_populations -> In (snd (fold_left (closest_step la ln) l acc)) table_populations).
  { induction l as [|[[a_lat a_lng] a_pop] l IH]; intros acc Hl Hacc; simpl; [exact Hacc|].
    apply IH; [intros x Hx; apply Hl; now right|].
    unfold closest_step. assert (In a_pop table_populations) by (right; apply Hl; now left).
    destruct (fst acc); [destruct (Qltb _ _)|]; assumption. }
  specialize (H hardcoded_areas (None, 8000%Z) (incl_refl _) ltac:(now left)).
  destruct (fold_left _ _ _) as [[m|] p]; [destruct (Qltb m 2)|]; simpl in *; auto.
Qed.

(** With the placeholder competition, transit, income and traffic
    data of [_score_candidate], no candidate is ever [MAKE_OFFER] or
    [NEGOTIATE]: the population table tops out at 18000, so the score is
    at most 63.1 < 70.  The [include_crime] flag changes nothing. *)
Theorem score_candidate_pass la ln ic :
  sd_decision (score_candidate la ln ic) = PASS /\ sd_score (score_candidate la ln ic) <= 631 # 10 /\
  score_candidate la ln ic = score_candidate la ln false.
Proof.
  split; [|split]; [| |destruct ic; reflexivity];
    unfold score_candidate; generalize (hardcoded_population_in la ln);
    generalize (get_hardcoded_population la ln); intros p Hp;
    repeat (destruct Hp as [<- | Hp]; [destruct ic; vm_compute; first [reflexivity | discriminate] |]);
    destruct Hp.
Qed.

Lemma closest_far la ln l acc :
  Forall (fun '(a_lat, a_lng, _) => 2 <= haversine_distance la ln a_lat a_lng) l ->
  (forall m, fst acc = Some m -> 2 <= m) ->
  forall m, fst (fold_left (closest_step la ln) l acc) = Some m -> 2 <= m.
Proof.
  revert acc. induction l as [|[[a_lat a_lng] a_pop] l IH]; intros acc Hl Hacc; simpl; [exact Hacc|].
  inversion Hl as [|x l' Hx Hl']; subst. apply IH; [exact Hl'|]. unfold closest_step.
  destruct (fst acc) as [m0|] eqn:Em; [destruct (Qltb _ _)|]; cbn [fst]; intros m E;
    [injection E as <-; exact Hx | apply Hacc; congruence | injection E as <-; exact Hx].
Qed.

(** A point at least 2 m from every centre of the table gets the default
    population 8000. *)
Lemma hardcoded_population_far la ln :
  Forall (fun '(a_lat, a_lng, _) => 2 <= haversine_distance la ln a_lat a_lng) hardcoded_areas ->
  get_hardcoded_population la ln = 8000%Z.
Proof.
  intros Hf. unfold get_hardcoded_population.
  pose proof (closest_far la ln hardcoded_areas (None, 8000%Z) Hf ltac:(discriminate)) as H.
  destruct (fold_left _ _ _) as [[m|] p]; [|reflexivity].
  specialize (H m eq_refl). unfold Qltb. destruct (Qle_bool_spec 2 m); [reflexivity | lra].
Qed.

(** Every point of the grid of every area of main.py is more than 2e-5
    degrees of latitude (over 2 m) from every centre of the table. *)
Lemma grid_latitudes_far :
  forallb (fun '(_, _, la, ln) =>
             forallb (fun p => forallb (fun '(a_lat, _, _) => Qleb 2 (111000 * Qabs (fst p - a_lat)))
                                 hardcoded_areas) (grid_points la ln)) helsinki_areas = true.
Proof. vm_compute. reflexivity. Qed.

Section Meridian.
Hypothesis haversine_meridian :
  forall lat1 lng1 lat2 lng2, 111000 * Qabs (lat1 - lat2) <= haversine_distance lat1 lng1 lat2 lng2.

(** C23: [_get_hardcoded_population] compares the distance in metres with
    [2.0], meant as 2 km: no point of the candidate grid of any area of
    main.py is within 2 m of a table centre, so every candidate gets the
    default population 8000 and the score 51.9. *)
Theorem grid_population_default aid name la ln p :
  In (aid, name, la, ln) helsinki_areas -> In p (grid_points la ln) ->
  get_hardcoded_population (fst p) (snd p) = 8000%Z /\
  sd_score (score_candidate (fst p) (snd p) false) == 519 # 10.
Proof.
  intros Ha Hp.
  assert (E : get_hardcoded_population (fst p) (snd p) = 8000%Z).
  { apply hardcoded_population_far. apply Forall_forall. intros [[a_lat a_lng] a_pop] Hc.
    pose proof grid_latitudes_far as G. rewrite forallb_forall in G. specialize (G _ Ha).
    rewrite forallb_forall in G. specialize (G p Hp). rewrite forallb_forall in G.
    specialize (G _ Hc). unfold Qleb in G. apply Qle_bool_iff in G.
    eapply Qle_trans; [exact G | apply haversine_meridian]. }
  split; [exact E|]. unfold score_candidate. rewrite E. reflexivity.
Qed.

End Meridian.

(** ** The whole pipeline *)

Lemma In_add_ranks k l x : In x (add_ranks k l) -> exists c n, In c l /\ x = set_rank c n.
Proof.
  revert k. induction l as [|c l IH]; intros k Hx; [destruct Hx|]. destruct Hx as [<- | Hx].
  - exists c, k. split; [now left | reflexivity].
  - destruct (IH _ Hx) as (c' & n & Hc & ->). exists c', n. split; [now right | reflexivity].
Qed.

Lemma add_ranks_pairs (R : Candidate -> Candidate -> Prop) k l :
  (forall a b i j, R a b -> R (set_rank a i) (set_rank b j)) ->
  ForallOrdPairs R l -> StronglySorted score_ge l ->
  ForallOrdPairs R (add_ranks k l) /\ StronglySorted score_ge (add_ranks k l).
Proof.
  intros HR. revert k. induction l as [|c l IH]; intros k Hp Hs; simpl; [split; constructor|].
  inversion Hp as [|? ? Hc Hp']; subst. apply StronglySorted_inv in Hs as [Hs' Hc'].
  destruct (IH (S k) Hp' Hs') as [H1 H2]. rewrite Forall_forall in Hc, Hc'.
  split; constructor; try assumption; apply Forall_forall; intros x Hx;
    destruct (In_add_ranks _ _ _ Hx) as (c0 & n & Hin & ->); [apply HR, Hc, Hin | exact (Hc' c0 Hin)].
Qed.

Lemma add_ranks_ranks k l : map rank (add_ranks k l) = map Some (seq k (List.length l)).
Proof. revert k. induction l as [|c l IH]; intros k; simpl; [reflexivity | now rewrite IH]. Qed.

Lemma add_ranks_length k l : List.length (add_ranks k l) = List.length l.
Proof. revert k. induction l as [|c l IH]; intros k; simpl; [reflexivity | now rewrite IH]. Qed.

(** C20: the list [generate_candidates] returns has at most [limit]
    entries, ranked 1, 2, ... in order, sorted by descending score, and no
    two of them are closer than 80 m. *)
Theorem generate_candidates_spec city limit ic :
  let out := generate_candidates city limit ic in
  (List.length out <= limit)%nat /\ map rank out = map Some (seq 1 (List.length out)) /\
  ForallOrdPairs (separated 80) out /\ StronglySorted score_ge out.
Proof.
  unfold generate_candidates. cbv zeta.
  match goal with |- context [deduplicate_by_distance ?cs 80] =>
    destruct (deduplicate_spec cs 80) as (Hs & Hp & _ & _) end.
  rewrite sort_desc_id by exact Hs.
  destruct (add_ranks_pairs (separated 80) 1 _ (fun a b i j H => H)
              (ForallOrdPairs_firstn _ limit _ Hp) (StronglySorted_firstn _ limit _ Hs)) as [H1 H2].
  split; [rewrite add_ranks_length; apply firstn_le_length|].
  split; [rewrite add_ranks_ranks, add_ranks_length; reflexivity | exact (conj H1 H2)].
Qed.

Lemma score_candidate_valid la ln ic :
  0 <= sd_score (score_candidate la ln ic) <= 100 /\ 0 <= sd_confidence (score_candidate la ln ic) <= 1.
Proof.
  unfold score_candidate. generalize (hardcoded_population_in la ln).
  generalize (get_hardcoded_population la ln); intros p Hp.
  repeat (destruct Hp as [<- | Hp]; [destruct ic; qeval |]). destruct Hp.
Qed.

(** Every candidate [generate_candidates] returns passes the validation
    of [RecommendedAddress]. *)
Lemma generate_candidates_valid city limit ic :
  Forall candidate_valid (generate_candidates city limit ic).
Proof.
  apply Forall_forall. intros x Hx. unfold generate_candidates in Hx.
  destruct (In_add_ranks _ _ _ Hx) as (c & n & Hc & ->).
  apply In_firstn in Hc. apply (Permutation_in _ (Permutation_sym (proj1 (sort_desc_spec _)))) in Hc.
  apply (proj1 (proj2 (proj2 (deduplicate_spec _ _)))) in Hc.
  apply in_flat_map in Hc as ([[[[aid nm] la] ln] sc] & _ & Hc).
  apply in_map_iff in Hc as (p & <- & _).
  destruct (score_candidate_valid (fst p) (snd p) ic) as [H1 H2].
  split; [discriminate | exact (conj H1 H2)].
Qed.

End WithServices.

(** The synthetic address is built from a street of the list, a
    house number in [1, 99] and a five-character postal code from 00100
    to 00989, whatever the coordinates. *)
Theorem mock_address_fields la ln :
  (0 <= street_idx la ln < 12)%Z /\ (1 <= house_num la <= 99)%Z /\ (100 <= postal_num ln <= 989)%Z /\
  String.length ("00" ++ str_nat (Z.to_nat (postal_num ln))) = 5%nat.
Proof.
  unfold street_idx, house_num, postal_num.
  pose proof (Z.mod_pos_bound (py_int ((la + ln) * 1000)) (Z.of_nat (List.length streets)) ltac:(reflexivity)).
  pose proof (Z.mod_pos_bound (py_int (Qabs (la - (601 # 10)) * 1000)) 99 ltac:(reflexivity)).
  pose proof (Z.mod_pos_bound (py_int (ln * 1000)) 890 ltac:(reflexivity)) as Hp.
  split; [exact H|]. split; [lia|]. split; [lia|].
  assert (G : forallb (fun n => Nat.eqb (String.length (str_nat n)) 3) (seq 100 890) = true)
    by (vm_compute; reflexivity).
  rewrite forallb_forall in G.
  specialize (G (Z.to_nat (100 + py_int (ln * 1000) mod 890)) ltac:(apply in_seq; lia)).
  apply Nat.eqb_eq in G. cbn [String.length String.append]. now rewrite G.
Qed.

(** The greedy deduplication does not maximise the total score of a
    separated set: of three candidates, one scoring 10 within 80 m of two
    scoring 9 that are 111 m apart, it keeps only the first (total 10),
    though the other two form a separated set of total 18. *)
Theorem dedup_not_max_total :
  deduplicate_by_distance meridian_distance [cand_at (5 # 10000) 10; cand_at 0 9; cand_at (10 # 10000) 9] 80
    = [cand_at (5 # 10000) 10] /\
  ForallOrdPairs (separated meridian_distance 80) [cand_at 0 9; cand_at (10 # 10000) 9] /\
  score (cand_at (5 # 10000) 10) < score (cand_at 0 9) + score (cand_at (10 # 10000) 9).
Proof.
  split; [vm_compute; reflexivity|]. split; [|qeval].
  repeat constructor. unfold separated, meridian_distance. qeval.
Qed.

(** ** Witnesses *)

Lemma grid_population_default_witness :
  get_hardcoded_population meridian_distance ((601699 # 10000) + 0) ((249342 # 10000) + 0) = 8000%Z /\
  sd_score (score_candidate meridian_distance ((601699 # 10000) + 0) ((249342 # 10000) + 0) false) == 519 # 10.
Proof.
  apply (grid_population_default meridian_distance (fun a b c d => Qle_refl _) "kamppi" "Kamppi"
           (601699 # 10000) (249342 # 10000) ((601699 # 10000) + 0, (249342 # 10000) + 0));
    simpl; repeat (first [left; reflexivity | right]).
Defined.

End AddressGenerator.
