(* ===== verification/JobManager.v ===== *)
(** * JobManager: src/backend/services/job_manager.py and the job routes
    of src/backend/routes/recommend.py

    The registry is the record [State]: the jobs and the event queues, both
    stdpp maps keyed by job id, and the TTL.  A queue is the list of the
    items put on it and not yet taken: an event, or [None], the
    end-of-stream marker.  Every method is a function of the state;
    [datetime.utcnow()] is the argument [now] (seconds), [uuid4()] the
    argument [job_id], and the wall-clock duration of the candidate
    generation the argument [total_ms].  [run_recommendation_job] is the
    background task, its [await]s in sequence; its candidates come from
    [AddressGenerator.generate_candidates] over the same service
    variables as there.  [stream_events] is what [stream_job_events]
    yields from a queue: the events up to the first marker, and whether it
    reached one (otherwise it keeps sending keepalives). *)

From S2P Require Import Prelude AddressGenerator.
From stdpp Require Import gmap strings.
Local Open Scope string_scope.

Module JobManager.

Module JobStatus.
Inductive t := PENDING | RUNNING | COMPLETE | FAILED | DEGRADED.
End JobStatus.

Module StageStatus.
Inductive t := IDLE | RUNNING | DONE | WARN | FAIL.
End StageStatus.

Definition metrics := list (string * Z).

(** [RecommendedAddress] of schemas.py: the fields the pipeline fills
    from a candidate ([coverage], [why], [provenance] and [metrics] are
    copied unchecked and not modelled). *)
Record RecommendedAddress := mkAddress {
  ra_rank : nat;
  ra_address : string;
  ra_lat : Q;
  ra_lng : Q;
  ra_score : Q;
  ra_revenue_min_eur : Z;
  ra_revenue_max_eur : Z;
  ra_confidence : Q;
  ra_decision : AddressGenerator.Decision;
  ra_area_id : option string
}.

(** [WeightsInfo]: the version and the weights ([sources] carries only
    timestamps and is not modelled). *)
Record WeightsInfo := mkWeightsInfo {
  wi_version : string;
  wi_weights : list (string * Q)
}.

Record RecommendResponse := mkResponse {
  rr_job_id : string;
  rr_city : string;
  rr_concept : string;
  rr_top : list RecommendedAddress;
  rr_method : WeightsInfo;
  rr_degraded : list string
}.

Record StageInfo := mkStage {
  st_status : StageStatus.t;
  st_metrics : metrics;
  st_ms : option Z;
  st_cached : bool;
  st_timestamp : Z
}.

Record Job := mkJob {
  job_id : string;
  status : JobStatus.t;
  city : string;
  concept : string;
  limit : Z;
  include_crime : bool;
  created_at : Z;
  expires_at : Z;
  stages : gmap string StageInfo;
  degraded : list string;
  result : option RecommendResponse;
  error : option string;
  completed_at : option Z
}.

Inductive Event :=
| StageEvent (job_id stage : string) (status : StageStatus.t) (metrics : metrics) (ms : option Z) (cached : bool)
| CompleteEvent (job_id : string) (result : RecommendResponse)
| ErrorEvent (job_id : string) (error : string).

Record State := mkState {
  jobs : gmap string Job;
  job_queues : gmap string (list (option Event));
  ttl_seconds : Z
}.

(** [JobManager()] *)
Definition init (ttl : Z) : State := mkState ∅ ∅ ttl.

Definition set_jobs (s : State) (js : gmap string Job) : State := mkState js (job_queues s) (ttl_seconds s).
Definition set_queues (s : State) (qs : gmap string (list (option Event))) : State :=
  mkState (jobs s) qs (ttl_seconds s).

(** [await self.job_queues[job_id].put(item)] when the queue exists. *)
Definition put (s : State) (id : string) (item : option Event) : State :=
  match job_queues s !! id with
  | Some q => set_queues s (<[id := (q ++ [item])%list]> (job_queues s))
  | None => s
  end.

Definition create_job (s : State) (id : string) (c conc : string) (lim : Z) (ic : bool) (now : Z)
    : State * string :=
  let j := mkJob id JobStatus.PENDING c conc lim ic now (now + ttl_seconds s) ∅ [] None None None in
  (mkState (<[id := j]> (jobs s)) (<[id := []]> (job_queues s)) (ttl_seconds s), id).

Definition with_stage (j : Job) (stage : string) (info : StageInfo) : Job :=
  mkJob (job_id j) (status j) (city j) (concept j) (limit j) (include_crime j) (created_at j)
    (expires_at j) (<[stage := info]> (stages j)) (degraded j) (result j) (error j) (completed_at j).

Definition emit_stage_update (s : State) (id stage : string) (st : StageStatus.t)
    (ms_metrics : option metrics) (ms : option Z) (cached : bool) (now : Z) : State :=
  match jobs s !! id with
  | None => s
  | Some j =>
      let m := match ms_metrics with Some m => m | None => [] end in
      let s1 := set_jobs s (<[id := with_stage j stage (mkStage st m ms cached now)]> (jobs s)) in
      put s1 id (Some (StageEvent id stage st m ms cached))
  end.

Definition finish (j : Job) (st : JobStatus.t) (res : option RecommendResponse) (deg : list string)
    (err : option string) (now : Z) : Job :=
  mkJob (job_id j) st (city j) (concept j) (limit j) (include_crime j) (created_at j)
    (expires_at j) (stages j) deg res err (Some now).

Definition complete_job (s : State) (id : string) (res : RecommendResponse) (deg : option (list string))
    (now : Z) : State :=
  match jobs s !! id with
  | None => s
  | Some j =>
      let deg_list := match deg with Some d => d | None => [] end in
      let st := match deg_list with [] => JobStatus.COMPLETE | _ => JobStatus.DEGRADED end in
      let s1 := set_jobs s (<[id := finish j st (Some res) deg_list (error j) now]> (jobs s)) in
      put (put s1 id (Some (CompleteEvent id res))) id None
  end.

Definition fail_job (s : State) (id : string) (err : string) (now : Z) : State :=
  match jobs s !! id with
  | None => s
  | Some j =>
      let s1 := set_jobs s (<[id := finish j JobStatus.FAILED (result j) (degraded j) (Some err) now]> (jobs s)) in
      put (put s1 id (Some (ErrorEvent id err))) id None
  end.

Definition get_job (s : State) (id : string) : option Job := jobs s !! id.

(** [await queue.get()] in [stream_job_events]: the next item, or
    [None] when the queue is empty and the stream waits (sending a
    keepalive every 60 s). *)
Definition stream_take (s : State) (id : string) : option (option Event * State) :=
  match job_queues s !! id with
  | Some (item :: q) => Some (item, set_queues s (<[id := q]> (job_queues s)))
  | _ => None
  end.

(** [stream_job_events] for at most [fuel] items: the events yielded,
    whether the end marker was reached, and the state after the items
    taken.  It stops waiting on an empty queue. *)
Fixpoint stream_session (fuel : nat) (s : State) (id : string) : list Event * bool * State :=
  match fuel with
  | O => ([], false, s)
  | S f =>
      match stream_take s id with
      | None => ([], false, s)
      | Some (None, s') => ([], true, s')
      | Some (Some e, s') => let '(es, fin, s'') := stream_session f s' id in (e :: es, fin, s'')
      end
  end.

(** The reference reading of a queue, as the docstring of
    [stream_job_events] states it: the events before the first end
    marker, whether there is one, and what follows it. *)
Fixpoint stream_events (q : list (option Event)) : list Event * bool * list (option Event) :=
  match q with
  | [] => ([], false, [])
  | None :: q' => ([], true, q')
  | Some e :: q' => let '(es, fin, rest) := stream_events q' in (e :: es, fin, rest)
  end.

(** [cleanup_expired_jobs] *)
Definition expired_ids (s : State) (now : Z) : list string :=
  map fst (List.filter (fun kv => (expires_at kv.2 <? now)%Z) (map_to_list (jobs s))).

Definition cleanup_expired_jobs (s : State) (now : Z) : State :=
  fold_left (fun s id => mkState (delete id (jobs s)) (delete id (job_queues s)) (ttl_seconds s))
    (expired_ids s now) s.

(** ** The routes of recommend.py *)

(** [RecommendRequest]: [limit] is validated to [1 <= limit <= 20]. *)
Record RecommendRequest := mkRequest {
  req_city : string;
  req_concept : string;
  req_limit : Z;
  req_include_crime : bool
}.

Definition request_valid (r : RecommendRequest) : bool :=
  (1 <=? req_limit r)%Z && (req_limit r <=? 20)%Z.

(** [POST /api/recommend]: the job is created and the background task
    scheduled; the task runs later as steps of its own ([step] below). *)
Definition recommend_addresses (s : State) (id : string) (r : RecommendRequest) (now : Z)
    : res (State * (string * string * string)) :=
  if request_valid r then
    let '(s', jid) := create_job s id (req_city r) (req_concept r) (req_limit r) (req_include_crime r) now in
    Ok (s', (jid, "processing", "/api/stream/" ++ jid))
  else Raise ValidationError.

Definition not_found (id : string) : exn := HTTPException 404 ("Job " ++ id ++ " not found").

(** [GET /api/stream/{job_id}]: 404 for an unknown job; otherwise the
    stream over the items queued so far ([S (length q)] takes empty the
    queue).  Without a queue the generator returns at once, which ends the
    stream. *)
Definition stream_job_progress (s : State) (id : string) : res (list Event * bool * State) :=
  match get_job s id with
  | None => Raise (not_found id)
  | Some _ =>
      Ok (match job_queues s !! id with
          | Some q => stream_session (S (length q)) s id
          | None => ([], true, s)
          end)
  end.

Record JobStatusResponse := mkStatusResponse {
  jsr_job_id : string;
  jsr_status : JobStatus.t;
  jsr_result : option RecommendResponse;
  jsr_error : option string
}.

(** [GET /api/job/{job_id}] *)
Definition get_job_status (s : State) (id : string) : res JobStatusResponse :=
  match get_job s id with
  | None => Raise (not_found id)
  | Some j => Ok (mkStatusResponse id (status j) (result j) (error j))
  end.

(** ** The background task [run_recommendation_job] *)

Definition with_status (j : Job) (st : JobStatus.t) : Job :=
  mkJob (job_id j) st (city j) (concept j) (limit j) (include_crime j) (created_at j)
    (expires_at j) (stages j) (degraded j) (result j) (error j) (completed_at j).

(** [job['status'] = 'running'] on the dictionary [get_job] returned. *)
Definition mark_running (s : State) (id : string) : State :=
  match jobs s !! id with
  | Some j => set_jobs s (<[id := with_status j JobStatus.RUNNING]> (jobs s))
  | None => s
  end.

(** Up to the first [await] that suspends: the status and the GEO
    [running] event. *)
Definition run_start (s : State) (id : string) (now : Z) : State :=
  emit_stage_update (mark_running s id) id "GEO" StageStatus.RUNNING None (Some 0%Z) false now.

(** The seven [done] updates, in order, with their metrics. *)
Definition stage_metrics (n : Z) : list (string * metrics) :=
  [("GEO", [("areas_identified", 8%Z)]); ("DEMO", [("areas_scored", n)]);
   ("COMP", [("competitors_counted", n)]); ("TRANSIT", [("transit_scored", n)]);
   ("TRAFFIC", [("traffic_points", 0%Z)]); ("RENTS", [("rent_bands", 0%Z)]);
   ("REVENUE", [("predictions", n)])].

Definition emit_done_stages (s : State) (id : string) (n ms now : Z) : State :=
  fold_left (fun s '(stage, m) => emit_stage_update s id stage StageStatus.DONE (Some m) (Some ms) false now)
    (stage_metrics n) s.

(** [RecommendedAddress(...)] for one candidate: [candidate['rank']]
    raises [KeyError] when the rank is missing, and pydantic rejects a
    score outside [0, 100] or a confidence outside [0, 1]. *)
Definition build_address (c : AddressGenerator.Candidate) : res RecommendedAddress :=
  match AddressGenerator.rank c with
  | None => Raise (KeyError "rank")
  | Some r =>
      if Qleb 0 (AddressGenerator.score c) && Qleb (AddressGenerator.score c) 100 &&
         Qleb 0 (AddressGenerator.confidence c) && Qleb (AddressGenerator.confidence c) 1
      then Ok (mkAddress r (AddressGenerator.address c) (AddressGenerator.lat c) (AddressGenerator.lng c)
                 (AddressGenerator.score c) (AddressGenerator.revenue_min_eur c)
                 (AddressGenerator.revenue_max_eur c) (AddressGenerator.confidence c)
                 (AddressGenerator.decision c) (Some (AddressGenerator.area_id c)))
      else Raise ValidationError
  end.

Definition weights_info (include_crime : bool) : WeightsInfo :=
  mkWeightsInfo "v1.0"
    [("population", 28 # 100); ("income_fit", 22 # 100); ("transit_access", 20 # 100);
     ("competition_inverse", 15 # 100); ("traffic_access", 10 # 100);
     ("crime_penalty_cap", if include_crime then 5 # 100 else 0%Q)].

Definition build_response (id c conc : string) (cands : list AddressGenerator.Candidate) (ic : bool)
    : res RecommendResponse :=
  top <- map_res build_address cands ;;
  Ok (mkResponse id c conc top (weights_info ic) []).

(** [str(e)] of the exceptions the task can catch. *)
Definition exn_str (e : exn) : string :=
  match e with
  | KeyError k => "'" ++ k ++ "'"
  | ValidationError => "validation error for RecommendedAddress"
  | _ => "error"
  end.

(** From the candidates to the end of the task: the stage updates, the
    response, and [complete_job], or [fail_job] when building the
    response raised. *)
Definition run_finish (s : State) (id c conc : string) (ic : bool)
    (cands : list AddressGenerator.Candidate) (total_ms now : Z) : State :=
  let s1 := emit_done_stages s id (Z.of_nat (length cands)) (total_ms / 7) now in
  match build_response id c conc cands ic with
  | Ok r => complete_job s1 id r None now
  | Raise e => fail_job s1 id (exn_str e) now
  end.

(** ** The registry invariant *)

Definition event_job (e : Event) : string :=
  match e with
  | StageEvent id _ _ _ _ _ | CompleteEvent id _ | ErrorEvent id _ => id
  end.

Definition item_for (id : string) (item : option Event) : Prop :=
  match item with Some e => event_job e = id | None => True end.

(** Every job has a queue and every queue a job; a job is filed under
    its id; a queue holds only the events of its job. *)
Definition reg_inv (s : State) : Prop :=
  dom (jobs s) = dom (job_queues s) /\
  map_Forall (fun id j => job_id j = id) (jobs s) /\
  map_Forall (fun id q => Forall (item_for id) q) (job_queues s).

(** Sample inputs for the examples: services that answer nothing, a
    request and the state right after it. *)
Definition sample_haversine (_ _ _ _ : Q) : Q := 1000.
Definition sample_geocode (_ _ : Q) : option string := None.
Definition sample_hash (_ : string) : Z := 0%Z.
Definition sample_request : RecommendRequest := mkRequest "Helsinki" "QSR" 10 false.
Definition sample_created : State := fst (create_job (init 3600) "job-1" "Helsinki" "QSR" 10 false 0).
Definition sample_out : string * string * string := ("job-1", "processing", "/api/stream/job-1").

Section WithServices.
Variable haversine_distance : Q -> Q -> Q -> Q -> Q.
Variable reverse_geocode_service : Q -> Q -> option string.
Variable py_hash : string -> Z.

Definition candidates_for (c : string) (lim : Z) (ic : bool) : list AddressGenerator.Candidate :=
  AddressGenerator.generate_candidates haversine_distance reverse_geocode_service py_hash c (Z.to_nat lim) ic.

(** The whole task, run without interruption. *)
Definition run_recommendation_job (s : State) (id c conc : string) (lim : Z) (ic : bool) (total_ms now : Z)
    : State :=
  run_finish (run_start s id now) id c conc ic (candidates_for c lim ic) total_ms now.

(** The event loop: requests, the two halves of any task (another step
    may run while [generate_candidates] awaits), and a stream taking the
    next item of a queue. *)
Inductive step : State -> State -> Prop :=
| step_recommend s id r now s' out :
    recommend_addresses s id r now = Ok (s', out) -> step s s'
| step_start s id now : step s (run_start s id now)
| step_finish s id c conc lim ic total_ms now :
    step s (run_finish s id c conc ic (candidates_for c lim ic) total_ms now)
| step_take s id item s' :
    stream_take s id = Some (item, s') -> step s s'.

Inductive reachable (ttl : Z) : State -> Prop :=
| reach_init : reachable ttl (init ttl)
| reach_step s s' : reachable ttl s -> step s s' -> reachable ttl s'.

Local Open Scope list_scope.

(** ** The invariant: every operation keeps it *)

Lemma put_inv s id item : reg_inv s -> item_for id item -> reg_inv (put s id item).
Proof.
  intros (Hd & Hj & Hq) Hi. unfold put. destruct (job_queues s !! id) as [q|] eqn:E;
    [|exact (conj Hd (conj Hj Hq))].
  split; [|split]; cbn [jobs job_queues set_queues]; [|exact Hj|].
  - rewrite dom_insert_lookup_L by eauto. exact Hd.
  - apply map_Forall_insert_2; [|exact Hq]. apply Forall_app. split; [exact (Hq _ _ E) | now constructor].
Qed.

Lemma set_job_inv s id j0 j :
  reg_inv s -> jobs s !! id = Some j0 -> job_id j = id -> reg_inv (set_jobs s (<[id := j]> (jobs s))).
Proof.
  intros (Hd & Hj & Hq) E Hid. split; [|split]; cbn [jobs job_queues set_jobs]; [|apply map_Forall_insert_2; assumption|exact Hq].
  rewrite dom_insert_lookup_L by eauto. exact Hd.
Qed.

Lemma job_id_at s id j : reg_inv s -> jobs s !! id = Some j -> job_id j = id.
Proof. intros (_ & Hj & _) E. exact (Hj _ _ E). Qed.

Lemma emit_inv s id stage st m ms cached now :
  reg_inv s -> reg_inv (emit_stage_update s id stage st m ms cached now).
Proof.
  intros H. unfold emit_stage_update. destruct (jobs s !! id) as [j|] eqn:E; [|exact H].
  apply put_inv; [|reflexivity]. eapply set_job_inv; [exact H | exact E | exact (job_id_at _ _ _ H E)].
Qed.

Lemma complete_inv s id r deg now : reg_inv s -> reg_inv (complete_job s id r deg now).
Proof.
  intros H. unfold complete_job. destruct (jobs s !! id) as [j|] eqn:E; [|exact H].
  apply put_inv; [apply put_inv|]; [|reflexivity|exact I].
  eapply set_job_inv; [exact H | exact E | exact (job_id_at _ _ _ H E)].
Qed.

Lemma fail_inv s id err now : reg_inv s -> reg_inv (fail_job s id err now).
Proof.
  intros H. unfold fail_job. destruct (jobs s !! id) as [j|] eqn:E; [|exact H].
  apply put_inv; [apply put_inv|]; [|reflexivity|exact I].
  eapply set_job_inv; [exact H | exact E | exact (job_id_at _ _ _ H E)].
Qed.

Lemma create_job_inv s id c conc lim ic now : reg_inv s -> reg_inv (fst (create_job s id c conc lim ic now)).
Proof.
  intros (Hd & Hj & Hq). split; [|split]; cbn [fst create_job jobs job_queues].
  - rewrite !dom_insert_L, Hd. reflexivity.
  - apply map_Forall_insert_2; [reflexivity | exact Hj].
  - apply map_Forall_insert_2; [constructor | exact Hq].
Qed.

Lemma take_inv s id item s' : reg_inv s -> stream_take s id = Some (item, s') -> reg_inv s'.
Proof.
  intros (Hd & Hj & Hq). unfold stream_take. destruct (job_queues s !! id) as [[|it q]|] eqn:E; try discriminate.
  intros [= _ <-]. split; [|split]; cbn [jobs job_queues set_queues]; [|exact Hj|].
  - rewrite dom_insert_lookup_L by eauto. exact Hd.
  - apply map_Forall_insert_2; [|exact Hq]. apply Hq in E. now inversion E.
Qed.

Lemma emit_done_inv s id n ms now : reg_inv s -> reg_inv (emit_done_stages s id n ms now).
Proof.
  unfold emit_done_stages. generalize (stage_metrics n). intros l. revert s.
  induction l as [|[stage m] l IH]; intros s H; [exact H|]. apply IH, emit_inv, H.
Qed.

Lemma mark_running_inv s id : reg_inv s -> reg_inv (mark_running s id).
Proof.
  intros H. unfold mark_running. destruct (jobs s !! id) as [j|] eqn:E; [|exact H].
  eapply set_job_inv; [exact H | exact E | exact (job_id_at _ _ _ H E)].
Qed.

Lemma run_finish_inv s id c conc ic cands total_ms now :
  reg_inv s -> reg_inv (run_finish s id c conc ic cands total_ms now).
Proof.
  intros H. unfold run_finish. apply (emit_done_inv s id (Z.of_nat (length cands)) (total_ms / 7) now) in H.
  destruct (build_response _ _ _ _ _); [apply complete_inv | apply fail_inv]; exact H.
Qed.

Lemma registry_step_inv s s' : reg_inv s -> step s s' -> reg_inv s'.
Proof.
  intros H Hs. destruct Hs as [s id r now s' out E | s id now | s id c conc lim ic total_ms now | s id item s' E].
  - unfold recommend_addresses in E. destruct (request_valid r); [|discriminate].
    destruct (create_job _ _ _ _ _ _ _) as [s1 jid] eqn:Ec. injection E as <- _.
    change s1 with (fst (s1, jid)). rewrite <- Ec. apply create_job_inv, H.
  - apply emit_inv, mark_running_inv, H.
  - apply run_finish_inv, H.
  - exact (take_inv _ _ _ _ H E).
Qed.

(** ** The task, stage by stage *)

Lemma put_jobs s id item : jobs (put s id item) = jobs s.
Proof. unfold put. destruct (job_queues s !! id); reflexivity. Qed.

Lemma put_queue s id item q :
  job_queues s !! id = Some q -> job_queues (put s id item) !! id = Some (q ++ [item]).
Proof. intros E. unfold put. rewrite E. apply lookup_insert_eq. Qed.

(** An update of a known job keeps its status and error and appends
    its event. *)
Lemma emit_known s id stage st mo ms cached now j q :
  jobs s !! id = Some j -> job_queues s !! id = Some q ->
  (exists j', jobs (emit_stage_update s id stage st mo ms cached now) !! id = Some j' /\
     status j' = status j /\ error j' = error j) /\
  job_queues (emit_stage_update s id stage st mo ms cached now) !! id =
    Some (q ++ [Some (StageEvent id stage st (match mo with Some m => m | None => [] end) ms cached)]).
Proof.
  intros Ej Eq. unfold emit_stage_update. rewrite Ej. rewrite put_jobs. split.
  - eexists. split; [apply lookup_insert_eq | split; reflexivity].
  - apply put_queue. exact Eq.
Qed.

Lemma emit_done_known s id n ms now j q :
  jobs s !! id = Some j -> job_queues s !! id = Some q ->
  (exists j', jobs (emit_done_stages s id n ms now) !! id = Some j' /\ status j' = status j /\ error j' = error j) /\
  job_queues (emit_done_stages s id n ms now) !! id =
    Some (q ++ map (fun '(stage, m) => Some (StageEvent id stage StageStatus.DONE m (Some ms) false)) (stage_metrics n)).
Proof.
  unfold emit_done_stages. generalize (stage_metrics n) as l. intros l. revert s j q.
  induction l as [|[stage m] l IH]; intros s j q Ej Eq; cbn [fold_left map].
  - rewrite app_nil_r. split; [exists j; auto | exact Eq].
  - destruct (emit_known s id stage StageStatus.DONE (Some m) (Some ms) false now j q Ej Eq) as [(j1 & E1 & S1 & R1) Q1].
    destruct (IH _ _ _ E1 Q1) as [(j2 & E2 & S2 & R2) Q2]. split.
    + exists j2. split; [exact E2 | split; congruence].
    + rewrite Q2, <- app_assoc. reflexivity.
Qed.

Lemma build_address_valid c : AddressGenerator.candidate_valid c -> exists a, build_address c = Ok a.
Proof.
  intros (Hr & [H1 H2] & [H3 H4]). unfold build_address. destruct (AddressGenerator.rank c) as [r|]; [|easy].
  unfold Qleb. rewrite !(proj2 (Qle_bool_iff _ _)) by assumption. eexists. reflexivity.
Qed.

(** Building the response from [generate_candidates]' output never
    raises. *)
Lemma build_response_total id c conc lim ic :
  exists r, build_response id c conc (candidates_for c lim ic) ic = Ok r.
Proof.
  unfold build_response. destruct (map_res_total build_address (candidates_for c lim ic)) as [top ->].
  - intros x Hx. apply build_address_valid.
    exact (proj1 (List.Forall_forall _ _) (AddressGenerator.generate_candidates_valid _ _ _ _ _ _) x Hx).
  - eexists. reflexivity.
Qed.

Lemma mark_running_known s id j :
  jobs s !! id = Some j ->
  jobs (mark_running s id) !! id = Some (with_status j JobStatus.RUNNING) /\
  job_queues (mark_running s id) = job_queues s.
Proof. intros E. unfold mark_running. rewrite E. split; [apply lookup_insert_eq | reflexivity]. Qed.

Lemma complete_known s id r now j q :
  jobs s !! id = Some j -> job_queues s !! id = Some q ->
  jobs (complete_job s id r None now) !! id = Some (finish j JobStatus.COMPLETE (Some r) [] (error j) now) /\
  job_queues (complete_job s id r None now) !! id = Some (q ++ [Some (CompleteEvent id r); None]).
Proof.
  intros Ej Eq. unfold complete_job. rewrite Ej, !put_jobs. split; [apply lookup_insert_eq|].
  rewrite (put_queue _ _ _ (q ++ [Some (CompleteEvent id r)])); [now rewrite <- app_assoc|].
  apply put_queue. exact Eq.
Qed.

Lemma emit_done_unknown s id n ms now : jobs s !! id = None -> emit_done_stages s id n ms now = s.
Proof.
  intros E. unfold emit_done_stages. generalize (stage_metrics n). intros l.
  induction l as [|[stage m] l IH]; [reflexivity|]. cbn [fold_left].
  unfold emit_stage_update at 2. rewrite E. exact IH.
Qed.

Lemma stream_take_cons s id item q :
  job_queues s !! id = Some (item :: q) ->
  stream_take s id = Some (item, set_queues s (<[id := q]> (job_queues s))).
Proof. intros E. unfold stream_take. rewrite E. reflexivity. Qed.

(** A stream over a queue holding [es] and then the end marker yields
    [es], reaches the end and leaves what follows the marker. *)
Lemma stream_session_marker s id es rest n :
  job_queues s !! id = Some (map Some es ++ None :: rest) -> (length es < n)%nat ->
  stream_session n s id = (es, true, set_queues s (<[id := rest]> (job_queues s))).
Proof.
  revert s n. induction es as [|e es IH]; intros s [|n] E Hn; cbn [length] in Hn; try lia;
    cbn [stream_session]; rewrite (stream_take_cons _ _ _ _ E); [reflexivity|].
  rewrite IH; [|cbn [job_queues set_queues]; apply lookup_insert_eq | lia].
  cbn [job_queues set_queues]. rewrite insert_insert_eq. reflexivity.
Qed.

Lemma stream_session_empty s id n :
  job_queues s !! id = Some [] -> stream_session (S n) s id = ([], false, s).
Proof. intros E. cbn [stream_session]. unfold stream_take. rewrite E. reflexivity. Qed.

(** ** No step removes a job *)

Lemma set_job_dom s id j0 j :
  jobs s !! id = Some j0 -> dom (jobs (set_jobs s (<[id := j]> (jobs s)))) = dom (jobs s).
Proof. intros E. apply dom_insert_lookup_L. eauto. Qed.

(** Updates, completion and failure rewrite a known job and never add or
    drop one. *)
Lemma emit_dom s id stage st mo ms cached now :
  dom (jobs (emit_stage_update s id stage st mo ms cached now)) = dom (jobs s).
Proof.
  unfold emit_stage_update. destruct (jobs s !! id) eqn:E; [|reflexivity].
  rewrite put_jobs. exact (set_job_dom _ _ _ _ E).
Qed.

Lemma complete_dom s id r deg now : dom (jobs (complete_job s id r deg now)) = dom (jobs s).
Proof.
  unfold complete_job. destruct (jobs s !! id) eqn:E; [|reflexivity].
  rewrite !put_jobs. exact (set_job_dom _ _ _ _ E).
Qed.

Lemma fail_dom s id err now : dom (jobs (fail_job s id err now)) = dom (jobs s).
Proof.
  unfold fail_job. destruct (jobs s !! id) eqn:E; [|reflexivity].
  rewrite !put_jobs. exact (set_job_dom _ _ _ _ E).
Qed.

Lemma mark_running_dom s id : dom (jobs (mark_running s id)) = dom (jobs s).
Proof. unfold mark_running. destruct (jobs s !! id) eqn:E; [exact (set_job_dom _ _ _ _ E) | reflexivity]. Qed.

Lemma emit_done_dom s id n ms now : dom (jobs (emit_done_stages s id n ms now)) = dom (jobs s).
Proof.
  unfold emit_done_stages. generalize (stage_metrics n). intros l. revert s.
  induction l as [|[stage m] l IH]; intros s; [reflexivity|]. cbn [fold_left]. rewrite IH. apply emit_dom.
Qed.

Lemma run_finish_dom s id c conc ic cands total_ms now :
  dom (jobs (run_finish s id c conc ic cands total_ms now)) = dom (jobs s).
Proof.
  unfold run_finish. destruct (build_response id c conc cands ic);
    [rewrite complete_dom | rewrite fail_dom]; apply emit_done_dom.
Qed.

Lemma step_dom s s' : step s s' -> dom (jobs s) ⊆ dom (jobs s').
Proof.
  destruct 1 as [s id r now s' out E | s id now | s id c conc lim ic total_ms now | s id item s' E].
  - unfold recommend_addresses in E. destruct (request_valid r); [|discriminate].
    injection E as <- _. cbn [jobs]. rewrite dom_insert_L. set_solver.
  - unfold run_start. rewrite emit_dom, mark_running_dom. reflexivity.
  - rewrite run_finish_dom. reflexivity.
  - unfold stream_take in E. destruct (job_queues s !! id) as [[|]|]; try discriminate.
    injection E as _ <-. reflexivity.
Qed.

(** ** [cleanup_expired_jobs] *)

Lemma cleanup_fold L s id :
  let s' := fold_left (fun s id => mkState (delete id (jobs s)) (delete id (job_queues s)) (ttl_seconds s)) L s in
  (reg_inv s -> reg_inv s') /\
  jobs s' !! id = (if in_dec string_dec id L then None else jobs s !! id).
Proof.
  revert s. induction L as [|x L IH]; intros s; cbn [fold_left]; [split; [exact (fun H => H) | reflexivity]|].
  destruct (IH (mkState (delete x (jobs s)) (delete x (job_queues s)) (ttl_seconds s))) as [H1 H2]. split.
  - intros (Hd & Hj & Hq). apply H1. split; [|split]; cbn [jobs job_queues].
    + rewrite !dom_delete_L, Hd. reflexivity.
    + apply map_Forall_delete, Hj.
    + apply map_Forall_delete, Hq.
  - rewrite H2. cbn [jobs].
    destruct (in_dec string_dec id L) as [HL | HL], (in_dec string_dec id (x :: L)) as [Hin | Hin].
    + reflexivity.
    + exfalso. apply Hin. right. exact HL.
    + destruct Hin as [Hx | Hin]; [subst x; apply lookup_delete_eq | contradiction].
    + apply lookup_delete_ne. intros Hx. apply Hin. left. exact Hx.
Qed.

Lemma in_expired_ids s now id :
  In id (expired_ids s now) <-> exists j, jobs s !! id = Some j /\ (expires_at j < now)%Z.
Proof.
  unfold expired_ids. rewrite in_map_iff. split.
  - intros ([i j] & <- & Hin). apply filter_In in Hin as [Hin Hlt]. apply Z.ltb_lt in Hlt.
    exists j. split; [apply elem_of_map_to_list, list_elem_of_In, Hin | exact Hlt].
  - intros (j & Ej & Hlt). exists (id, j). split; [reflexivity|]. apply filter_In. split.
    + apply list_elem_of_In, elem_of_map_to_list, Ej.
    + apply Z.ltb_lt, Hlt.
Qed.

Lemma init_inv ttl : reg_inv (init ttl).
Proof. split; [reflexivity | split; apply map_Forall_empty]. Qed.

Lemma done_events_some id l ms :
  map (fun '(stage, m) => Some (StageEvent id stage StageStatus.DONE m ms false)) l =
  map Some (map (fun '(stage, m) => StageEvent id stage StageStatus.DONE m ms false) l).
Proof. induction l as [|[stage m] l IH]; cbn [map]; [reflexivity | now rewrite IH]. Qed.

(** The task on a job that has a queue: the job ends [COMPLETE] with the
    response, and its queue receives, in order, GEO [running], the seven
    [done] updates, the completion event and the end marker. *)
Lemma run_known s id c conc lim ic total_ms now j (q : list (option Event)) :
  jobs s !! id = Some j -> job_queues s !! id = Some q ->
  let n := Z.of_nat (length (candidates_for c lim ic)) in
  let s' := run_recommendation_job s id c conc lim ic total_ms now in
  exists r j', build_response id c conc (candidates_for c lim ic) ic = Ok r /\
    jobs s' !! id = Some j' /\ status j' = JobStatus.COMPLETE /\ result j' = Some r /\ error j' = error j /\
    job_queues s' !! id =
      Some (q ++ map Some (StageEvent id "GEO" StageStatus.RUNNING [] (Some 0%Z) false ::
        map (fun '(stage, m) => StageEvent id stage StageStatus.DONE m (Some (total_ms / 7)%Z) false)
          (stage_metrics n) ++ [CompleteEvent id r]) ++ [None]).
Proof.
  intros Ej Eq. cbv zeta. unfold run_recommendation_job, run_finish, run_start.
  destruct (mark_running_known s id j Ej) as [E1 Q1]. rewrite <- Q1 in Eq.
  destruct (emit_known _ id "GEO" StageStatus.RUNNING None (Some 0%Z) false now _ _ E1 Eq) as [(j2 & E2 & S2 & R2) Q2].
  destruct (emit_done_known _ id (Z.of_nat (length (candidates_for c lim ic))) (total_ms / 7) now _ _ E2 Q2)
    as [(j3 & E3 & S3 & R3) Q3].
  destruct (build_response_total id c conc lim ic) as [r Er]. rewrite Er.
  destruct (complete_known _ id r now _ _ E3 Q3) as [E4 Q4].
  exists r, (finish j3 JobStatus.COMPLETE (Some r) [] (error j3) now).
  split; [reflexivity | split; [exact E4 | split; [reflexivity | split; [reflexivity | split]]]].
  - cbn [finish error with_status] in *. congruence.
  - rewrite Q4, done_events_some. cbn [map]. rewrite map_app, <- !app_assoc. reflexivity.
Qed.

(** C25: every state the server reaches from [JobManager()] through
    requests, the two halves of background tasks and stream reads keeps
    the registry invariant: the jobs and the event queues have the same
    ids, each job is filed under its own id, and each queue holds only
    events of its job. *)
Theorem reachable_reg_inv ttl s : reachable ttl s -> reg_inv s.
Proof. induction 1 as [|s s' _ IH Hs]; [apply init_inv | exact (registry_step_inv _ _ IH Hs)]. Qed.

(** C26: no step of the server ever removes a job: once created, a job is
    retrievable forever, however far past its [expires_at], because
    nothing calls [cleanup_expired_jobs]. *)
Theorem jobs_never_removed s s' id : rtc step s s' -> is_Some (get_job s id) -> is_Some (get_job s' id).
Proof.
  unfold get_job. rewrite <- !elem_of_dom. induction 1 as [s|s s1 s' Hs _ IH]; [tauto|].
  intros H. apply IH, (step_dom _ _ Hs), H.
Qed.

(** A task whose job is unknown (never created, or removed by a
    cleanup) changes nothing: the status write, the stage updates and the
    completion are all ignored as stale writes. *)
Theorem run_unknown_job_noop s id c conc lim ic total_ms now :
  get_job s id = None -> run_recommendation_job s id c conc lim ic total_ms now = s.
Proof.
  unfold get_job. intros E. unfold run_recommendation_job, run_finish, run_start, mark_running.
  rewrite E. unfold emit_stage_update. rewrite E, emit_done_unknown by exact E.
  destruct (build_response _ _ _ _ _); [unfold complete_job | unfold fail_job]; rewrite E; reflexivity.
Qed.

(** C27: after [POST /api/recommend] and its task, the first stream of the
    job yields GEO [running], the seven [done] updates and the completion
    with the response, then ends; polling reports [complete] with that
    response and no error; a stream opened afterwards finds the queue
    empty and never ends (it only sends keepalives). *)
Theorem recommend_run_stream s id r now total_ms s1 out :
  recommend_addresses s id r now = Ok (s1, out) ->
  let cands := candidates_for (req_city r) (req_limit r) (req_include_crime r) in
  let s2 := run_recommendation_job s1 id (req_city r) (req_concept r) (req_limit r) (req_include_crime r) total_ms now in
  exists resp s3,
    stream_job_progress s2 id =
      Ok (StageEvent id "GEO" StageStatus.RUNNING [] (Some 0%Z) false ::
          map (fun '(stage, m) => StageEvent id stage StageStatus.DONE m (Some (total_ms / 7)%Z) false)
            (stage_metrics (Z.of_nat (length cands))) ++ [CompleteEvent id resp], true, s3) /\
    get_job_status s2 id = Ok (mkStatusResponse id JobStatus.COMPLETE (Some resp) None) /\
    stream_job_progress s3 id = Ok ([], false, s3).
Proof.
  intros E. unfold recommend_addresses in E. destruct (request_valid r); [|discriminate].
  injection E as <- _. cbv zeta.
  match goal with |- context [run_recommendation_job ?s0 _ _ _ _ _ _ _] =>
    destruct (run_known s0 id (req_city r) (req_concept r) (req_limit r) (req_include_crime r) total_ms now _ []
                (lookup_insert_eq _ _ _) (lookup_insert_eq _ _ _)) as (resp & j' & _ & E' & S' & R' & Er & Q') end.
  cbv zeta in E', Q'. set (s2 := run_recommendation_job _ _ _ _ _ _ _ _) in *.
  exists resp, (set_queues s2 (<[id := []]> (job_queues s2))).
  rewrite app_nil_l in Q'. unfold stream_job_progress, get_job_status, get_job. rewrite E', Q'.
  rewrite (stream_session_marker _ _ _ [] _ Q') by (rewrite length_app, length_map; cbn [length]; lia).
  split; [reflexivity | split; [rewrite S', R', Er; reflexivity|]]. cbn [jobs job_queues set_queues].
  rewrite E', lookup_insert_eq, stream_session_empty; [reflexivity | apply lookup_insert_eq].
Qed.

(** [cleanup_expired_jobs] removes exactly the jobs whose
    [expires_at] is before [now], with their queues, and keeps the
    registry invariant. *)
Theorem cleanup_expired_jobs_spec s now id :
  reg_inv s ->
  reg_inv (cleanup_expired_jobs s now) /\
  get_job (cleanup_expired_jobs s now) id =
    match get_job s id with
    | Some j => if (expires_at j <? now)%Z then None else Some j
    | None => None
    end.
Proof.
  intros H. destruct (cleanup_fold (expired_ids s now) s id) as [H1 H2]. split; [exact (H1 H)|].
  unfold get_job, cleanup_expired_jobs. rewrite H2. destruct (in_dec string_dec id (expired_ids s now)) as [Hin|Hin].
  - apply in_expired_ids in Hin as (j & Ej & Hlt). rewrite Ej. apply Z.ltb_lt in Hlt. rewrite Hlt. reflexivity.
  - destruct (jobs s !! id) as [j|] eqn:Ej; [|reflexivity]. destruct (expires_at j <? now)%Z eqn:Hlt; [|reflexivity].
    exfalso. apply Hin, in_expired_ids. exists j. split; [exact Ej | apply Z.ltb_lt, Hlt].
Qed.

(** [POST /api/recommend] on every branch: a request whose [limit]
    lies in [1, 20] creates a [pending] job under the new id, expiring
    [ttl_seconds] after [now], with an empty queue (a stream opened now
    waits), leaves every other job alone and answers with the stream
    URL; any other request is rejected by validation. *)
Theorem recommend_addresses_spec s id r now :
  match recommend_addresses s id r now with
  | Ok (s', out) =>
      (1 <= req_limit r <= 20)%Z /\ out = (id, "processing", ("/api/stream/" ++ id)%string) /\
      get_job_status s' id = Ok (mkStatusResponse id JobStatus.PENDING None None) /\
      option_map expires_at (get_job s' id) = Some (now + ttl_seconds s)%Z /\
      stream_job_progress s' id = Ok ([], false, s') /\
      (forall i, i <> id -> get_job s' i = get_job s i)
  | Raise e => e = ValidationError /\ ~ (1 <= req_limit r <= 20)%Z
  end.
Proof.
  unfold recommend_addresses, request_valid. destruct ((1 <=? req_limit r)%Z && (req_limit r <=? 20)%Z) eqn:Hv.
  - apply andb_true_iff in Hv as [H1 H2]. apply Z.leb_le in H1, H2. cbn [create_job].
    unfold get_job_status, stream_job_progress, get_job. cbn [jobs job_queues].
    rewrite !lookup_insert_eq, stream_session_empty by apply lookup_insert_eq.
    repeat split; try lia. intros i Hi. apply lookup_insert_ne. congruence.
  - split; [reflexivity|]. intros [H1 H2]. apply Z.leb_le in H1, H2. rewrite H1, H2 in Hv. discriminate.
Qed.

(** C28: the stream reads a queue as the reference reading says: from a
    queue [q], a session with one more take than [q] has items yields the
    events before the first end marker and whether it reached one, and
    leaves on the queue exactly what followed the marker. *)
Theorem stream_session_reference s id q n :
  job_queues s !! id = Some q -> (length q < n)%nat ->
  let '(es, fin, rest) := stream_events q in
  stream_session n s id = (es, fin, set_queues s (<[id := rest]> (job_queues s))).
Proof.
  revert s n. induction q as [|[e|] q IH]; intros s [|n] E Hn; cbn [length] in Hn; try lia; cbn [stream_events].
  - cbn [stream_session]. unfold stream_take. rewrite E, insert_id by exact E. destruct s. reflexivity.
  - specialize (IH (set_queues s (<[id := q]> (job_queues s))) n (lookup_insert_eq _ _ _) ltac:(lia)).
    destruct (stream_events q) as [[es fin] rest]. cbn [stream_session]. rewrite (stream_take_cons _ _ _ _ E), IH.
    cbn [job_queues set_queues]. rewrite insert_insert_eq. reflexivity.
  - cbn [stream_session]. rewrite (stream_take_cons _ _ _ _ E). reflexivity.
Qed.

End WithServices.

(** ** Examples *)

Lemma reachable_reg_inv_witness :
  reachable sample_haversine sample_geocode sample_hash 3600 sample_created /\ reg_inv sample_created.
Proof.
  assert (H : reachable sample_haversine sample_geocode sample_hash 3600 sample_created).
  { apply (reach_step _ _ _ _ (init 3600)); [apply reach_init|].
    apply (step_recommend _ _ _ (init 3600) "job-1" sample_request 0 sample_created sample_out). reflexivity. }
  split; [exact H | exact (reachable_reg_inv _ _ _ _ _ H)].
Defined.

(** Long after [expires_at] (3600), the job is still there. *)
Lemma jobs_never_removed_witness :
  rtc (step sample_haversine sample_geocode sample_hash) sample_created (run_start sample_created "job-1" 5000) /\
  is_Some (get_job sample_created "job-1") /\ is_Some (get_job (run_start sample_created "job-1" 5000) "job-1").
Proof.
  assert (H1 : rtc (step sample_haversine sample_geocode sample_hash) sample_created (run_start sample_created "job-1" 5000))
    by (apply rtc_once, step_start).
  assert (H2 : is_Some (get_job sample_created "job-1")) by (eexists; reflexivity).
  exact (conj H1 (conj H2 (jobs_never_removed _ _ _ _ _ _ H1 H2))).
Defined.

Lemma run_unknown_job_noop_witness :
  get_job sample_created "job-2" = None /\
  run_recommendation_job sample_haversine sample_geocode sample_hash sample_created "job-2" "Helsinki" "QSR" 10 false 700 0
    = sample_created.
Proof.
  assert (H : get_job sample_created "job-2" = None) by reflexivity.
  exact (conj H (run_unknown_job_noop _ _ _ _ _ _ _ _ _ _ _ H)).
Defined.

Lemma recommend_run_stream_witness :
  recommend_addresses (init 3600) "job-1" sample_request 0 = Ok (sample_created, sample_out) /\
  let cands := candidates_for sample_haversine sample_geocode sample_hash "Helsinki" 10 false in
  let s2 := run_recommendation_job sample_haversine sample_geocode sample_hash sample_created "job-1" "Helsinki" "QSR"
              10 false 700 0 in
  exists resp s3,
    stream_job_progress s2 "job-1" =
      Ok (StageEvent "job-1" "GEO" StageStatus.RUNNING [] (Some 0%Z) false ::
          map (fun '(stage, m) => StageEvent "job-1" stage StageStatus.DONE m (Some (700 / 7)%Z) false)
            (stage_metrics (Z.of_nat (length cands))) ++ [CompleteEvent "job-1" resp], true, s3) /\
    get_job_status s2 "job-1" = Ok (mkStatusResponse "job-1" JobStatus.COMPLETE (Some resp) None) /\
    stream_job_progress s3 "job-1" = Ok ([], false, s3).
Proof.
  assert (H : recommend_addresses (init 3600) "job-1" sample_request 0 = Ok (sample_created, sample_out)) by reflexivity.
  exact (conj H (recommend_run_stream _ _ _ _ _ _ _ 700 _ _ H)).
Defined.

(** An hour and a bit later the sample job has expired and is removed. *)
Lemma cleanup_expired_jobs_spec_witness :
  reg_inv sample_created /\
  (reg_inv (cleanup_expired_jobs sample_created 4000) /\
   get_job (cleanup_expired_jobs sample_created 4000) "job-1" =
     match get_job sample_created "job-1" with
     | Some j => if (expires_at j <? 4000)%Z then None else Some j
     | None => None
     end) /\
  get_job (cleanup_expired_jobs sample_created 4000) "job-1" = None.
Proof.
  assert (H : reg_inv sample_created) by exact (create_job_inv _ _ _ _ _ _ _ (init_inv 3600)).
  split; [exact H | split; [apply cleanup_expired_jobs_spec; exact H | reflexivity]].
Defined.

Lemma stream_session_reference_witness :
  job_queues sample_created !! "job-1" = Some [] /\ (length (@nil (option Event)) < 1)%nat /\
  stream_session 1 sample_created "job-1" = ([], false, set_queues sample_created (<[ "job-1" := [] ]> (job_queues sample_created))).
Proof.
  assert (H : job_queues sample_created !! "job-1" = Some []) by reflexivity.
  assert (Hn : (length (@nil (option Event)) < 1)%nat) by (cbn; lia).
  exact (conj H (conj Hn (stream_session_reference _ _ _ _ H Hn))).
Defined.

End JobManager.
