(* ===== verification/ConceptLearner.v ===== *)
(** * ConceptLearner: src/backend/services/concept_learner.py

    The database the learner reads and writes is the record [DB]: the
    concept rows, the prediction rows, the training outcomes in insertion
    order, and the next outcome id the table will assign.  The JSON
    feature snapshot of a prediction is [Snapshot]: the keys the learner
    reads, plus whether the dictionary has other keys (an empty
    dictionary is falsy in [if not outcome.features_used]).  A method that
    raises leaves the database unchanged: nothing is committed before
    [record_outcome]'s final [commit].  The square root of
    [_calculate_correlation] is the class [SqrtOp] of Statistics.v. *)

From S2P Require Import Prelude Concept Scoring ConceptStore Statistics.
Local Open Scope string_scope.

Record Snapshot := mkSnapshot {
  snap_features : Features;
  snap_other_keys : bool
}.

Definition features_all_absent (f : Features) : bool :=
  forallb (fun v => match v with Absent => true | _ => false end)
    [population_1km f; population_density f; median_income f; competitors_count f;
     competitors_per_1k_residents f; nearest_metro_distance_m f;
     nearest_tram_distance_m f; walkability_poi_count f].

(** Python truthiness of the JSON column. *)
Definition snapshot_truthy (o : option Snapshot) : bool :=
  match o with
  | None => false
  | Some s => snap_other_keys s || negb (features_all_absent (snap_features s))
  end.

Record Prediction := mkPrediction {
  p_id : Z;
  p_concept_id : option string;
  p_score : Q;
  p_revenue_low : Q;
  p_revenue_mid : Q;
  p_revenue_high : Q;
  p_features : option Snapshot
}.

Record TrainingOutcome := mkOutcome {
  o_id : Z;
  o_concept_id : string;
  o_prediction_id : Z;
  o_predicted_revenue_eur : Q;
  o_predicted_score : Q;
  o_features_used : option Snapshot;
  o_actual_revenue_eur : Q;
  o_variance_pct : Q;
  o_opened_at : Z;
  o_used_in_training : bool;
  o_training_weight : Q
}.

Record DB := mkDB {
  db_concepts : list Concept;
  db_predictions : list Prediction;
  db_outcomes : list TrainingOutcome;
  db_next_outcome_id : Z
}.

Record RecordResult := mkRecordResult {
  training_outcome_id : option Z;
  variance_pct : Q;
  triggered_retraining : bool;
  new_accuracy : option Q;
  outcomes_count : option Z
}.

Module ConceptLearner.

Definition MIN_OUTCOMES_FOR_TRAINING : nat := 5.
Definition MIN_OUTCOMES_FOR_WEIGHTS : nat := 20.

(** ** The weights dictionary *)

Definition feature_names : list string :=
  ["population"; "income"; "access"; "competition"; "walkability"].

Definition weight_get (w : Weights) (k : string) : Q :=
  if String.eqb k "population" then w_population w
  else if String.eqb k "income" then w_income w
  else if String.eqb k "access" then w_access w
  else if String.eqb k "competition" then w_competition w
  else if String.eqb k "walkability" then w_walkability w
  else 0.

Definition weight_set (w : Weights) (k : string) (v : Q) : Weights :=
  mkWeights (if String.eqb k "population" then v else w_population w)
            (if String.eqb k "income" then v else w_income w)
            (if String.eqb k "access" then v else w_access w)
            (if String.eqb k "competition" then v else w_competition w)
            (if String.eqb k "walkability" then v else w_walkability w).

Definition weights_map (f : Q -> Q) (w : Weights) : Weights :=
  mkWeights (f (w_population w)) (f (w_income w)) (f (w_access w))
            (f (w_competition w)) (f (w_walkability w)).

(** [max(new_weights, key=new_weights.get)]: the first key of maximal value. *)
Definition max_key (w : Weights) : string :=
  fold_left (fun best k => if Qgtb (weight_get w k) (weight_get w best) then k else best)
    (tl feature_names) "population".

(** ** The learner's methods *)

Section WithSqrt.
Context `{SqrtOp}.

(** _calculate_correlation *)
Definition calculate_correlation (x : list pyval) (y : list Q) : Q :=
  if negb (Nat.eqb (List.length x) (List.length y)) || (List.length x <? 2)%nat then 0 else
  let pairs := flat_map (fun p => match fst p with PyNum xi => [(xi, snd p)] | _ => [] end)
                 (combine x y) in
  if (List.length pairs <? 2)%nat then 0 else
  let x_clean := map fst pairs in
  let y_clean := map snd pairs in
  let x_mean := sum x_clean / inject_Z (Z.of_nat (List.length x_clean)) in
  let y_mean := sum y_clean / inject_Z (Z.of_nat (List.length y_clean)) in
  let numerator := sum (map (fun p => (fst p - x_mean) * (snd p - y_mean)) pairs) in
  let x_variance := sum (map (fun xi => (xi - x_mean) * (xi - x_mean)) x_clean) in
  let y_variance := sum (map (fun yi => (yi - y_mean) * (yi - y_mean)) y_clean) in
  let denominator := sqrt_op (x_variance * y_variance) in
  if Qeqb denominator 0 then 0 else numerator / denominator.

(** One outcome's row of factor values, in the order of [feature_names]. *)
Definition extract_factors (f : Features) : res (list pyval) :=
  m <- num (get_default (nearest_metro_distance_m f) 1000) ;;
  access <- py_div 1 (m + 1) ;;
  Ok [get_default (population_density f) 0; get_default (median_income f) 0; PyNum access;
      get_default (competitors_per_1k_residents f) 0; get_default (walkability_poi_count f) 0].

(** The outcomes with a truthy snapshot, paired with their actual revenue. *)
Definition outcomes_with_features (outcomes : list TrainingOutcome) : list (Features * Q) :=
  flat_map (fun o => match o_features_used o with
                     | Some s => if snapshot_truthy (Some s)
                                 then [(snap_features s, o_actual_revenue_eur o)] else []
                     | None => []
                     end) outcomes.

(** The normalisation of _optimize_weights: each correlation's share of
    the total, rounded to two decimals; when the rounded shares do not sum
    to one, the largest absorbs the residual. *)
Definition renormalise (correlations : Weights) : Weights :=
  let total_corr := weights_sum correlations in
  let new_weights := weights_map (fun c => py_round (c / total_corr) 2) correlations in
  let weight_sum := weights_sum new_weights in
  if negb (Qeqb weight_sum 1) then
    let k := max_key new_weights in
    weight_set new_weights k (py_round (weight_get new_weights k + (1 - weight_sum)) 2)
  else new_weights.

(** _optimize_weights *)
Definition optimize_weights (outcomes : list TrainingOutcome) (current_weights : Weights)
    : res (option Weights) :=
  if (List.length outcomes <? MIN_OUTCOMES_FOR_WEIGHTS)%nat then Ok None else
  let rows := outcomes_with_features outcomes in
  factors <- map_res (fun r => extract_factors (fst r)) rows ;;
  let actual_revenues := map snd rows in
  let column i := map (fun fs => nth i fs PyNone) factors in
  let corr i := Qabs (calculate_correlation (column i) actual_revenues) in
  let correlations := mkWeights (corr 0%nat) (corr 1%nat) (corr 2%nat) (corr 3%nat) (corr 4%nat) in
  let total_corr := weights_sum correlations in
  if Qeqb total_corr 0 then Ok None else Ok (Some (renormalise correlations)).

(** The uncertainty band for a MAPE over [n] outcomes. *)
Definition variance_band (mape : Q) (n : nat) : Q :=
  if Qltb mape 10 then 10 # 100
  else if Qltb mape 15 then 12 # 100
  else if Qltb mape 20 then 15 # 100
  else py_max ((20 # 100) - inject_Z (Z.of_nat n) * (5 # 1000)) (15 # 100).

Definition find_concept_row (db : DB) (concept_id : string) : option Concept :=
  find (fun c => String.eqb (c_id c) concept_id) (db_concepts db).

Definition find_prediction (db : DB) (prediction_id : Z) : option Prediction :=
  find (fun p => Z.eqb (p_id p) prediction_id) (db_predictions db).

Definition write_concept (db : DB) (c : Concept) : DB :=
  mkDB (map (fun c' => if String.eqb (c_id c') (c_id c) then c else c') (db_concepts db))
       (db_predictions db) (db_outcomes db) (db_next_outcome_id db).

Definition with_trained (c : Concept) (base : Z) (variance mape : Q) (now : Z) (w : Weights) : Concept :=
  {| c_id := c_id c; c_customer_id := c_customer_id c; c_name := c_name c;
     c_category := c_category c; c_description := c_description c;
     c_base_revenue_eur := base; c_revenue_variance := variance;
     c_target_income_min := c_target_income_min c; c_target_income_max := c_target_income_max c;
     c_optimal_population_density := c_optimal_population_density c;
     c_target_competitors_per_1k := c_target_competitors_per_1k c;
     c_weights := w; c_outcomes_count := c_outcomes_count c;
     c_avg_prediction_error := Some mape; c_last_trained_at := Some now;
     c_is_system_default := c_is_system_default c; c_is_active := c_is_active c |}.

Definition with_outcomes_count (c : Concept) (n : Z) : Concept :=
  {| c_id := c_id c; c_customer_id := c_customer_id c; c_name := c_name c;
     c_category := c_category c; c_description := c_description c;
     c_base_revenue_eur := c_base_revenue_eur c; c_revenue_variance := c_revenue_variance c;
     c_target_income_min := c_target_income_min c; c_target_income_max := c_target_income_max c;
     c_optimal_population_density := c_optimal_population_density c;
     c_target_competitors_per_1k := c_target_competitors_per_1k c;
     c_weights := c_weights c; c_outcomes_count := n;
     c_avg_prediction_error := c_avg_prediction_error c; c_last_trained_at := c_last_trained_at c;
     c_is_system_default := c_is_system_default c; c_is_active := c_is_active c |}.

Definition mark_used (concept_id : string) (o : TrainingOutcome) : TrainingOutcome :=
  if String.eqb (o_concept_id o) concept_id then
    {| o_id := o_id o; o_concept_id := o_concept_id o; o_prediction_id := o_prediction_id o;
       o_predicted_revenue_eur := o_predicted_revenue_eur o; o_predicted_score := o_predicted_score o;
       o_features_used := o_features_used o; o_actual_revenue_eur := o_actual_revenue_eur o;
       o_variance_pct := o_variance_pct o; o_opened_at := o_opened_at o;
       o_used_in_training := true; o_training_weight := o_training_weight o |}
  else o.

(** _retrain_concept; [now] is [datetime.utcnow()]. *)
Definition retrain_concept (db : DB) (concept_id : string) (now : Z) : res DB :=
  match find_concept_row db concept_id with
  | None => Ok db
  | Some concept =>
      let outcomes := filter (fun o => String.eqb (o_concept_id o) concept_id) (db_outcomes db) in
      if (List.length outcomes <? MIN_OUTCOMES_FOR_TRAINING)%nat then Ok db else
      new_base_revenue <- median (map o_actual_revenue_eur outcomes) ;;
      mape <- mean (map (fun o => Qabs (o_variance_pct o)) outcomes) ;;
      let new_variance := variance_band mape (List.length outcomes) in
      optimized <-
        (if (MIN_OUTCOMES_FOR_WEIGHTS <=? List.length outcomes)%nat
         then optimize_weights outcomes (c_weights concept) else Ok None) ;;
      let weights := match optimized with Some w => w | None => c_weights concept end in
      let concept' := with_trained concept (py_int new_base_revenue) new_variance mape now weights in
      let db' := write_concept db concept' in
      Ok (mkDB (db_concepts db') (db_predictions db')
               (map (mark_used concept_id) (db_outcomes db')) (db_next_outcome_id db'))
  end.

(** record_outcome.  The outcome row is inserted by the flush: a second
    outcome for the same prediction violates [unique=True] on
    [prediction_id]. *)
Definition record_outcome (db : DB) (prediction_id : Z) (actual_revenue : Q) (opened_at now : Z)
    : res (DB * RecordResult) :=
  match find_prediction db prediction_id with
  | None => Raise (ValueError "Prediction not found")
  | Some prediction =>
      match p_concept_id prediction with
      | None => Ok (db, mkRecordResult None 0 false None None)
      | Some cid =>
          if String.eqb cid "" then Ok (db, mkRecordResult None 0 false None None) else
          r <- py_div (actual_revenue - p_revenue_mid prediction) (p_revenue_mid prediction) ;;
          let variance_pct := r * 100 in
          if existsb (fun o => Z.eqb (o_prediction_id o) prediction_id) (db_outcomes db)
          then Raise IntegrityError else
          let training_outcome :=
            {| o_id := db_next_outcome_id db; o_concept_id := cid; o_prediction_id := prediction_id;
               o_predicted_revenue_eur := p_revenue_mid prediction;
               o_predicted_score := p_score prediction;
               o_features_used := p_features prediction;
               o_actual_revenue_eur := actual_revenue; o_variance_pct := variance_pct;
               o_opened_at := opened_at; o_used_in_training := false;
               o_training_weight := 1 |} in
          let db1 := mkDB (db_concepts db) (db_predictions db)
                          (db_outcomes db ++ [training_outcome]) (db_next_outcome_id db + 1) in
          match find_concept_row db1 cid with
          | None => Raise AttributeError
          | Some concept =>
              let count := (c_outcomes_count concept + 1)%Z in
              let db2 := write_concept db1 (with_outcomes_count concept count) in
              if (Z.of_nat MIN_OUTCOMES_FOR_TRAINING <=? count)%Z then
                db3 <- retrain_concept db2 (c_id concept) now ;;
                let new_accuracy := match find_concept_row db3 (c_id concept) with
                                    | Some c => c_avg_prediction_error c | None => None end in
                Ok (db3, mkRecordResult (Some (o_id training_outcome)) (py_round variance_pct 2)
                                        true new_accuracy (Some count))
              else
                Ok (db2, mkRecordResult (Some (o_id training_outcome)) (py_round variance_pct 2)
                                        false None (Some count))
          end
      end
  end.

(** Outcome submissions processed one after the other, as the synchronous
    retraining of record_outcome serialises them: each request is a
    prediction id and an actual revenue. *)
Definition record_outcomes (db : DB) (reqs : list (Z * Q)) (opened now : Z) : res DB :=
  fold_left (fun acc req => d <- acc ;; r <- record_outcome d (fst req) (snd req) opened now ;; Ok (fst r))
    reqs (Ok db).

End WithSqrt.

(** ** Sample data for the witnesses *)

Definition sample_concept : Concept :=
  mkConcept "k1" "cust1" "Burger QSR" "QSR" None 1200000 (2 # 10) 30000 60000 8000 1
    (mkWeights (3 # 10) (2 # 10) (2 # 10) (15 # 100) (15 # 100)) 0 None None false (Some true).

Definition sample_prediction (i : Z) : Prediction :=
  mkPrediction i (Some "k1") 80 90000 100000 110000 None.

Definition sample_db : DB := mkDB [sample_concept] (map sample_prediction [1; 2; 3; 4; 5; 6]%Z) [] 1.

(** The five openings of the spec's example. *)
Definition spec_openings : list (Z * Q) :=
  [(1%Z, 100000); (2%Z, 120000); (3%Z, 150000); (4%Z, 90000); (5%Z, 110000)].

(** The database after a run of submissions that succeeded. *)
Definition ok_or {A} (d : A) (r : res A) : A := match r with Ok a => a | Raise _ => d end.

Definition spec_db4 : DB := ok_or sample_db (record_outcomes sample_db (firstn 4 spec_openings) 0 0).
Definition spec_db5 : DB := ok_or sample_db (record_outcomes sample_db spec_openings 0 0).
Definition spec_concept5 : Concept := match find_concept_row spec_db5 "k1" with Some c => c | None => sample_concept end.

(** Twenty outcomes with full feature snapshots, for the weight optimiser. *)
Definition train_features (i : Z) (metro : pyval) : Features :=
  mkFeatures (PyNum 15000) (PyNum (inject_Z (5000 + 100 * i))) (PyNum (inject_Z (40000 + 700 * (i mod 3))))
    (PyNum 10) (PyNum (inject_Z (i mod 4))) metro (PyNum 250) (PyNum (inject_Z (10 + i))).

Definition metro_m (i : Z) : pyval := PyNum (nth (Z.to_nat (i mod 5)) [99; 199; 399; 499; 999] 0).

(** Prediction [i] of concept k1, whose snapshot has no metro station
    ([nearest_metro_distance_m] is [None], as the OSM client returns when
    none is found) when [i = missing]. *)
Definition train_prediction (missing i : Z) : Prediction :=
  mkPrediction i (Some "k1") 80 90000 100000 110000
    (Some (mkSnapshot (train_features i (if Z.eqb i missing then PyNone else metro_m i)) false)).

Definition train_outcome (i : Z) : TrainingOutcome :=
  mkOutcome i "k1" i 100000 80 (Some (mkSnapshot (train_features i (metro_m i)) false))
    (inject_Z (100000 + 1000 * i)) (inject_Z i) 0 false 1.

Definition twenty : list Z := map Z.of_nat (seq 1 20).

Definition twenty_weights : Weights :=
  match optimize_weights (map train_outcome twenty) (c_weights sample_concept) with
  | Ok (Some w) => w | _ => c_weights sample_concept end.

(** Predictions 1..20 of concept k1, the snapshot of prediction [missing]
    without a metro distance; the openings of all twenty, the last one
    not yet submitted. *)
Definition metro_db (missing : Z) : DB := mkDB [sample_concept] (map (train_prediction missing) twenty) [] 1.
Definition metro_openings : list (Z * Q) := map (fun i => (i, inject_Z (100000 + 1000 * i))) twenty.
Definition metro_db19 (missing : Z) : DB :=
  ok_or (metro_db missing) (record_outcomes (metro_db missing) (firstn 19 metro_openings) 0 0).
Definition metro_step20 (missing : Z) : res (DB * RecordResult) :=
  record_outcome (metro_db19 missing) 20 120000 0 0.

(** The metro distance of a stored feature snapshot. *)
Definition snapshot_metro (o : option Snapshot) : pyval :=
  match o with Some s => nearest_metro_distance_m (snap_features s) | None => Absent end.

(** A truthy snapshot storing [nearest_metro_distance_m] as [None], as
    main.py stores the OSM client's answer when no station is found. *)
Definition metro_missing (o : option Snapshot) : bool :=
  snapshot_truthy o && match snapshot_metro o with PyNone => true | _ => false end.

(** A snapshot whose metro distance, if numeric, is non-negative. *)
Definition metro_nonneg (o : option Snapshot) : bool :=
  match snapshot_metro o with PyNum m => Qle_bool 0 m | _ => true end.

(** The outcomes [_retrain_concept] queries for a concept. *)
Definition concept_outcomes (db : DB) (cid : string) : list TrainingOutcome :=
  filter (fun o => String.eqb (o_concept_id o) cid) (db_outcomes db).

Definition spec_step5 : DB * RecordResult :=
  ok_or (spec_db4, mkRecordResult None 0 false None None) (record_outcome spec_db4 5 110000 0 0).
Definition spec_d5 : DB := fst spec_step5.
Definition spec_r5 : RecordResult := snd spec_step5.
Definition spec_median5 : Q := ok_or 0 (median (map o_actual_revenue_eur (filter (fun o => String.eqb (o_concept_id o) "k1") (db_outcomes spec_db5)))).
Definition spec_mape5 : Q := ok_or 0 (mean (map (fun o => Qabs (o_variance_pct o)) (filter (fun o => String.eqb (o_concept_id o) "k1") (db_outcomes spec_db5)))).
Definition spec_retrained : DB := ok_or spec_db5 (retrain_concept spec_db5 "k1" 7).

(** The invariant the learner keeps on the database. *)
Definition learner_inv (db : DB) : Prop :=
  Forall ConceptStore.concept_wf (db_concepts db) /\ NoDup (map o_prediction_id (db_outcomes db)).

(** A whole number of hundredths: the values [round(x, 2)] produces. *)
Definition hundredths (q : Q) : Prop := exists z, q == inject_Z z / 100.


(** ** The weights dictionary *)

Lemma weights_sum_keys w :
  weights_sum w = weight_get w "population" + weight_get w "income" + weight_get w "access" +
                  weight_get w "competition" + weight_get w "walkability".
Proof. reflexivity. Qed.

(** Case analysis on the four comparisons [max] makes. *)
Ltac max_key_cases :=
  unfold max_key; simpl fold_left;
  repeat (qcase; cbn [weight_get weight_set String.eqb Ascii.eqb Bool.eqb] in *).

(** [max_key] picks a key whose value is at least every other value, and
    [weight_set] at that key changes the sum by the difference. *)
Lemma max_key_spec w v :
  let k := max_key w in
  weight_get w "population" <= weight_get w k /\ weight_get w "income" <= weight_get w k /\
  weight_get w "access" <= weight_get w k /\ weight_get w "competition" <= weight_get w k /\
  weight_get w "walkability" <= weight_get w k /\
  weights_sum (weight_set w k v) == weights_sum w - weight_get w k + v /\
  (forall P : Q -> Prop, P (weight_get w "population") -> P (weight_get w "income") ->
     P (weight_get w "access") -> P (weight_get w "competition") ->
     P (weight_get w "walkability") -> P v -> Forall P [w_population (weight_set w k v);
       w_income (weight_set w k v); w_access (weight_set w k v);
       w_competition (weight_set w k v); w_walkability (weight_set w k v)]) /\
  (weight_get w k = w_population w \/ weight_get w k = w_income w \/
            weight_get w k = w_access w \/ weight_get w k = w_competition w \/
            weight_get w k = w_walkability w).
Proof.
  cbv zeta. max_key_cases; unfold weights_sum;
    cbn [weight_set weight_get String.eqb Ascii.eqb Bool.eqb
         w_population w_income w_access w_competition w_walkability];
    (split; [lra|]); (split; [lra|]); (split; [lra|]); (split; [lra|]); (split; [lra|]);
    (split; [ring|]); (split; [intros; repeat constructor; assumption|]);
    tauto.
Qed.

Lemma weights_field_valid_iff w :
  ConceptStore.weights_field_valid w = true <->
  Forall (fun x => 0 <= x <= 1) [w_population w; w_income w; w_access w; w_competition w; w_walkability w].
Proof.
  unfold ConceptStore.weights_field_valid. rewrite forallb_forall, Forall_forall.
  split; intros Hf x Hx; specialize (Hf x Hx); unfold Qleb in *;
    [rewrite andb_true_iff, !Qle_bool_iff in Hf | rewrite andb_true_iff, !Qle_bool_iff]; exact Hf.
Qed.

Lemma hundredths_py_round x : hundredths (py_round x 2).
Proof. exists (py_round_int (x * 100)). rewrite py_round2_def. reflexivity. Qed.

Lemma hundredths_1 : hundredths 1.
Proof. exists 100%Z. reflexivity. Qed.

Lemma hundredths_plus a b : hundredths a -> hundredths b -> hundredths (a + b).
Proof.
  intros [za Ea] [zb Eb]. exists (za + zb)%Z. rewrite Ea, Eb, inject_Z_plus, !Qdiv_Zpos. ring.
Qed.

Lemma hundredths_minus a b : hundredths a -> hundredths b -> hundredths (a - b).
Proof.
  intros [za Ea] [zb Eb]. exists (za + - zb)%Z.
  rewrite Ea, Eb, inject_Z_plus, inject_Z_opp, !Qdiv_Zpos. ring.
Qed.

Lemma hundredths_round q : hundredths q -> py_round q 2 == q.
Proof. intros [z E]. rewrite E. apply py_round2_exact. Qed.

(** A rounded share [round(c / total, 2)] is a whole number of
    hundredths in [0, 1], within half a hundredth of the share. *)
Lemma rounded_share c T :
  0 <= c <= T -> 0 < T ->
  let r := py_round (c / T) 2 in
  0 <= r <= 1 /\ c / T - (1 # 200) <= r <= c / T + (1 # 200) /\
  r = inject_Z (py_round_int (c / T * 100)) / 100.
Proof.
  intros Hc HT r. split; [|split; [apply py_round2_err | apply py_round2_def]].
  apply py_round2_range. split; [apply Qdiv_nonneg | apply Qdiv_le_one]; lra.
Qed.

(** The shares of a non-negative record with a non-zero total sum to one. *)
Lemma shares_sum c :
  ~ weights_sum c == 0 ->
  w_population c / weights_sum c + w_income c / weights_sum c + w_access c / weights_sum c +
  w_competition c / weights_sum c + w_walkability c / weights_sum c == 1.
Proof.
  intros Hz. rewrite <- (Qdiv_self (weights_sum c) Hz). unfold Qdiv, weights_sum. ring.
Qed.

(** After rounding, the largest weight absorbs the residual: the result
    sums to exactly one and every weight stays in [0, 1]. *)
Lemma renormalise_ok (c : Weights) :
  weights_nonneg c -> ~ weights_sum c == 0 ->
  let T := weights_sum c in
  let nw := weights_map (fun x => py_round (x / T) 2) c in
  let S := weights_sum nw in
  ConceptStore.weights_field_valid nw = true /\ (39 # 40 <= S <= 41 # 40) /\
  let k := max_key nw in
  let nw' := weight_set nw k (py_round (weight_get nw k + (1 - S)) 2) in
  weights_sum nw' == 1 /\ ConceptStore.weights_field_valid nw' = true.
Proof.
  intros (H1 & H2 & H3 & H4 & H5) Hz T nw S.
  assert (HT : 0 < T) by (unfold T, weights_sum in *; lra).
  pose proof (shares_sum c Hz) as Hsum. fold T in Hsum.
  assert (Hle : forall x, 0 <= x -> x <= T -> 0 <= x <= T) by (intros; lra).
  unfold T, weights_sum in Hle, HT.
  destruct (rounded_share (w_population c) T ltac:(unfold T, weights_sum; lra) HT) as (R1 & E1 & D1).
  destruct (rounded_share (w_income c) T ltac:(unfold T, weights_sum; lra) HT) as (R2 & E2 & D2).
  destruct (rounded_share (w_access c) T ltac:(unfold T, weights_sum; lra) HT) as (R3 & E3 & D3).
  destruct (rounded_share (w_competition c) T ltac:(unfold T, weights_sum; lra) HT) as (R4 & E4 & D4).
  destruct (rounded_share (w_walkability c) T ltac:(unfold T, weights_sum; lra) HT) as (R5 & E5 & D5).
  assert (HS : 39 # 40 <= S <= 41 # 40) by (unfold S, nw, weights_sum, weights_map; simpl; lra).
  split; [apply weights_field_valid_iff; simpl; repeat constructor; lra | split; [exact HS|]].
  intros k nw'.
  destruct (max_key_spec nw (py_round (weight_get nw k + (1 - S)) 2))
    as (G1 & G2 & G3 & G4 & G5 & Hset & Hall & Hone).
  fold k nw' in Hset, Hall, Hone, G1, G2, G3, G4, G5.
  cbn [weight_get String.eqb Ascii.eqb Bool.eqb nw weights_map
       w_population w_income w_access w_competition w_walkability] in G1, G2, G3, G4, G5.
  assert (Hv : py_round (weight_get nw k + (1 - S)) 2 == weight_get nw k + (1 - S)).
  { apply hundredths_round. apply hundredths_plus; [|apply hundredths_minus; [apply hundredths_1|]].
    - destruct Hone as [E | [E | [E | [E | E]]]]; rewrite E; apply hundredths_py_round.
    - unfold S, weights_sum, nw, weights_map; simpl.
      repeat apply hundredths_plus; apply hundredths_py_round. }
  split.
  - rewrite Hset, Hv. change (weights_sum nw) with S. ring.
  - apply weights_field_valid_iff. apply Hall; cbv beta;
      cbn [weight_get String.eqb Ascii.eqb Bool.eqb nw weights_map
           w_population w_income w_access w_competition w_walkability]; try lra.
    rewrite Hv. unfold S, weights_sum in *.
    destruct Hone as [E | [E | [E | [E | E]]]]; rewrite E in *;
      cbn [weight_get String.eqb Ascii.eqb Bool.eqb nw weights_map
           w_population w_income w_access w_competition w_walkability] in *; lra.
Qed.

Section LearnerProofs.
Context `{SqrtOp}.

Lemma renormalise_normalised (c : Weights) :
  weights_nonneg c -> ~ weights_sum c == 0 ->
  weights_sum (renormalise c) == 1 /\ ConceptStore.weights_field_valid (renormalise c) = true.
Proof.
  intros Hn Hz. destruct (renormalise_ok c Hn Hz) as (Hv & _ & Hs & Hv').
  unfold renormalise. qcase; auto.
Qed.

(** The weights _optimize_weights returns are the renormalised absolute
    correlations, which are non-negative with a non-zero total. *)
Lemma optimize_weights_Some (outcomes : list TrainingOutcome) (w w' : Weights) :
  optimize_weights outcomes w = Ok (Some w') ->
  exists c, weights_nonneg c /\ ~ weights_sum c == 0 /\ w' = renormalise c.
Proof.
  unfold optimize_weights.
  destruct (List.length outcomes <? MIN_OUTCOMES_FOR_WEIGHTS)%nat; [discriminate|].
  destruct (map_res _ _) as [factors|e]; cbn [bind]; [|discriminate].
  match goal with |- context [weights_sum (mkWeights ?a ?b ?c ?d ?e)] =>
    set (corr := mkWeights a b c d e) end.
  qcase; [discriminate|]. intros [= <-].
  exists corr. split; [repeat split; apply Qabs_nonneg | auto].
Qed.

(** C7: whenever _optimize_weights returns new weights they sum to
    exactly one and each lies in [0, 1], whatever the correlations: the
    largest rounded weight absorbs the rounding residual without leaving
    [0, 1]. *)
Theorem optimize_weights_normalised (outcomes : list TrainingOutcome) (w w' : Weights) :
  optimize_weights outcomes w = Ok (Some w') ->
  weights_sum w' == 1 /\ ConceptStore.weights_field_valid w' = true.
Proof.
  intros E. destruct (optimize_weights_Some _ _ _ E) as (c & Hn & Hz & ->).
  exact (renormalise_normalised c Hn Hz).
Qed.

Lemma weights_in_tolerance_of_one w : weights_sum w == 1 -> ConceptStore.weights_in_tolerance w = true.
Proof. intros E. apply ConceptStore.weights_in_tolerance_iff. rewrite E. split; discriminate. Qed.

Lemma find_concept_row_In db cid c : find_concept_row db cid = Some c -> In c (db_concepts db).
Proof. unfold find_concept_row. intros E. now apply find_some in E. Qed.

Lemma retrain_keeps_wf db cid now db' :
  Forall ConceptStore.concept_wf (db_concepts db) ->
  retrain_concept db cid now = Ok db' -> Forall ConceptStore.concept_wf (db_concepts db').
Proof.
  intros Hf. unfold retrain_concept.
  destruct (find_concept_row db cid) as [c|] eqn:Ec; [|now intros [= <-]].
  destruct (_ <? _)%nat; [now intros [= <-]|].
  intros E. res_inv E. injection E as <-.
  pose proof (find_concept_row_In _ _ _ Ec) as Hin.
  apply map_replace_Forall; [|exact Hf].
  unfold ConceptStore.concept_wf. simpl.
  destruct a1 as [w'|].
  - destruct (MIN_OUTCOMES_FOR_WEIGHTS <=? _)%nat; [|discriminate].
    apply weights_in_tolerance_of_one.
    match goal with E : optimize_weights _ _ = Ok (Some _) |- _ =>
      destruct (optimize_weights_Some _ _ _ E) as (c' & Hn & Hz & ->) end.
    exact (proj1 (renormalise_normalised c' Hn Hz)).
  - eapply Forall_forall in Hf; [exact Hf | exact Hin].
Qed.

(** The shape of a successful record_outcome: the database is unchanged
    (no concept linked), or the outcome row is appended, the concept's
    count incremented, and retraining run when the count reaches 5. *)
Lemma record_outcome_shape db pid actual opened now db' r :
  record_outcome db pid actual opened now = Ok (db', r) ->
  (db' = db /\ triggered_retraining r = false /\ outcomes_count r = None) \/
  exists o concept,
    o_prediction_id o = pid /\ outcomes_count r = Some (c_outcomes_count concept + 1)%Z /\
    ~ In pid (map o_prediction_id (db_outcomes db)) /\
    let db1 := mkDB (db_concepts db) (db_predictions db) (db_outcomes db ++ [o])
                    (db_next_outcome_id db + 1) in
    find_concept_row db1 (o_concept_id o) = Some concept /\
    let db2 := write_concept db1 (with_outcomes_count concept (c_outcomes_count concept + 1)) in
    ((5 <= c_outcomes_count concept + 1)%Z /\ triggered_retraining r = true /\
       retrain_concept db2 (c_id concept) now = Ok db') \/
    ((c_outcomes_count concept + 1 < 5)%Z /\ triggered_retraining r = false /\ db' = db2).
Proof.
  unfold record_outcome.
  destruct (find_prediction db pid) as [p|]; [|discriminate].
  destruct (p_concept_id p) as [cid|]; [|intros [= <- <-]; left; auto].
  destruct (String.eqb cid ""); [intros [= <- <-]; left; auto|].
  destruct (py_div _ _) as [q|]; cbn [bind]; [|discriminate].
  destruct (existsb _ _) eqn:Ex; [discriminate|].
  assert (Hfresh : ~ In pid (map o_prediction_id (db_outcomes db))).
  { intros Hin. apply in_map_iff in Hin as (o & Eo & Hin).
    apply Bool.not_true_iff_false in Ex. apply Ex, existsb_exists. exists o.
    split; [exact Hin | now apply Z.eqb_eq]. }
  match goal with |- context [find_concept_row (mkDB _ _ (_ ++ [?o]) _) _] => set (out := o) end.
  destruct (find_concept_row _ cid) as [concept|] eqn:Ec; [|discriminate].
  intros E. right. exists out, concept. split; [reflexivity|].
  split; [destruct (_ <=? _)%Z; [destruct (retrain_concept _ _ _); cbn [bind] in E;
          [injection E as _ <-|discriminate] | injection E as _ <-]; reflexivity|].
  split; [exact Hfresh|].
  split; [exact Ec|].
  cbv zeta in E. change (Z.of_nat MIN_OUTCOMES_FOR_TRAINING) with 5%Z in E.
  destruct (Z.leb_spec 5 (c_outcomes_count concept + 1)) as [Hle|Hlt].
  - left. destruct (retrain_concept _ (c_id concept) now) as [db3|] eqn:Er; cbn [bind] in E;
      [|discriminate].
    injection E as <- <-. auto.
  - right. injection E as <- <-. auto.
Qed.

Lemma retrain_outcome_ids db cid now db' :
  retrain_concept db cid now = Ok db' ->
  map o_prediction_id (db_outcomes db') = map o_prediction_id (db_outcomes db).
Proof.
  unfold retrain_concept. destruct (find_concept_row db cid); [|now intros [= <-]].
  destruct (_ <? _)%nat; [now intros [= <-]|].
  intros E. res_inv E. injection E as <-. simpl. rewrite map_map.
  apply map_ext. intros o. unfold mark_used. now destruct (String.eqb _ _).
Qed.

Lemma record_concept_wf db o concept :
  Forall ConceptStore.concept_wf (db_concepts db) ->
  find_concept_row (mkDB (db_concepts db) (db_predictions db) (db_outcomes db ++ [o])
                         (db_next_outcome_id db + 1)) (o_concept_id o) = Some concept ->
  Forall ConceptStore.concept_wf
    (db_concepts (write_concept (mkDB (db_concepts db) (db_predictions db) (db_outcomes db ++ [o])
                         (db_next_outcome_id db + 1))
       (with_outcomes_count concept (c_outcomes_count concept + 1)))).
Proof.
  intros Hf Ec. apply map_replace_Forall; [|exact Hf].
  apply find_concept_row_In in Ec. rewrite Forall_forall in Hf. exact (Hf _ Ec).
Qed.

(** Recording an outcome (with the retraining it may trigger) keeps
    every concept's weights within the tolerance the concept routes
    enforce. *)
Theorem record_outcome_keeps_weights db pid actual opened now db' r :
  Forall ConceptStore.concept_wf (db_concepts db) ->
  record_outcome db pid actual opened now = Ok (db', r) ->
  Forall ConceptStore.concept_wf (db_concepts db').
Proof.
  intros Hf E.
  destruct (record_outcome_shape _ _ _ _ _ _ _ E)
    as [(-> & _) | (o & concept & _ & _ & _ & Ec & [(_ & _ & Er) | (_ & _ & ->)])];
    [exact Hf | | exact (record_concept_wf _ _ _ Hf Ec)].
  exact (retrain_keeps_wf _ _ _ _ (record_concept_wf _ _ _ Hf Ec) Er).
Qed.

(** At most one training outcome per prediction: recording keeps the
    prediction ids of the outcome table distinct (a second submission
    for a prediction violates the unique constraint). *)
Theorem record_outcome_unique db pid actual opened now db' r :
  NoDup (map o_prediction_id (db_outcomes db)) ->
  record_outcome db pid actual opened now = Ok (db', r) ->
  NoDup (map o_prediction_id (db_outcomes db')).
Proof.
  intros Hd E.
  destruct (record_outcome_shape _ _ _ _ _ _ _ E)
    as [(-> & _) | (o & concept & Eo & _ & Hfresh & Ec & Hcase)]; [exact Hd|].
  assert (Hd2 : NoDup (map o_prediction_id (db_outcomes db ++ [o]))).
  { rewrite map_app. apply ConceptStore.NoDup_snoc; [exact Hd | now rewrite Eo]. }
  destruct Hcase as [(_ & _ & Er) | (_ & _ & ->)]; [|exact Hd2].
  rewrite (retrain_outcome_ids _ _ _ _ Er). exact Hd2.
Qed.

(** Retraining is triggered exactly when the concept's outcome count,
    after the increment, reaches MIN_OUTCOMES_FOR_TRAINING (5). *)
Theorem record_outcome_trigger db pid actual opened now db' r :
  record_outcome db pid actual opened now = Ok (db', r) ->
  (triggered_retraining r = true <-> exists n, outcomes_count r = Some n /\ (5 <= n)%Z).
Proof.
  intros E.
  destruct (record_outcome_shape _ _ _ _ _ _ _ E)
    as [(_ & Ht & Hc) | (o & concept & _ & Hc & _ & _ & [(Hle & Ht & _) | (Hlt & Ht & _)])];
    rewrite Ht, Hc; split; try discriminate; eauto.
  - intros (n & [=] & _).
  - intros (n & [= <-] & Hn). lia.
Qed.

Lemma retrain_outcomes_marked db cid now db' :
  retrain_concept db cid now = Ok db' ->
  (exists c, find_concept_row db cid = Some c) ->
  (MIN_OUTCOMES_FOR_TRAINING <= List.length (filter (fun o => String.eqb (o_concept_id o) cid) (db_outcomes db)))%nat ->
  Forall (fun o => o_concept_id o = cid -> o_used_in_training o = true) (db_outcomes db').
Proof.
  unfold retrain_concept. intros E [c Ec] Hn. rewrite Ec in E.
  destruct (Nat.ltb_spec (List.length (filter (fun o => String.eqb (o_concept_id o) cid) (db_outcomes db)))
              MIN_OUTCOMES_FOR_TRAINING); [lia|].
  res_inv E. injection E as <-. simpl. apply Forall_forall. intros o Hin Ho.
  apply in_map_iff in Hin as (o0 & <- & _). unfold mark_used.
  destruct (String.eqb_spec (o_concept_id o0) cid); [reflexivity|].
  exfalso. unfold mark_used in Ho. destruct (String.eqb_spec (o_concept_id o0) cid); congruence.
Qed.

(** C6: retraining over at least five outcomes sets the concept's base
    revenue to [int(median(actual revenues))], its variance to the band of
    the MAPE, its average error to the MAPE and its training time to now,
    and marks every outcome of the concept as used. *)
Theorem retrain_sets_parameters db cid now db' c m mape :
  find_concept_row db cid = Some c ->
  let outs := filter (fun o => String.eqb (o_concept_id o) cid) (db_outcomes db) in
  (MIN_OUTCOMES_FOR_TRAINING <= List.length outs)%nat ->
  median (map o_actual_revenue_eur outs) = Ok m ->
  mean (map (fun o => Qabs (o_variance_pct o)) outs) = Ok mape ->
  retrain_concept db cid now = Ok db' ->
  exists c', find_concept_row db' cid = Some c' /\ c_base_revenue_eur c' = py_int m /\
    c_revenue_variance c' = variance_band mape (List.length outs) /\
    c_avg_prediction_error c' = Some mape /\ c_last_trained_at c' = Some now /\
    Forall (fun o => o_concept_id o = cid -> o_used_in_training o = true) (db_outcomes db').
Proof.
  intros Ec outs Hn Em Emape E.
  pose proof (retrain_outcomes_marked _ _ _ _ E (ex_intro _ c Ec) Hn) as Hmark.
  revert E. unfold retrain_concept. rewrite Ec. fold outs.
  destruct (Nat.ltb_spec (List.length outs) MIN_OUTCOMES_FOR_TRAINING); [lia|].
  rewrite Em, Emape. cbn [bind].
  destruct (if (MIN_OUTCOMES_FOR_WEIGHTS <=? List.length outs)%nat
            then optimize_weights outs (c_weights c) else Ok None) as [ow|]; cbn [bind]; [|discriminate].
  intros E. injection E as <-.
  assert (Hid : c_id c = cid) by (unfold find_concept_row in Ec; apply find_some in Ec as [_ Ec];
                                  now apply String.eqb_eq in Ec).
  eexists (with_trained c _ _ _ _ _).
  split; [|exact (conj eq_refl (conj eq_refl (conj eq_refl (conj eq_refl Hmark))))].
  unfold find_concept_row. cbn [db_concepts write_concept]. rewrite <- Hid.
  apply find_map_replace; [reflexivity|].
  unfold find_concept_row in Ec. rewrite Hid, Ec. discriminate.
Qed.

(** Retraining with fewer than five outcomes for the concept, or for
    an unknown concept, changes nothing. *)
Theorem retrain_noop db cid now :
  (find_concept_row db cid = None \/
   (List.length (filter (fun o => String.eqb (o_concept_id o) cid) (db_outcomes db)) < MIN_OUTCOMES_FOR_TRAINING)%nat) ->
  retrain_concept db cid now = Ok db.
Proof.
  intros [E | Hlt]; unfold retrain_concept; [now rewrite E|].
  destruct (find_concept_row db cid); [|reflexivity].
  destruct (Nat.ltb_spec (List.length (filter (fun o => String.eqb (o_concept_id o) cid) (db_outcomes db)))
              MIN_OUTCOMES_FOR_TRAINING); [reflexivity | lia].
Qed.

(** C9: the error paths of record_outcome: an unknown prediction raises
    ValueError; a prediction without a concept returns without touching
    the database; a zero predicted revenue raises ZeroDivisionError; a
    second outcome for a prediction raises IntegrityError; and a concept
    row that is missing raises AttributeError (on [concept.outcomes_count]). *)
Theorem record_outcome_errors db pid actual opened now :
  (find_prediction db pid = None ->
     record_outcome db pid actual opened now = Raise (ValueError "Prediction not found")) /\
  (forall p, find_prediction db pid = Some p -> p_concept_id p = None ->
     record_outcome db pid actual opened now = Ok (db, mkRecordResult None 0 false None None)) /\
  (forall p cid, find_prediction db pid = Some p -> p_concept_id p = Some cid -> cid <> "" ->
     p_revenue_mid p == 0 -> record_outcome db pid actual opened now = Raise ZeroDivisionError) /\
  (forall p cid, find_prediction db pid = Some p -> p_concept_id p = Some cid -> cid <> "" ->
     ~ p_revenue_mid p == 0 -> In pid (map o_prediction_id (db_outcomes db)) ->
     record_outcome db pid actual opened now = Raise IntegrityError) /\
  (forall p cid, find_prediction db pid = Some p -> p_concept_id p = Some cid -> cid <> "" ->
     ~ p_revenue_mid p == 0 -> ~ In pid (map o_prediction_id (db_outcomes db)) ->
     find_concept_row db cid = None -> record_outcome db pid actual opened now = Raise AttributeError).
Proof.
  unfold record_outcome. repeat split.
  - now intros ->.
  - now intros p -> ->.
  - intros p cid -> -> Hc Hz. apply String.eqb_neq in Hc. now rewrite Hc, py_div_zero.
  - intros p cid -> -> Hc Hz Hin. apply String.eqb_neq in Hc. rewrite Hc, py_div_ok by exact Hz.
    cbn [bind]. replace (existsb _ _) with true; [reflexivity|]. symmetry.
    apply in_map_iff in Hin as (o & Eo & Ho). apply existsb_exists. exists o.
    split; [exact Ho | now apply Z.eqb_eq].
  - intros p cid -> -> Hc Hz Hin Ec. apply String.eqb_neq in Hc. rewrite Hc, py_div_ok by exact Hz.
    cbn [bind]. replace (existsb _ _) with false.
    + unfold find_concept_row in *. cbn [db_concepts]. now rewrite Ec.
    + symmetry. apply Bool.not_true_iff_false. intros Ex. apply Hin.
      apply existsb_exists in Ex as (o & Ho & Eo). apply in_map_iff. exists o.
      split; [now apply Z.eqb_eq | exact Ho].
Qed.

Lemma variance_band_tail_range n :
  15 # 100 <= py_max ((20 # 100) - inject_Z (Z.of_nat n) * (5 # 1000)) (15 # 100) <= 20 # 100.
Proof.
  assert (0 <= inject_Z (Z.of_nat n)) by (change 0 with (inject_Z 0); rewrite <- Zle_Qle; lia).
  split; [apply py_max_ge_r | apply py_max_lub; lra].
Qed.

(** The band written to [revenue_variance] after retraining lies in
    [[0.10, 0.20]]: the learner never widens a band beyond the 20% it starts
    from nor narrows it below 10%. *)
Theorem variance_band_range mape n : 10 # 100 <= variance_band mape n <= 20 # 100.
Proof.
  unfold variance_band. pose proof (variance_band_tail_range n).
  set (t := py_max _ _) in *. qsplit.
Qed.

(** The band is monotone in the MAPE: a more accurate concept never
    gets a wider band than a less accurate one with as many outcomes. *)
Theorem variance_band_monotone m1 m2 n : m1 <= m2 -> variance_band m1 n <= variance_band m2 n.
Proof.
  intros Hm. unfold variance_band. pose proof (variance_band_tail_range n).
  set (t := py_max _ _) in *. qsplit.
Qed.

Lemma record_outcomes_raise reqs e opened now :
  fold_left (fun acc req => d <- acc ;; r <- record_outcome d (fst req) (snd req) opened now ;; Ok (fst r))
    reqs (Raise e) = Raise e.
Proof. induction reqs; cbn [fold_left bind]; auto. Qed.

Lemma record_outcome_inv db pid actual opened now db' r :
  learner_inv db -> record_outcome db pid actual opened now = Ok (db', r) -> learner_inv db'.
Proof.
  intros [Hf Hd] E. split; [eapply record_outcome_keeps_weights | eapply record_outcome_unique]; eauto.
Qed.

(** C4: along any sequence of outcome submissions, every concept's
    weights stay within the tolerance of the concept routes and no
    prediction has two training outcomes. *)
Theorem record_outcomes_invariant db reqs opened now db' :
  learner_inv db -> record_outcomes db reqs opened now = Ok db' -> learner_inv db'.
Proof.
  unfold record_outcomes. revert db. induction reqs as [|[pid a] reqs IH]; intros db Hi.
  - now intros [= <-].
  - cbn [fold_left bind fst snd].
    destruct (record_outcome db pid a opened now) as [[d r]|e] eqn:E; cbn [bind fst].
    + apply IH. exact (record_outcome_inv _ _ _ _ _ _ _ Hi E).
    + now rewrite record_outcomes_raise.
Qed.

(** ** A snapshot without a metro distance *)

Lemma extract_factors_metro f :
  match nearest_metro_distance_m f with PyNum m => Qle_bool 0 m | _ => true end = true ->
  (exists y, extract_factors f = Ok y) \/ extract_factors f = Raise TypeError.
Proof.
  unfold extract_factors. destruct (nearest_metro_distance_m f) as [| |m]; cbn [get_default num bind]; intros Hm.
  - left. rewrite py_div_ok by (apply Qnonzero_of_lt; lra). eexists; reflexivity.
  - right. reflexivity.
  - left. apply Qle_bool_iff in Hm. rewrite py_div_ok by (apply Qnonzero_of_lt; lra). eexists; reflexivity.
Qed.

Lemma optimize_weights_metro_none outcomes w :
  (20 <= List.length outcomes)%nat -> forallb (fun o => metro_nonneg (o_features_used o)) outcomes = true ->
  existsb (fun o => metro_missing (o_features_used o)) outcomes = true ->
  optimize_weights outcomes w = Raise TypeError.
Proof.
  intros Hl Hok Hmiss. unfold optimize_weights.
  destruct (Nat.ltb_spec (List.length outcomes) MIN_OUTCOMES_FOR_WEIGHTS) as [Hlt|_];
    [unfold MIN_OUTCOMES_FOR_WEIGHTS in Hlt; lia|].
  rewrite (map_res_raise _ _ TypeError); [reflexivity| |].
  - intros r Hr. unfold outcomes_with_features in Hr. apply in_flat_map in Hr as (o & Ho & Hr).
    rewrite forallb_forall in Hok. specialize (Hok o Ho). unfold metro_nonneg, snapshot_metro in Hok.
    destruct (o_features_used o) as [sn|]; [|destruct Hr].
    destruct (snapshot_truthy (Some sn)); [|destruct Hr]. destruct Hr as [<-|[]].
    exact (extract_factors_metro _ Hok).
  - apply existsb_exists in Hmiss as (o & Ho & Hm). unfold metro_missing, snapshot_metro in Hm.
    destruct (o_features_used o) as [sn|] eqn:Es; [|discriminate].
    apply andb_true_iff in Hm as [Ht Hn].
    exists (snap_features sn, o_actual_revenue_eur o). split.
    + unfold outcomes_with_features. apply in_flat_map. exists o. split; [exact Ho|].
      rewrite Es, Ht. left; reflexivity.
    + cbn [fst]. unfold extract_factors.
      destruct (nearest_metro_distance_m (snap_features sn)); [discriminate | reflexivity | discriminate].
Qed.

Lemma median_nonempty l : l <> [] -> exists m, median l = Ok m.
Proof.
  intros Hl. unfold median. cbv zeta. rewrite length_sorted.
  destruct l as [|x l]; [contradiction|]. cbn [List.length Nat.eqb]. destruct (Nat.odd _); eexists; reflexivity.
Qed.

Lemma mean_nonempty l : l <> [] -> exists m, mean l = Ok m.
Proof. intros Hl. destruct l as [|x l]; [contradiction|]. eexists; reflexivity. Qed.

(** Retraining a concept with twenty outcomes or more, one of whose
    snapshots has no metro distance, raises TypeError. *)
Lemma retrain_concept_metro_none db cid now c :
  find_concept_row db cid = Some c -> (20 <= List.length (concept_outcomes db cid))%nat ->
  forallb (fun o => metro_nonneg (o_features_used o)) (concept_outcomes db cid) = true ->
  existsb (fun o => metro_missing (o_features_used o)) (concept_outcomes db cid) = true ->
  retrain_concept db cid now = Raise TypeError.
Proof.
  intros Ec Hl Hok Hm. unfold retrain_concept. rewrite Ec.
  change (filter (fun o => String.eqb (o_concept_id o) cid) (db_outcomes db)) with (concept_outcomes db cid).
  destruct (Nat.ltb_spec (List.length (concept_outcomes db cid)) MIN_OUTCOMES_FOR_TRAINING) as [H'|_];
    [unfold MIN_OUTCOMES_FOR_TRAINING in H'; lia|].
  assert (Hne : forall (f : TrainingOutcome -> Q), map f (concept_outcomes db cid) <> []).
  { intros f E. apply map_eq_nil in E. rewrite E in Hl. cbn in Hl. lia. }
  destruct (median_nonempty _ (Hne o_actual_revenue_eur)) as [m ->].
  destruct (mean_nonempty _ (Hne (fun o => Qabs (o_variance_pct o)))) as [mp ->]. cbn [bind].
  destruct (Nat.leb_spec MIN_OUTCOMES_FOR_WEIGHTS (List.length (concept_outcomes db cid))) as [_|H'];
    [|unfold MIN_OUTCOMES_FOR_WEIGHTS in H'; lia].
  rewrite optimize_weights_metro_none by assumption. reflexivity.
Qed.

(** The outcomes of a concept after the insertion of one of its rows. *)
Lemma concept_outcomes_snoc cs ps os n o cid :
  o_concept_id o = cid ->
  concept_outcomes (mkDB cs ps (os ++ [o])%list n) cid = (concept_outcomes (mkDB cs ps os n) cid ++ [o])%list.
Proof.
  intros Ho. unfold concept_outcomes. cbn [db_outcomes]. rewrite filter_app. cbn.
  rewrite Ho, String.eqb_refl. reflexivity.
Qed.

(** C21: the learner's weight optimisation reads
    [features.get("nearest_metro_distance_m", 1000) + 1], whose default
    applies only to an absent key.  For any database, once a concept has
    19 stored outcomes and an outcome count of at least 4, one stored
    snapshot of it whose metro distance is [None] (and no negative
    distance) makes every further valid, first submission of an outcome
    for the concept raise TypeError, so the concept is never retrained
    again. *)
Theorem metro_none_blocks_learning db pid actual opened now pred cid c :
  find_prediction db pid = Some pred -> p_concept_id pred = Some cid -> cid <> ""%string ->
  ~ p_revenue_mid pred == 0 ->
  existsb (fun o => Z.eqb (o_prediction_id o) pid) (db_outcomes db) = false ->
  find_concept_row db cid = Some c -> (4 <= c_outcomes_count c)%Z ->
  (19 <= List.length (concept_outcomes db cid))%nat ->
  forallb (fun o => metro_nonneg (o_features_used o)) (concept_outcomes db cid) = true ->
  metro_nonneg (p_features pred) = true ->
  existsb (fun o => metro_missing (o_features_used o)) (concept_outcomes db cid) = true ->
  record_outcome db pid actual opened now = Raise TypeError.
Proof.
  intros Hp Hc Hne Hmid Hdup Ec Hcount Hl Hok Hnew Hm.
  assert (Hid : c_id c = cid)
    by (unfold find_concept_row in Ec; apply find_some in Ec as [_ E]; now apply String.eqb_eq in E).
  unfold record_outcome. rewrite Hp, Hc, (proj2 (String.eqb_neq cid "") Hne).
  rewrite py_div_ok by exact Hmid. cbn [bind]. rewrite Hdup.
  match goal with |- context [find_concept_row (mkDB ?a ?b ?o ?n) cid] =>
    change (find_concept_row (mkDB a b o n) cid) with (find_concept_row db cid) end.
  rewrite Ec.
  destruct (Z.leb_spec (Z.of_nat MIN_OUTCOMES_FOR_TRAINING) (c_outcomes_count c + 1)) as [_|H'];
    [|cbn in H'; lia].
  rewrite retrain_concept_metro_none with (c := with_outcomes_count c (c_outcomes_count c + 1)); [reflexivity|..];
    unfold write_concept; cbn [db_outcomes db_concepts db_predictions db_next_outcome_id c_id with_outcomes_count];
    rewrite ?Hid; try (rewrite concept_outcomes_snoc by reflexivity).
  - unfold find_concept_row. cbn [db_concepts].
    apply find_map_replace; [cbn; exact Hid|]. unfold find_concept_row in Ec. rewrite Ec. discriminate.
  - rewrite length_app. cbn [List.length]. unfold concept_outcomes in *. cbn [db_outcomes]. lia.
  - rewrite forallb_app. unfold concept_outcomes in *. cbn [db_outcomes forallb o_features_used].
    rewrite Hok, Hnew. reflexivity.
  - rewrite existsb_app. unfold concept_outcomes in *. cbn [db_outcomes]. rewrite Hm. reflexivity.
Qed.

End LearnerProofs.

(** ** The spec's example and concrete runs *)

(** The example of the spec: five openings (100k, 120k, 150k, 90k,
    110k) against predictions of 100k retrain the concept at the fifth,
    to a base revenue of 110000 (the median), a MAPE of 18% and a band of
    0.15; resubmitting an outcome for a prediction raises IntegrityError. *)
Theorem spec_example_retraining :
  record_outcomes sample_db spec_openings 0 0 = Ok spec_db5 /\
  find_concept_row spec_db5 "k1" = Some spec_concept5 /\
  c_base_revenue_eur spec_concept5 = 110000%Z /\ c_revenue_variance spec_concept5 == 15 # 100 /\
  (exists mape, c_avg_prediction_error spec_concept5 = Some mape /\ mape == 18) /\
  c_outcomes_count spec_concept5 = 5%Z /\
  record_outcome spec_db5 1 100000 0 0 = Raise IntegrityError.
Proof.
  repeat match goal with |- _ /\ _ => split end; try (vm_compute; reflexivity).
  eexists; split; [vm_compute; reflexivity | qeval].
Qed.

(** ** Witnesses *)

Lemma metro_none_blocks_learning_witness :
  exists pred, find_prediction (metro_db19 1) 20 = Some pred /\
  exists c, find_concept_row (metro_db19 1) "k1" = Some c /\
  (p_concept_id pred = Some "k1"%string /\ "k1"%string <> ""%string /\ ~ p_revenue_mid pred == 0 /\
   existsb (fun o => Z.eqb (o_prediction_id o) 20) (db_outcomes (metro_db19 1)) = false /\
   (4 <= c_outcomes_count c)%Z /\ (19 <= List.length (concept_outcomes (metro_db19 1) "k1"))%nat /\
   forallb (fun o => metro_nonneg (o_features_used o)) (concept_outcomes (metro_db19 1) "k1") = true /\
   metro_nonneg (p_features pred) = true /\
   existsb (fun o => metro_missing (o_features_used o)) (concept_outcomes (metro_db19 1) "k1") = true /\
   record_outcome (metro_db19 1) 20 120000 0 0 = Raise TypeError).
Proof.
  exists_some. exists_some. repeat match goal with |- _ /\ _ => split end.
  10: refine (metro_none_blocks_learning _ _ 120000 0 0 _ _ _ Hsome _ _ _ _ Hsome0 _ _ _ _ _).
  all: solve [reflexivity | discriminate | intros E; vm_compute in E; discriminate E | vm_compute; reflexivity
             | vm_compute; discriminate | apply Nat.leb_le; vm_compute; reflexivity].
Defined.

Lemma optimize_weights_normalised_witness :
  optimize_weights (map train_outcome twenty) (c_weights sample_concept) = Ok (Some twenty_weights) /\
  weights_sum twenty_weights == 1 /\ ConceptStore.weights_field_valid twenty_weights = true.
Proof.
  assert (E : optimize_weights (map train_outcome twenty) (c_weights sample_concept)
              = Ok (Some twenty_weights)) by (vm_compute; reflexivity).
  split; [exact E | exact (optimize_weights_normalised _ _ _ E)].
Defined.

Lemma record_outcome_trigger_witness :
  record_outcome spec_db4 5 110000 0 0 = Ok (spec_d5, spec_r5) /\ triggered_retraining spec_r5 = true /\
  exists n, outcomes_count spec_r5 = Some n /\ (5 <= n)%Z.
Proof.
  assert (E : record_outcome spec_db4 5 110000 0 0 = Ok (spec_d5, spec_r5)) by (vm_compute; reflexivity).
  split; [exact E|]. split; [vm_compute; reflexivity|].
  apply (record_outcome_trigger _ _ _ _ _ _ _ E). vm_compute. reflexivity.
Defined.

Lemma record_outcome_errors_witness :
  record_outcome sample_db 99 1 0 0 = Raise (ValueError "Prediction not found") /\
  record_outcome spec_db5 1 100000 0 0 = Raise IntegrityError.
Proof.
  split.
  - apply (proj1 (record_outcome_errors sample_db 99 1 0 0)). vm_compute. reflexivity.
  - apply (proj1 (proj2 (proj2 (proj2 (record_outcome_errors spec_db5 1 100000 0 0))))
             (sample_prediction 1) "k1");
      [vm_compute; reflexivity | reflexivity | discriminate | vm_compute; discriminate
      | vm_compute; auto].
Defined.

Lemma retrain_sets_parameters_witness :
  find_concept_row spec_db5 "k1" = Some spec_concept5 /\
  (MIN_OUTCOMES_FOR_TRAINING <= List.length (filter (fun o => String.eqb (o_concept_id o) "k1") (db_outcomes spec_db5)))%nat /\
  retrain_concept spec_db5 "k1" 7 = Ok spec_retrained /\
  exists c', find_concept_row spec_retrained "k1" = Some c' /\ c_base_revenue_eur c' = py_int spec_median5 /\
    c_revenue_variance c' =
      variance_band spec_mape5 (List.length (filter (fun o => String.eqb (o_concept_id o) "k1") (db_outcomes spec_db5))) /\
    c_avg_prediction_error c' = Some spec_mape5 /\ c_last_trained_at c' = Some 7%Z /\
    Forall (fun o => o_concept_id o = "k1" -> o_used_in_training o = true) (db_outcomes spec_retrained).
Proof.
  assert (Ec : find_concept_row spec_db5 "k1" = Some spec_concept5) by (vm_compute; reflexivity).
  assert (Hn : (MIN_OUTCOMES_FOR_TRAINING <=
                List.length (filter (fun o => String.eqb (o_concept_id o) "k1") (db_outcomes spec_db5)))%nat)
    by (vm_compute; lia).
  assert (Em : median (map o_actual_revenue_eur
                 (filter (fun o => String.eqb (o_concept_id o) "k1") (db_outcomes spec_db5))) = Ok spec_median5)
    by (vm_compute; reflexivity).
  assert (Emape : mean (map (fun o => Qabs (o_variance_pct o))
                 (filter (fun o => String.eqb (o_concept_id o) "k1") (db_outcomes spec_db5))) = Ok spec_mape5)
    by (vm_compute; reflexivity).
  assert (E : retrain_concept spec_db5 "k1" 7 = Ok spec_retrained) by (vm_compute; reflexivity).
  exact (conj Ec (conj Hn (conj E (retrain_sets_parameters spec_db5 "k1" 7 spec_retrained spec_concept5
           spec_median5 spec_mape5 Ec Hn Em Emape E)))).
Defined.

Lemma retrain_noop_witness :
  (List.length (filter (fun o => String.eqb (o_concept_id o) "k1") (db_outcomes spec_db4))
     < MIN_OUTCOMES_FOR_TRAINING)%nat /\
  retrain_concept spec_db4 "k1" 7 = Ok spec_db4.
Proof.
  assert (H : (List.length (filter (fun o => String.eqb (o_concept_id o) "k1") (db_outcomes spec_db4))
                 < MIN_OUTCOMES_FOR_TRAINING)%nat) by (vm_compute; lia).
  split; [exact H | apply retrain_noop; right; exact H].
Defined.

Lemma variance_band_monotone_witness :
  18 <= 25 /\ variance_band 18 30 <= variance_band 25 30.
Proof. split; [qeval | apply (variance_band_monotone 18 25 30); qeval]. Defined.

Lemma record_outcomes_invariant_witness :
  learner_inv sample_db /\ record_outcomes sample_db spec_openings 0 0 = Ok spec_db5 /\ learner_inv spec_db5.
Proof.
  assert (Hi : learner_inv sample_db)
    by (split; [constructor; [vm_compute; reflexivity | constructor] | constructor]).
  assert (E : record_outcomes sample_db spec_openings 0 0 = Ok spec_db5) by (vm_compute; reflexivity).
  split; [exact Hi|]. split; [exact E | exact (record_outcomes_invariant _ _ _ _ _ Hi E)].
Defined.

End ConceptLearner.
