(* ===== verification/Outcomes.v ===== *)
(** * Outcomes: the outcome routes of src/backend/main.py

    [submit_outcome] (POST /api/outcomes) over the application database:
    the learner's tables of ConceptLearner.v (concepts, predictions,
    training outcomes) and the [outcomes] table of database.py.  The
    handler parses the prediction id, rejects unknown predictions (404)
    and second submissions (400), computes the variance, commits the
    outcome row, and only then calls [ConceptLearner.record_outcome] on
    the same session.  An exception of the learner rolls back the
    learner's changes but not the committed row, so the handler returns
    the database together with the result: a failed call may still have
    changed it.  The response message is the structured [Message]; the
    float formatting of its text is not modelled, except that formatting
    a missing accuracy with [:.1f] raises [TypeError].
    [get_accuracy_stats] (GET /api/accuracy) returns constants. *)

From S2P Require Import Prelude PyStr Concept Scoring Statistics ConceptLearner.
From Stdlib Require Import Ascii.
Local Open Scope string_scope.

Module Outcomes.

(** A row of the [outcomes] table (database.py, [Outcome]). *)
Record OutcomeRow := mkOutcomeRow {
  or_id : Z;
  or_prediction_id : Z;
  or_actual_revenue : Q;
  or_opening_date : Z;
  or_variance_percent : Q;
  or_within_predicted_band : string;
  or_notes : option string
}.

Record AppDB := mkAppDB {
  learner_db : DB;
  outcome_rows : list OutcomeRow;
  next_row_id : Z
}.

(** [OutcomeSubmission] of schemas.py. *)
Record OutcomeSubmission := mkSubmission {
  sub_prediction_id : string;
  sub_actual_revenue : Q;
  sub_opening_date : Z;
  sub_notes : option string
}.

Inductive Message :=
| MsgRetrained (new_accuracy : Q) (outcomes_count : option Z)
| MsgRecorded.

(** [OutcomeResponse] of schemas.py. *)
Record OutcomeResponse := mkOutcomeResponse {
  resp_status : string;
  resp_variance_percent : Q;
  resp_within_predicted_band : bool;
  resp_message : Message
}.

(** [int(outcome.prediction_id.replace("pred_", ""))] *)
Definition parse_prediction_id (s : string) : res Z := PyStr.py_int_str (PyStr.py_replace "pred_" "" s).

Definition outcome_exists (st : AppDB) (pid : Z) : bool :=
  existsb (fun o => Z.eqb (or_prediction_id o) pid) (outcome_rows st).

(** The message of the response: a retraining without an accuracy makes
    [f"{None:.1f}"] raise. *)
Definition response_message (learning_result : option RecordResult) : res Message :=
  match learning_result with
  | Some lr =>
      if triggered_retraining lr then
        match new_accuracy lr with
        | Some a => Ok (MsgRetrained a (outcomes_count lr))
        | None => Raise TypeError
        end
      else Ok MsgRecorded
  | None => Ok MsgRecorded
  end.

Section WithSqrt.
Context `{SqrtOp}.

(** The learning step after the commit: the learner runs on the
    committed database when the prediction has a concept. *)
Definition learn (st1 : AppDB) (prediction : Prediction) (actual : Q) (opened now : Z)
    : res (AppDB * option RecordResult) :=
  if ScoringEngine.truthy (p_concept_id prediction) then
    match ConceptLearner.record_outcome (learner_db st1) (p_id prediction) actual opened now with
    | Ok (db', lr) => Ok (mkAppDB db' (outcome_rows st1) (next_row_id st1), Some lr)
    | Raise e => Raise e
    end
  else Ok (st1, None).

Definition submit_outcome (st : AppDB) (sub : OutcomeSubmission) (now : Z) : AppDB * res OutcomeResponse :=
  match parse_prediction_id (sub_prediction_id sub) with
  | Raise e => (st, Raise e)
  | Ok pid =>
  match ConceptLearner.find_prediction (learner_db st) pid with
  | None => (st, Raise (HTTPException 404 ("Prediction " ++ sub_prediction_id sub ++ " not found")))
  | Some prediction =>
  if outcome_exists st (p_id prediction)
  then (st, Raise (HTTPException 400 "Outcome already submitted for this prediction")) else
  match py_div (sub_actual_revenue sub - p_revenue_mid prediction) (p_revenue_mid prediction) with
  | Raise e => (st, Raise e)
  | Ok r =>
      let variance_percent := r * 100 in
      let within_band := Qleb (p_revenue_low prediction) (sub_actual_revenue sub) &&
                         Qleb (sub_actual_revenue sub) (p_revenue_high prediction) in
      let row := mkOutcomeRow (next_row_id st) (p_id prediction) (sub_actual_revenue sub)
                   (sub_opening_date sub) variance_percent (if within_band then "yes" else "no")
                   (sub_notes sub) in
      let st1 := mkAppDB (learner_db st) (outcome_rows st ++ [row]) (next_row_id st + 1) in
      match learn st1 prediction (sub_actual_revenue sub) (sub_opening_date sub) now with
      | Raise e => (st1, Raise e)
      | Ok (st2, lr) =>
          match response_message lr with
          | Ok msg => (st2, Ok (mkOutcomeResponse "recorded" (py_round variance_percent 2) within_band msg))
          | Raise e => (st2, Raise e)
          end
      end
  end
  end
  end.

(** Submissions one after the other, each at its own time. *)
Fixpoint submit_outcomes (st : AppDB) (subs : list (OutcomeSubmission * Z)) : AppDB :=
  match subs with
  | [] => st
  | (sub, now) :: rest => submit_outcomes (fst (submit_outcome st sub now)) rest
  end.

End WithSqrt.

(** [AccuracyStats] of schemas.py and [get_accuracy_stats]: fixed values,
    whatever the database holds. *)
Record AccuracyStats := mkAccuracyStats {
  total_predictions : Z;
  sites_opened : Z;
  within_predicted_band : Z;
  accuracy_rate : Q;
  avg_variance_percent : Q
}.

Definition get_accuracy_stats (st : AppDB) : AccuracyStats := mkAccuracyStats 42 18 15 (83 # 100) (-32 # 10).

(** The rows' prediction ids are unique, every training outcome of the
    learner has its row, and the learner's own invariant holds. *)
Definition app_inv (st : AppDB) : Prop :=
  NoDup (map or_prediction_id (outcome_rows st)) /\
  (forall o, In o (db_outcomes (learner_db st)) -> In (o_prediction_id o) (map or_prediction_id (outcome_rows st))) /\
  ConceptLearner.learner_inv (learner_db st).

(** ** Sample data for the examples *)

Definition sample_app : AppDB := mkAppDB ConceptLearner.sample_db [] 1.
Definition sample_submission (i : Z) (actual : Q) : OutcomeSubmission :=
  mkSubmission ("pred_" ++ PyStr.py_str_Z i) actual 0 None.

(** The nineteen outcomes of ConceptLearner's twenty-outcome run recorded,
    prediction 20's snapshot lacking its metro distance. *)
Definition metro_app : AppDB := mkAppDB (ConceptLearner.metro_db19 20) [] 1.
Definition metro_submission : OutcomeSubmission := mkSubmission "pred_20" 120000 0 None.

Local Open Scope list_scope.

(** ** Parsing the prediction id *)

Lemma digit_not_p : PyStr.digit_test (fun c => negb (Ascii.eqb c "p")).
Proof. intros c Hd. apply negb_true_iff, Ascii.eqb_neq. intros ->. discriminate Hd. Qed.

(** The ids main.py hands out as [f"pred_{n}"] parse back: for
    every integer [n], [int(("pred_" + str(n)).replace("pred_", ""))] is
    [n], negative numbers included. *)
Theorem prediction_id_roundtrip n : parse_prediction_id ("pred_" ++ PyStr.py_str_Z n)%string = Ok n.
Proof.
  unfold parse_prediction_id. rewrite PyStr.py_replace_prefix; [apply PyStr.py_int_str_str|].
  unfold PyStr.py_str_Z. destruct (Z.ltb_spec n 0) as [Hlt|Hge].
  - cbn [PyStr.all_chars]. exact (proj1 (proj2 (PyStr.dec_spec (- n) ltac:(lia))) _ digit_not_p).
  - exact (proj1 (proj2 (PyStr.dec_spec n Hge)) _ digit_not_p).
Qed.

(** ** What one submission does *)

Lemma find_prediction_id db pid p : ConceptLearner.find_prediction db pid = Some p -> p_id p = pid.
Proof. intros E. apply find_some in E as [_ E]. now apply Z.eqb_eq. Qed.

Lemma outcome_exists_In st pid : outcome_exists st pid = true <-> In pid (map or_prediction_id (outcome_rows st)).
Proof.
  unfold outcome_exists. rewrite existsb_exists, in_map_iff. split.
  - intros (o & Hin & E). exists o. split; [now apply Z.eqb_eq | exact Hin].
  - intros (o & E & Hin). exists o. split; [exact Hin | now apply Z.eqb_eq].
Qed.

Section WithSqrt.
Context `{SqrtOp}.

(** A submission leaves the database as it was, or commits one row for a
    prediction that had none, and then changes the learner's tables
    only as [ConceptLearner.record_outcome] does. *)
Lemma submit_outcome_cases st sub now :
  let '(st', _) := submit_outcome st sub now in
  st' = st \/
  exists p row,
    ConceptLearner.find_prediction (learner_db st) (p_id p) = Some p /\ outcome_exists st (p_id p) = false /\
    outcome_rows st' = outcome_rows st ++ [row] /\ or_prediction_id row = p_id p /\
    (learner_db st' = learner_db st \/
     exists lr, ConceptLearner.record_outcome (learner_db st) (p_id p) (sub_actual_revenue sub)
                  (sub_opening_date sub) now = Ok (learner_db st', lr)).
Proof.
  unfold submit_outcome. destruct (parse_prediction_id _) as [pid|e]; [|now left].
  destruct (ConceptLearner.find_prediction _ pid) as [p|] eqn:Ef; [|now left].
  rewrite <- (find_prediction_id _ _ _ Ef) in Ef.
  destruct (outcome_exists st (p_id p)) eqn:Ex; [now left|].
  destruct (py_div _ _) as [r|e]; [|now left]. cbv zeta. unfold learn.
  match goal with |- context [outcome_rows st ++ [?row]] => set (rw := row) end.
  destruct (ScoringEngine.truthy _).
  - destruct (ConceptLearner.record_outcome _ _ _ _ _) as [[db' lr]|e] eqn:Er.
    + destruct (response_message _); right; exists p, rw; cbn [learner_db outcome_rows];
        repeat split; try assumption; right; exists lr; exact Er.
    + right. exists p, rw. repeat split; try assumption. now left.
  - destruct (response_message _); right; exists p, rw; repeat split; try assumption; now left.
Qed.

Lemma record_outcome_ids db pid a opened now db' r :
  ConceptLearner.record_outcome db pid a opened now = Ok (db', r) ->
  forall x, In x (map o_prediction_id (db_outcomes db')) -> x = pid \/ In x (map o_prediction_id (db_outcomes db)).
Proof.
  intros E x Hx. destruct (ConceptLearner.record_outcome_shape _ _ _ _ _ _ _ E) as [(-> & _) | (o & c & Ho & _ & _ & _ & Hr)];
    [now right|].
  cbv zeta in Hr. destruct Hr as [(_ & _ & Er) | (_ & _ & ->)]; [rewrite (ConceptLearner.retrain_outcome_ids _ _ _ _ Er) in Hx|];
    cbn [db_outcomes ConceptLearner.write_concept] in Hx; rewrite map_app, in_app_iff in Hx;
    (destruct Hx as [Hx | [<- | []]]; [now right | now left]).
Qed.

Lemma submit_outcome_inv st sub now : app_inv st -> app_inv (fst (submit_outcome st sub now)).
Proof.
  intros (Hn & Ho & Hl). generalize (submit_outcome_cases st sub now).
  destruct (submit_outcome st sub now) as [st' r]. cbn [fst].
  intros [-> | (p & row & _ & Hex & Erows & Hrow & Hdb)]; [exact (conj Hn (conj Ho Hl))|].
  assert (Hfresh : ~ In (p_id p) (map or_prediction_id (outcome_rows st)))
    by (rewrite <- outcome_exists_In, Hex; discriminate).
  assert (Hin : forall x, In x (map or_prediction_id (outcome_rows st)) \/ x = p_id p ->
                  In x (map or_prediction_id (outcome_rows st')))
    by (intros x Hx; rewrite Erows, map_app, in_app_iff; destruct Hx as [Hx | ->]; [now left | right; left; exact Hrow]).
  split; [|split].
  - rewrite Erows, map_app. cbn [map]. rewrite Hrow. apply NoDup_app; repeat split.
    + exact Hn.
    + constructor; [intros [] | constructor].
    + intros x Hx [<- | []]. exact (Hfresh Hx).
  - intros o Hoin. apply Hin. destruct Hdb as [Hdb | (lr & Er)]; [rewrite Hdb in Hoin; left; exact (Ho o Hoin)|].
    destruct (record_outcome_ids _ _ _ _ _ _ _ Er (o_prediction_id o) (in_map _ _ _ Hoin)) as [E | E];
      [now right | left].
    apply in_map_iff in E as (o' & E & Ho'). rewrite <- E. exact (Ho o' Ho').
  - destruct Hdb as [-> | (lr & Er)]; [exact Hl | exact (ConceptLearner.record_outcome_inv _ _ _ _ _ _ _ Hl Er)].
Qed.

(** C29: along any sequence of outcome submissions, successful or not, the
    outcomes table holds at most one row per prediction, the learner
    never holds a training outcome whose row is missing, and the
    learner's invariant (weights within tolerance, one training outcome
    per prediction) is kept. *)
Theorem submit_outcomes_invariant st subs : app_inv st -> app_inv (submit_outcomes st subs).
Proof.
  revert st. induction subs as [|[sub now] subs IH]; intros st Hi; [exact Hi|].
  cbn [submit_outcomes]. apply IH, submit_outcome_inv, Hi.
Qed.

(** C30: a submission touches the learner's tables only through
    [ConceptLearner.record_outcome]: the database is unchanged, or it
    gains exactly one outcome row for a known prediction that had none,
    and the learner's tables are either untouched or exactly those
    [record_outcome] returns for that prediction. *)
Theorem submit_outcome_refines st sub now :
  let '(st', _) := submit_outcome st sub now in
  st' = st \/
  exists p row,
    ConceptLearner.find_prediction (learner_db st) (p_id p) = Some p /\
    ~ In (p_id p) (map or_prediction_id (outcome_rows st)) /\
    outcome_rows st' = outcome_rows st ++ [row] /\ or_prediction_id row = p_id p /\
    (learner_db st' = learner_db st \/
     exists lr, ConceptLearner.record_outcome (learner_db st) (p_id p) (sub_actual_revenue sub)
                  (sub_opening_date sub) now = Ok (learner_db st', lr)).
Proof.
  generalize (submit_outcome_cases st sub now). destruct (submit_outcome st sub now) as [st' r].
  intros [-> | (p & row & Ef & Hex & Hrest)]; [now left | right; exists p, row].
  split; [exact Ef | split; [rewrite <- outcome_exists_In, Hex; discriminate | exact Hrest]].
Qed.

(** C31: the outcome row is committed before the learner runs: when
    [record_outcome] raises for a valid new submission, the handler fails
    with that exception, the learner's tables are unchanged, but the row
    is recorded, so every later submission of the same outcome is
    rejected with 400 and the outcome never reaches the learner. *)
Theorem learner_failure_strands_outcome st sub now pid p e :
  parse_prediction_id (sub_prediction_id sub) = Ok pid ->
  ConceptLearner.find_prediction (learner_db st) pid = Some p ->
  outcome_exists st pid = false -> ~ p_revenue_mid p == 0 ->
  ScoringEngine.truthy (p_concept_id p) = true ->
  ConceptLearner.record_outcome (learner_db st) pid (sub_actual_revenue sub) (sub_opening_date sub) now = Raise e ->
  let '(st', r) := submit_outcome st sub now in
  r = Raise e /\ learner_db st' = learner_db st /\ outcome_exists st' pid = true /\
  forall now', submit_outcome st' sub now' = (st', Raise (HTTPException 400 "Outcome already submitted for this prediction")).
Proof.
  intros Hp Ef Hex Hmid Ht Er. pose proof (find_prediction_id _ _ _ Ef) as Hid.
  unfold submit_outcome at 1. rewrite Hp, Ef, Hid, Hex, py_div_ok by exact Hmid. cbv zeta.
  unfold learn. rewrite Ht, Hid. cbn [learner_db]. rewrite Er.
  split; [reflexivity | split; [reflexivity|]].
  assert (Hex' : outcome_exists (mkAppDB (learner_db st) (outcome_rows st ++ [mkOutcomeRow (next_row_id st) pid
            (sub_actual_revenue sub) (sub_opening_date sub) ((sub_actual_revenue sub - p_revenue_mid p) / p_revenue_mid p * 100)
            (if Qleb (p_revenue_low p) (sub_actual_revenue sub) && Qleb (sub_actual_revenue sub) (p_revenue_high p)
             then "yes" else "no") (sub_notes sub)]) (next_row_id st + 1)) pid = true).
  { apply outcome_exists_In. cbn [outcome_rows]. rewrite map_app, in_app_iff. right. now left. }
  split; [exact Hex'|]. intros now'. unfold submit_outcome. rewrite Hp. cbn [learner_db]. rewrite Ef, Hid, Hex'.
  reflexivity.
Qed.

End WithSqrt.

(** ** Examples *)

Lemma submit_outcomes_invariant_witness :
  app_inv sample_app /\
  app_inv (submit_outcomes sample_app [(sample_submission 1 100000, 0%Z); (sample_submission 1 120000, 1%Z);
                                       (sample_submission 2 120000, 2%Z)]).
Proof.
  assert (Hi : app_inv sample_app).
  { split; [constructor | split; [intros o [] |]].
    split; [constructor; [vm_compute; reflexivity | constructor] | constructor]. }
  exact (conj Hi (submit_outcomes_invariant _ _ Hi)).
Defined.

Lemma learner_failure_strands_outcome_witness :
  parse_prediction_id (sub_prediction_id metro_submission) = Ok 20%Z /\
  ConceptLearner.find_prediction (learner_db metro_app) 20 = Some (ConceptLearner.train_prediction 20 20) /\
  outcome_exists metro_app 20 = false /\ ~ p_revenue_mid (ConceptLearner.train_prediction 20 20) == 0 /\
  ScoringEngine.truthy (p_concept_id (ConceptLearner.train_prediction 20 20)) = true /\
  ConceptLearner.record_outcome (learner_db metro_app) 20 120000 0 0 = Raise TypeError /\
  let '(st', r) := submit_outcome metro_app metro_submission 0 in
  r = Raise TypeError /\ learner_db st' = learner_db metro_app /\ outcome_exists st' 20 = true /\
  forall now', submit_outcome st' metro_submission now' =
                 (st', Raise (HTTPException 400 "Outcome already submitted for this prediction")).
Proof.
  assert (H1 : parse_prediction_id (sub_prediction_id metro_submission) = Ok 20%Z) by (vm_compute; reflexivity).
  assert (H2 : ConceptLearner.find_prediction (learner_db metro_app) 20 = Some (ConceptLearner.train_prediction 20 20))
    by (vm_compute; reflexivity).
  assert (H3 : outcome_exists metro_app 20 = false) by (vm_compute; reflexivity).
  assert (H4 : ~ p_revenue_mid (ConceptLearner.train_prediction 20 20) == 0) by (vm_compute; intros Hc; discriminate Hc).
  assert (H5 : ScoringEngine.truthy (p_concept_id (ConceptLearner.train_prediction 20 20)) = true) by (vm_compute; reflexivity).
  assert (H6 : ConceptLearner.record_outcome (learner_db metro_app) 20 120000 0 0 = Raise TypeError)
    by (vm_compute; reflexivity).
  pose proof (learner_failure_strands_outcome metro_app metro_submission 0 20 _ TypeError H1 H2 H3 H4 H5 H6) as T.
  do 6 (split; [assumption|]). exact T.
Defined.

End Outcomes.
