(* ===== verification/Discovery.v ===== *)
(** * Discovery: the area routes of src/backend/main.py

    [discover_opportunities] (POST /api/discover): a five-digit postal
    code goes to [_analyze_postal_area]; Helsinki, Espoo and Vantaa are
    scored area by area over the eight areas of [_get_helsinki_areas]
    (an area whose data collection or scoring raises is skipped), sorted
    by descending score, and the first ten become [AreaOpportunity]
    models; any other city is answered with 501.  The scoring step is
    [TrustMetrics.score_with_trust] (the scorer, the coverage and the
    trust confidence, in main.py's order).

    The external services are Section variables: [collect_area_data] is
    [DataCollector.collect_area_data] (it may raise) and
    [get_demographics] is [StatFinService.get_demographics_by_postal_code]
    ([None] when the postal code is unknown).  [get_method_info] of
    trust_metrics.py reads a dictionary only through the truthiness of
    [d.get(k)]; a dictionary is passed as that function of the key
    ([None] for an empty dictionary).  Timestamps are not modelled. *)

From S2P Require Import Prelude PyStr Sorting Concept Scoring Statistics TrustMetrics AddressGenerator.
From Stdlib Require Import Ascii Sorted Permutation.
Local Open Scope string_scope.

Module Discovery.

(** [MethodInfo] of schemas.py, without its timestamp. *)
Record MethodInfo := mkMethodInfo {
  mi_scoring_method : string;
  mi_data_sources : list string;
  mi_confidence_basis : string
}.

(** [TrustMetrics.get_method_info]: [features_used] is the truthiness of
    [features_used.get(k)], or [None] when the dictionary is empty or
    [None]. *)
Definition get_method_info (scoring_method : string) (features_used : option (string -> bool)) : MethodInfo :=
  let data_sources :=
    match features_used with
    | None => []
    | Some t =>
        ((if t "population_1km" || t "population_density"
          then ["Statistics Finland Population Grid (1km)"] else []) ++
         (if t "median_income" || t "postal_code"
          then ["Statistics Finland PAAVO (Postal Code Demographics)"] else []) ++
         (if t "competitors_count" then ["OpenStreetMap (Competition Data)"] else []) ++
         (if t "nearest_metro_distance_m" || t "nearest_tram_distance_m"
          then ["OpenStreetMap (Transit Data)"] else []))%list
    end in
  let confidence_basis :=
    if String.eqb scoring_method "heuristic" then "Based on data coverage and score component consistency"
    else if String.eqb scoring_method "agent_based" then "Based on Agno reasoning agents' confidence levels"
    else "Based on available data quality" in
  mkMethodInfo scoring_method
    (match data_sources with [] => ["Limited data available"] | _ => data_sources end) confidence_basis.

(** Truthiness of a dictionary value. *)
Definition pv_truthy (v : pyval) : bool :=
  match v with PyNum q => negb (Qeqb q 0) | _ => false end.

Definition str_truthy (s : string) : bool := negb (String.eqb s "").

(** [features.get(k)] of a feature dictionary whose other keys are
    [extra]. *)
Definition features_truthy (f : Features) (extra : string -> bool) (k : string) : bool :=
  if String.eqb k "population_1km" then pv_truthy (population_1km f)
  else if String.eqb k "population_density" then pv_truthy (population_density f)
  else if String.eqb k "median_income" then pv_truthy (median_income f)
  else if String.eqb k "competitors_count" then pv_truthy (competitors_count f)
  else if String.eqb k "competitors_per_1k_residents" then pv_truthy (competitors_per_1k_residents f)
  else if String.eqb k "nearest_metro_distance_m" then pv_truthy (nearest_metro_distance_m f)
  else if String.eqb k "nearest_tram_distance_m" then pv_truthy (nearest_tram_distance_m f)
  else if String.eqb k "walkability_poi_count" then pv_truthy (walkability_poi_count f)
  else extra k.

(** An area of [_get_helsinki_areas]. *)
Record Area := mkArea {
  area_key : string;
  area_name : string;
  area_lat : Q;
  area_lng : Q;
  area_rent_psqft : Q;
  area_properties_count : Z
}.

Definition helsinki_area_rows : list Area :=
  [mkArea "kamppi" "Kamppi" (601699 # 10000) (249342 # 10000) 42 3;
   mkArea "kallio" "Kallio" (601847 # 10000) (249504 # 10000) 35 2;
   mkArea "pasila" "Pasila" (601989 # 10000) (249339 # 10000) 38 1;
   mkArea "toolo" "TÃ¶Ã¶lÃ¶" (601777 # 10000) (249157 # 10000) 44 2;
   mkArea "punavuori" "Punavuori" (601585 # 10000) (249398 # 10000) 48 4;
   mkArea "kruununhaka" "Kruununhaka" (601729 # 10000) (249560 # 10000) 40 1;
   mkArea "ullanlinna" "Ullanlinna" (601586 # 10000) (249519 # 10000) 46 3;
   mkArea "eira" "Eira" (601543 # 10000) (249374 # 10000) 52 2].

(** [AreaOpportunity] of schemas.py: [score] within [0, 100] and
    [confidence] within [0, 1]; [coverage] is an already validated
    [DataCoverage]. *)
Record AreaOpportunity := mkOpportunity {
  ao_area_id : string;
  ao_area_name : string;
  ao_score : Q;
  ao_latitude : Q;
  ao_longitude : Q;
  ao_revenue_low : Z;
  ao_revenue_high : Z;
  ao_rent_psqft : Q;
  ao_properties_count : Z;
  ao_confidence : Q;
  ao_coverage : TrustMetrics.DataCoverage
}.

Definition AreaOpportunity_new (a : AreaOpportunity) : res AreaOpportunity :=
  if Qleb 0 (ao_score a) && Qleb (ao_score a) 100 && TrustMetrics.in_unit (ao_confidence a)
  then Ok a else Raise ValidationError.

(** The scored-area dictionary of [discover_opportunities]: none of the
    keys [get_method_info] looks up is among its keys. *)
Definition scored_area_truthy (a : AreaOpportunity) (k : string) : bool :=
  if String.eqb k "area_id" then str_truthy (ao_area_id a)
  else if String.eqb k "area_name" then str_truthy (ao_area_name a)
  else if String.eqb k "score" then negb (Qeqb (ao_score a) 0)
  else if String.eqb k "latitude" then negb (Qeqb (ao_latitude a) 0)
  else if String.eqb k "longitude" then negb (Qeqb (ao_longitude a) 0)
  else if String.eqb k "predicted_revenue_low" then negb (Z.eqb (ao_revenue_low a) 0)
  else if String.eqb k "predicted_revenue_high" then negb (Z.eqb (ao_revenue_high a) 0)
  else if String.eqb k "estimated_rent_psqft" then negb (Qeqb (ao_rent_psqft a) 0)
  else if String.eqb k "available_properties_count" then negb (Z.eqb (ao_properties_count a) 0)
  else if String.eqb k "confidence" then negb (Qeqb (ao_confidence a) 0)
  else String.eqb k "coverage".

Record HeatPoint := mkHeatPoint {
  hp_latitude : Q;
  hp_longitude : Q;
  hp_score : Q;
  hp_weight : Q;
  hp_confidence : Q
}.

Definition heat_point (a : AreaOpportunity) : HeatPoint :=
  mkHeatPoint (ao_latitude a) (ao_longitude a) (ao_score a) (ao_score a / 100) (ao_confidence a).

Record DiscoveryResponse := mkDiscovery {
  dr_city : string;
  dr_concept : string;
  dr_heatmap : list HeatPoint;
  dr_top : list AreaOpportunity;
  dr_total_areas_scored : Z;
  dr_method : MethodInfo
}.

(** PAAVO demographics of a postal code: the keys the handler reads
    ([None] for a key that is missing). *)
Record Demographics := mkDemographics {
  dm_area_name : option string;
  dm_latitude : option Q;
  dm_longitude : option Q;
  dm_median_income : pyval
}.

Definition nl : string := String (ascii_of_nat 10) EmptyString.

(** [re.match(r'^\d{5}$', s)] (ASCII digits). *)
Definition is_postal_code (s : string) : bool :=
  Nat.eqb (String.length s) 5 && PyStr.all_chars PyStr.is_digit s.

(** [features.update({"median_income": demographics.get("median_income"), ...})]:
    a missing key is written as [None]. *)
Definition with_median_income (f : Features) (v : pyval) : Features :=
  mkFeatures (population_1km f) (population_density f)
    (match v with Absent => PyNone | _ => v end)
    (competitors_count f) (competitors_per_1k_residents f) (nearest_metro_distance_m f)
    (nearest_tram_distance_m f) (walkability_poi_count f).

(** [if not lat or not lng]: absent, [None] or zero. *)
Definition coord_truthy (v : option Q) : option Q :=
  match v with Some q => if Qeqb q 0 then None else Some q | None => None end.

Section WithServices.
Context `{SqrtOp}.
Variable db : option (list Concept).
Variable yaml : list (string * ConceptConfig).
Variable collect_area_data : string -> Q -> Q -> string -> res Features.
Variable get_demographics : string -> option Demographics.

(** The body of the [try] of one area. *)
Definition score_area (concept : string) (a : Area) : res AreaOpportunity :=
  features <- collect_area_data (area_name a) (area_lat a) (area_lng a) concept ;;
  scored <- TrustMetrics.score_with_trust db yaml features concept ;;
  let '(score_result, coverage, confidence) := scored in
  Ok (mkOpportunity ("helsinki_" ++ area_key a) (area_name a) (ScoringEngine.score score_result)
        (area_lat a) (area_lng a) (ScoringEngine.revenue_low score_result)
        (ScoringEngine.revenue_high score_result) (area_rent_psqft a) (area_properties_count a)
        confidence coverage).

(** [except Exception: continue] *)
Definition scored_areas (concept : string) : list AreaOpportunity :=
  flat_map (fun a => match score_area concept a with Ok x => [x] | Raise _ => [] end) helsinki_area_rows.

Definition discover_helsinki (city concept : string) : res DiscoveryResponse :=
  let sorted := sort_by ao_score (scored_areas concept) in
  top <- map_res AreaOpportunity_new (firstn 10 sorted) ;;
  let method_info := get_method_info "heuristic"
                       (match sorted with [] => None | a :: _ => Some (scored_area_truthy a) end) in
  Ok (mkDiscovery city concept (map heat_point sorted) top (Z.of_nat (length sorted)) method_info).

Definition analyze_postal_area (postal_code concept : string) : res DiscoveryResponse :=
  match get_demographics postal_code with
  | None => Raise (HTTPException 404 ("Postal code " ++ postal_code ++
                                      " not found in Finland. Please check the postal code."))
  | Some d =>
      let name := match dm_area_name d with Some n => n | None => postal_code end in
      match coord_truthy (dm_latitude d), coord_truthy (dm_longitude d) with
      | Some lat, Some lng =>
          collected <- collect_area_data name lat lng concept ;;
          let features := with_median_income collected (dm_median_income d) in
          scored <- TrustMetrics.score_with_trust db yaml features concept ;;
          let '(score_result, coverage, confidence) := scored in
          opportunity <- AreaOpportunity_new
            (mkOpportunity ("postal_" ++ postal_code) (name ++ " (" ++ postal_code ++ ")")
               (ScoringEngine.score score_result) lat lng (ScoringEngine.revenue_low score_result)
               (ScoringEngine.revenue_high score_result) 0 0 confidence coverage) ;;
          let method_info := get_method_info "heuristic"
               (Some (features_truthy features (fun k => String.eqb k "postal_code" && str_truthy postal_code))) in
          Ok (mkDiscovery (name ++ " (" ++ postal_code ++ ")") concept [heat_point opportunity]
                [opportunity] 1 method_info)
      | _, _ => Raise (HTTPException 400 ("No geographic coordinates available for postal code " ++ postal_code))
      end
  end.

Definition discover_opportunities (city concept : string) : res DiscoveryResponse :=
  if is_postal_code (PyStr.strip city) then analyze_postal_area city concept
  else if AddressGenerator.supported_city city then discover_helsinki city concept
  else Raise (HTTPException 501 ("City-wide discovery for '" ++ city ++ "' coming soon! For now, try:" ++ nl ++
                                  "1. Enter a specific address in " ++ city ++ nl ++
                                  "2. Enter a postal code (e.g., 33100 for Tampere center)" ++ nl ++
                                  "3. Use Helsinki, Espoo, or Vantaa for full city discovery")).

End WithServices.

(** ** Sample services for the examples *)

Definition sample_demographics : Demographics := mkDemographics (Some "Kamppi") (Some 60) (Some 24) Absent.
Definition sample_get_demographics (_ : string) : option Demographics := Some sample_demographics.
Definition sample_collect (_ : string) (_ _ : Q) (_ : string) : res Features := Ok ScoringEngine.sample_features.

Local Open Scope list_scope.

(** ** Validation and counting *)

Definition opportunity_valid (a : AreaOpportunity) : Prop := 0 <= ao_score a <= 100 /\ 0 <= ao_confidence a <= 1.

Lemma AreaOpportunity_new_spec a :
  match AreaOpportunity_new a with
  | Ok b => b = a /\ opportunity_valid a
  | Raise e => e = ValidationError
  end.
Proof.
  unfold AreaOpportunity_new, TrustMetrics.in_unit, Qleb.
  destruct (Qle_bool 0 (ao_score a)) eqn:E1, (Qle_bool (ao_score a) 100) eqn:E2,
           (Qle_bool 0 (ao_confidence a)) eqn:E3, (Qle_bool (ao_confidence a) 1) eqn:E4; try reflexivity.
  apply Qle_bool_iff in E1, E2, E3, E4. repeat split; assumption.
Qed.

Lemma map_res_opportunities l :
  match map_res AreaOpportunity_new l with
  | Ok t => t = l /\ Forall opportunity_valid l
  | Raise e => e = ValidationError
  end.
Proof.
  induction l as [|a l IH]; cbn [map_res]; [split; [reflexivity | constructor]|].
  generalize (AreaOpportunity_new_spec a). destruct (AreaOpportunity_new a) as [b|e]; cbn [bind]; [|tauto].
  intros [-> Ha]. destruct (map_res _ l) as [t|e]; cbn [bind]; [|exact IH].
  destruct IH as [-> Hl]. split; [reflexivity | constructor; assumption].
Qed.

Lemma flat_map_le {A B} (f : A -> list B) l :
  (forall x, (length (f x) <= 1)%nat) -> (length (flat_map f l) <= length l)%nat.
Proof.
  intros Hf. induction l as [|x l IH]; cbn [flat_map length]; [lia|].
  rewrite length_app. specialize (Hf x). lia.
Qed.

Section WithServices.
Context `{SqrtOp}.
Variable db : option (list Concept).
Variable yaml : list (string * ConceptConfig).
Variable collect_area_data : string -> Q -> Q -> string -> res Features.
Variable get_demographics : string -> option Demographics.

Lemma scored_areas_length concept : (length (scored_areas db yaml collect_area_data concept) <= 8)%nat.
Proof.
  apply (flat_map_le _ helsinki_area_rows). intros a.
  destruct (score_area _ _ _ _ _); cbn [length]; lia.
Qed.

(** C32: the city branch of [POST /api/discover]: it fails only by the
    validation of an [AreaOpportunity]; otherwise the top opportunities
    are the first ten scored areas in the stable descending order of
    their scores, all within the model's bounds, the heat map covers
    every scored area (at most the eight areas of the table), and the
    method information claims no data source at all, because
    [get_method_info] is given the scored-area dictionary, whose keys are
    none of the feature keys it looks up. *)
Theorem discover_helsinki_spec city concept :
  let sorted := sort_by ao_score (scored_areas db yaml collect_area_data concept) in
  match discover_helsinki db yaml collect_area_data city concept with
  | Ok r =>
      dr_top r = firstn 10 sorted /\ StronglySorted (key_ge ao_score) (dr_top r) /\
      (length (dr_top r) <= 10)%nat /\ Forall opportunity_valid (dr_top r) /\
      dr_heatmap r = map heat_point sorted /\
      dr_total_areas_scored r = Z.of_nat (length (dr_heatmap r)) /\ (dr_total_areas_scored r <= 8)%Z /\
      mi_data_sources (dr_method r) = ["Limited data available"]
  | Raise e => e = ValidationError
  end.
Proof.
  cbv zeta. unfold discover_helsinki.
  destruct (sort_by_spec ao_score (scored_areas db yaml collect_area_data concept)) as [Hp Hs].
  generalize (map_res_opportunities (firstn 10 (sort_by ao_score (scored_areas db yaml collect_area_data concept)))).
  destruct (map_res _ _) as [top|e]; cbn [bind]; [|tauto]. intros [-> Hv].
  cbn [dr_top dr_heatmap dr_total_areas_scored dr_method].
  split; [reflexivity|]. split; [apply StronglySorted_firstn, Hs|].
  split; [apply firstn_le_length' || (rewrite length_firstn; lia)|].
  split; [exact Hv|]. split; [reflexivity|]. split; [now rewrite length_map|].
  split; [rewrite <- (Permutation_length Hp); pose proof (scored_areas_length concept); lia|].
  destruct (sort_by _ _); reflexivity.
Qed.

(** A postal code whose PAAVO record has no median income is not
    scored with a reduced confidence: the handler writes [None] into the
    features, and the scorer raises [TypeError] on it, so the request
    fails with a server error. *)
Theorem postal_missing_income_raises pc concept d la ln f cfg cid :
  get_demographics pc = Some d ->
  coord_truthy (dm_latitude d) = Some la -> coord_truthy (dm_longitude d) = Some ln ->
  dm_median_income d = Absent ->
  collect_area_data (match dm_area_name d with Some n => n | None => pc end) la ln concept = Ok f ->
  population_density f <> PyNone ->
  ScoringEngine.get_concept_config db yaml concept None = (Some cfg, cid) ->
  analyze_postal_area db yaml collect_area_data get_demographics pc concept = Raise TypeError.
Proof.
  intros Hd Hla Hln Hm Hc Hpop Hcfg. unfold analyze_postal_area. rewrite Hd, Hla, Hln, Hc. cbn [bind].
  unfold TrustMetrics.score_with_trust, ScoringEngine.calculate_score. rewrite Hcfg.
  destruct (ScoringEngine.population_total
              (match population_density f with PyNum q => q | _ => 0 end)
              (cfg_optimal_population_density cfg)) as [sp Esp].
  replace (get_default (population_density (with_median_income f (dm_median_income d))) 0)
    with (PyNum (match population_density f with PyNum q => q | _ => 0 end))
    by (cbn [with_median_income population_density get_default]; destruct (population_density f) eqn:E; cbn [get_default]; congruence).
  rewrite Esp. cbn [bind]. rewrite Hm. reflexivity.
Qed.

End WithServices.

(** ** Examples *)

Lemma postal_missing_income_raises_witness :
  sample_get_demographics "00100" = Some sample_demographics /\
  coord_truthy (dm_latitude sample_demographics) = Some 60 /\
  coord_truthy (dm_longitude sample_demographics) = Some 24 /\
  dm_median_income sample_demographics = Absent /\
  sample_collect "Kamppi" 60 24 "QSR" = Ok ScoringEngine.sample_features /\
  population_density ScoringEngine.sample_features <> PyNone /\
  ScoringEngine.get_concept_config None ScoringEngine.sample_yaml "QSR" None = (Some ScoringEngine.sample_config, None) /\
  analyze_postal_area None ScoringEngine.sample_yaml sample_collect sample_get_demographics "00100" "QSR" = Raise TypeError.
Proof.
  assert (H1 : sample_get_demographics "00100" = Some sample_demographics) by reflexivity.
  assert (H2 : coord_truthy (dm_latitude sample_demographics) = Some 60) by reflexivity.
  assert (H3 : coord_truthy (dm_longitude sample_demographics) = Some 24) by reflexivity.
  assert (H4 : dm_median_income sample_demographics = Absent) by reflexivity.
  assert (H5 : sample_collect "Kamppi" 60 24 "QSR" = Ok ScoringEngine.sample_features) by reflexivity.
  assert (H6 : population_density ScoringEngine.sample_features <> PyNone) by discriminate.
  assert (H7 : ScoringEngine.get_concept_config None ScoringEngine.sample_yaml "QSR" None
               = (Some ScoringEngine.sample_config, None)) by reflexivity.
  pose proof (postal_missing_income_raises None ScoringEngine.sample_yaml sample_collect sample_get_demographics
                "00100" "QSR" _ _ _ _ _ _ H1 H2 H3 H4 H5 H6 H7) as T.
  repeat (split; [assumption|]). exact T.
Defined.

End Discovery.
