(* ===== verification/DataCollector.v ===== *)
(** * DataCollector: the feature dictionary of an area
    (src/backend/agents/data_collector.py)

    [collect_area_data] is [DataCollector.collect_area_data], the
    collector main.py calls for every area it scores.  Its four services
    (the population grid, the competitors, the transit stops and the
    walkability points of interest of OSM) are Section variables, each
    answering a value or raising; [asyncio.gather(..., return_exceptions=True)]
    turns a raise into the default the code substitutes ([{}], [[]],
    [{}], [0]).  The median income is not fetched: it is looked up by
    area name in the table of [_estimate_income_for_area].

    The dictionary is the [Features] record the scorer reads; the keys
    [area_name], [latitude] and [longitude] the collector also writes
    are read by no modelled code.  The coordinates are passed through
    to the services as they are given, [None] included. *)

From S2P Require Import Prelude Scoring.
Local Open Scope string_scope.

Module DataCollector.

(** The population service's dictionary, by the two keys read. *)
Record PopulationData := mkPopulationData {
  pd_total_population : pyval;
  pd_population_density : pyval
}.

Definition empty_population : PopulationData := mkPopulationData Absent Absent.

(** The transit service's dictionary, by the two keys read. *)
Record TransitData := mkTransitData {
  td_nearest_metro_distance_m : pyval;
  td_nearest_tram_distance_m : pyval
}.

Definition empty_transit : TransitData := mkTransitData Absent Absent.

(** A competitor of OSM, by the one key main.py reads. *)
Record Competitor := mkCompetitor { comp_distance : pyval }.

(** [results[i] if not isinstance(results[i], Exception) else default]. *)
Definition or_default {A : Type} (r : res A) (default : A) : A :=
  match r with Ok a => a | Raise _ => default end.

(** The table of [_estimate_income_for_area], keyed by the UTF-8 names
    of the areas. *)
Definition income_map : list (string * Q) :=
  [("Kamppi", 54000); ("Kallio", 42000); ("Pasila", 45000); ("Töölö", 58000);
   ("Punavuori", 51000); ("Kruununhaka", 48000); ("Ullanlinna", 55000); ("Eira", 68000)].

(** [dict.get(k)] on a dictionary literal: the value of the key, [None]
    when it is not a key. *)
Fixpoint dict_get {A : Type} (k : string) (d : list (string * A)) : option A :=
  match d with
  | [] => None
  | (k', v) :: d' => if String.eqb k k' then Some v else dict_get k d'
  end.

Definition estimate_income_for_area (area_name : string) : option Q := dict_get area_name income_map.

(** [len(competitors) / (total / 1000) if population_data.get("total_population", 0) > 0 else 0]. *)
Definition competitors_per_1k (count : nat) (total_population : pyval) : res Q :=
  t0 <- num (get_default total_population 0) ;;
  if Qgtb t0 0 then
    t1 <- num (get_default total_population 1) ;;
    per_1k <- py_div t1 1000 ;;
    py_div (inject_Z (Z.of_nat count)) per_1k
  else Ok 0.

Section WithServices.
Variable get_population_in_area : option Q -> option Q -> res PopulationData.
Variable get_competitors : option Q -> option Q -> string -> res (list Competitor).
Variable get_transit_stops : option Q -> option Q -> res TransitData.
Variable get_walkability_pois : option Q -> option Q -> res Q.

Definition collect_area_data (area_name : string) (lat lng : option Q) (concept : string) : res Features :=
  let population_data := or_default (get_population_in_area lat lng) empty_population in
  let competitors := or_default (get_competitors lat lng concept) [] in
  let transit := or_default (get_transit_stops lat lng) empty_transit in
  let walkability_poi_count := or_default (get_walkability_pois lat lng) 0 in
  let median_income := estimate_income_for_area area_name in
  per_1k <- competitors_per_1k (length competitors) (pd_total_population population_data) ;;
  Ok (mkFeatures
        (get (pd_total_population population_data))
        (get (pd_population_density population_data))
        (match median_income with Some m => PyNum m | None => PyNone end)
        (PyNum (inject_Z (Z.of_nat (length competitors))))
        (PyNum per_1k)
        (get (td_nearest_metro_distance_m transit))
        (get (td_nearest_tram_distance_m transit))
        (PyNum walkability_poi_count)).

End WithServices.

(** ** What the collector guarantees *)

(** An area the income table does not name gets the median income
    [None], whatever the services answer. *)
Lemma collect_unknown_income pop comp tr walk name lat lng concept f :
  estimate_income_for_area name = None ->
  collect_area_data pop comp tr walk name lat lng concept = Ok f -> median_income f = PyNone.
Proof.
  intros Hn E. unfold collect_area_data in E. rewrite Hn in E. res_inv E. now injection E as <-.
Qed.

End DataCollector.
