(* ===== verification/StatFin.v ===== *)
(** * StatFin: the PAAVO demographics service
    (src/backend/services/statfin.py)

    [get_demographics_by_postal_code] answers the demographics of a postal
    code from an in-memory cache (entries younger than 30 days), else from
    the PXWeb API ([fetch_from_pxweb_api], whose answer is cached), else
    from the hard-coded table of [_get_demo_data_helsinki].  The service
    object is the state [StatFinState] (its [cache] dictionary); a call is
    a function from the state, the time of the call and the postal code
    to the new state and the answer.

    The HTTP exchange is the Section variable [http_post], a function of
    the time of the call (the API's data may change) and the postal code,
    answering the decoded JSON-stat document or raising; the EUREF-FIN to
    WGS84 conversion of pyproj is the Section variable [euref_to_wgs84].
    Every exception inside [_fetch_from_pxweb_api] is caught there and
    gives [None].  Times are seconds; [timedelta(days=30)] is
    [cache_ttl].  A dictionary literal is [dict_literal] of its entries:
    a repeated key keeps its first position and takes its last value, as
    in Python. *)

From S2P Require Import Prelude Concept Scoring Statistics Discovery DataCollector.
From Stdlib Require Import Ascii.
Local Open Scope string_scope.

Module StatFin.

(** The dictionary of one postal code; a key a row does not have is
    [None] in its option field. *)
Record PaavoData := mkPaavo {
  pa_postal_code : string;
  pa_area_name : string;
  pa_latitude : option Q;
  pa_longitude : option Q;
  pa_population : Z;
  pa_population_density : Z;
  pa_median_income : Z;
  pa_mean_income : Z;
  pa_age_0_14_percent : Q;
  pa_age_15_64_percent : Q;
  pa_age_65_plus_percent : Q;
  pa_age_18_24_percent : option Q;
  pa_higher_education_percent : Q;
  pa_employment_rate : option Q;
  pa_average_age : option Q
}.

(** [d[k] = v]: a new key goes last, an existing key keeps its place. *)
Fixpoint dict_set {A : Type} (k : string) (v : A) (d : list (string * A)) : list (string * A) :=
  match d with
  | [] => [(k, v)]
  | (k', v') :: d' => if String.eqb k k' then (k, v) :: d' else (k', v') :: dict_set k v d'
  end.

Definition dict_literal {A : Type} (entries : list (string * A)) : list (string * A) :=
  fold_left (fun d kv => dict_set (fst kv) (snd kv) d) entries [].

(** The value a dictionary literal gives a key: that of its last entry. *)
Definition last_value {A : Type} (k : string) (entries : list (string * A)) : option A :=
  fold_left (fun o kv => if String.eqb (fst kv) k then Some (snd kv) else o) entries None.

(** The entries of [data_map] in [_get_demo_data_helsinki], in source
    order: the key ["00100"] is written twice. *)
Definition demo_data_entries : list (string * PaavoData) :=
  [("00100", mkPaavo "00100" "Keskusta" None None 2850 4200 48000 55000 (85 # 10) (752 # 10) (163 # 10)
               None (521 # 10) None None);
   ("00120", mkPaavo "00120" "Punavuori" None None 6200 8100 51000 62000 (121 # 10) (728 # 10) (151 # 10)
               None (583 # 10) None None);
   ("00100", mkPaavo "00100" "Kamppi" None None 28000 12500 54000 64000 (112 # 10) (735 # 10) (153 # 10)
               (Some (185 # 10)) (557 # 10) None None);
   ("00530", mkPaavo "00530" "Kallio" None None 24500 11200 42000 48000 (148 # 10) (712 # 10) 14
               (Some (162 # 10)) (483 # 10) None None);
   ("00520", mkPaavo "00520" "Pasila" None None 8500 3200 45000 52000 (135 # 10) (728 # 10) (137 # 10)
               (Some (141 # 10)) (512 # 10) None None);
   ("02100", mkPaavo "02100" "Tapiola" None None 18200 5600 58000 72000 (162 # 10) (685 # 10) (153 # 10)
               (Some (85 # 10)) (621 # 10) None None)].

Definition get_demo_data_helsinki (postal_code : string) : option PaavoData :=
  DataCollector.dict_get postal_code (dict_literal demo_data_entries).

(** ** The PXWeb answer *)

(** The decoded JSON-stat document: [None] for a key the code reads that
    is missing (a [KeyError]). *)
Record PxResult := mkPxResult {
  px_status : Z;
  px_value : option (list pyval);
  px_index : option (list (string * Z));
  px_labels : option (list (string * string))
}.

(** [values[i]]: a negative index counts from the end. *)
Definition py_index {A : Type} (l : list A) (i : Z) : res A :=
  let n := Z.of_nat (length l) in
  let j := if (i <? 0)%Z then (n + i)%Z else i in
  if (0 <=? j)%Z && (j <? n)%Z then
    match nth_error l (Z.to_nat j) with Some a => Ok a | None => Raise IndexError end
  else Raise IndexError.

(** [{code: values[index] for code, index in dimensions.items()}]. *)
Fixpoint value_map (values : list pyval) (dims : list (string * Z)) (acc : list (string * pyval))
    : res (list (string * pyval)) :=
  match dims with
  | [] => Ok acc
  | (code, i) :: dims' => v <- py_index values i ;; value_map values dims' (dict_set code v acc)
  end.

(** [float(value_map.get(k, default))]: [float(None)] is a [TypeError]. *)
Definition fget (vm : list (string * pyval)) (k : string) (default : Q) : res Q :=
  num (match DataCollector.dict_get k vm with Some v => v | None => PyNum default end).

(** [label.split("  ", 1)[1] if "  " in label]: the text after the first
    double space. *)
Fixpoint after_double_space (s : string) : option string :=
  match s with
  | String c s' =>
      match s' with
      | String d rest => if Ascii.eqb c " " && Ascii.eqb d " " then Some rest else after_double_space s'
      | EmptyString => None
      end
  | EmptyString => None
  end.

Section WithApi.
Variable http_post : Z -> string -> res PxResult.
Variable euref_to_wgs84 : Q -> Q -> res (Q * Q).

(** The body of the [try] of [_fetch_from_pxweb_api] after the status
    and [value] checks. *)
Definition parse_paavo (postal_code : string) (values : list pyval) (r : PxResult) : res PaavoData :=
  dims <- (match px_index r with Some d => Ok d | None => Raise (KeyError "dimension") end) ;;
  vm <- value_map values dims [] ;;
  labels <- (match px_labels r with Some l => Ok l | None => Raise (KeyError "dimension") end) ;;
  let area_label := match DataCollector.dict_get postal_code labels with Some l => l | None => postal_code end in
  let area_name := match after_double_space area_label with Some n => n | None => postal_code end in
  population <- fget vm "he_vakiy" 0 ;;
  area_m2 <- fget vm "pinta_ala" 1 ;;
  let area_km2 := if Qgtb area_m2 0 then area_m2 / 1000000 else 1 # 100 in
  let density := if Qgtb area_km2 0 then population / area_km2 else 0 in
  a1 <- fget vm "he_0_2" 0 ;; a2 <- fget vm "he_3_6" 0 ;; a3 <- fget vm "he_7_12" 0 ;;
  a4 <- fget vm "he_13_15" 0 ;;
  let age_0_14 := a1 + a2 + a3 + a4 in
  b1 <- fget vm "he_65_69" 0 ;; b2 <- fget vm "he_70_74" 0 ;; b3 <- fget vm "he_75_79" 0 ;;
  b4 <- fget vm "he_80_84" 0 ;; b5 <- fget vm "he_85_" 0 ;;
  let age_65_plus := b1 + b2 + b3 + b4 + b5 in
  let age_15_64 := population - age_0_14 - age_65_plus in
  adults_18_plus <- fget vm "ko_ika18y" population ;;
  h1 <- fget vm "ko_yl_kork" 0 ;; h2 <- fget vm "ko_al_kork" 0 ;;
  let higher_ed_percent := if Qgtb adults_18_plus 0 then (h1 + h2) / adults_18_plus * 100 else 0 in
  employed <- fget vm "pt_tyoll" 0 ;; unemployed <- fget vm "pt_tyott" 0 ;;
  let employment_rate :=
    if Qgtb (employed + unemployed) 0 then employed / (employed + unemployed) * 100 else 0 in
  euref_x <- fget vm "euref_x" 0 ;; euref_y <- fget vm "euref_y" 0 ;;
  let coords :=
    if Qgtb euref_x 0 && Qgtb euref_y 0 then
      match euref_to_wgs84 euref_x euref_y with Ok (lng, lat) => (Some lat, Some lng) | Raise _ => (None, None) end
    else (None, None) in
  median <- fget vm "hr_mtu" 0 ;; mean <- fget vm "hr_ktu" 0 ;;
  average_age <- fget vm "he_kika" 0 ;;
  let percent x := if Qgtb population 0 then py_round (x / population * 100) 1 else 0 in
  Ok (mkPaavo postal_code area_name (fst coords) (snd coords) (py_int population) (py_int density)
        (py_int median) (py_int mean) (percent age_0_14) (percent age_15_64) (percent age_65_plus) None
        (py_round higher_ed_percent 1) (Some (py_round employment_rate 1)) (Some average_age)).

(** [_fetch_from_pxweb_api] at time [now]: every exception gives [None]. *)
Definition fetch_from_pxweb_api (now : Z) (postal_code : string) : option PaavoData :=
  match http_post now postal_code with
  | Raise _ => None
  | Ok r =>
      if negb (Z.eqb (px_status r) 200) then None
      else match px_value r with
           | None | Some [] => None
           | Some values => match parse_paavo postal_code values r with Ok d => Some d | Raise _ => None end
           end
  end.

(** ** The service and its cache *)

Definition cache_ttl : Z := 30 * 86400.

Record StatFinState := mkStatFin { cache : list (string * (PaavoData * Z)) }.

Definition init : StatFinState := mkStatFin [].

Definition get_demographics_by_postal_code (st : StatFinState) (now : Z) (postal_code : string)
    : StatFinState * option PaavoData :=
  let cache_key := "paavo_" ++ postal_code in
  let fetch_or_fallback :=
    match fetch_from_pxweb_api now postal_code with
    | Some data => (mkStatFin (dict_set cache_key (data, now) (cache st)), Some data)
    | None => (st, get_demo_data_helsinki postal_code)
    end in
  match DataCollector.dict_get cache_key (cache st) with
  | Some (cached_data, cached_time) =>
      if (now - cached_time <? cache_ttl)%Z then (st, Some cached_data) else fetch_or_fallback
  | None => fetch_or_fallback
  end.

(** Calls in time order: [reachable t st] is a state after calls made
    at times at most [t]. *)
Inductive reachable : Z -> StatFinState -> Prop :=
| reach_init t : reachable t init
| reach_call t st now pc :
    reachable t st -> (t <= now)%Z ->
    reachable now (fst (get_demographics_by_postal_code st now pc)).

(** The cache holds what the API answered for the code of its key, no
    later than [now]. *)
Definition cache_inv (now : Z) (st : StatFinState) : Prop :=
  forall key d t, DataCollector.dict_get key (cache st) = Some (d, t) ->
    exists pc, key = ("paavo_" ++ pc)%string /\
      fetch_from_pxweb_api t pc = Some d /\ (t <= now)%Z.

(** What the service would answer without its cache. *)
Definition uncached_demographics (now : Z) (pc : string) : option PaavoData :=
  match fetch_from_pxweb_api now pc with
  | Some d => Some d
  | None => get_demo_data_helsinki pc
  end.

(** main.py's reading of the dictionary in [_analyze_postal_area]:
    [.get] of [area_name], [latitude], [longitude] and [median_income]. *)
Definition to_demographics (d : PaavoData) : Discovery.Demographics :=
  Discovery.mkDemographics (Some (pa_area_name d)) (pa_latitude d) (pa_longitude d)
    (PyNum (inject_Z (pa_median_income d))).

Definition demographics_view (st : StatFinState) (now : Z) (pc : string) : option Discovery.Demographics :=
  option_map to_demographics (snd (get_demographics_by_postal_code st now pc)).

End WithApi.



(** ** Sample APIs for the examples *)

(** A PXWeb answer for 00100 with six of the requested fields; the
    others take the code's defaults. *)
Definition sample_px : PxResult :=
  mkPxResult 200
    (Some [PyNum 18000; PyNum 2000000; PyNum 32000; PyNum 38000; PyNum 1500; PyNum 2500])
    (Some [("he_vakiy", 0%Z); ("pinta_ala", 1%Z); ("hr_mtu", 2%Z); ("hr_ktu", 3%Z); ("he_0_2", 4%Z); ("he_65_69", 5%Z)])
    (Some [("00100", "00100  Helsinki keskusta - Etu-Töölö (Helsinki)")]).
Definition sample_http_post (_ : Z) (_ : string) : res PxResult := Ok sample_px.
Definition down_http_post (_ : Z) (_ : string) : res PxResult := Ok (mkPxResult 503 None None None).
Definition sample_euref (_ _ : Q) : res (Q * Q) := Raise TypeError.

(** ** Dictionaries *)

Lemma dict_get_set {A : Type} (k k' : string) (v : A) d :
  DataCollector.dict_get k (dict_set k' v d) = if String.eqb k k' then Some v else DataCollector.dict_get k d.
Proof.
  induction d as [|[k0 v0] d IH]; cbn [dict_set DataCollector.dict_get].
  - destruct (String.eqb k k'); reflexivity.
  - destruct (String.eqb k' k0) eqn:E; cbn [DataCollector.dict_get].
    + apply String.eqb_eq in E. subst k0. destruct (String.eqb k k'); reflexivity.
    + rewrite IH. destruct (String.eqb k k') eqn:Ek; [|reflexivity].
      apply String.eqb_eq in Ek. subst k. rewrite E. reflexivity.
Qed.

Lemma append_cancel_l (p a b : string) : (p ++ a)%string = (p ++ b)%string -> a = b.
Proof. induction p as [|c p IH]; cbn; [exact id | intros E; injection E; exact IH]. Qed.


Lemma dict_literal_last {A : Type} (k : string) (entries : list (string * A)) :
  DataCollector.dict_get k (dict_literal entries) = last_value k entries.
Proof.
  unfold dict_literal, last_value.
  enough (forall acc, DataCollector.dict_get k (fold_left (fun d kv => dict_set (fst kv) (snd kv) d) entries acc) =
                      fold_left (fun o kv => if String.eqb (fst kv) k then Some (snd kv) else o) entries
                        (DataCollector.dict_get k acc)) as H by exact (H []).
  induction entries as [|[k' v] entries IH]; intros acc; [reflexivity|]. cbn [fold_left fst snd].
  rewrite IH, dict_get_set, String.eqb_sym. reflexivity.
Qed.

(** The table's key ["00100"] is written twice, and Python keeps the
    later row: the fallback for ["00100"] is Kamppi (28000 residents), and
    no postal code answers the Keskusta row (2850 residents). *)
Theorem fallback_duplicate_key :
  option_map pa_area_name (get_demo_data_helsinki "00100") = Some "Kamppi" /\
  forall pc d, get_demo_data_helsinki pc = Some d -> pa_area_name d <> "Keskusta".
Proof.
  split; [reflexivity|]. intros pc d. unfold get_demo_data_helsinki. rewrite dict_literal_last.
  cbn [last_value fold_left demo_data_entries fst snd].
  repeat match goal with |- context [String.eqb ?a pc] => destruct (String.eqb a pc) end;
    intros E; try discriminate E; injection E as <-; discriminate.
Qed.


Lemma fallback_no_coordinates pc d : get_demo_data_helsinki pc = Some d -> pa_latitude d = None.
Proof.
  unfold get_demo_data_helsinki. rewrite dict_literal_last.
  cbn [last_value fold_left demo_data_entries fst snd].
  repeat match goal with |- context [String.eqb ?a pc] => destruct (String.eqb a pc) end;
    intros E; try discriminate E; injection E as <-; reflexivity.
Qed.

(** ** The cache holds what the API answered, no later than now *)

Section Cache.
Variable http_post : Z -> string -> res PxResult.
Variable euref_to_wgs84 : Q -> Q -> res (Q * Q).

Lemma cache_inv_later now now' st : (now <= now')%Z -> cache_inv http_post euref_to_wgs84 now st -> cache_inv http_post euref_to_wgs84 now' st.
Proof.
  intros Hle H key d t E. destruct (H key d t E) as (pc & Hk & Hf & Ht). exists pc. repeat split; auto; lia.
Qed.

Lemma call_inv now pc st :
  cache_inv http_post euref_to_wgs84 now st ->
  cache_inv http_post euref_to_wgs84 now (fst (get_demographics_by_postal_code http_post euref_to_wgs84 st now pc)).
Proof.
  intros H. unfold get_demographics_by_postal_code.
  assert (Hf : cache_inv http_post euref_to_wgs84 now (fst (match fetch_from_pxweb_api http_post euref_to_wgs84 now pc with
                   | Some data => (mkStatFin (dict_set ("paavo_" ++ pc) (data, now) (cache st)), Some data)
                   | None => (st, get_demo_data_helsinki pc) end))).
  { destruct (fetch_from_pxweb_api http_post euref_to_wgs84 now pc) as [data|] eqn:E; [|exact H].
    intros key d t. cbn [fst cache]. rewrite dict_get_set. destruct (String.eqb_spec key ("paavo_" ++ pc)).
    - intros Ed. injection Ed as <- <-. exists pc. repeat split; auto; lia.
    - apply H. }
  destruct (DataCollector.dict_get _ (cache st)) as [[cd ct]|]; [|exact Hf].
  destruct (now - ct <? cache_ttl)%Z; [exact H | exact Hf].
Qed.

Lemma reachable_cache_inv t st :
  reachable http_post euref_to_wgs84 t st -> cache_inv http_post euref_to_wgs84 t st.
Proof.
  induction 1 as [t|t st now pc Hr IH Hle].
  - intros key d t' E. discriminate E.
  - apply call_inv, (cache_inv_later t); assumption.
Qed.

Lemma cache_hit_sound t st now pc d t' :
  reachable http_post euref_to_wgs84 t st -> (t <= now)%Z ->
  DataCollector.dict_get ("paavo_" ++ pc) (cache st) = Some (d, t') ->
  fetch_from_pxweb_api http_post euref_to_wgs84 t' pc = Some d /\ (t' <= now)%Z.
Proof.
  intros Hr Hle E.
  destruct (cache_inv_later _ _ _ Hle (reachable_cache_inv _ _ Hr) _ _ _ E) as (pc' & Hk & Hf & Ht).
  apply append_cancel_l in Hk. subst pc'. exact (conj Hf Ht).
Qed.

(** C33: the cached service refines its contract: along any sequence of
    calls in time order, a call answers data the API gave for that postal
    code less than 30 days ago, or, when the API has nothing now, the
    hard-coded table's row. *)
Theorem answer_fresh_or_fallback t st now pc :
  reachable http_post euref_to_wgs84 t st -> (t <= now)%Z ->
  let answer := snd (get_demographics_by_postal_code http_post euref_to_wgs84 st now pc) in
  (exists d t', answer = Some d /\ (now - cache_ttl < t' <= now)%Z /\
     fetch_from_pxweb_api http_post euref_to_wgs84 t' pc = Some d) \/
  (fetch_from_pxweb_api http_post euref_to_wgs84 now pc = None /\ answer = get_demo_data_helsinki pc).
Proof.
  intros Hr Hle. cbv zeta. unfold get_demographics_by_postal_code.
  destruct (DataCollector.dict_get ("paavo_" ++ pc) (cache st)) as [[cd ct]|] eqn:Ec;
    [destruct (Z.ltb_spec (now - ct) cache_ttl) as [Hlt|_]|].
  1: left; destruct (cache_hit_sound _ _ _ _ _ _ Hr Hle Ec) as [Hf Ht];
     exists cd, ct; split; [reflexivity | split; [lia | exact Hf]].
  all: destruct (fetch_from_pxweb_api http_post euref_to_wgs84 now pc) as [data|] eqn:E;
    [left; exists data, now; split; [reflexivity | split; [unfold cache_ttl; lia | exact E]]
    | right; split; reflexivity].
Qed.

(** C34: the cache is transparent when the API's answer for a postal code
    does not change: along any sequence of calls in time order, the
    cached service answers what the uncached one would. *)
Theorem cache_transparent t st now pc :
  (forall t1 t2, http_post t1 pc = http_post t2 pc) ->
  reachable http_post euref_to_wgs84 t st -> (t <= now)%Z ->
  snd (get_demographics_by_postal_code http_post euref_to_wgs84 st now pc) = uncached_demographics http_post euref_to_wgs84 now pc.
Proof.
  intros Hc Hr Hle.
  assert (Hf : forall t', fetch_from_pxweb_api http_post euref_to_wgs84 t' pc =
                          fetch_from_pxweb_api http_post euref_to_wgs84 now pc)
    by (intros t'; unfold fetch_from_pxweb_api; now rewrite (Hc t' now)).
  unfold get_demographics_by_postal_code, uncached_demographics.
  destruct (DataCollector.dict_get ("paavo_" ++ pc) (cache st)) as [[cd ct]|] eqn:Ec.
  - destruct (cache_hit_sound _ _ _ _ _ _ Hr Hle Ec) as [Hcd _]. rewrite Hf in Hcd.
    destruct (now - ct <? cache_ttl)%Z; [now rewrite Hcd|].
    destruct (fetch_from_pxweb_api http_post euref_to_wgs84 now pc); reflexivity.
  - destruct (fetch_from_pxweb_api http_post euref_to_wgs84 now pc); reflexivity.
Qed.


(** With the API down for a postal code, the service answers the table. *)
Lemma offline_answer t st now pc :
  (forall t', fetch_from_pxweb_api http_post euref_to_wgs84 t' pc = None) ->
  reachable http_post euref_to_wgs84 t st -> (t <= now)%Z ->
  snd (get_demographics_by_postal_code http_post euref_to_wgs84 st now pc) = get_demo_data_helsinki pc.
Proof.
  intros Hdown Hr Hle. unfold get_demographics_by_postal_code. rewrite Hdown.
  destruct (DataCollector.dict_get ("paavo_" ++ pc) (cache st)) as [[cd ct]|] eqn:Ec; [|reflexivity].
  destruct (cache_hit_sound _ _ _ _ _ _ Hr Hle Ec) as [Hf _]. now rewrite Hdown in Hf.
Qed.

(** C35: without the PXWeb API, postal-code discovery never succeeds: a
    code of the hard-coded table fails with 400, because the table's rows
    carry no coordinates, and any other code with 404. *)
Theorem offline_postal_discovery_fails `{SqrtOp} db yaml collect t st now pc concept :
  (forall t', fetch_from_pxweb_api http_post euref_to_wgs84 t' pc = None) ->
  reachable http_post euref_to_wgs84 t st -> (t <= now)%Z ->
  Discovery.analyze_postal_area db yaml collect (demographics_view http_post euref_to_wgs84 st now) pc concept =
    match get_demo_data_helsinki pc with
    | Some _ => Raise (HTTPException 400 ("No geographic coordinates available for postal code " ++ pc))
    | None => Raise (HTTPException 404 ("Postal code " ++ pc ++ " not found in Finland. Please check the postal code."))
    end.
Proof.
  intros Hdown Hr Hle. unfold Discovery.analyze_postal_area, demographics_view.
  rewrite (offline_answer t st now pc Hdown Hr Hle).
  destruct (get_demo_data_helsinki pc) as [d|] eqn:E; [|reflexivity].
  cbn [option_map to_demographics Discovery.dm_latitude]. rewrite (fallback_no_coordinates pc d E). reflexivity.
Qed.

End Cache.


(** ** Witnesses *)

Lemma answer_fresh_or_fallback_witness :
  reachable sample_http_post sample_euref 0
    (fst (get_demographics_by_postal_code sample_http_post sample_euref init 0 "00100")) /\
  (0 <= 86400)%Z /\
  ((exists d t', snd (get_demographics_by_postal_code sample_http_post sample_euref
                       (fst (get_demographics_by_postal_code sample_http_post sample_euref init 0 "00100")) 86400 "00100")
                   = Some d /\ (86400 - cache_ttl < t' <= 86400)%Z /\
                 fetch_from_pxweb_api sample_http_post sample_euref t' "00100" = Some d) \/
   (fetch_from_pxweb_api sample_http_post sample_euref 86400 "00100" = None /\
    snd (get_demographics_by_postal_code sample_http_post sample_euref
           (fst (get_demographics_by_postal_code sample_http_post sample_euref init 0 "00100")) 86400 "00100")
    = get_demo_data_helsinki "00100")).
Proof.
  assert (H1 : reachable sample_http_post sample_euref 0
                 (fst (get_demographics_by_postal_code sample_http_post sample_euref init 0 "00100")))
    by (apply (reach_call _ _ 0 init 0 "00100"); [constructor | lia]).
  assert (H2 : (0 <= 86400)%Z) by lia.
  pose proof (answer_fresh_or_fallback sample_http_post sample_euref _ _ 86400 "00100" H1 H2) as T.
  split; [exact H1|]. split; [exact H2|]. exact T.
Defined.

Lemma cache_transparent_witness :
  (forall t1 t2, sample_http_post t1 "00100" = sample_http_post t2 "00100") /\
  reachable sample_http_post sample_euref 0
    (fst (get_demographics_by_postal_code sample_http_post sample_euref init 0 "00100")) /\
  (0 <= 86400)%Z /\
  snd (get_demographics_by_postal_code sample_http_post sample_euref
         (fst (get_demographics_by_postal_code sample_http_post sample_euref init 0 "00100")) 86400 "00100") =
    uncached_demographics sample_http_post sample_euref 86400 "00100".
Proof.
  assert (H1 : forall t1 t2, sample_http_post t1 "00100" = sample_http_post t2 "00100") by reflexivity.
  assert (H2 : reachable sample_http_post sample_euref 0
                 (fst (get_demographics_by_postal_code sample_http_post sample_euref init 0 "00100")))
    by (apply (reach_call _ _ 0 init 0 "00100"); [constructor | lia]).
  assert (H3 : (0 <= 86400)%Z) by lia.
  pose proof (cache_transparent sample_http_post sample_euref _ _ 86400 "00100" H1 H2 H3) as T.
  split; [exact H1|]. split; [exact H2|]. split; [exact H3|]. exact T.
Defined.

Lemma offline_postal_discovery_fails_witness :
  (forall t', fetch_from_pxweb_api down_http_post sample_euref t' "00100" = None) /\
  reachable down_http_post sample_euref 0 init /\ (0 <= 0)%Z /\
  Discovery.analyze_postal_area None ScoringEngine.sample_yaml Discovery.sample_collect
    (demographics_view down_http_post sample_euref init 0) "00100" "QSR" =
    Raise (HTTPException 400 "No geographic coordinates available for postal code 00100").
Proof.
  assert (H1 : forall t', fetch_from_pxweb_api down_http_post sample_euref t' "00100" = None) by reflexivity.
  assert (H2 : reachable down_http_post sample_euref 0 init) by constructor.
  assert (H3 : (0 <= 0)%Z) by lia.
  pose proof (offline_postal_discovery_fails down_http_post sample_euref None ScoringEngine.sample_yaml
                Discovery.sample_collect 0 init 0 "00100" "QSR" H1 H2 H3) as T.
  split; [exact H1|]. split; [exact H2|]. split; [exact H3|]. exact T.
Defined.

End StatFin.
