(* ===== verification/PopulationGrid.v ===== *)
(** * PopulationGrid: the 1 km population grid of Statistics Finland
    (src/backend/services/population_grid.py)

    [PopulationGridService] keeps one piece of state, [self.cache], a
    dictionary from the text of a bounding box to the grid cells the WFS
    server answered for it.  [get_population_grid] answers a cached box
    from the cache (there is no expiry), and otherwise queries the server:
    an [httpx.HTTPError] (a transport error, or [raise_for_status] on a
    status other than 2xx) is caught and answers [[]] without caching;
    any other error of the parsing loop propagates and caches nothing.
    [get_population_in_area] and [get_heatmap_data_for_city] go through
    [get_population_grid] with the box around a point.

    The cache key [f"grid_{min_lng}_{min_lat}_{max_lng}_{max_lat}"]
    identifies two boxes when their four floats are equal: [bbox_eq], an
    equivalence coarser than [=] on [Q], with [cache_lookup] a morphism of
    it.  The server's answer at time [now] for a box is the Section
    variable [wfs_get] ([None] is a transport error); the haversine
    distance in km, a transcendental function, is the Section variable
    [distance].  A JSON body that does not decode raises
    [json.JSONDecodeError], a [ValueError] whose message is not modelled.

    [population_service] is the service as [DataCollector] calls it
    ([radius_km=1.0], the coordinates possibly [None]), plugged into
    [DataCollector.collect_area_data]. *)

From S2P Require Import Prelude Scoring TrustMetrics DataCollector StatFin.
From Stdlib Require Import Morphisms Setoid.
Local Open Scope string_scope.
Local Open Scope list_scope.

Module PopulationGrid.

(** [(min_lng, min_lat, max_lng, max_lat)] *)
Definition BBox : Type := (Q * Q * Q * Q)%type.

(** Two boxes have the same cache key. *)
Definition bbox_eqb (a b : BBox) : bool :=
  let '(a1, a2, a3, a4) := a in
  let '(b1, b2, b3, b4) := b in
  Qeqb a1 b1 && Qeqb a2 b2 && Qeqb a3 b3 && Qeqb a4 b4.

Definition bbox_eq (a b : BBox) : Prop := bbox_eqb a b = true.

(** [feature["properties"]], by the keys read. *)
Record GridProps := mkGridProps {
  vaesto : pyval; miehet : pyval; naiset : pyval;
  ika_0_14 : pyval; ika_15_64 : pyval; ika_65_ : pyval;
  grd_id : option string; kunta : option string
}.

(** [feature["geometry"]]: its ["type"] and its ["coordinates"], a list
    of rings of [[lng, lat]] positions. *)
Record Geometry := mkGeometry {
  geom_type : option string;
  geom_coordinates : option (list (list (Q * Q)))
}.

(** A GeoJSON feature: a missing key is [None]. *)
Record Feature := mkFeature {
  f_properties : option GridProps;
  f_geometry : option Geometry
}.

(** [response.json()]: not JSON, or an object whose ["features"] key may
    be missing. *)
Inductive Body := NotJson | JsonObject (features : option (list Feature)).

Record WfsResponse := mkWfsResponse { status_code : Z; body : Body }.

(** A grid cell of [get_population_grid]. *)
Record GridCell := mkGridCell {
  latitude : Q; longitude : Q;
  population : pyval; males : pyval; females : pyval;
  age_0_14 : pyval; age_15_64 : pyval; age_65_plus : pyval;
  grid_id : string; municipality : string
}.

(** [d[k]] on a JSON object. *)
Definition dict_item {A : Type} (k : string) (v : option A) : res A :=
  match v with Some a => Ok a | None => Raise (KeyError k) end.

Definition qsum (l : list Q) : Q := fold_left Qplus l 0.

(** [sum(c[0] for c in coords) / len(coords)] *)
Definition mean_of (l : list Q) : res Q := py_div (qsum l) (inject_Z (Z.of_nat (length l))).

(** One iteration of the loop over [data.get("features", [])]: a cell,
    no cell for a geometry other than a polygon, or an error. *)
Definition parse_feature (feature : Feature) : res (option GridCell) :=
  props <- dict_item "properties" (f_properties feature) ;;
  geometry <- dict_item "geometry" (f_geometry feature) ;;
  gtype <- dict_item "type" (geom_type geometry) ;;
  if String.eqb gtype "Polygon" then
    rings <- dict_item "coordinates" (geom_coordinates geometry) ;;
    coords <- StatFin.py_index rings 0 ;;
    center_lng <- mean_of (map fst coords) ;;
    center_lat <- mean_of (map snd coords) ;;
    Ok (Some (mkGridCell center_lat center_lng
                (get_default (vaesto props) 0) (get_default (miehet props) 0)
                (get_default (naiset props) 0) (get_default (ika_0_14 props) 0)
                (get_default (ika_15_64 props) 0) (get_default (ika_65_ props) 0)
                (match grd_id props with Some s => s | None => "" end)
                (match kunta props with Some s => s | None => "" end)))
  else Ok None.

Fixpoint parse_features (fs : list Feature) : res (list GridCell) :=
  match fs with
  | [] => Ok []
  | f :: fs' =>
      c <- parse_feature f ;;
      cs <- parse_features fs' ;;
      Ok (match c with Some cell => cell :: cs | None => cs end)
  end.

(** [response.raise_for_status()] passes a 2xx status only. *)
Definition is_success (code : Z) : bool := (200 <=? code)%Z && (code <? 300)%Z.

(** The body of the [try]: [None] when an [httpx.HTTPError] is caught,
    otherwise the cells or the error that escapes the handler. *)
Definition read_response (r : option WfsResponse) : option (res (list GridCell)) :=
  match r with
  | None => None
  | Some resp =>
      if is_success (status_code resp) then
        match body resp with
        | NotJson => Some (Raise (ValueError "JSONDecodeError"))
        | JsonObject features =>
            Some (parse_features (match features with Some l => l | None => [] end))
        end
      else None
  end.

(** [self.cache] *)
Record GridState := mkGridState { cache : list (BBox * list GridCell) }.

Definition init : GridState := mkGridState [].

(** [cache_key in self.cache] and [self.cache[cache_key]]. *)
Fixpoint cache_lookup (b : BBox) (c : list (BBox * list GridCell)) : option (list GridCell) :=
  match c with
  | [] => None
  | (b', cells) :: c' => if bbox_eqb b b' then Some cells else cache_lookup b c'
  end.

(** The box of [radius_km] around a point (1 degree of latitude taken
    as 111 km, of longitude as 55 km). *)
Definition radius_bbox (lat lng radius_km : Q) : BBox :=
  let lat_offset := radius_km / 111 in
  let lng_offset := radius_km / 55 in
  (lng - lng_offset, lat - lat_offset, lng + lng_offset, lat + lat_offset).

(** [sum(...)] of JSON numbers: [0 + None] raises. *)
Fixpoint py_sum_from (acc : Q) (l : list pyval) : res Q :=
  match l with
  | [] => Ok acc
  | v :: l' => x <- num v ;; py_sum_from (acc + x) l'
  end.

Definition py_sum (l : list pyval) : res Q := py_sum_from 0 l.

(** [(part / total * 100) if total > 0 else 0] *)
Definition pct (part total : Q) : Q := if Qgtb total 0 then part / total * 100 else 0.

Record Demographics := mkDemographics {
  age_0_14_percent : Q; age_15_64_percent : Q; age_65_plus_percent : Q
}.

(** The dictionary [get_population_in_area] returns. *)
Record PopulationArea := mkPopulationArea {
  ap_total_population : Z; ap_grid_cells_count : nat; ap_population_density : Z;
  ap_age_0_14 : Z; ap_age_15_64 : Z; ap_age_65_plus : Z;
  ap_demographics : Demographics
}.

(** A point of the heat map. *)
Record HeatPoint := mkHeatPoint {
  hp_latitude : Q; hp_longitude : Q; hp_population : Q; hp_intensity : Q
}.

(** The loop of [get_heatmap_data_for_city]: inhabited cells only. *)
Fixpoint heatmap_points (cells : list GridCell) : res (list HeatPoint) :=
  match cells with
  | [] => Ok []
  | cell :: rest =>
      p <- num (population cell) ;;
      if Qgtb p 0 then
        hs <- heatmap_points rest ;;
        Ok (mkHeatPoint (latitude cell) (longitude cell) p (py_min (p / 100) 50) :: hs)
      else heatmap_points rest
  end.

(** [generate_mock_heatmap_data]: [city_coords.get(city, city_coords["Helsinki"])]. *)
Definition helsinki_coords : Q * Q := (601699 # 10000, 249384 # 10000).

Definition city_coords : list (string * (Q * Q)) :=
  [("Helsinki", helsinki_coords); ("Tampere", (614978 # 10000, 237610 # 10000));
   ("Turku", (604518 # 10000, 222666 # 10000)); ("Oulu", (650121 # 10000, 254651 # 10000));
   ("Jyväskylä", (622426 # 10000, 257473 # 10000)); ("Kuopio", (628924 # 10000, 276782 # 10000));
   ("Lahti", (609827 # 10000, 256612 # 10000)); ("Pori", (614847 # 10000, 217972 # 10000));
   ("Vaasa", (630951 # 10000, 216164 # 10000))].

Definition generate_mock_heatmap_data (city : string) : list HeatPoint :=
  let coords := match DataCollector.dict_get city city_coords with Some c => c | None => helsinki_coords end in
  [mkHeatPoint (fst coords) (snd coords) 10000 50].

Section WithWfs.
Variable wfs_get : Z -> BBox -> option WfsResponse.
Variable distance : Q -> Q -> Q -> Q -> Q.

Definition get_population_grid (st : GridState) (now : Z) (bbox : BBox) : res (GridState * list GridCell) :=
  match cache_lookup bbox (cache st) with
  | Some cells => Ok (st, cells)
  | None =>
      match read_response (wfs_get now bbox) with
      | None => Ok (st, [])
      | Some r => grid_cells <- r ;; Ok (mkGridState (cache st ++ [(bbox, grid_cells)]), grid_cells)
      end
  end.

Definition get_population_in_area (st : GridState) (now : Z) (lat lng radius_km : Q)
  : res (GridState * PopulationArea) :=
  r <- get_population_grid st now (radius_bbox lat lng radius_km) ;;
  let cells_in_radius :=
    filter (fun cell => Qleb (distance lat lng (latitude cell) (longitude cell)) radius_km) (snd r) in
  total_population <- py_sum (map population cells_in_radius) ;;
  a0 <- py_sum (map age_0_14 cells_in_radius) ;;
  a1 <- py_sum (map age_15_64 cells_in_radius) ;;
  a2 <- py_sum (map age_65_plus cells_in_radius) ;;
  let area_km2 := (314159 # 100000) * (radius_km * radius_km) in
  let density := if Qgtb area_km2 0 then total_population / area_km2 else 0 in
  Ok (fst r, mkPopulationArea (py_int total_population) (length cells_in_radius) (py_int density)
               (py_int a0) (py_int a1) (py_int a2)
               (mkDemographics (py_round (pct a0 total_population) 1)
                  (py_round (pct a1 total_population) 1) (py_round (pct a2 total_population) 1))).

Definition get_heatmap_data_for_city (st : GridState) (now : Z) (city_name : string)
  (city_coords : Q * Q) (radius_km : Q) : res (GridState * list HeatPoint) :=
  r <- get_population_grid st now (radius_bbox (fst city_coords) (snd city_coords) radius_km) ;;
  heatmap_data <- heatmap_points (snd r) ;;
  Ok (fst r, heatmap_data).

(** The call of data_collector.py, [get_population_in_area(lat, lng,
    radius_km=1.0)], as the collector reads it: [lng - lng_offset] on a
    [None] coordinate raises. *)
Definition population_service (st : GridState) (now : Z) (lat lng : option Q)
  : res DataCollector.PopulationData :=
  match lat, lng with
  | Some la, Some ln =>
      r <- get_population_in_area st now la ln 1 ;;
      Ok (DataCollector.mkPopulationData (PyNum (inject_Z (ap_total_population (snd r))))
            (PyNum (inject_Z (ap_population_density (snd r)))))
  | _, _ => Raise TypeError
  end.

(** The states of the service along a sequence of calls in time order. *)
Inductive reachable : Z -> GridState -> Prop :=
| reach_init t : reachable t init
| reach_call t st now b st' cells :
    reachable t st -> (t <= now)%Z -> get_population_grid st now b = Ok (st', cells) -> reachable now st'.

(** A sequence of calls on the one service object: a call that raises
    leaves the cache as it was. *)
Fixpoint run_calls (st : GridState) (calls : list (Z * BBox)) : GridState :=
  match calls with
  | [] => st
  | (now, b) :: calls' =>
      run_calls (match get_population_grid st now b with Ok (st', _) => st' | Raise _ => st end) calls'
  end.

(** Every cached list is what the server answered, at or before [now],
    for a box with the same key. *)
Definition cache_inv (now : Z) (st : GridState) : Prop :=
  forall b cells, In (b, cells) (cache st) ->
    exists t, (t <= now)%Z /\ read_response (wfs_get t b) = Some (Ok cells).

End WithWfs.

(** A cell whose counts are numbers, the age groups non-negative and
    adding up to no more than the population. *)
Definition cell_consistent (c : GridCell) : Prop :=
  exists p a0 a1 a2, population c = PyNum p /\ age_0_14 c = PyNum a0 /\ age_15_64 c = PyNum a1 /\
    age_65_plus c = PyNum a2 /\ 0 <= a0 /\ 0 <= a1 /\ 0 <= a2 /\ a0 + a1 + a2 <= p.

(** ** Sample answers of the server *)

Definition sample_props : GridProps :=
  mkGridProps (PyNum 1850) (PyNum 920) (PyNum 930) (PyNum 245) (PyNum 1280) (PyNum 325)
    (Some "1kmN6717E385") (Some "Helsinki").

(** A closed ring, as GeoJSON writes polygons: the first position is
    repeated at the end. *)
Definition sample_ring : list (Q * Q) :=
  [(2493 # 100, 6017 # 100); (2494 # 100, 6017 # 100); (2494 # 100, 6018 # 100);
   (2493 # 100, 6018 # 100); (2493 # 100, 6017 # 100)].

Definition sample_feature : Feature :=
  mkFeature (Some sample_props) (Some (mkGeometry (Some "Polygon") (Some [sample_ring]))).

Definition sample_wfs (_ : Z) (_ : BBox) : option WfsResponse :=
  Some (mkWfsResponse 200 (JsonObject (Some [sample_feature]))).
Definition down_wfs (_ : Z) (_ : BBox) : option WfsResponse := None.
Definition ring_wfs (_ : Z) (_ : BBox) : option WfsResponse :=
  Some (mkWfsResponse 200 (JsonObject (Some
    [mkFeature (Some sample_props) (Some (mkGeometry (Some "Polygon") (Some [[]])))]))).
Definition sample_distance (_ _ _ _ : Q) : Q := 0.

Definition sample_bbox : BBox := radius_bbox (6017 # 100) (2493 # 100) 1.
Definition sample_cells : list GridCell :=
  match parse_features [sample_feature] with Ok l => l | Raise _ => [] end.
Definition sample_heat : list HeatPoint :=
  match heatmap_points sample_cells with Ok l => l | Raise _ => [] end.

(** ** Cache keys *)

Lemma bbox_eq_iff a1 a2 a3 a4 b1 b2 b3 b4 :
  bbox_eq (a1, a2, a3, a4) (b1, b2, b3, b4) <-> a1 == b1 /\ a2 == b2 /\ a3 == b3 /\ a4 == b4.
Proof. unfold bbox_eq, bbox_eqb, Qeqb. rewrite !andb_true_iff, !Qeq_bool_iff. tauto. Qed.

#[export] Instance bbox_eq_Equivalence : Equivalence bbox_eq.
Proof.
  split.
  - intros [[[a1 a2] a3] a4]. apply bbox_eq_iff. repeat split; reflexivity.
  - intros [[[a1 a2] a3] a4] [[[b1 b2] b3] b4]. rewrite !bbox_eq_iff.
    intros (? & ? & ? & ?). repeat split; symmetry; assumption.
  - intros [[[a1 a2] a3] a4] [[[b1 b2] b3] b4] [[[c1 c2] c3] c4]. rewrite !bbox_eq_iff.
    intros (? & ? & ? & ?) (? & ? & ? & ?). repeat split; etransitivity; eassumption.
Qed.

Lemma bbox_eqb_compat b b' b0 : bbox_eq b b' -> bbox_eqb b b0 = bbox_eqb b' b0.
Proof.
  intros H. apply Bool.eq_iff_eq_true. change (bbox_eq b b0 <-> bbox_eq b' b0).
  split; intros H'; [rewrite <- H | rewrite H]; exact H'.
Qed.

(** Boxes with the same key find the same cache entry. *)
#[export] Instance cache_lookup_Proper : Proper (bbox_eq ==> eq ==> eq) cache_lookup.
Proof.
  intros b b' Hb c ? <-. induction c as [|[b0 cells] c IH]; cbn [cache_lookup]; [reflexivity|].
  rewrite (bbox_eqb_compat _ _ b0 Hb), IH. reflexivity.
Qed.

Lemma cache_lookup_app b c d cells :
  cache_lookup b c = Some cells -> cache_lookup b (c ++ d) = Some cells.
Proof.
  induction c as [|[b0 x] c IH]; cbn [cache_lookup app]; [discriminate|].
  destruct (bbox_eqb b b0); [exact id | exact IH].
Qed.

Lemma cache_lookup_In b c cells :
  cache_lookup b c = Some cells -> exists b', bbox_eq b b' /\ In (b', cells) c.
Proof.
  induction c as [|[b0 x] c IH]; cbn [cache_lookup]; [discriminate|].
  destruct (bbox_eqb b b0) eqn:E.
  - intros [= <-]. exists b0. split; [exact E | left; reflexivity].
  - intros Hc. destruct (IH Hc) as (b' & Hb & Hi). exists b'. split; [exact Hb | right; exact Hi].
Qed.

#[export] Hint Resolve cache_lookup_app : spotlight.

Section Cache.
Variable wfs_get : Z -> BBox -> option WfsResponse.

(** A call answers from the cache, the server's empty answer on an
    [HTTPError], or the freshly parsed cells it appends to the cache. *)
Lemma get_population_grid_cases st now b st' cells :
  get_population_grid wfs_get st now b = Ok (st', cells) ->
  (cache_lookup b (cache st) = Some cells /\ st' = st) \/
  (cache_lookup b (cache st) = None /\ read_response (wfs_get now b) = None /\ cells = [] /\ st' = st) \/
  (cache_lookup b (cache st) = None /\ read_response (wfs_get now b) = Some (Ok cells) /\
   st' = mkGridState (cache st ++ [(b, cells)])).
Proof.
  unfold get_population_grid. destruct (cache_lookup b (cache st)) as [x|].
  - intros [= <- <-]. left. split; reflexivity.
  - destruct (read_response (wfs_get now b)) as [r|].
    + intros E. res_inv E. injection E as <- <-. right; right. split; [reflexivity|]. split; [reflexivity|reflexivity].
    + intros [= <- <-]. right; left. repeat split.
Qed.

Lemma get_population_grid_grows st now b st' cells :
  get_population_grid wfs_get st now b = Ok (st', cells) -> exists d, cache st' = cache st ++ d.
Proof.
  intros E. destruct (get_population_grid_cases _ _ _ _ _ E) as [[_ ->]|[(_ & _ & _ & ->)|(_ & _ & ->)]];
    [exists [] | exists [] | eexists; reflexivity]; symmetry; apply app_nil_r.
Qed.

Lemma run_calls_grows st calls : exists d, cache (run_calls wfs_get st calls) = cache st ++ d.
Proof.
  revert st. induction calls as [|[now b] calls IH]; intros st; cbn [run_calls].
  - exists []. symmetry; apply app_nil_r.
  - destruct (get_population_grid wfs_get st now b) as [[st1 cells]|e] eqn:E; [|apply IH].
    destruct (get_population_grid_grows _ _ _ _ _ E) as [d1 H1]. destruct (IH st1) as [d2 H2].
    exists (d1 ++ d2)%list. rewrite H2, H1, app_assoc. reflexivity.
Qed.

Lemma grid_cache_inv_later now now' st :
  (now <= now')%Z -> cache_inv wfs_get now st -> cache_inv wfs_get now' st.
Proof.
  intros Hle H b cells Hi. destruct (H b cells Hi) as (t & Ht & Hr). exists t. split; [lia | exact Hr].
Qed.

Lemma grid_call_inv now b st st' cells :
  cache_inv wfs_get now st -> get_population_grid wfs_get st now b = Ok (st', cells) ->
  cache_inv wfs_get now st'.
Proof.
  intros H E. destruct (get_population_grid_cases _ _ _ _ _ E) as [[_ ->]|[(_ & _ & _ & ->)|(_ & Hr & ->)]];
    [exact H | exact H|].
  intros b' cells' Hi. cbn [cache] in Hi. apply in_app_or in Hi as [Hi|[Hi|[]]].
  - exact (H _ _ Hi).
  - injection Hi as <- <-. exists now. split; [lia | exact Hr].
Qed.

Lemma grid_reachable_cache_inv t st : reachable wfs_get t st -> cache_inv wfs_get t st.
Proof.
  induction 1 as [t|t st now b st' cells Hr IH Hle E].
  - intros b cells [].
  - apply (grid_call_inv now b st st' cells); [apply (grid_cache_inv_later t) |]; assumption.
Qed.

(** C36: the cached service refines the server: along any
    sequence of calls in time order, a call answers what the server
    answered for a box with the same key at or before the call, or, on an
    [HTTPError] now, the empty grid, the cache unchanged. *)
Theorem grid_answer_contract t st now b st' cells :
  reachable wfs_get t st -> (t <= now)%Z ->
  get_population_grid wfs_get st now b = Ok (st', cells) ->
  (exists b' t', bbox_eq b b' /\ (t' <= now)%Z /\ read_response (wfs_get t' b') = Some (Ok cells)) \/
  (read_response (wfs_get now b) = None /\ cells = [] /\ st' = st).
Proof.
  intros Hr Hle E. destruct (get_population_grid_cases _ _ _ _ _ E) as [[Hc _]|[(_ & H & Hc & Hs)|(_ & H & _)]].
  - left. destruct (cache_lookup_In _ _ _ Hc) as (b' & Hb & Hi).
    destruct (grid_cache_inv_later _ _ _ Hle (grid_reachable_cache_inv _ _ Hr) _ _ Hi) as (t' & Ht & Hf).
    exists b', t'. repeat split; assumption.
  - right. repeat split; assumption.
  - left. exists b, now. split; [reflexivity | split; [lia | exact H]].
Qed.

(** The cache has no expiry: once a box is cached, every
    later call for a box with the same key answers the cached cells,
    whatever the server answers then, after any sequence of calls. *)
Theorem grid_cache_never_refreshed st calls b b' cells now :
  cache_lookup b (cache st) = Some cells -> bbox_eq b b' ->
  get_population_grid wfs_get (run_calls wfs_get st calls) now b' = Ok (run_calls wfs_get st calls, cells).
Proof.
  intros Hc Hb. unfold get_population_grid. destruct (run_calls_grows st calls) as [d ->].
  rewrite <- Hb, (cache_lookup_app _ _ _ _ Hc). reflexivity.
Qed.

End Cache.

(** ** The grid as the collector sees it *)

Lemma demographics_coverage f cov :
  TrustMetrics.calculate_coverage f = Ok cov ->
  TrustMetrics.cov_demographics cov =
    py_round (TrustMetrics.present_fraction [population_1km f; population_density f; median_income f]) 2.
Proof.
  unfold TrustMetrics.calculate_coverage, TrustMetrics.DataCoverage_new.
  destruct (_ && _); [intros [= <-]; reflexivity | discriminate].
Qed.

(** The collector's features when the population service answers [pd]
    ([DataCollector.or_default] of the answer). *)
Lemma collect_population pop comp tr walk name lat lng concept pd :
  pop lat lng = Ok pd \/ (exists e, pop lat lng = Raise e /\ pd = DataCollector.empty_population) ->
  (pd = DataCollector.empty_population \/ DataCollector.pd_total_population pd = PyNum 0) ->
  exists f, DataCollector.collect_area_data pop comp tr walk name lat lng concept = Ok f /\
    population_1km f = get (DataCollector.pd_total_population pd) /\
    population_density f = get (DataCollector.pd_population_density pd) /\
    median_income f = match DataCollector.estimate_income_for_area name with
                      | Some m => PyNum m | None => PyNone end.
Proof.
  intros Hp Hz. unfold DataCollector.collect_area_data.
  replace (DataCollector.or_default (pop lat lng) DataCollector.empty_population) with pd
    by (destruct Hp as [-> | (e & -> & ->)]; reflexivity).
  replace (DataCollector.competitors_per_1k _ (DataCollector.pd_total_population pd)) with (Ok 0 : res Q)
    by (destruct Hz as [-> | ->]; reflexivity).
  eexists. split; [reflexivity|]. split; [reflexivity|]. split; reflexivity.
Qed.

Section Collector.
Variable wfs_get : Z -> BBox -> option WfsResponse.
Variable distance : Q -> Q -> Q -> Q -> Q.
Variable get_competitors : option Q -> option Q -> string -> res (list DataCollector.Competitor).
Variable get_transit_stops : option Q -> option Q -> res DataCollector.TransitData.
Variable get_walkability_pois : option Q -> option Q -> res Q.

Lemma population_service_outage st now lat lng :
  cache_lookup (radius_bbox lat lng 1) (cache st) = None ->
  read_response (wfs_get now (radius_bbox lat lng 1)) = None ->
  population_service wfs_get distance st now (Some lat) (Some lng) =
    Ok (DataCollector.mkPopulationData (PyNum 0) (PyNum 0)).
Proof. intros Hc Hr. unfold population_service, get_population_in_area, get_population_grid. now rewrite Hc, Hr. Qed.

(** C12: an [HTTPError] of the WFS server reads as a measured
    empty area: the collector's features carry population [0] and
    density [0], both counted as present, so the demographics coverage
    stays at least 0.67 where the data is missing. *)
Theorem grid_outage_counts_as_measured st now lat lng name concept :
  cache_lookup (radius_bbox lat lng 1) (cache st) = None ->
  read_response (wfs_get now (radius_bbox lat lng 1)) = None ->
  exists f, DataCollector.collect_area_data (population_service wfs_get distance st now)
              get_competitors get_transit_stops get_walkability_pois name (Some lat) (Some lng) concept = Ok f /\
    population_1km f = PyNum 0 /\ population_density f = PyNum 0 /\
    forall cov, TrustMetrics.calculate_coverage f = Ok cov -> 67 # 100 <= TrustMetrics.cov_demographics cov.
Proof.
  intros Hc Hr.
  destruct (collect_population (population_service wfs_get distance st now) get_competitors get_transit_stops
              get_walkability_pois name (Some lat) (Some lng) concept _
              (or_introl (population_service_outage st now lat lng Hc Hr)) (or_intror eq_refl))
    as (f & Ef & Hp & Hd & Hm).
  exists f. split; [exact Ef|]. split; [exact Hp|]. split; [exact Hd|].
  intros cov Ec. rewrite (demographics_coverage _ _ Ec), Hp, Hd, Hm.
  apply Qle_bool_imp_le. destruct (DataCollector.estimate_income_for_area name); vm_compute; reflexivity.
Qed.

(** A polygon whose outer ring is empty. *)
Lemma empty_ring_raises props rest fs :
  parse_features (mkFeature (Some props) (Some (mkGeometry (Some "Polygon") (Some ([] :: rest)))) :: fs) =
    Raise ZeroDivisionError.
Proof. reflexivity. Qed.

(** A 2xx answer whose first feature is a polygon with an
    empty outer ring raises [ZeroDivisionError], which the [HTTPError]
    handler does not catch: nothing is cached, and the collector reads the
    population and density as missing ([None]), so the demographics
    coverage is at most 0.34. *)
Theorem empty_ring_reads_as_missing st now lat lng code props rest fs name concept :
  cache_lookup (radius_bbox lat lng 1) (cache st) = None -> is_success code = true ->
  wfs_get now (radius_bbox lat lng 1) =
    Some (mkWfsResponse code (JsonObject (Some
      (mkFeature (Some props) (Some (mkGeometry (Some "Polygon") (Some ([] :: rest)))) :: fs)))) ->
  get_population_grid wfs_get st now (radius_bbox lat lng 1) = Raise ZeroDivisionError /\
  exists f, DataCollector.collect_area_data (population_service wfs_get distance st now)
              get_competitors get_transit_stops get_walkability_pois name (Some lat) (Some lng) concept = Ok f /\
    population_1km f = PyNone /\ population_density f = PyNone /\
    forall cov, TrustMetrics.calculate_coverage f = Ok cov -> TrustMetrics.cov_demographics cov <= 34 # 100.
Proof.
  intros Hc Hs Hw.
  assert (Hg : get_population_grid wfs_get st now (radius_bbox lat lng 1) = Raise ZeroDivisionError)
    by (unfold get_population_grid, read_response; rewrite Hc, Hw; cbn [status_code body]; rewrite Hs; reflexivity).
  split; [exact Hg|].
  assert (Hs' : population_service wfs_get distance st now (Some lat) (Some lng) = Raise ZeroDivisionError)
    by (unfold population_service, get_population_in_area; now rewrite Hg).
  destruct (collect_population (population_service wfs_get distance st now) get_competitors get_transit_stops
              get_walkability_pois name (Some lat) (Some lng) concept DataCollector.empty_population
              (or_intror (ex_intro _ ZeroDivisionError (conj Hs' eq_refl))) (or_introl eq_refl))
    as (f & Ef & Hp & Hd & Hm).
  exists f. split; [exact Ef|]. split; [exact Hp|]. split; [exact Hd|].
  intros cov Ec. rewrite (demographics_coverage _ _ Ec), Hp, Hd, Hm.
  apply Qle_bool_imp_le. destruct (DataCollector.estimate_income_for_area name); vm_compute; reflexivity.
Qed.

End Collector.

(** ** The heat map *)

Lemma heatmap_points_bounds cells hs :
  heatmap_points cells = Ok hs ->
  Forall (fun h => 0 < hp_population h /\ 0 < hp_intensity h <= 50 /\
                   (hp_population h <= 5000 -> hp_intensity h == hp_population h / 100)) hs.
Proof.
  revert hs. induction cells as [|cell cells IH]; cbn [heatmap_points]; intros hs E.
  - injection E as <-. constructor.
  - destruct (num (population cell)) as [p|e]; cbn [bind] in E; [|discriminate E].
    unfold Qgtb in E. destruct (Qle_bool_spec p 0) as [Hp|Hp]; cbn [negb] in E; [exact (IH _ E)|].
    res_inv E. injection E as <-. constructor; [|exact (IH _ eq_refl)].
    cbn [hp_population hp_intensity]. unfold py_min, Qltb. pose proof (Qdiv_Zpos p 100) as Hd.
    destruct (Qle_bool_spec (p / 100) 50) as [H|H]; cbn [negb]; repeat split; try lra.
Qed.

Section Heatmap.
Variable wfs_get : Z -> BBox -> option WfsResponse.

(** Every point of a city's heat map is an inhabited cell, its
    intensity in (0, 50], and equal to population / 100 up to 5000
    residents. *)
Theorem heatmap_bounds st now city coords radius_km st' hs :
  get_heatmap_data_for_city wfs_get st now city coords radius_km = Ok (st', hs) ->
  Forall (fun h => 0 < hp_population h /\ 0 < hp_intensity h <= 50 /\
                   (hp_population h <= 5000 -> hp_intensity h == hp_population h / 100)) hs.
Proof.
  unfold get_heatmap_data_for_city. intros E. res_inv E. injection E as _ <-.
  exact (heatmap_points_bounds _ _ E1).
Qed.

End Heatmap.

(** ** The cells and the population of an area *)

(** C14: the centre of a cell is the mean of the positions of
    its outer ring, and a GeoJSON ring repeats its first position at the
    end: for a square of side [s] the centre lands [2s/5] from the first
    corner instead of [s/2], a tenth of the side towards that corner. *)
Theorem closed_square_center_off props x y s rest :
  exists c, parse_feature (mkFeature (Some props) (Some (mkGeometry (Some "Polygon")
              (Some ([(x, y); (x + s, y); (x + s, y + s); (x, y + s); (x, y)] :: rest))))) = Ok (Some c) /\
    longitude c == x + (2 # 5) * s /\ latitude c == y + (2 # 5) * s.
Proof.
  eexists. split; [reflexivity|]. cbn [longitude latitude]. unfold qsum. cbn [map fst snd fold_left].
  cbn [Datatypes.length]. change (inject_Z (Z.of_nat 5)) with (Zpos 5 # 1). rewrite !Qdiv_Zpos. split; lra.
Qed.

Lemma py_sums_consistent cells ap a0 a1 a2 :
  Forall cell_consistent cells -> 0 <= a0 -> 0 <= a1 -> 0 <= a2 -> a0 + a1 + a2 <= ap ->
  exists sp s0 s1 s2, py_sum_from ap (map population cells) = Ok sp /\
    py_sum_from a0 (map age_0_14 cells) = Ok s0 /\ py_sum_from a1 (map age_15_64 cells) = Ok s1 /\
    py_sum_from a2 (map age_65_plus cells) = Ok s2 /\
    0 <= s0 /\ 0 <= s1 /\ 0 <= s2 /\ s0 + s1 + s2 <= sp.
Proof.
  intros Hc. revert ap a0 a1 a2. induction Hc as [|c cells Hc _ IH]; intros ap a0 a1 a2 H0 H1 H2 Hs.
  - exists ap, a0, a1, a2. repeat split; assumption.
  - destruct Hc as (p & b0 & b1 & b2 & Ep & E0 & E1 & E2 & Hb0 & Hb1 & Hb2 & Hb).
    cbn [map py_sum_from]. rewrite Ep, E0, E1, E2. cbn [num bind]. apply IH; lra.
Qed.

Lemma pct_range a t : 0 <= a <= t -> 0 <= pct a t <= 100.
Proof.
  intros [Ha Hat]. unfold pct, Qgtb. destruct (Qle_bool_spec t 0) as [Ht|Ht]; cbn [negb]; [lra|].
  pose proof (Qdiv_nonneg a t Ha Ht). pose proof (Qdiv_le_one a t Ht Hat). lra.
Qed.

Lemma round1_percent x : 0 <= x <= 100 -> 0 <= py_round x 1 <= 100.
Proof.
  intros H. destruct (py_round_range 0 100 x 1 H) as [H1 H2].
  assert (E0 : py_round 0 1 == 0) by (vm_compute; reflexivity).
  assert (E1 : py_round 100 1 == 100) by (vm_compute; reflexivity).
  rewrite E0 in H1. rewrite E1 in H2. split; assumption.
Qed.

Lemma py_int_nonneg x : 0 <= x -> (0 <= py_int x)%Z.
Proof. destruct x as [n d]. unfold py_int, Qle. cbn [Qnum Qden]. intros H. apply Z.quot_pos; lia. Qed.

Lemma Forall_filter_of {A} (P : A -> Prop) f l : Forall P l -> Forall P (filter f l).
Proof. rewrite !Forall_forall. intros H x Hx. apply filter_In in Hx. exact (H x (proj1 Hx)). Qed.

#[export] Hint Resolve Forall_filter_of round1_percent pct_range py_int_nonneg : spotlight.

Section Area.
Variable wfs_get : Z -> BBox -> option WfsResponse.
Variable distance : Q -> Q -> Q -> Q -> Q.

(** When the grid of the box holds consistent cells (numeric
    counts, age groups non-negative and within the population), the
    population of an area is computed without error, its total and
    density are non-negative and each age share is a percentage. *)
Theorem population_in_area_bounds st now lat lng r st1 cells :
  get_population_grid wfs_get st now (radius_bbox lat lng r) = Ok (st1, cells) ->
  Forall cell_consistent cells ->
  exists a, get_population_in_area wfs_get distance st now lat lng r = Ok (st1, a) /\
    (0 <= ap_total_population a)%Z /\ (0 <= ap_population_density a)%Z /\
    0 <= age_0_14_percent (ap_demographics a) <= 100 /\
    0 <= age_15_64_percent (ap_demographics a) <= 100 /\
    0 <= age_65_plus_percent (ap_demographics a) <= 100.
Proof.
  intros Eg Hc. unfold get_population_in_area. rewrite Eg. cbn [bind snd fst].
  destruct (py_sums_consistent (filter (fun cell => Qleb (distance lat lng (latitude cell) (longitude cell)) r) cells)
              0 0 0 0 (Forall_filter_of _ _ _ Hc)) as (sp & s0 & s1 & s2 & Ep & E0 & E1 & E2 & H0 & H1 & H2 & Hs);
    try lra.
  unfold py_sum. rewrite Ep, E0, E1, E2. cbn [bind]. eexists. split; [reflexivity|].
  cbn [ap_total_population ap_population_density ap_demographics age_0_14_percent age_15_64_percent
       age_65_plus_percent].
  split; [apply py_int_nonneg; lra|]. split.
  - apply py_int_nonneg. unfold Qgtb. destruct (Qle_bool_spec ((314159 # 100000) * (r * r)) 0) as [Ha|Ha];
      cbn [negb]; [lra | apply Qdiv_nonneg; lra].
  - split; [|split]; apply round1_percent, pct_range; lra.
Qed.

End Area.

(** ** Witnesses *)

Lemma grid_answer_contract_witness :
  reachable sample_wfs 0 init /\ (0 <= 5)%Z /\
  get_population_grid sample_wfs init 5 sample_bbox = Ok (mkGridState [(sample_bbox, sample_cells)], sample_cells) /\
  ((exists b' t', bbox_eq sample_bbox b' /\ (t' <= 5)%Z /\ read_response (sample_wfs t' b') = Some (Ok sample_cells)) \/
   (read_response (sample_wfs 5 sample_bbox) = None /\ sample_cells = [] /\
    mkGridState [(sample_bbox, sample_cells)] = init)).
Proof.
  assert (H1 : reachable sample_wfs 0 init) by constructor.
  assert (H2 : (0 <= 5)%Z) by lia.
  assert (H3 : get_population_grid sample_wfs init 5 sample_bbox =
               Ok (mkGridState [(sample_bbox, sample_cells)], sample_cells)) by (vm_compute; reflexivity).
  pose proof (grid_answer_contract sample_wfs 0 init 5 sample_bbox _ _ H1 H2 H3) as T.
  split; [exact H1|]. split; [exact H2|]. split; [exact H3|]. exact T.
Defined.

Lemma grid_cache_never_refreshed_witness :
  cache_lookup sample_bbox (cache (mkGridState [(sample_bbox, sample_cells)])) = Some sample_cells /\
  bbox_eq sample_bbox (radius_bbox (12034 # 200) (4986 # 200) (2 # 2)) /\
  get_population_grid down_wfs
    (run_calls down_wfs (mkGridState [(sample_bbox, sample_cells)]) [(7%Z, radius_bbox (6020 # 100) (2490 # 100) 1)]) 9
    (radius_bbox (12034 # 200) (4986 # 200) (2 # 2)) =
  Ok (run_calls down_wfs (mkGridState [(sample_bbox, sample_cells)]) [(7%Z, radius_bbox (6020 # 100) (2490 # 100) 1)],
      sample_cells).
Proof.
  assert (H1 : cache_lookup sample_bbox (cache (mkGridState [(sample_bbox, sample_cells)])) = Some sample_cells)
    by (vm_compute; reflexivity).
  assert (H2 : bbox_eq sample_bbox (radius_bbox (12034 # 200) (4986 # 200) (2 # 2))) by (vm_compute; reflexivity).
  pose proof (grid_cache_never_refreshed down_wfs _ [(7%Z, radius_bbox (6020 # 100) (2490 # 100) 1)] _ _ _ 9 H1 H2) as T.
  split; [exact H1|]. split; [exact H2|]. exact T.
Defined.

Lemma grid_outage_counts_as_measured_witness :
  cache_lookup (radius_bbox (6017 # 100) (2493 # 100) 1) (cache init) = None /\
  read_response (down_wfs 0 (radius_bbox (6017 # 100) (2493 # 100) 1)) = None /\
  exists f, DataCollector.collect_area_data (population_service down_wfs sample_distance init 0)
              (fun _ _ _ => Ok []) (fun _ _ => Ok DataCollector.empty_transit) (fun _ _ => Ok 0)
              "Kamppi" (Some (6017 # 100)) (Some (2493 # 100)) "QSR" = Ok f /\
    population_1km f = PyNum 0 /\ population_density f = PyNum 0 /\
    forall cov, TrustMetrics.calculate_coverage f = Ok cov -> 67 # 100 <= TrustMetrics.cov_demographics cov.
Proof.
  assert (H1 : cache_lookup (radius_bbox (6017 # 100) (2493 # 100) 1) (cache init) = None) by reflexivity.
  assert (H2 : read_response (down_wfs 0 (radius_bbox (6017 # 100) (2493 # 100) 1)) = None) by reflexivity.
  pose proof (grid_outage_counts_as_measured down_wfs sample_distance (fun _ _ _ => Ok [])
                (fun _ _ => Ok DataCollector.empty_transit) (fun _ _ => Ok 0) init 0 _ _ "Kamppi" "QSR" H1 H2) as T.
  split; [exact H1|]. split; [exact H2|]. exact T.
Defined.

Lemma empty_ring_reads_as_missing_witness :
  cache_lookup (radius_bbox (6017 # 100) (2493 # 100) 1) (cache init) = None /\ is_success 200 = true /\
  ring_wfs 0 (radius_bbox (6017 # 100) (2493 # 100) 1) =
    Some (mkWfsResponse 200 (JsonObject (Some
      (mkFeature (Some sample_props) (Some (mkGeometry (Some "Polygon") (Some ([] :: [])))) :: [])))) /\
  get_population_grid ring_wfs init 0 (radius_bbox (6017 # 100) (2493 # 100) 1) = Raise ZeroDivisionError /\
  exists f, DataCollector.collect_area_data (population_service ring_wfs sample_distance init 0)
              (fun _ _ _ => Ok []) (fun _ _ => Ok DataCollector.empty_transit) (fun _ _ => Ok 0)
              "Kamppi" (Some (6017 # 100)) (Some (2493 # 100)) "QSR" = Ok f /\
    population_1km f = PyNone /\ population_density f = PyNone /\
    forall cov, TrustMetrics.calculate_coverage f = Ok cov -> TrustMetrics.cov_demographics cov <= 34 # 100.
Proof.
  assert (H1 : cache_lookup (radius_bbox (6017 # 100) (2493 # 100) 1) (cache init) = None) by reflexivity.
  assert (H2 : is_success 200 = true) by reflexivity.
  assert (H3 : ring_wfs 0 (radius_bbox (6017 # 100) (2493 # 100) 1) =
    Some (mkWfsResponse 200 (JsonObject (Some
      (mkFeature (Some sample_props) (Some (mkGeometry (Some "Polygon") (Some ([] :: [])))) :: []))))) by reflexivity.
  pose proof (empty_ring_reads_as_missing ring_wfs sample_distance (fun _ _ _ => Ok [])
                (fun _ _ => Ok DataCollector.empty_transit) (fun _ _ => Ok 0) init 0 _ _ 200 sample_props [] []
                "Kamppi" "QSR" H1 H2 H3) as T.
  split; [exact H1|]. split; [exact H2|]. split; [exact H3|]. exact T.
Defined.

Lemma heatmap_bounds_witness :
  get_heatmap_data_for_city sample_wfs init 0 "Helsinki" helsinki_coords 10 =
    Ok (mkGridState [(radius_bbox (fst helsinki_coords) (snd helsinki_coords) 10, sample_cells)], sample_heat) /\
  Forall (fun h => 0 < hp_population h /\ 0 < hp_intensity h <= 50 /\
                   (hp_population h <= 5000 -> hp_intensity h == hp_population h / 100)) sample_heat.
Proof.
  assert (H1 : get_heatmap_data_for_city sample_wfs init 0 "Helsinki" helsinki_coords 10 =
    Ok (mkGridState [(radius_bbox (fst helsinki_coords) (snd helsinki_coords) 10, sample_cells)], sample_heat))
    by (vm_compute; reflexivity).
  pose proof (heatmap_bounds sample_wfs init 0 "Helsinki" helsinki_coords 10 _ _ H1) as T.
  split; [exact H1|]. exact T.
Defined.

Lemma population_in_area_bounds_witness :
  get_population_grid sample_wfs init 0 (radius_bbox (6017 # 100) (2493 # 100) 1) =
    Ok (mkGridState [(radius_bbox (6017 # 100) (2493 # 100) 1, sample_cells)], sample_cells) /\
  Forall cell_consistent sample_cells /\
  exists a, get_population_in_area sample_wfs sample_distance init 0 (6017 # 100) (2493 # 100) 1 =
              Ok (mkGridState [(radius_bbox (6017 # 100) (2493 # 100) 1, sample_cells)], a) /\
    (0 <= ap_total_population a)%Z /\ (0 <= ap_population_density a)%Z /\
    0 <= age_0_14_percent (ap_demographics a) <= 100 /\
    0 <= age_15_64_percent (ap_demographics a) <= 100 /\
    0 <= age_65_plus_percent (ap_demographics a) <= 100.
Proof.
  assert (H1 : get_population_grid sample_wfs init 0 (radius_bbox (6017 # 100) (2493 # 100) 1) =
    Ok (mkGridState [(radius_bbox (6017 # 100) (2493 # 100) 1, sample_cells)], sample_cells))
    by (vm_compute; reflexivity).
  assert (H2 : Forall cell_consistent sample_cells)
    by (constructor; [exists 1850, 245, 1280, 325; vm_compute; repeat split; discriminate | constructor]).
  pose proof (population_in_area_bounds sample_wfs sample_distance init 0 _ _ _ _ _ H1 H2) as T.
  split; [exact H1|]. split; [exact H2|]. exact T.
Defined.

End PopulationGrid.
