(* ===== verification/OSM.v ===== *)
(** * OSM: the Overpass API service (src/backend/services/osm.py)

    [OSMService] has no state: each of its three queries builds an
    Overpass QL text, posts it, and reads the ["elements"] of the JSON
    answer.  An [httpx.HTTPError] (a transport error, or
    [raise_for_status] on a status other than 2xx) is caught and answers
    the empty result; a body that is not JSON ([json.JSONDecodeError], a
    [ValueError] whose message is not modelled) and a [KeyError] or
    [TypeError] of the loop over the elements propagate.

    The server is the Section variable [overpass_post], from the query
    text to the answer ([None] is a transport error); [float_str] is
    [str] of a float in the query's f-strings and [haversine_m] the
    formula of [_haversine_distance] on floats (both are outside exact
    arithmetic).  The coordinates may be [None]: [str(None)] is ["None"]
    in the query, and [radians(None)] raises [TypeError].

    [sorted(..., key=lambda x: x["distance_m"])] is the stable ascending
    sort, [Sorting.sort_by] on the negated distance.  The services as
    [DataCollector] calls them ([radius_m] 1000, 500 and 500) are
    [competitor_service], [transit_service] and [walkability_service]. *)

From S2P Require Import Prelude Scoring Sorting PyStr DataCollector PopulationGrid.
From Stdlib Require Import Sorted Permutation Ascii.
Local Open Scope string_scope.

Module OSM.

(** An element of the answer: a missing key is [None]. *)
Record Element := mkElement {
  el_type : option string;
  el_tags : option (list (string * string));
  el_lat : option Q;
  el_lon : option Q
}.

Inductive Body := NotJson | JsonObject (elements : option (list Element)).

Record OverpassResponse := mkOverpassResponse { status_code : Z; body : Body }.

(** A competitor dictionary of [get_competitors]. *)
Record Competitor := mkCompetitor {
  c_name : string; c_amenity : string; c_cuisine : string;
  c_latitude : Q; c_longitude : Q; c_distance_m : Q
}.

(** A [stop_info] dictionary of [get_transit_stops]. *)
Record Stop := mkStop { s_name : string; s_latitude : Q; s_longitude : Q; s_distance_m : Q }.

(** The dictionary [get_transit_stops] returns. *)
Record Transit := mkTransit {
  t_metro_stations : list Stop;
  t_tram_stops : list Stop;
  t_nearest_metro : option Q;
  t_nearest_tram : option Q
}.

Definition empty_transit : Transit := mkTransit [] [] None None.

(** [_get_amenity_filters]: [concept_map.get(concept, default)]. *)
Definition concept_map : list (string * list string) :=
  [("QSR", ["fast_food"; "restaurant"]); ("FastCasual", ["restaurant"; "cafe"]);
   ("Coffee", ["cafe"]); ("CasualDining", ["restaurant"]); ("FineDining", ["restaurant"])].

Definition get_amenity_filters (concept : string) : list string :=
  match DataCollector.dict_get concept concept_map with
  | Some l => l
  | None => ["restaurant"; "fast_food"; "cafe"]
  end.

(** [element.get("tags", {}).get(k, default)] *)
Definition tag (el : Element) (k : string) : option string :=
  match el_tags el with Some tags => DataCollector.dict_get k tags | None => None end.

Definition tag_or (el : Element) (k default : string) : string :=
  match tag el k with Some v => v | None => default end.

(** The ascending sort by [distance_m]. *)
Definition sort_competitors (l : list Competitor) : list Competitor := sort_by (fun c => - c_distance_m c) l.
Definition sort_stops (l : list Stop) : list Stop := sort_by (fun s => - s_distance_m s) l.

(** The body of each [try] up to [response.json()]: [None] when an
    [httpx.HTTPError] is caught, otherwise [data.get("elements", [])] or
    the decoding error. *)
Definition read_elements (r : option OverpassResponse) : option (res (list Element)) :=
  match r with
  | None => None
  | Some resp =>
      if PopulationGrid.is_success (status_code resp) then
        match body resp with
        | NotJson => Some (Raise (ValueError "JSONDecodeError"))
        | JsonObject els => Some (Ok (match els with Some l => l | None => [] end))
        end
      else None
  end.

Section WithOverpass.
Variable overpass_post : string -> option OverpassResponse.
Variable float_str : Q -> string.
Variable haversine_m : Q -> Q -> Q -> Q -> Q.

(** [f"{x}"] of a coordinate. *)
Definition fstr (x : option Q) : string := match x with Some q => float_str q | None => "None" end.

Definition nl : string := String (ascii_of_nat 10) "".
Definition dq : string := String (ascii_of_nat 34) "".
Definition ind8 : string := "        ".
Definition ind12 : string := "            ".

(** [(around:{radius_m},{lat},{lng});] *)
Definition around (lat lng : option Q) (radius_m : Z) : string :=
  "(around:" ++ PyStr.py_str_Z radius_m ++ "," ++ fstr lat ++ "," ++ fstr lng ++ ");".

(** [node["k"="v"]] and [node["k"]] *)
Definition node_kv (k v : string) : string := "node[" ++ dq ++ k ++ dq ++ "=" ++ dq ++ v ++ dq ++ "]".
Definition node_k (k : string) : string := "node[" ++ dq ++ k ++ dq ++ "]".

Definition build_node_queries (lat lng : option Q) (radius_m : Z) (amenities : list string) : string :=
  String.concat (nl ++ "  ") (map (fun amenity => node_kv "amenity" amenity ++ around lat lng radius_m) amenities).

Definition competitors_query (lat lng : option Q) (radius_m : Z) (amenity_filters : list string) : string :=
  nl ++ ind8 ++ "[out:json][timeout:25];" ++ nl ++ ind8 ++ "(" ++ nl ++
  ind12 ++ build_node_queries lat lng radius_m amenity_filters ++ nl ++
  ind8 ++ ");" ++ nl ++ ind8 ++ "out body;" ++ nl ++ ind8 ++ ">;" ++ nl ++ ind8 ++ "out skel qt;" ++ nl ++ ind8.

Definition transit_query (lat lng : option Q) (radius_m : Z) : string :=
  nl ++ ind8 ++ "[out:json][timeout:25];" ++ nl ++ ind8 ++ "(" ++ nl ++
  ind12 ++ node_kv "railway" "subway_entrance" ++ around lat lng radius_m ++ nl ++
  ind12 ++ node_kv "railway" "tram_stop" ++ around lat lng radius_m ++ nl ++
  ind12 ++ node_kv "public_transport" "stop_position" ++ around lat lng radius_m ++ nl ++
  ind8 ++ ");" ++ nl ++ ind8 ++ "out body;" ++ nl ++ ind8.

Definition walkability_query (lat lng : option Q) (radius_m : Z) : string :=
  nl ++ ind8 ++ "[out:json][timeout:25];" ++ nl ++ ind8 ++ "(" ++ nl ++
  ind12 ++ node_k "amenity" ++ around lat lng radius_m ++ nl ++
  ind12 ++ node_k "shop" ++ around lat lng radius_m ++ nl ++
  ind8 ++ ");" ++ nl ++ ind8 ++ "out count;" ++ nl ++ ind8.

(** [_haversine_distance(lat, lng, lat2, lng2)]: [radians] of a [None]
    coordinate raises. *)
Definition haversine_py (lat1 lng1 : option Q) (lat2 lng2 : Q) : res Q :=
  match lat1, lng1 with
  | Some a, Some b => Ok (haversine_m a b lat2 lng2)
  | _, _ => Raise TypeError
  end.

(** [element["type"] == "node"] *)
Definition is_node (el : Element) : res bool :=
  t <- PopulationGrid.dict_item "type" (el_type el) ;; Ok (String.eqb t "node").

(** The loop of [get_competitors]. *)
Fixpoint parse_competitors (lat lng : option Q) (els : list Element) : res (list Competitor) :=
  match els with
  | [] => Ok []
  | el :: rest =>
      node <- is_node el ;;
      if node then
        la <- PopulationGrid.dict_item "lat" (el_lat el) ;;
        lo <- PopulationGrid.dict_item "lon" (el_lon el) ;;
        d <- haversine_py lat lng la lo ;;
        cs <- parse_competitors lat lng rest ;;
        Ok (mkCompetitor (tag_or el "name" "Unknown") (tag_or el "amenity" "") (tag_or el "cuisine" "")
              la lo d :: cs)
      else parse_competitors lat lng rest
  end.

Definition get_competitors (lat lng : option Q) (radius_m : Z) (concept : string) : res (list Competitor) :=
  let amenity_filters := get_amenity_filters concept in
  let query := competitors_query lat lng radius_m amenity_filters in
  match read_elements (overpass_post query) with
  | None => Ok []
  | Some r =>
      elements <- r ;;
      competitors <- parse_competitors lat lng elements ;;
      Ok (sort_competitors competitors)
  end.

(** The loop of [get_transit_stops]: the metro entrances and the tram
    stops, in the order of the answer. *)
Fixpoint parse_stops (lat lng : option Q) (els : list Element) : res (list Stop * list Stop) :=
  match els with
  | [] => Ok ([], [])
  | el :: rest =>
      node <- is_node el ;;
      if node then
        la <- PopulationGrid.dict_item "lat" (el_lat el) ;;
        lo <- PopulationGrid.dict_item "lon" (el_lon el) ;;
        distance <- haversine_py lat lng la lo ;;
        let stop_info := mkStop (tag_or el "name" "Unknown") la lo distance in
        r <- parse_stops lat lng rest ;;
        match tag el "railway" with
        | Some "subway_entrance" => Ok (stop_info :: fst r, snd r)
        | Some "tram_stop" => Ok (fst r, stop_info :: snd r)
        | _ => Ok r
        end
      else parse_stops lat lng rest
  end.

(** [metro_stations[0]["distance_m"] if metro_stations else None]: the
    first of the list in the order of the answer. *)
Definition first_distance (l : list Stop) : option Q :=
  match l with s :: _ => Some (s_distance_m s) | [] => None end.

Definition get_transit_stops (lat lng : option Q) (radius_m : Z) : res Transit :=
  match read_elements (overpass_post (transit_query lat lng radius_m)) with
  | None => Ok empty_transit
  | Some r =>
      elements <- r ;;
      stops <- parse_stops lat lng elements ;;
      let '(metro_stations, tram_stops) := stops in
      Ok (mkTransit (sort_stops metro_stations) (sort_stops tram_stops)
            (first_distance metro_stations) (first_distance tram_stops))
  end.

Definition get_walkability_pois (lat lng : option Q) (radius_m : Z) : res nat :=
  match read_elements (overpass_post (walkability_query lat lng radius_m)) with
  | None => Ok 0%nat
  | Some r => elements <- r ;; Ok (length elements)
  end.

(** The calls of data_collector.py, as the collector reads their answers. *)
Definition competitor_service (lat lng : option Q) (concept : string) : res (list DataCollector.Competitor) :=
  cs <- get_competitors lat lng 1000 concept ;;
  Ok (map (fun c => DataCollector.mkCompetitor (PyNum (c_distance_m c))) cs).

Definition opt_pyval (o : option Q) : pyval := match o with Some q => PyNum q | None => PyNone end.

Definition transit_service (lat lng : option Q) : res DataCollector.TransitData :=
  t <- get_transit_stops lat lng 500 ;;
  Ok (DataCollector.mkTransitData (opt_pyval (t_nearest_metro t)) (opt_pyval (t_nearest_tram t))).

Definition walkability_service (lat lng : option Q) : res Q :=
  n <- get_walkability_pois lat lng 500 ;; Ok (inject_Z (Z.of_nat n)).

End WithOverpass.

(** ** Sample answers of the server *)

Definition sample_float_str (_ : Q) : string := "60.17".
(** A distance that is the element's latitude, to fix the distances. *)
Definition sample_haversine (_ _ la _ : Q) : Q := la.

Definition node_el (tags : list (string * string)) (la lo : Q) : Element :=
  mkElement (Some "node") (Some tags) (Some la) (Some lo).

(** Two metro entrances, the farther one listed first, and a tram stop. *)
Definition transit_elements : list Element :=
  [node_el [("name", "Kamppi (B)"); ("railway", "subway_entrance")] 450 0;
   node_el [("name", "Kamppi (A)"); ("railway", "subway_entrance")] 150 0;
   node_el [("name", "Simonkatu"); ("railway", "tram_stop")] 120 0].

Definition competitor_elements : list Element :=
  [node_el [("name", "Hesburger"); ("amenity", "fast_food")] 300 0;
   node_el [("name", "Friends & Brgrs"); ("amenity", "restaurant"); ("cuisine", "burger")] 100 0;
   mkElement (Some "way") None None None].

(** The answer of [out count]: one element counting the matches. *)
Definition count_elements : list Element :=
  [mkElement (Some "count") (Some [("nodes", "412"); ("total", "412")]) None None].

Definition answer (els : list Element) (_ : string) : option OverpassResponse :=
  Some (mkOverpassResponse 200 (JsonObject (Some els))).

(** ** What the service answers *)

Lemma metro_bonus_antitone d1 d2 :
  d1 <= d2 -> ScoringEngine.metro_bonus (PyNum d2) <= ScoringEngine.metro_bonus (PyNum d1).
Proof. intros H. unfold ScoringEngine.metro_bonus. qsplit. Qed.

Lemma Forall_exists_cons {A B} (P : A -> B -> Prop) a l (cs : list B) :
  Forall (fun c => exists x, In x l /\ P x c) cs -> Forall (fun c => exists x, In x (a :: l) /\ P x c) cs.
Proof. apply Forall_impl. intros c (x & Hx & H). exists x. split; [right; exact Hx | exact H]. Qed.

Section Props.
Variable overpass_post : string -> option OverpassResponse.
Variable float_str : Q -> string.
Variable haversine_m : Q -> Q -> Q -> Q -> Q.

(** Each competitor comes from a node element of the answer, at the
    distance of its coordinates from the centre. *)
Lemma parse_competitors_nodes lat lng els cs :
  parse_competitors haversine_m lat lng els = Ok cs ->
  Forall (fun c => exists el, In el els /\ el_lat el = Some (c_latitude c) /\ el_lon el = Some (c_longitude c) /\
                      haversine_py haversine_m lat lng (c_latitude c) (c_longitude c) = Ok (c_distance_m c)) cs.
Proof.
  revert cs. induction els as [|el els IH]; cbn [parse_competitors]; intros cs E.
  - injection E as <-. constructor.
  - destruct (is_node el) as [[|]|e]; cbn [bind] in E; [| exact (Forall_exists_cons _ _ _ _ (IH _ E)) | discriminate E].
    destruct (el_lat el) as [la|] eqn:Ela; cbn [PopulationGrid.dict_item bind] in E; [|discriminate E].
    destruct (el_lon el) as [lo|] eqn:Elo; cbn [PopulationGrid.dict_item bind] in E; [|discriminate E].
    destruct (haversine_py haversine_m lat lng la lo) as [d|e] eqn:Eh; cbn [bind] in E; [|discriminate E].
    destruct (parse_competitors haversine_m lat lng els) as [cs'|e] eqn:Ep; cbn [bind] in E; [|discriminate E].
    injection E as <-. constructor; [|exact (Forall_exists_cons _ _ _ _ (IH _ eq_refl))].
    exists el. cbn [c_latitude c_longitude c_distance_m]. split; [left; reflexivity|]. split; [exact Ela|].
    split; [exact Elo | exact Eh].
Qed.

(** C37: [get_competitors] answers [[]] on an [HTTPError];
    otherwise one competitor per node element of the answer, at the
    distance of its coordinates, sorted by ascending distance, so that
    the first five (the ones analyze keeps) are no farther than any
    other. *)
Theorem competitors_sorted_by_distance lat lng r concept out :
  get_competitors overpass_post float_str haversine_m lat lng r concept = Ok out ->
  (read_elements (overpass_post (competitors_query float_str lat lng r (get_amenity_filters concept))) = None /\
   out = []) \/
  (exists els cs,
     read_elements (overpass_post (competitors_query float_str lat lng r (get_amenity_filters concept))) =
       Some (Ok els) /\
     parse_competitors haversine_m lat lng els = Ok cs /\ Permutation cs out /\
     Forall (fun c => exists el, In el els /\ el_lat el = Some (c_latitude c) /\ el_lon el = Some (c_longitude c) /\
                         haversine_py haversine_m lat lng (c_latitude c) (c_longitude c) = Ok (c_distance_m c)) out /\
     StronglySorted (fun a b => c_distance_m a <= c_distance_m b) out /\
     forall a b, In a (firstn 5 out) -> In b (skipn 5 out) -> c_distance_m a <= c_distance_m b).
Proof.
  unfold get_competitors. destruct (read_elements _) as [r0|] eqn:Er.
  - intros E. res_inv E. injection E as <-. right.
    destruct (sort_by_ascending c_distance_m a0) as [Hp Hs].
    exists a, a0. split; [reflexivity|]. split; [exact E1|]. split; [exact Hp|].
    split; [exact (Permutation_Forall Hp (parse_competitors_nodes _ _ _ _ E1))|]. split; [exact Hs|].
    intros c d Hc Hd. rewrite <- (firstn_skipn 5 (sort_by _ a0)) in Hs.
    exact (StronglySorted_app_rel _ _ _ _ _ Hs Hc Hd).
  - intros [= <-]. left. split; reflexivity.
Qed.

(** C10: when the answer parses, the metro entrances come back
    sorted by ascending distance, but [nearest_metro_distance_m] is the
    distance of the entrance the server listed first: it is never below
    the nearest entrance's distance, and its metro bonus in the scorer
    never above the nearest's. *)
Theorem nearest_metro_first_listed lat lng r els ms ts :
  read_elements (overpass_post (transit_query float_str lat lng r)) = Some (Ok els) ->
  parse_stops haversine_m lat lng els = Ok (ms, ts) ->
  exists t, get_transit_stops overpass_post float_str haversine_m lat lng r = Ok t /\
    t_nearest_metro t = first_distance ms /\
    Permutation ms (t_metro_stations t) /\
    StronglySorted (fun a b => s_distance_m a <= s_distance_m b) (t_metro_stations t) /\
    forall m d, hd_error (t_metro_stations t) = Some m -> t_nearest_metro t = Some d ->
      s_distance_m m <= d /\
      ScoringEngine.metro_bonus (PyNum d) <= ScoringEngine.metro_bonus (PyNum (s_distance_m m)).
Proof.
  intros Hr Hp. unfold get_transit_stops. rewrite Hr. cbn [bind]. rewrite Hp. cbn [bind].
  destruct (sort_by_ascending s_distance_m ms) as [Hperm Hs].
  eexists. split; [reflexivity|]. cbn [t_nearest_metro t_metro_stations].
  split; [reflexivity|]. split; [exact Hperm|]. split; [exact Hs|].
  intros m d Hm Hd. destruct ms as [|m0 ms]; [discriminate Hd|]. injection Hd as <-.
  assert (Hle : s_distance_m m <= s_distance_m m0)
    by (apply (StronglySorted_head _ _ _ _ (fun a => Qle_refl (s_distance_m a)) Hs Hm), (Permutation_in _ Hperm); left; reflexivity).
  split; [exact Hle | exact (metro_bonus_antitone _ _ Hle)].
Qed.

(** C11: [out count] makes Overpass answer one element that counts
    the matches, and the code counts the elements: whenever the server
    answers so (or fails with an [HTTPError]), the point-of-interest count
    is at most 1 and the scorer's walkability score is 20, whatever the
    number of shops and amenities around. *)
Theorem walkability_score_constant lat lng r :
  read_elements (overpass_post (walkability_query float_str lat lng r)) = None \/
  (exists e, read_elements (overpass_post (walkability_query float_str lat lng r)) = Some (Ok [e])) ->
  exists n, get_walkability_pois overpass_post float_str lat lng r = Ok n /\ (n <= 1)%nat /\
    ScoringEngine.calculate_walkability_score (PyNum (inject_Z (Z.of_nat n))) = Ok 20.
Proof.
  unfold get_walkability_pois. intros [H|[e H]]; rewrite H; [exists 0%nat | exists 1%nat];
    (split; [reflexivity | split; [lia | reflexivity]]).
Qed.

End Props.

(** ** Witnesses *)

Lemma nearest_metro_first_listed_witness :
  read_elements (answer transit_elements (transit_query sample_float_str (Some (6017 # 100)) (Some (2493 # 100)) 500))
    = Some (Ok transit_elements) /\
  parse_stops sample_haversine (Some (6017 # 100)) (Some (2493 # 100)) transit_elements =
    Ok ([mkStop "Kamppi (B)" 450 0 450; mkStop "Kamppi (A)" 150 0 150], [mkStop "Simonkatu" 120 0 120]) /\
  get_transit_stops (answer transit_elements) sample_float_str sample_haversine (Some (6017 # 100)) (Some (2493 # 100)) 500
    = Ok (mkTransit [mkStop "Kamppi (A)" 150 0 150; mkStop "Kamppi (B)" 450 0 450] [mkStop "Simonkatu" 120 0 120]
            (Some 450) (Some 120)) /\
  ScoringEngine.metro_bonus (PyNum 450) < ScoringEngine.metro_bonus (PyNum 150) /\
  exists t, get_transit_stops (answer transit_elements) sample_float_str sample_haversine
              (Some (6017 # 100)) (Some (2493 # 100)) 500 = Ok t /\
    t_nearest_metro t = first_distance [mkStop "Kamppi (B)" 450 0 450; mkStop "Kamppi (A)" 150 0 150] /\
    Permutation [mkStop "Kamppi (B)" 450 0 450; mkStop "Kamppi (A)" 150 0 150] (t_metro_stations t) /\
    StronglySorted (fun a b => s_distance_m a <= s_distance_m b) (t_metro_stations t) /\
    forall m d, hd_error (t_metro_stations t) = Some m -> t_nearest_metro t = Some d ->
      s_distance_m m <= d /\
      ScoringEngine.metro_bonus (PyNum d) <= ScoringEngine.metro_bonus (PyNum (s_distance_m m)).
Proof.
  assert (H1 : read_elements (answer transit_elements
                 (transit_query sample_float_str (Some (6017 # 100)) (Some (2493 # 100)) 500)) = Some (Ok transit_elements))
    by reflexivity.
  assert (H2 : parse_stops sample_haversine (Some (6017 # 100)) (Some (2493 # 100)) transit_elements =
    Ok ([mkStop "Kamppi (B)" 450 0 450; mkStop "Kamppi (A)" 150 0 150], [mkStop "Simonkatu" 120 0 120]))
    by (vm_compute; reflexivity).
  pose proof (nearest_metro_first_listed (answer transit_elements) sample_float_str sample_haversine
                _ _ 500 _ _ _ H1 H2) as T.
  split; [exact H1|]. split; [exact H2|]. split; [vm_compute; reflexivity|].
  split; [vm_compute; reflexivity|]. exact T.
Defined.

Lemma competitors_sorted_by_distance_witness :
  get_competitors (answer competitor_elements) sample_float_str sample_haversine
    (Some (6017 # 100)) (Some (2493 # 100)) 1000 "QSR" =
    Ok [mkCompetitor "Friends & Brgrs" "restaurant" "burger" 100 0 100; mkCompetitor "Hesburger" "fast_food" "" 300 0 300] /\
  ((read_elements (answer competitor_elements (competitors_query sample_float_str (Some (6017 # 100)) (Some (2493 # 100))
      1000 (get_amenity_filters "QSR"))) = None /\
    [mkCompetitor "Friends & Brgrs" "restaurant" "burger" 100 0 100; mkCompetitor "Hesburger" "fast_food" "" 300 0 300] = []) \/
   (exists els cs,
     read_elements (answer competitor_elements (competitors_query sample_float_str (Some (6017 # 100)) (Some (2493 # 100))
       1000 (get_amenity_filters "QSR"))) = Some (Ok els) /\
     parse_competitors sample_haversine (Some (6017 # 100)) (Some (2493 # 100)) els = Ok cs /\
     Permutation cs [mkCompetitor "Friends & Brgrs" "restaurant" "burger" 100 0 100; mkCompetitor "Hesburger" "fast_food" "" 300 0 300] /\
     Forall (fun c => exists el, In el els /\ el_lat el = Some (c_latitude c) /\ el_lon el = Some (c_longitude c) /\
                         haversine_py sample_haversine (Some (6017 # 100)) (Some (2493 # 100)) (c_latitude c) (c_longitude c)
                         = Ok (c_distance_m c))
       [mkCompetitor "Friends & Brgrs" "restaurant" "burger" 100 0 100; mkCompetitor "Hesburger" "fast_food" "" 300 0 300] /\
     StronglySorted (fun a b => c_distance_m a <= c_distance_m b)
       [mkCompetitor "Friends & Brgrs" "restaurant" "burger" 100 0 100; mkCompetitor "Hesburger" "fast_food" "" 300 0 300] /\
     forall a b, In a (firstn 5 [mkCompetitor "Friends & Brgrs" "restaurant" "burger" 100 0 100;
                                 mkCompetitor "Hesburger" "fast_food" "" 300 0 300]) ->
                 In b (skipn 5 [mkCompetitor "Friends & Brgrs" "restaurant" "burger" 100 0 100;
                                mkCompetitor "Hesburger" "fast_food" "" 300 0 300]) ->
                 c_distance_m a <= c_distance_m b)).
Proof.
  assert (H1 : get_competitors (answer competitor_elements) sample_float_str sample_haversine
    (Some (6017 # 100)) (Some (2493 # 100)) 1000 "QSR" =
    Ok [mkCompetitor "Friends & Brgrs" "restaurant" "burger" 100 0 100; mkCompetitor "Hesburger" "fast_food" "" 300 0 300])
    by (vm_compute; reflexivity).
  pose proof (competitors_sorted_by_distance (answer competitor_elements) sample_float_str sample_haversine
                _ _ 1000 "QSR" _ H1) as T.
  split; [exact H1|]. exact T.
Defined.

Lemma walkability_score_constant_witness :
  (read_elements (answer count_elements (walkability_query sample_float_str (Some (6017 # 100)) (Some (2493 # 100)) 500))
     = None \/
   exists e, read_elements (answer count_elements
               (walkability_query sample_float_str (Some (6017 # 100)) (Some (2493 # 100)) 500)) = Some (Ok [e])) /\
  exists n, get_walkability_pois (answer count_elements) sample_float_str (Some (6017 # 100)) (Some (2493 # 100)) 500
              = Ok n /\ (n <= 1)%nat /\
    ScoringEngine.calculate_walkability_score (PyNum (inject_Z (Z.of_nat n))) = Ok 20.
Proof.
  assert (H1 : read_elements (answer count_elements
                 (walkability_query sample_float_str (Some (6017 # 100)) (Some (2493 # 100)) 500)) = None \/
               exists e, read_elements (answer count_elements
                 (walkability_query sample_float_str (Some (6017 # 100)) (Some (2493 # 100)) 500)) = Some (Ok [e]))
    by (right; eexists; reflexivity).
  pose proof (walkability_score_constant (answer count_elements) sample_float_str _ _ 500 H1) as T.
  split; [exact H1|]. exact T.
Defined.

End OSM.
