(* ===== verification/AreaDetail.v ===== *)
(** * AreaDetail: GET /api/area/{area_id} (src/backend/main.py)

    [get_area_detail] parses the area id ([postal_<code>] or
    [helsinki_<key>]), collects the area's features, scores them with the
    trust metrics, explains the score with [generate_why_bullets]
    (trust_metrics.py) and [_generate_insights] (main.py), and answers an
    [AreaDetailResponse].  The page is what a client opens from a tile of
    the discovery heat map, so its ids are the ids [Discovery] hands out.

    The texts of the bullets and insights are f-strings; each is modelled
    by a constructor whose arguments are the values the f-string formats.
    Of the response, the three dictionaries [demographics],
    [competition_analysis] and [traffic_access] (projections of the
    features) and the constant empty lists are left out.

    The last Section instantiates the collector of [Discovery] and of
    this file with [DataCollector.collect_area_data], the collector
    main.py passes, over arbitrary services. *)

From S2P Require Import Prelude PyStr Sorting Concept Scoring Statistics TrustMetrics AddressGenerator Discovery DataCollector.
From Stdlib Require Import Sorted Permutation.
Local Open Scope string_scope.

Module AreaDetail.

(** ** Why bullets and insights *)

(** The bullets of [TrustMetrics.generate_why_bullets]. *)
Inductive WhyBullet :=
| HighPopulation (pop : Q)
| ModeratePopulation (pop : Q)
| LimitedPopulation (pop : Q)
| HighMedianIncome (income : Q)
| MedianIncome (income : Q)
| LowerMedianIncome (income : Q)
| ExcellentTransit (metro_m : Z)
| GoodTransit (tram_m : Z)
| LowCompetitionBullet (count : Q)
| ModerateCompetition (count : Q)
| HighCompetitionBullet (count : Q).

(** [v = features.get(k)] followed by [if v:]: the number when it is
    truthy. *)
Definition truthy_num (v : pyval) : option Q :=
  match get v with PyNum q => if Qeqb q 0 then None else Some q | _ => None end.

Definition generate_why_bullets (f : Features) : list WhyBullet :=
  let population :=
    match truthy_num (population_1km f) with
    | Some pop =>
        [if Qgtb pop 20000 then HighPopulation pop
         else if Qgtb pop 10000 then ModeratePopulation pop else LimitedPopulation pop]
    | None => []
    end in
  let income :=
    match truthy_num (median_income f) with
    | Some m =>
        [if Qgtb m 50000 then HighMedianIncome m
         else if Qgtb m 35000 then MedianIncome m else LowerMedianIncome m]
    | None => []
    end in
  let tram :=
    match truthy_num (nearest_tram_distance_m f) with
    | Some td => if Qltb td 200 then [GoodTransit (py_int td)] else []
    | None => []
    end in
  let transit :=
    match truthy_num (nearest_metro_distance_m f) with
    | Some md => if Qltb md 300 then [ExcellentTransit (py_int md)] else tram
    | None => tram
    end in
  let competition :=
    match get (competitors_count f) with
    | PyNum c =>
        [if Qltb c 5 then LowCompetitionBullet c
         else if Qltb c 15 then ModerateCompetition c else HighCompetitionBullet c]
    | _ => []
    end in
  firstn 5 (population ++ income ++ transit ++ competition).

(** The strengths and risks of [_generate_insights]. *)
Inductive Insight :=
| HighDensity (density : Z)
| LowDensity (density : Z)
| HighIncome (income : Z)
| LowerIncome (income : Z)
| ExcellentMetro (metro_m : Z)
| LimitedMetro (metro_m : Z)
| LowCompetition (count : Q)
| HighCompetition (count : Q)
| YoungDemographic (percent : Q).

(** [features[k]] read for formatting: [KeyError] on a missing key;
    [int(None)] and [format(None, '.1f')] raise [TypeError]. *)
Definition subscript (v : pyval) (k : string) : res Q :=
  match v with Absent => Raise (KeyError k) | PyNone => Raise TypeError | PyNum q => Ok q end.

(** [if features.get(k, 0) > hi: strengths.append(...int(features[k])...)
     elif features.get(k, 0) < lo: risks.append(...int(features[k])...)] *)
Definition threshold_insight (v : pyval) (k : string) (hi lo : Q) (mk_hi mk_lo : Z -> Insight)
    : res (list Insight * list Insight) :=
  x <- num (get_default v 0) ;;
  if Qgtb x hi then (y <- subscript v k ;; Ok ([mk_hi (py_int y)], []))
  else if Qltb x lo then (y <- subscript v k ;; Ok ([], [mk_lo (py_int y)]))
  else Ok ([], []).

(** The feature dictionary's key [age_18_24_percent] is not a field of
    [Features]: it is the argument [age_18_24_percent]. *)
Definition generate_insights (f : Features) (age_18_24_percent : pyval)
    : res (list Insight * list Insight) :=
  density <- threshold_insight (population_density f) "population_density" 10000 3000 HighDensity LowDensity ;;
  income <- threshold_insight (median_income f) "median_income" 55000 35000 HighIncome LowerIncome ;;
  let metro :=
    match truthy_num (nearest_metro_distance_m f) with
    | Some md =>
        if Qltb md 300 then ([ExcellentMetro (py_int md)], [])
        else if Qgtb md 800 then ([], [LimitedMetro (py_int md)]) else ([], [])
    | None => ([], [])
    end in
  comp_count <- num (get_default (competitors_count f) 0) ;;
  let competition :=
    if Qltb comp_count 3 then ([LowCompetition comp_count], [])
    else if Qgtb comp_count 10 then ([], [HighCompetition comp_count]) else ([], []) in
  young <- num (get_default age_18_24_percent 0) ;;
  young_strength <-
    (if Qgtb young 15 then (p <- subscript age_18_24_percent "age_18_24_percent" ;; Ok [YoungDemographic p])
     else Ok []) ;;
  let strengths := (fst density ++ fst income ++ fst metro ++ fst competition ++ young_strength)%list in
  let risks := (snd density ++ snd income ++ snd metro ++ snd competition)%list in
  Ok (firstn 5 strengths, firstn 5 risks).

(** ** The handler *)

Record AreaDetailResponse := mkAreaDetail {
  ad_area_id : string;
  ad_area_name : string;
  ad_city : string;
  ad_score : Q;
  ad_revenue_low : Z;
  ad_revenue_mid : Z;
  ad_revenue_high : Z;
  ad_confidence : Q;
  ad_coverage : TrustMetrics.DataCoverage;
  ad_method : Discovery.MethodInfo;
  ad_why : list WhyBullet;
  ad_latitude : Q;
  ad_longitude : Q;
  ad_strengths : list Insight;
  ad_risks : list Insight
}.

(** [area_key = area_id.replace("helsinki_", "")] and the first area of
    [_get_helsinki_areas] with that id. *)
Definition helsinki_area_of_id (area_id : string) : option Discovery.Area :=
  let key := PyStr.py_replace "helsinki_" "" area_id in
  find (fun a => String.eqb (Discovery.area_key a) key) Discovery.helsinki_area_rows.

Section WithServices.
Context `{SqrtOp}.
Variable db : option (list Concept).
Variable yaml : list (string * ConceptConfig).
Variable get_demographics : string -> option Discovery.Demographics.
Variable collect_area_data : string -> option Q -> option Q -> string -> res Features.

(** Everything after the branch on the id: scoring, trust, bullets,
    insights, method information, and the validation of the response
    ([confidence] within [0, 1]; [latitude] and [longitude] are floats,
    so [None] fails). [extra] are the feature keys beyond [Features]. *)
Definition area_detail_of (area_id name city : string) (lat lng : option Q) (features : Features)
    (extra : string -> bool) (concept : string) : res AreaDetailResponse :=
  scored <- TrustMetrics.score_with_trust db yaml features concept ;;
  let '(score_result, coverage, confidence) := scored in
  let why := generate_why_bullets features in
  insights <- generate_insights features Absent ;;
  let method_info := Discovery.get_method_info "heuristic" (Some (Discovery.features_truthy features extra)) in
  match lat, lng with
  | Some la, Some ln =>
      if TrustMetrics.in_unit confidence then
        Ok (mkAreaDetail area_id name city (ScoringEngine.score score_result)
              (ScoringEngine.revenue_low score_result) (ScoringEngine.revenue_mid score_result)
              (ScoringEngine.revenue_high score_result) confidence coverage method_info why la ln
              (fst insights) (snd insights))
      else Raise ValidationError
  | _, _ => Raise ValidationError
  end.

Definition get_area_detail (area_id concept : string) : res AreaDetailResponse :=
  if String.prefix "postal_" area_id then
    let postal_code := PyStr.py_replace "postal_" "" area_id in
    match get_demographics postal_code with
    | None => Raise (HTTPException 404 ("Postal code " ++ postal_code ++ " not found"))
    | Some d =>
        let name := match Discovery.dm_area_name d with Some n => n | None => postal_code end in
        collected <- collect_area_data name (Discovery.dm_latitude d) (Discovery.dm_longitude d) concept ;;
        area_detail_of area_id name "Finland" (Discovery.dm_latitude d) (Discovery.dm_longitude d)
          (Discovery.with_median_income collected (Discovery.dm_median_income d))
          (fun k => String.eqb k "postal_code" && Discovery.str_truthy postal_code) concept
    end
  else if String.prefix "helsinki_" area_id then
    match helsinki_area_of_id area_id with
    | None => Raise (HTTPException 404 ("Area " ++ area_id ++ " not found"))
    | Some a =>
        collected <- collect_area_data (Discovery.area_name a) (Some (Discovery.area_lat a))
                       (Some (Discovery.area_lng a)) concept ;;
        area_detail_of area_id (Discovery.area_name a) "Helsinki" (Some (Discovery.area_lat a))
          (Some (Discovery.area_lng a)) collected (fun _ => false) concept
    end
  else Raise (HTTPException 400 "Invalid area_id format").

End WithServices.

(** The collector main.py passes to its area routes, over arbitrary
    services: [discovery_collector] with the coordinates of a table row,
    as [discover_opportunities] calls it. *)
Definition discovery_collector pop comp tr walk : string -> Q -> Q -> string -> res Features :=
  fun name lat lng concept => DataCollector.collect_area_data pop comp tr walk name (Some lat) (Some lng) concept.

Definition toolo_row : Discovery.Area := nth 3 Discovery.helsinki_area_rows (Discovery.mkArea "" "" 0 0 0 0).



(** Services for the examples: every call answers, with 12000 residents
    at density 8000, no competitor, a metro stop at 250 m and a tram stop
    at 120 m, and 60 points of interest. *)
Definition sample_population (_ _ : option Q) : res DataCollector.PopulationData :=
  Ok (DataCollector.mkPopulationData (PyNum 12000) (PyNum 8000)).
Definition sample_competitors (_ _ : option Q) (_ : string) : res (list DataCollector.Competitor) := Ok [].
Definition sample_transit (_ _ : option Q) : res DataCollector.TransitData :=
  Ok (DataCollector.mkTransitData (PyNum 250) (PyNum 120)).
Definition sample_walkability (_ _ : option Q) : res Q := Ok 60.
Definition sample_collector := discovery_collector sample_population sample_competitors sample_transit sample_walkability.

Local Open Scope list_scope.

(** ** Lemmas: a missing income stops the scorer *)

Lemma calculate_score_income_none db yaml f concept cid :
  median_income f = PyNone -> exists e, ScoringEngine.calculate_score db yaml f concept cid = Raise e.
Proof.
  intros Hm. unfold ScoringEngine.calculate_score.
  destruct (ScoringEngine.get_concept_config db yaml concept cid) as [[cfg|] used]; [|eexists; reflexivity].
  destruct (ScoringEngine.calculate_population_score _ _) as [p|e]; cbn [bind]; [|eexists; reflexivity].
  rewrite Hm. exists TypeError. reflexivity.
Qed.

Lemma score_with_trust_income_none `{SqrtOp} db yaml f concept :
  median_income f = PyNone -> exists e, TrustMetrics.score_with_trust db yaml f concept = Raise e.
Proof.
  intros Hm. destruct (calculate_score_income_none db yaml f concept None Hm) as [e E].
  exists e. unfold TrustMetrics.score_with_trust. now rewrite E.
Qed.

(** The collector finds no income for the table's name of Töölö: the
    name is double-encoded in main.py and not in the income table. *)
Lemma toolo_no_income : DataCollector.estimate_income_for_area (Discovery.area_name toolo_row) = None.
Proof. reflexivity. Qed.

Lemma toolo_score_area_fails `{SqrtOp} pop comp tr walk db yaml concept :
  exists e, Discovery.score_area db yaml (discovery_collector pop comp tr walk) concept toolo_row = Raise e.
Proof.
  unfold Discovery.score_area, discovery_collector.
  destruct (DataCollector.collect_area_data pop comp tr walk _ _ _ concept) as [f|e] eqn:E; cbn [bind];
    [|exists e; reflexivity].
  apply DataCollector.collect_unknown_income in E; [|exact toolo_no_income].
  destruct (score_with_trust_income_none db yaml f concept E) as [e Ee]. rewrite Ee. exists e. reflexivity.
Qed.

(** ** Lemmas: where a discovered area comes from *)

Lemma score_area_fields `{SqrtOp} db yaml collect concept row a :
  Discovery.score_area db yaml collect concept row = Ok a ->
  Discovery.ao_area_id a = ("helsinki_" ++ Discovery.area_key row)%string /\
  Discovery.ao_area_name a = Discovery.area_name row /\
  Discovery.ao_latitude a = Discovery.area_lat row /\ Discovery.ao_longitude a = Discovery.area_lng row.
Proof.
  unfold Discovery.score_area.
  destruct (collect _ _ _ _) as [f|e]; cbn [bind]; [|discriminate].
  destruct (TrustMetrics.score_with_trust _ _ _ _) as [[[sr cov] conf]|e]; cbn [bind]; [|discriminate].
  intros E. injection E as <-. repeat split.
Qed.

Lemma in_scored_areas `{SqrtOp} db yaml collect concept a :
  In a (Discovery.scored_areas db yaml collect concept) ->
  exists row, In row Discovery.helsinki_area_rows /\ Discovery.score_area db yaml collect concept row = Ok a.
Proof.
  unfold Discovery.scored_areas. intros (row & Hr & Ha)%in_flat_map. exists row. split; [exact Hr|].
  destruct (Discovery.score_area _ _ _ _ row); cbn in Ha; [destruct Ha as [->|[]]; reflexivity | contradiction].
Qed.

Lemma discover_helsinki_ok `{SqrtOp} db yaml collect city concept r :
  Discovery.discover_helsinki db yaml collect city concept = Ok r ->
  let sorted := sort_by Discovery.ao_score (Discovery.scored_areas db yaml collect concept) in
  Discovery.dr_top r = firstn 10 sorted /\ Discovery.dr_total_areas_scored r = Z.of_nat (length sorted).
Proof.
  unfold Discovery.discover_helsinki. cbv zeta.
  generalize (Discovery.map_res_opportunities
                (firstn 10 (sort_by Discovery.ao_score (Discovery.scored_areas db yaml collect concept)))).
  destruct (map_res _ _) as [top|e]; cbn [bind]; [|discriminate]. intros [-> _] E.
  injection E as <-. split; reflexivity.
Qed.

Lemma discover_top_in_scored `{SqrtOp} db yaml collect city concept r a :
  Discovery.discover_helsinki db yaml collect city concept = Ok r -> In a (Discovery.dr_top r) ->
  In a (Discovery.scored_areas db yaml collect concept).
Proof.
  intros E Ha. destruct (discover_helsinki_ok _ _ _ _ _ _ E) as [Ht _]. rewrite Ht in Ha.
  apply In_firstn in Ha. apply (Permutation_in _ (Permutation_sym (proj1 (sort_by_spec _ _))) Ha).
Qed.

(** Every id the table gives is resolved back to its row. *)
Lemma helsinki_ids_resolve row :
  In row Discovery.helsinki_area_rows ->
  helsinki_area_of_id ("helsinki_" ++ Discovery.area_key row) = Some row.
Proof. cbn [Discovery.helsinki_area_rows In]. intros H. repeat destruct H as [<-|H]; [..|contradiction]; reflexivity. Qed.

Lemma toolo_only_toolo row :
  In row Discovery.helsinki_area_rows -> ("helsinki_" ++ Discovery.area_key row)%string = "helsinki_toolo" ->
  row = toolo_row.
Proof.
  cbn [Discovery.helsinki_area_rows In]. intros H. repeat destruct H as [<-|H]; [..|contradiction];
    intros E; vm_compute in E; first [discriminate E | reflexivity].
Qed.

Lemma scored_areas_without_toolo `{SqrtOp} pop comp tr walk db yaml concept :
  (length (Discovery.scored_areas db yaml (discovery_collector pop comp tr walk) concept) <= 7)%nat.
Proof.
  destruct (toolo_score_area_fails pop comp tr walk db yaml concept) as [e Ee].
  unfold Discovery.scored_areas. cbn [Discovery.helsinki_area_rows flat_map].
  unfold toolo_row in Ee. cbn [nth Discovery.helsinki_area_rows] in Ee. rewrite Ee.
  repeat match goal with |- context [match ?c with Ok _ => _ | Raise _ => _ end] => destruct c end;
    cbn [length app]; lia.
Qed.


(** ** The area routes with main.py's collector *)

(** Töölö is never discovered: with the collector main.py uses and
    whatever its services answer, a successful city discovery never lists
    the area [helsinki_toolo] and scores at most seven of the eight
    areas, because the table's name of Töölö is double-encoded and has no
    entry in the collector's income table, so the scorer meets a [None]
    income and the area is skipped. *)
Theorem toolo_never_discovered `{SqrtOp} pop comp tr walk db yaml city concept r :
  Discovery.discover_helsinki db yaml (discovery_collector pop comp tr walk) city concept = Ok r ->
  ~ In "helsinki_toolo" (map Discovery.ao_area_id (Discovery.dr_top r)) /\
  (Discovery.dr_total_areas_scored r <= 7)%Z.
Proof.
  intros E. split.
  - intros (a & Hid & Ha)%in_map_iff.
    apply (discover_top_in_scored _ _ _ _ _ _ _ E), in_scored_areas in Ha as (row & Hr & Hs).
    destruct (score_area_fields _ _ _ _ _ _ Hs) as (Hida & _). rewrite Hida in Hid.
    rewrite (toolo_only_toolo row Hr Hid) in Hs.
    destruct (toolo_score_area_fails pop comp tr walk db yaml concept) as [e Ee]. congruence.
  - destruct (discover_helsinki_ok _ _ _ _ _ _ E) as [_ ->].
    rewrite <- (Permutation_length (proj1 (sort_by_spec _ _))).
    pose proof (scored_areas_without_toolo pop comp tr walk db yaml concept). lia.
Qed.

(** C39: the detail page of Töölö never renders: with main.py's collector,
    whatever its services answer, [GET /api/area/helsinki_toolo] raises
    (a server error) for every concept. *)
Theorem toolo_detail_fails `{SqrtOp} pop comp tr walk db yaml get_demographics concept :
  exists e, get_area_detail db yaml get_demographics (DataCollector.collect_area_data pop comp tr walk)
              "helsinki_toolo" concept = Raise e.
Proof.
  unfold get_area_detail.
  change (String.prefix "postal_" "helsinki_toolo") with false.
  change (String.prefix "helsinki_" "helsinki_toolo") with true. cbv iota.
  assert (helsinki_area_of_id "helsinki_toolo" = Some toolo_row) as -> by reflexivity.
  destruct (DataCollector.collect_area_data pop comp tr walk _ _ _ concept) as [f|e] eqn:E; cbn [bind];
    [|exists e; reflexivity].
  apply DataCollector.collect_unknown_income in E; [|exact toolo_no_income].
  unfold area_detail_of. destruct (score_with_trust_income_none db yaml f concept E) as [e Ee].
  rewrite Ee. exists e. reflexivity.
Qed.

(** C40: the ids of discovery lead back to their areas: every opportunity
    a successful city discovery lists (with any collector) carries an id
    that [get_area_detail] parses as a Helsinki id of the same table row,
    so the detail page collects and scores the area with the name and
    coordinates the discovery showed. *)
Theorem discovered_area_detail_roundtrip `{SqrtOp} db yaml collect city concept r a :
  Discovery.discover_helsinki db yaml collect city concept = Ok r -> In a (Discovery.dr_top r) ->
  exists row, In row Discovery.helsinki_area_rows /\
    Discovery.area_name row = Discovery.ao_area_name a /\
    Discovery.area_lat row = Discovery.ao_latitude a /\ Discovery.area_lng row = Discovery.ao_longitude a /\
    forall db' yaml' get_demographics collect' concept',
      get_area_detail db' yaml' get_demographics collect' (Discovery.ao_area_id a) concept' =
        (collected <- collect' (Discovery.ao_area_name a) (Some (Discovery.ao_latitude a))
                        (Some (Discovery.ao_longitude a)) concept' ;;
         area_detail_of db' yaml' (Discovery.ao_area_id a) (Discovery.ao_area_name a) "Helsinki"
           (Some (Discovery.ao_latitude a)) (Some (Discovery.ao_longitude a)) collected (fun _ => false) concept').
Proof.
  intros E Ha. apply (discover_top_in_scored _ _ _ _ _ _ _ E), in_scored_areas in Ha as (row & Hr & Hs).
  destruct (score_area_fields _ _ _ _ _ _ Hs) as (Hid & Hn & Hla & Hln).
  exists row. split; [exact Hr|]. split; [congruence|]. split; [congruence|]. split; [congruence|].
  intros db' yaml' gd collect' concept'. unfold get_area_detail. rewrite Hid, Hn, Hla, Hln.
  change (String.prefix "postal_" ("helsinki_" ++ Discovery.area_key row)) with false.
  rewrite PyStr.prefix_app, (helsinki_ids_resolve row Hr). reflexivity.
Qed.


(** ** Witnesses *)

Lemma toolo_never_discovered_witness :
  exists r, Discovery.discover_helsinki None ScoringEngine.sample_yaml sample_collector "Helsinki" "QSR" = Ok r /\
    ~ In "helsinki_toolo" (map Discovery.ao_area_id (Discovery.dr_top r)) /\
    (Discovery.dr_total_areas_scored r <= 7)%Z.
Proof.
  destruct (Discovery.discover_helsinki None ScoringEngine.sample_yaml sample_collector "Helsinki" "QSR")
    as [r|e] eqn:E; [|vm_compute in E; discriminate].
  exists r. split; [reflexivity|].
  exact (toolo_never_discovered sample_population sample_competitors sample_transit sample_walkability
           None ScoringEngine.sample_yaml "Helsinki" "QSR" r E).
Defined.

Lemma discovered_area_detail_roundtrip_witness :
  exists r a, Discovery.discover_helsinki None ScoringEngine.sample_yaml sample_collector "Helsinki" "QSR" = Ok r /\
    In a (Discovery.dr_top r) /\ Discovery.ao_area_id a = "helsinki_pasila" /\
    exists row, In row Discovery.helsinki_area_rows /\ Discovery.area_name row = Discovery.ao_area_name a.
Proof.
  destruct (Discovery.discover_helsinki None ScoringEngine.sample_yaml sample_collector "Helsinki" "QSR")
    as [r|e] eqn:E; [|vm_compute in E; discriminate].
  assert (Hr : exists a rest, Discovery.dr_top r = a :: rest /\ Discovery.ao_area_id a = "helsinki_pasila")
    by (vm_compute in E; injection E as <-; do 2 eexists; split; reflexivity).
  destruct Hr as (a & rest & Ht & Hid). assert (Ha : In a (Discovery.dr_top r)) by (rewrite Ht; now left).
  destruct (discovered_area_detail_roundtrip None ScoringEngine.sample_yaml sample_collector "Helsinki" "QSR" r a E Ha)
    as (row & Hrow & Hn & _).
  exists r, a. split; [reflexivity|]. split; [exact Ha|]. split; [exact Hid|]. exists row. split; assumption.
Defined.

End AreaDetail.
