(* ===== verification/Analyze.v ===== *)
(** * Analyze: POST /api/analyze (src/backend/main.py) and
    [DataCollector.collect_site_data] (src/backend/agents/data_collector.py)

    [analyze_sites] takes a [SiteAnalysisRequest] (FastAPI validates the
    body first: one to ten addresses), checks the address count again,
    and for each address collects the site's data with
    [collect_site_data] and hands it to [orchestrator.analyze_site].  The
    global [orchestrator] is commented out in main.py (lines 31 and 72),
    so the name lookup raises [NameError] before any argument of the call
    is evaluated; the [except Exception] of the loop turns that, or any
    error of the collector, into [HTTPException(500, ...)].

    What follows the loop (the ranking, [_check_cannibalization] and the
    [SiteAnalysisResponse]) is reached only with no prediction; the
    response is built without its required field [method], which is a
    [ValidationError] whatever the ranking and the warning are, so those
    two are not modelled.  [str(e)] of an exception whose message the
    model does not carry is the Section variable [exn_message].

    [collect_site_data] geocodes the address (a falsy result is a
    [ValueError]), queries the demographics of the postal code when there
    is one, and the four services of [collect_area_data]; a service that
    raises gives the code's default.  The transit lists [metro_stations]
    and [tram_stops] are not modelled. *)

From S2P Require Import Prelude Scoring DataCollector.
Local Open Scope string_scope.

Module Analyze.

Record GeocodeResult := mkGeocode {
  gc_latitude : Q;
  gc_longitude : Q;
  gc_postal_code : option string
}.

(** The PAAVO dictionary of a postal code: [sdm_truthy] is whether the
    dictionary is non-empty. *)
Record SiteDemographics := mkSiteDemographics {
  sdm_truthy : bool;
  sdm_median_income : pyval;
  sdm_mean_income : pyval;
  sdm_age_18_24_percent : pyval;
  sdm_higher_education_percent : pyval
}.

Record DataSources := mkSources {
  ds_geocoding : bool;
  ds_demographics : bool;
  ds_population_grid : bool;
  ds_competitors : bool;
  ds_transit : bool;
  ds_walkability : bool
}.

(** The site dictionary of [collect_site_data]: the eight keys the scorer
    reads are [site_features]. *)
Record SiteData := mkSiteData {
  site_address : string;
  site_latitude : Q;
  site_longitude : Q;
  site_postal_code : option string;
  site_features : Features;
  site_mean_income : pyval;
  site_age_18_24_percent : pyval;
  site_higher_education_percent : pyval;
  site_competitors : list DataCollector.Competitor;
  site_sources : DataSources
}.

(** [demographics.get(k) if demographics else None]. *)
Definition demo_get (d : option SiteDemographics) (k : SiteDemographics -> pyval) : pyval :=
  match d with Some dm => if sdm_truthy dm then get (k dm) else PyNone | None => PyNone end.

Record SiteAnalysisRequest := mkAnalysisRequest {
  ar_addresses : list string;
  ar_concept : string
}.

(** [Field(..., min_items=1, max_items=10)] on [addresses]. *)
Definition SiteAnalysisRequest_new (r : SiteAnalysisRequest) : res SiteAnalysisRequest :=
  if (1 <=? length (ar_addresses r))%nat && (length (ar_addresses r) <=? 10)%nat then Ok r
  else Raise ValidationError.

(** A prediction as far as the handler could build one; it never does. *)
Record SitePrediction := mkSitePrediction {
  sp_address : string;
  sp_score : Q
}.

Record SiteAnalysisResponse := mkAnalysisResponse {
  sr_concept : string;
  sr_sites : list SitePrediction;
  sr_prediction_id : string
}.

Section WithServices.
Variable geocode_address : string -> res (option GeocodeResult).
Variable get_demographics_by_postal_code : string -> res (option SiteDemographics).
Variable get_population_in_area : option Q -> option Q -> res DataCollector.PopulationData.
Variable get_competitors : option Q -> option Q -> string -> res (list DataCollector.Competitor).
Variable get_transit_stops : option Q -> option Q -> res DataCollector.TransitData.
Variable get_walkability_pois : option Q -> option Q -> res Q.
Variable exn_message : exn -> string.

Definition collect_site_data (address concept : string) : res SiteData :=
  geocode_result <- geocode_address address ;;
  match geocode_result with
  | None => Raise (ValueError ("Could not geocode address: " ++ address))
  | Some g =>
      let lat := gc_latitude g in
      let lng := gc_longitude g in
      let postal_code := gc_postal_code g in
      let demographics :=
        match postal_code with
        | Some pc => if String.eqb pc "" then None else DataCollector.or_default (get_demographics_by_postal_code pc) None
        | None => None
        end in
      let population_data :=
        DataCollector.or_default (get_population_in_area (Some lat) (Some lng)) DataCollector.empty_population in
      let competitors := DataCollector.or_default (get_competitors (Some lat) (Some lng) concept) [] in
      let transit := DataCollector.or_default (get_transit_stops (Some lat) (Some lng)) DataCollector.empty_transit in
      let walkability_poi_count := DataCollector.or_default (get_walkability_pois (Some lat) (Some lng)) 0 in
      let total := DataCollector.pd_total_population population_data in
      let metro := DataCollector.td_nearest_metro_distance_m transit in
      let tram := DataCollector.td_nearest_tram_distance_m transit in
      per_1k <- DataCollector.competitors_per_1k (length competitors) total ;;
      Ok (mkSiteData address lat lng postal_code
            (mkFeatures (get total) (get (DataCollector.pd_population_density population_data))
               (demo_get demographics sdm_median_income)
               (PyNum (inject_Z (Z.of_nat (length competitors)))) (PyNum per_1k)
               (get metro) (get tram) (PyNum walkability_poi_count))
            (demo_get demographics sdm_mean_income) (demo_get demographics sdm_age_18_24_percent)
            (demo_get demographics sdm_higher_education_percent)
            (firstn 5 competitors)
            (mkSources true (match demographics with Some _ => true | None => false end)
               (is_not_none total) (0 <? length competitors)%nat
               (is_not_none metro || is_not_none tram) (Qgtb walkability_poi_count 0)))
  end.

(** [str(e)]: the message of a [NameError] and of a [ValueError] are
    known; the others are [exn_message]. *)
Definition py_exn_str (e : exn) : string :=
  match e with
  | NameError n => "name '" ++ n ++ "' is not defined"
  | ValueError msg => msg
  | _ => exn_message e
  end.

(** The body of the [try] for one address: the collector, then the
    lookup of the undefined global [orchestrator]. *)
Definition analyze_site_one (address concept : string) : res SitePrediction :=
  _features <- collect_site_data address concept ;;
  Raise (NameError "orchestrator").

Fixpoint analyze_each (addresses : list string) (concept : string) : res (list SitePrediction) :=
  match addresses with
  | [] => Ok []
  | address :: rest =>
      match analyze_site_one address concept with
      | Ok p => ps <- analyze_each rest concept ;; Ok (p :: ps)
      | Raise e => Raise (HTTPException 500 ("Error analyzing address: " ++ py_exn_str e))
      end
  end.

Definition analyze_sites (body : SiteAnalysisRequest) : res SiteAnalysisResponse :=
  request <- SiteAnalysisRequest_new body ;;
  match ar_addresses request with
  | [] => Raise (HTTPException 400 "At least one address required")
  | _ =>
      if (10 <? length (ar_addresses request))%nat
      then Raise (HTTPException 400 "Maximum 10 addresses allowed")
      else predictions <- analyze_each (ar_addresses request) (ar_concept request) ;;
           Raise ValidationError
  end.


(** C38: [POST /api/analyze] never answers a result and never its own 400s:
    a body with no address or more than ten fails FastAPI's validation
    (422), and any other body fails with [HTTPException(500)], whose
    detail names the undefined [orchestrator] when the first address
    could be collected and the collector's error otherwise. *)
Theorem analyze_sites_outcome (body : SiteAnalysisRequest) :
  analyze_sites body =
    match ar_addresses body with
    | a :: rest =>
        if (length rest <? 10)%nat then
          Raise (HTTPException 500 ("Error analyzing address: " ++
                   match collect_site_data a (ar_concept body) with
                   | Ok _ => "name 'orchestrator' is not defined"
                   | Raise e => py_exn_str e
                   end))
        else Raise ValidationError
    | [] => Raise ValidationError
    end.
Proof.
  unfold analyze_sites, SiteAnalysisRequest_new. destruct body as [[|a rest] concept]; [reflexivity|].
  cbn [ar_addresses ar_concept length]. destruct (Nat.ltb_spec (length rest) 10) as [Hl|Hl].
  - replace ((1 <=? S (length rest))%nat && (S (length rest) <=? 10)%nat) with true
      by (symmetry; apply andb_true_iff; split; apply Nat.leb_le; lia).
    cbn [bind ar_addresses ar_concept length]. replace (10 <? S (length rest))%nat with false by (symmetry; apply Nat.ltb_ge; lia).
    cbn [analyze_each]. unfold analyze_site_one.
    destruct (collect_site_data a concept); reflexivity.
  - replace ((1 <=? S (length rest))%nat && (S (length rest) <=? 10)%nat) with false
      by (symmetry; apply andb_false_iff; right; apply Nat.leb_gt; lia).
    reflexivity.
Qed.

End WithServices.

End Analyze.
