(* ===== verification/Digitransit.v ===== *)
(** * Digitransit: the Pelias geocoding service
    (src/backend/services/digitransit.py) and its two clients

    [DigitransitService] has no state.  [geocode_address] and
    [search_places] query the Pelias search endpoint, [reverse_geocode]
    the reverse endpoint (with the subscription key; without a key it
    answers a synthetic dictionary at once).  An [httpx.HTTPError] is
    caught: [None], the synthetic dictionary, or [[]].  Any other error of
    the reading (a missing key, an index out of range, a body that is not
    JSON) propagates.

    The server is the Section variable [pelias_get] from a request to an
    answer ([None] is a transport error); [fmt4] is the format
    [f"{x:.4f}"] of a float and [json_repr] [str] of a JSON value that is
    not a string, both outside exact arithmetic.

    Its clients: [DataCollector.collect_site_data] reads the geocoding
    dictionary ([geocode_service], plugged into
    [Analyze.collect_site_data]); [AddressGenerator._reverse_geocode]
    reads the reverse-geocoding dictionary as if it were Pelias' raw
    answer, looking for its ["features"] ([address_from_result], over
    JSON values [json]; [reverse_geocode_service], plugged into
    [AddressGenerator.reverse_geocode]). *)

From S2P Require Import Prelude DataCollector StatFin PopulationGrid AddressGenerator Analyze.
Local Open Scope string_scope.

Module Digitransit.

Local Set Warnings "-register-all".

(** A JSON value. *)
Inductive json : Type :=
| JNull
| JBool (b : bool)
| JNum (q : Q)
| JStr (s : string)
| JList (l : list json)
| JObj (kvs : list (string * json)).

(** A feature of a Pelias answer, by the keys read: a missing key is
    [None]. *)
Record PeliasProps := mkPeliasProps {
  label : option string; postalcode : option string; locality : option string; confidence : pyval
}.
Record PeliasGeometry := mkPeliasGeometry { coordinates : option (list Q) }.
Record PeliasFeature := mkPeliasFeature {
  pf_geometry : option PeliasGeometry;
  pf_properties : option PeliasProps
}.

Inductive Body := NotJson | JsonObject (features : option (list PeliasFeature)).

Record PeliasResponse := mkPeliasResponse { status_code : Z; body : Body }.

(** The two endpoints with their parameters. *)
Inductive PeliasRequest :=
| Search (text : string) (size : Z) (boundary_circle : option (Q * Q * Q))
| Reverse (lat lng : Q) (subscription_key : string).

(** The dictionaries the service returns. *)
Record GeocodeRecord := mkGeocodeRecord {
  g_address : string; g_latitude : Q; g_longitude : Q;
  g_postal_code : option string; g_city : string; g_confidence : pyval
}.

Record ReverseRecord := mkReverseRecord { r_address : string; r_postal_code : option string; r_city : string }.

Record PlaceRecord := mkPlaceRecord {
  p_label : string; p_latitude : Q; p_longitude : Q; p_postal_code : option string; p_confidence : pyval
}.

Definition or_str (o : option string) (d : string) : string := match o with Some s => s | None => d end.

Definition opt_json (o : option string) : json := match o with Some s => JStr s | None => JNull end.

(** [reverse_geocode]'s dictionary as a JSON object: its three keys. *)
Definition reverse_dict (r : ReverseRecord) : list (string * json) :=
  [("address", JStr (r_address r)); ("postal_code", opt_json (r_postal_code r)); ("city", JStr (r_city r))].

(** The body of each [try] up to [response.json()]: [None] when an
    [httpx.HTTPError] is caught, otherwise [data.get("features")] ([[]]
    when absent) or the decoding error. *)
Definition read_features (r : option PeliasResponse) : option (res (list PeliasFeature)) :=
  match r with
  | None => None
  | Some resp =>
      if PopulationGrid.is_success (status_code resp) then
        match body resp with
        | NotJson => Some (Raise (ValueError "JSONDecodeError"))
        | JsonObject fs => Some (Ok (match fs with Some l => l | None => [] end))
        end
      else None
  end.

(** [is_helsinki_area]: [(60.0 <= lat <= 60.5) and (24.6 <= lng <= 25.3)]. *)
Definition is_helsinki_area (lat lng : Q) : bool :=
  Qleb 60 lat && Qleb lat (605 # 10) && Qleb (246 # 10) lng && Qleb lng (253 # 10).

(** [d[k]] and [d.get(k, default)] on a JSON object; [.get] on a value
    that is not a dictionary raises [AttributeError]. *)
Fixpoint jget (k : string) (kvs : list (string * json)) : option json :=
  match kvs with
  | [] => None
  | (k', v) :: kvs' => if String.eqb k k' then Some v else jget k kvs'
  end.

Definition get_or (v : json) (k : string) (d : json) : res json :=
  match v with
  | JObj kvs => Ok (match jget k kvs with Some x => x | None => d end)
  | _ => Raise AttributeError
  end.

(** Python truthiness. *)
Definition truthy (v : json) : bool :=
  match v with
  | JNull => false
  | JBool b => b
  | JNum q => negb (Qeqb q 0)
  | JStr s => negb (String.eqb s "")
  | JList l => match l with [] => false | _ => true end
  | JObj kvs => match kvs with [] => false | _ => true end
  end.

(** [len(v)] *)
Definition py_len (v : json) : res nat :=
  match v with
  | JList l => Ok (length l)
  | JStr s => Ok (String.length s)
  | JObj kvs => Ok (length kvs)
  | _ => Raise TypeError
  end.

(** [v[0]] on a non-empty value: a dictionary has no key [0]. *)
Definition index0 (v : json) : res json :=
  match v with
  | JList (x :: _) => Ok x
  | JStr (String c _) => Ok (JStr (String c ""))
  | JObj _ => Raise (KeyError "0")
  | _ => Raise IndexError
  end.

Section WithPelias.
Variable pelias_get : PeliasRequest -> option PeliasResponse.
Variable fmt4 : Q -> string.
Variable json_repr : json -> string.

Definition geocode_address (address : string) : res (option GeocodeRecord) :=
  match read_features (pelias_get (Search address 1 None)) with
  | None => Ok None
  | Some r =>
      features <- r ;;
      match features with
      | [] => Ok None
      | feature :: _ =>
          geometry <- PopulationGrid.dict_item "geometry" (pf_geometry feature) ;;
          coords <- PopulationGrid.dict_item "coordinates" (coordinates geometry) ;;
          props <- PopulationGrid.dict_item "properties" (pf_properties feature) ;;
          latitude <- StatFin.py_index coords 1 ;;
          longitude <- StatFin.py_index coords 0 ;;
          Ok (Some (mkGeocodeRecord (or_str (label props) address) latitude longitude (postalcode props)
                      (or_str (locality props) "Helsinki") (get_default (confidence props) (1 # 2))))
      end
  end.

(** The synthetic dictionary of [reverse_geocode]. *)
Definition mock_reverse (lat lng : Q) : ReverseRecord :=
  mkReverseRecord ("Helsinki, " ++ fmt4 lat ++ ", " ++ fmt4 lng) (Some "00100") "Helsinki".

(** [reverse_geocode], with [self.api_key] ([None] when the variable is
    not set). *)
Definition reverse_geocode (api_key : option string) (lat lng : Q) : res (option ReverseRecord) :=
  match api_key with
  | None | Some "" => Ok (Some (mock_reverse lat lng))
  | Some key =>
      match read_features (pelias_get (Reverse lat lng key)) with
      | None => Ok (Some (mock_reverse lat lng))
      | Some r =>
          features <- r ;;
          match features with
          | [] => Ok None
          | feature :: _ =>
              props <- PopulationGrid.dict_item "properties" (pf_properties feature) ;;
              Ok (Some (mkReverseRecord (or_str (label props) "") (postalcode props)
                          (or_str (locality props) "Helsinki")))
          end
      end
  end.

(** One iteration of the loop of [search_places]. *)
Definition place_of (feature : PeliasFeature) : res PlaceRecord :=
  geometry <- PopulationGrid.dict_item "geometry" (pf_geometry feature) ;;
  coords <- PopulationGrid.dict_item "coordinates" (coordinates geometry) ;;
  props <- PopulationGrid.dict_item "properties" (pf_properties feature) ;;
  latitude <- StatFin.py_index coords 1 ;;
  longitude <- StatFin.py_index coords 0 ;;
  Ok (mkPlaceRecord (or_str (label props) "") latitude longitude (postalcode props)
        (get_default (confidence props) (1 # 2))).

Definition search_places (query : string) (boundary_circle : option (Q * Q * Q)) : res (list PlaceRecord) :=
  match read_features (pelias_get (Search query 10 boundary_circle)) with
  | None => Ok []
  | Some r => features <- r ;; map_res place_of features
  end.

(** [f"{v}"] of a JSON value. *)
Definition py_str (v : json) : string := match v with JStr s => s | _ => json_repr v end.

(** The reading in [AddressGenerator._reverse_geocode] of the service's
    answer ([None], or a dictionary): the address it builds, [None] when
    it falls back to the synthetic address, an error when the reading
    raises (caught by its [except Exception], also a fallback). *)
Definition address_from_result (result : option (list (string * json))) : res (option string) :=
  match result with
  | Some kvs =>
      if truthy (JObj kvs) then
        match jget "features" kvs with
        | Some features =>
            n <- py_len features ;;
            if (0 <? n)%nat then
              feature <- index0 features ;;
              properties <- get_or feature "properties" (JObj []) ;;
              street <- get_or properties "street" (JStr "") ;;
              house_number <- get_or properties "housenumber" (JStr "") ;;
              postal_code <- get_or properties "postalcode" (JStr "") ;;
              locality <- get_or properties "locality" (JStr "") ;;
              if truthy street && truthy locality then
                if truthy house_number
                then Ok (Some (py_str street ++ " " ++ py_str house_number ++ ", " ++ py_str postal_code ++ " " ++
                               py_str locality))
                else Ok (Some (py_str street ++ ", " ++ py_str postal_code ++ " " ++ py_str locality))
              else Ok None
            else Ok None
        | None => Ok None
        end
      else Ok None
  | None => Ok None
  end.

(** The service as [AddressGenerator.reverse_geocode] sees it: the
    address [_reverse_geocode] builds from the service's answer, [None]
    when it falls back to the synthetic one. *)
Definition reverse_geocode_service (api_key : option string) (lat lng : Q) : option string :=
  match reverse_geocode api_key lat lng with
  | Ok r =>
      match address_from_result (option_map reverse_dict r) with
      | Ok (Some a) => Some a
      | _ => None
      end
  | Raise _ => None
  end.

(** The geocoding dictionary as [collect_site_data] reads it. *)
Definition geocode_service (address : string) : res (option Analyze.GeocodeResult) :=
  g <- geocode_address address ;;
  Ok (option_map (fun r => Analyze.mkGeocode (g_latitude r) (g_longitude r) (g_postal_code r)) g).

End WithPelias.

(** A raw Pelias answer, the shape [_reverse_geocode] reads. *)
Definition raw_pelias_sample : list (string * json) :=
  [("type", JStr "FeatureCollection");
   ("features", JList [JObj [("type", JStr "Feature");
                             ("properties", JObj [("street", JStr "Mannerheimintie"); ("housenumber", JStr "20");
                                                  ("postalcode", JStr "00100"); ("locality", JStr "Helsinki")])]])].

(** ** What the clients read *)

Lemma address_from_result_no_features json_repr kvs :
  jget "features" kvs = None -> address_from_result json_repr (Some kvs) = Ok None.
Proof. intros H. cbn [address_from_result]. rewrite H. destruct (truthy (JObj kvs)); reflexivity. Qed.

Section Clients.
Variable pelias_get : PeliasRequest -> option PeliasResponse.
Variable fmt4 : Q -> string.
Variable json_repr : json -> string.

(** Every answer of the service, a dictionary without ["features"], an
    empty answer or an error, makes [_reverse_geocode] fall back. *)
Lemma reverse_geocode_service_none api_key la ln :
  reverse_geocode_service pelias_get fmt4 json_repr api_key la ln = None.
Proof.
  unfold reverse_geocode_service.
  destruct (reverse_geocode pelias_get fmt4 api_key la ln) as [[r|]|e]; [|reflexivity|reflexivity].
  cbn [option_map]. rewrite address_from_result_no_features by reflexivity. reflexivity.
Qed.

(** C13: [_reverse_geocode] looks for Pelias' ["features"] in the
    service's answer, but [reverse_geocode] returns a flattened
    dictionary ([address], [postal_code], [city]): whatever Pelias answers
    and whether or not a key is set, every candidate of an area gets the
    synthetic address, though the same reading builds
    "street number, postal locality" from a raw Pelias answer. *)
Theorem reverse_geocode_never_used api_key haversine aid la ln include_crime :
  Forall (fun c => AddressGenerator.address c =
                   AddressGenerator.generate_mock_address (AddressGenerator.lat c) (AddressGenerator.lng c))
    (AddressGenerator.generate_candidates_for_area haversine
       (reverse_geocode_service pelias_get fmt4 json_repr api_key) aid la ln include_crime) /\
  address_from_result json_repr (Some raw_pelias_sample) = Ok (Some "Mannerheimintie 20, 00100 Helsinki").
Proof.
  split; [|reflexivity]. apply Forall_forall. intros c Hc.
  unfold AddressGenerator.generate_candidates_for_area in Hc. apply in_map_iff in Hc as (p & <- & _).
  unfold AddressGenerator.make_candidate, AddressGenerator.reverse_geocode. cbn [AddressGenerator.address AddressGenerator.lat AddressGenerator.lng].
  rewrite reverse_geocode_service_none. reflexivity.
Qed.

(** An address Pelias does not find, or a geocoding outage, fails the
    site collection with the collector's [ValueError]. *)
Lemma geocode_miss_fails demo pop comp tr walk address concept :
  read_features (pelias_get (Search address 1 None)) = None \/
  read_features (pelias_get (Search address 1 None)) = Some (Ok []) ->
  Analyze.collect_site_data (geocode_service pelias_get) demo pop comp tr walk address concept =
    Raise (ValueError ("Could not geocode address: " ++ address)).
Proof.
  intros H. unfold Analyze.collect_site_data, geocode_service, geocode_address.
  destruct H as [-> | ->]; reflexivity.
Qed.

End Clients.

End Digitransit.
