(* ===== verification/AgentBase.v ===== *)
(** * AgentBase: what the agents of src/backend/agents/agno share

    Each agent is an [agno.Agent] whose [self.run(prompt)] asks a
    language model for a reasoning text, and then computes its scores in
    plain Python.  The model's call is the Section variable [run] of each
    agent file: the name of the agent to an answer or an exception (a
    network or key error of the model propagates).  The prompt's text is
    not modelled; where building it can raise (a [None] formatted with
    [:,] or [:.2f]) the file checks the values the f-string formats.

    [str.lower()] is modelled on ASCII letters ([lower]); the agents
    compare the lowered text with ASCII words only. *)

From S2P Require Import Prelude.
From Stdlib Require Import Ascii.
Local Open Scope string_scope.

Inductive AgentName := GEO | DEMO | COMP | TRANSIT | RISK | REVENUE | ORCHESTRATOR.

(** [f"{x:,}"] and [f"{x:.2f}"]: a number formats, [None] raises. *)
Definition format_num (v : pyval) : res unit :=
  match v with PyNum _ => Ok tt | _ => Raise TypeError end.

Definition lower_char (c : ascii) : ascii :=
  let n := nat_of_ascii c in
  if ((65 <=? n) && (n <=? 90))%nat then ascii_of_nat (n + 32) else c.

(** [s.lower()] *)
Fixpoint lower (s : string) : string :=
  match s with
  | EmptyString => EmptyString
  | String c s' => String (lower_char c) (lower s')
  end.

(** [x in [...]] on strings. *)
Definition str_in (x : string) (l : list string) : bool := existsb (String.eqb x) l.

(** An optional distance as a condition ([if d:]): [None] and [0] are
    false. *)
Definition truthy_dist (d : option Q) : bool :=
  match d with Some x => negb (Qeqb x 0) | None => false end.

(** [l[0]]: an empty list raises. *)
Definition item0 {A : Type} (l : list A) : res A :=
  match l with x :: _ => Ok x | [] => Raise IndexError end.
