(* ===== verification/GeoAgent.v ===== *)
(** * GeoAgent: src/backend/agents/agno/geo_agent.py

    [GeoAgent.geocode_and_validate] geocodes an address with the service
    it is given, answers a failure dictionary when the service answers
    nothing, and otherwise asks the model for a reasoning text and grades
    the geocoding dictionary: a confidence, a geographic context from the
    municipality, and a quality score from the keys present.

    The service's dictionary is a JSON object ([Digitransit.json]), since
    the agent reads it by key: [geocode_dict] is the dictionary
    [DigitransitService.geocode_address] returns (keys [address],
    [latitude], [longitude], [postal_code], [city], [confidence]), and
    [digitransit_geocoder] the service the orchestrator passes. *)

From S2P Require Import Prelude AgentBase PopulationGrid Digitransit.
Local Open Scope string_scope.

Module GeoAgent.

Definition GeocodeDict : Type := list (string * Digitransit.json).

(** [d.get(k)]: [None] for an absent key. *)
Definition dget (d : GeocodeDict) (k : string) : Digitransit.json :=
  match Digitransit.jget k d with Some v => v | None => Digitransit.JNull end.

Definition tr (v : Digitransit.json) : bool := Digitransit.truthy v.

Definition assess_confidence (geocode_result : option GeocodeDict) : string :=
  match geocode_result with
  | Some d =>
      if negb (tr (Digitransit.JObj d)) then "none"
      else if tr (dget d "postal_code") && tr (dget d "municipality") && tr (dget d "label") then "high"
      else if tr (dget d "latitude") && tr (dget d "longitude") then "medium"
      else "low"
  | None => "none"
  end.

Definition urban_municipalities : list string := ["helsinki"; "espoo"; "vantaa"; "tampere"; "turku"; "oulu"].

(** [geocode_result.get("municipality", "").lower()]: [.lower] of a
    value that is not a string raises [AttributeError]. *)
Definition assess_context (d : GeocodeDict) : res string :=
  match match Digitransit.jget "municipality" d with Some v => v | None => Digitransit.JStr "" end with
  | Digitransit.JStr s =>
      let municipality := lower s in
      if str_in municipality urban_municipalities then Ok "dense urban core"
      else if negb (String.eqb municipality "") then Ok "suburban/small city"
      else Ok "unknown context"
  | _ => Raise AttributeError
  end.

Definition calculate_quality_score (d : GeocodeDict) : Z :=
  ((if tr (dget d "latitude") && tr (dget d "longitude") then 50 else 0) +
   (if tr (dget d "postal_code") then 25 else 0) +
   (if tr (dget d "municipality") then 15 else 0) +
   (if tr (dget d "label") then 10 else 0))%Z.

(** The success dictionary of [geocode_and_validate]. *)
Record GeoRecord := mkGeoRecord {
  g_address : string;
  g_latitude : Digitransit.json; g_longitude : Digitransit.json;
  g_postal_code : Digitransit.json; g_municipality : Digitransit.json; g_label : Digitransit.json;
  g_confidence : string; g_geographic_context : string; g_reasoning : string;
  g_data_quality_score : Z
}.

(** The failure dictionary ([confidence] ["none"], [data_quality_score]
    0, no other key the other agents read) or the success one. *)
Inductive GeoResult := GeoFailed (address : string) | GeoOk (r : GeoRecord).

(** What the other agents read of it, with their defaults:
    [.get("confidence", "medium")], [.get("data_quality_score", 70)],
    [.get("postal_code")], [.get("geographic_context")],
    [.get("municipality", "Unknown")]. *)
Definition geo_confidence (g : GeoResult) : string :=
  match g with GeoFailed _ => "none" | GeoOk r => g_confidence r end.
Definition geo_quality (g : GeoResult) : Z :=
  match g with GeoFailed _ => 0%Z | GeoOk r => g_data_quality_score r end.
Definition geo_has_postal_code (g : GeoResult) : bool :=
  match g with GeoFailed _ => false | GeoOk r => tr (g_postal_code r) end.
Definition geo_context (g : GeoResult) : option string :=
  match g with GeoFailed _ => None | GeoOk r => Some (g_geographic_context r) end.

(** [DigitransitService.geocode_address]'s dictionary. *)
Definition pyval_json (v : pyval) : Digitransit.json :=
  match v with PyNum q => Digitransit.JNum q | _ => Digitransit.JNull end.

Definition geocode_dict (g : Digitransit.GeocodeRecord) : GeocodeDict :=
  [("address", Digitransit.JStr (Digitransit.g_address g)); ("latitude", Digitransit.JNum (Digitransit.g_latitude g));
   ("longitude", Digitransit.JNum (Digitransit.g_longitude g));
   ("postal_code", Digitransit.opt_json (Digitransit.g_postal_code g));
   ("city", Digitransit.JStr (Digitransit.g_city g)); ("confidence", pyval_json (Digitransit.g_confidence g))].

Definition digitransit_geocoder (pelias_get : Digitransit.PeliasRequest -> option Digitransit.PeliasResponse)
  (address : string) : res (option GeocodeDict) :=
  g <- Digitransit.geocode_address pelias_get address ;; Ok (option_map geocode_dict g).

Section WithServices.
Variable geocode_address : string -> res (option GeocodeDict).
Variable run : AgentName -> res string.

(** The prompt reads [geocode_result['latitude']] and
    [['longitude']]; the dictionary is then built in key order. *)
Definition geocode_and_validate (address : string) : res GeoResult :=
  geocode_result <- geocode_address address ;;
  match geocode_result with
  | Some d =>
      if negb (tr (Digitransit.JObj d)) then Ok (GeoFailed address) else
      lat <- PopulationGrid.dict_item "latitude" (Digitransit.jget "latitude" d) ;;
      lng <- PopulationGrid.dict_item "longitude" (Digitransit.jget "longitude" d) ;;
      response <- run GEO ;;
      context <- assess_context d ;;
      Ok (GeoOk (mkGeoRecord address lat lng (dget d "postal_code") (dget d "municipality") (dget d "label")
                   (assess_confidence (Some d)) context response (calculate_quality_score d)))
  | None => Ok (GeoFailed address)
  end.

End WithServices.

(** ** The grades *)

Lemma calculate_quality_score_range d : (0 <= calculate_quality_score d <= 100)%Z.
Proof.
  unfold calculate_quality_score.
  repeat match goal with |- context [if ?b then _ else _] => destruct b end; lia.
Qed.

Lemma geocode_and_validate_quality geocoder run address g :
  geocode_and_validate geocoder run address = Ok g -> (0 <= geo_quality g <= 100)%Z.
Proof.
  unfold geocode_and_validate. intros H. res_inv H.
  destruct a as [d|]; [|apply Ok_inj in H; subst g; cbn; lia].
  destruct (negb _); [apply Ok_inj in H; subst g; cbn; lia|].
  res_inv H. apply Ok_inj in H. subst g. apply calculate_quality_score_range.
Qed.

(** The dictionary of DigitransitService has no [municipality] key. *)
Lemma geocode_dict_no_municipality r : Digitransit.jget "municipality" (geocode_dict r) = None.
Proof. reflexivity. Qed.

Lemma digitransit_geocoder_dict pelias_get address d :
  digitransit_geocoder pelias_get address = Ok (Some d) -> exists r, d = geocode_dict r.
Proof.
  unfold digitransit_geocoder. intros H. res_inv H. apply Ok_inj in H.
  destruct a as [r|]; cbn in H; [|discriminate]. injection H as <-. now exists r.
Qed.

(** With DigitransitService as the geocoder, the municipality is never
    known: the confidence is never ["high"], the context is unknown and
    the quality score is at most 75. *)
Lemma digitransit_geo_grades pelias_get run address g :
  geocode_and_validate (digitransit_geocoder pelias_get) run address = Ok g ->
  geo_confidence g <> "high" /\ (geo_context g = None \/ geo_context g = Some "unknown context") /\ (geo_quality g <= 75)%Z.
Proof.
  unfold geocode_and_validate. intros H. res_inv H.
  destruct a as [d|]; [|apply Ok_inj in H; subst g; cbn; repeat split; [discriminate | now left | lia]].
  destruct (digitransit_geocoder_dict _ _ _ E) as [r ->].
  destruct (negb _); [apply Ok_inj in H; subst g; cbn; repeat split; [discriminate | now left | lia]|].
  res_inv H. apply Ok_inj in H. subst g. cbn [geo_confidence geo_context geo_quality g_confidence g_geographic_context g_data_quality_score].
  unfold assess_context in E3. rewrite geocode_dict_no_municipality in E3. cbn in E3. apply Ok_inj in E3. subst a2.
  unfold assess_confidence, calculate_quality_score, dget. rewrite geocode_dict_no_municipality. cbn [tr Digitransit.truthy].
  rewrite !andb_false_r. cbn [andb negb].
  repeat split; [destruct (_ && _); discriminate | now right |].
  change (Digitransit.jget "label" (geocode_dict r)) with (@None Digitransit.json). cbn [tr Digitransit.truthy].
  repeat match goal with |- context [if ?b then _ else _] => destruct b end; lia.
Qed.

End GeoAgent.
