(* ===== verification/DemoAgent.v ===== *)
(** * DemoAgent: src/backend/agents/agno/demo_agent.py

    [DemoAgent.analyze_demographics] reads five values of the PAAVO
    dictionary (or zeros when there is none) and the density of the grid
    dictionary, picks the concept's profile (casual dining by default),
    asks the model for a reasoning text, and scores density, income, age
    and education against the profile; the demographic score is their
    weighted sum (0.30, 0.35, 0.20, 0.15) rounded to one decimal.

    The two input dictionaries are the ones the orchestrator receives from
    main.py: every key is present, a value may be [None] ([pyval]); a
    present dictionary is therefore truthy.  The insights are constructors
    carrying the values their f-strings format. *)

From S2P Require Import Prelude AgentBase.
Local Open Scope string_scope.

Module DemoAgent.

(** [demographics_data], as main.py builds it for the orchestrator. *)
Record DemoInput := mkDemoInput {
  di_population : pyval; di_median_income : pyval; di_mean_income : pyval;
  di_age_15_64_percent : pyval; di_higher_education_percent : pyval
}.

(** [population_grid_data] *)
Record GridInput := mkGridInput { gi_total_population : pyval; gi_population_density : pyval }.

Record Profile := mkProfile {
  income_min : Q; income_max : Q; density_min : Q; density_max : Q; target_age_min : Q; education_min : Q
}.

Definition casual_dining : Profile := mkProfile 35000 65000 4000 15000 60 35.

Definition concept_profiles : list (string * Profile) :=
  [("casual_dining", casual_dining);
   ("fine_dining", mkProfile 55000 100000 3000 12000 55 50);
   ("quick_service", mkProfile 25000 55000 6000 20000 65 25)].

(** [concept_profiles.get(concept, concept_profiles["casual_dining"])] *)
Definition profile_of (concept : string) : Profile :=
  match find (fun kv => String.eqb (fst kv) concept) concept_profiles with
  | Some (_, p) => p
  | None => casual_dining
  end.

(** [_score_density] and [_score_income]: below the range, above it,
    and within it (scored by the distance to the middle). *)
Definition score_in_range (x lo hi below_top above_top above_floor above_span : Q) : res Q :=
  if Qltb x lo then
    r <- py_div (lo - x) lo ;; Ok (py_max (below_top - r * 50) 0)
  else if Qgtb x hi then
    r <- py_div (x - hi) hi ;; Ok (py_max (above_top - r * above_span) above_floor)
  else
    let middle := (lo + hi) / 2 in
    let distance := Qabs (x - middle) in
    let max_distance := (hi - lo) / 2 in
    r <- py_div distance max_distance ;; Ok (100 - r * 10).

Definition score_density (density : Q) (p : Profile) : res Q :=
  score_in_range density (density_min p) (density_max p) 50 75 50 25.

Definition score_income (income : Q) (p : Profile) : res Q :=
  score_in_range income (income_min p) (income_max p) 50 80 60 30.

Definition score_age (age_percent : Q) (p : Profile) : Q :=
  if Qgeb age_percent (target_age_min p) then
    let bonus := py_min ((age_percent - target_age_min p) * 2) 10 in py_min (90 + bonus) 100
  else
    let gap := target_age_min p - age_percent in py_max (70 - gap * 2) 30.

Definition score_education (education_percent : Q) (p : Profile) : Q :=
  if Qgeb education_percent (education_min p) then
    let bonus := py_min ((education_percent - education_min p) * (3 # 2)) 15 in py_min (85 + bonus) 100
  else
    let gap := education_min p - education_percent in py_max (60 - gap * (3 # 2)) 20.

Definition rate_density (density : Q) (p : Profile) : string :=
  if Qltb density (density_min p) then "too low" else if Qgtb density (density_max p) then "too high" else "optimal".

Definition rate_income (income : Q) (p : Profile) : string :=
  if Qltb income (income_min p) then "below target" else if Qgtb income (income_max p) then "above target"
  else "excellent".

Definition rate_age (age_percent : Q) (p : Profile) : string :=
  if Qgeb age_percent (target_age_min p) then "excellent"
  else if Qgeb age_percent (target_age_min p - 5) then "good" else "below target".

Definition rate_education (education_percent : Q) (p : Profile) : string :=
  if Qgeb education_percent (education_min p) then "high"
  else if Qgeb education_percent (education_min p - 10) then "moderate" else "low".

(** [_assess_confidence]: the grid dictionary is always present. *)
Definition assess_confidence (demographics_data : option DemoInput) : string :=
  match demographics_data with Some _ => "high" | None => "medium" end.

Inductive DemoInsight :=
| DensityOptimal (density : Q) (concept : string)
| IncomeMatch (median_income income_min income_max : Q)
| WorkingAge (age_15_64 : Q)
| HigherEducation (higher_ed : Q).

(** The insights, in the order of the four tests. *)
Definition demo_insights (concept : string) (density income age higher_ed : Q) (p : Profile) : list DemoInsight :=
  (if Qgeb density (density_min p) && Qleb density (density_max p) then [DensityOptimal density concept] else []) ++
  (if Qgeb income (income_min p) && Qleb income (income_max p)
   then [IncomeMatch income (income_min p) (income_max p)] else []) ++
  (if Qgeb age (target_age_min p) then [WorkingAge age] else []) ++
  (if Qgeb higher_ed (education_min p) then [HigherEducation higher_ed] else []).

Record DemoResult := mkDemoResult {
  demographic_score : Q;
  d_confidence : string;
  d_population_density : Q;
  population_density_rating : string;
  income_fit : string;
  d_median_income : Q;
  age_fit : string;
  target_age_percent : Q;
  education_fit : string;
  higher_education_percent : Q;
  d_reasoning : string;
  d_insights : list DemoInsight
}.

(** The weighted sum of the four scores. *)
Definition demo_overall (density_score income_score age_score education_score : Q) : Q :=
  density_score * (30 # 100) + income_score * (35 # 100) + age_score * (20 # 100) + education_score * (15 # 100).

Section WithModel.
Variable run : AgentName -> res string.

Definition analyze_demographics (postal_code concept : string) (demographics_data : option DemoInput)
  (population_grid_data : GridInput) : res DemoResult :=
  let from_demo k := match demographics_data with Some d => get_default (k d) 0 | None => PyNum 0 end in
  let population := from_demo di_population in
  let density := get_default (gi_population_density population_grid_data) 0 in
  let median_income := from_demo di_median_income in
  let age_15_64 := from_demo di_age_15_64_percent in
  let higher_ed := from_demo di_higher_education_percent in
  let profile := profile_of concept in
  _ <- format_num population ;;
  _ <- format_num density ;;
  _ <- format_num median_income ;;
  response <- run DEMO ;;
  dens <- num density ;;
  income <- num median_income ;;
  density_score <- score_density dens profile ;;
  income_score <- score_income income profile ;;
  age <- num age_15_64 ;;
  edu <- num higher_ed ;;
  let overall_score := demo_overall density_score income_score (score_age age profile) (score_education edu profile) in
  Ok (mkDemoResult (py_round overall_score 1) (assess_confidence demographics_data) dens
        (rate_density dens profile) (rate_income income profile) income (rate_age age profile) age
        (rate_education edu profile) edu response (demo_insights concept dens income age edu profile)).

End WithModel.

(** ** The four scores *)

Lemma score_in_range_spec x lo hi bt tp af asp s :
  0 < lo < hi -> 0 <= bt <= tp -> 0 <= af <= tp -> tp <= 100 -> 0 <= asp ->
  score_in_range x lo hi bt tp af asp = Ok s ->
  0 <= s <= 100 /\ (x < lo \/ hi < x -> s <= tp).
Proof.
  intros [Hlo Hhi] [Hb Hba] [Haf Hfa] Hat Has. unfold score_in_range, Qltb, Qgtb.
  destruct (Qle_bool_spec lo x) as [H1|H1]; cbn [negb]; [destruct (Qle_bool_spec x hi) as [H2|H2]; cbn [negb]|].
  - rewrite py_div_ok by (apply Qnonzero_of_lt; pose proof (Qdiv_2 (hi - lo)); lra). intros E%Ok_inj; subst s.
    pose proof (Qdiv_2 (lo + hi)). pose proof (Qdiv_2 (hi - lo)).
    assert (Hd : Qabs (x - (lo + hi) / 2) <= (hi - lo) / 2) by (apply Qabs_Qle_condition; lra).
    pose proof (Qdiv_le_one (Qabs (x - (lo + hi) / 2)) ((hi - lo) / 2) ltac:(lra) Hd). pose proof (Qdiv_nonneg _ ((hi - lo) / 2) (Qabs_nonneg (x - (lo + hi) / 2)) ltac:(lra)).
    split; [lra | intros [?|?]; lra].
  - rewrite py_div_ok by (apply Qnonzero_of_lt; lra). intros E%Ok_inj; subst s.
    pose proof (Qdiv_nonneg (x - hi) hi ltac:(lra) ltac:(lra)). unfold py_max, Qgtb.
    destruct (Qle_bool_spec af (tp - (x - hi) / hi * asp)); cbn [negb];
      (split; [nra | intros _; nra]).
  - rewrite py_div_ok by (apply Qnonzero_of_lt; lra). intros E%Ok_inj; subst s.
    pose proof (Qdiv_nonneg (lo - x) lo ltac:(lra) ltac:(lra)). unfold py_max, Qgtb.
    destruct (Qle_bool_spec 0 (bt - (lo - x) / lo * 50)); cbn [negb]; (split; [lra | intros _; lra]).
Qed.

Lemma score_age_range a p : 0 <= score_age a p <= 100 /\ (a < target_age_min p -> score_age a p <= 70).
Proof. unfold score_age, py_min, py_max, Qgeb, Qltb, Qgtb. qsplit. Qed.

Lemma score_education_range e p :
  0 <= score_education e p <= 100 /\ (e < education_min p -> score_education e p <= 60).
Proof. unfold score_education, py_min, py_max, Qgeb, Qltb, Qgtb. qsplit. Qed.

(** Every profile of the table has positive, ordered ranges. *)
Lemma profile_valid concept :
  0 < density_min (profile_of concept) < density_max (profile_of concept) /\
  0 < income_min (profile_of concept) < income_max (profile_of concept).
Proof.
  unfold profile_of. cbn [find concept_profiles fst].
  repeat match goal with |- context [String.eqb ?a ?b] => destruct (String.eqb a b) end;
    cbn [density_min density_max income_min income_max casual_dining]; split; split; reflexivity.
Qed.

(** Without any insight every score is out of its band: the weighted sum
    is_ tp most 73.5. *)
Lemma demo_overall_range ds is_ as_ es :
  0 <= ds <= 100 -> 0 <= is_ <= 100 -> 0 <= as_ <= 100 -> 0 <= es <= 100 ->
  0 <= demo_overall ds is_ as_ es <= 100.
Proof. unfold demo_overall. lra. Qed.

(** The demographic score is in [0, 100], and it reaches 75 only with an
    insight to quote. *)
Lemma analyze_demographics_score run pc concept dd gd r :
  analyze_demographics run pc concept dd gd = Ok r ->
  0 <= demographic_score r <= 100 /\ (d_insights r = [] -> demographic_score r < 75).
Proof.
  unfold analyze_demographics. intros E. res_inv E. injection E as <-. cbn [demographic_score d_insights].
  destruct (profile_valid concept) as [Hd Hi].
  match goal with
  | Ed : score_density ?dn _ = Ok ?ds, Ei : score_income ?inc _ = Ok ?is_ |- _ =>
      destruct (score_in_range_spec dn _ _ 50 75 50 25 ds Hd ltac:(lra) ltac:(lra) ltac:(lra) ltac:(lra) Ed) as [Hds Hdo];
      destruct (score_in_range_spec inc _ _ 50 80 60 30 is_ Hi ltac:(lra) ltac:(lra) ltac:(lra) ltac:(lra) Ei) as [His Hio];
      set (dens := dn) in *; set (income := inc) in *
  end.
  match goal with |- context [score_age ?ag _] => set (age := ag) in * end.
  match goal with |- context [score_education ?ed _] => set (edu := ed) in * end.
  set (p := profile_of concept) in *.
  destruct (score_age_range age p) as [Has Hao]. destruct (score_education_range edu p) as [Hes Heo].
  pose proof (demo_overall_range _ _ _ _ Hds His Has Hes) as Ho.
  split; [apply (py_round_Zrange 0 100); exact Ho|].
  unfold demo_insights, Qgeb, Qleb. intros Hn.
  destruct (Qle_bool_spec (density_min p) dens) as [D1|D1];
  [destruct (Qle_bool_spec dens (density_max p)) as [D2|D2]; [discriminate Hn|]|]; cbn [andb app] in Hn;
  (destruct (Qle_bool_spec (income_min p) income) as [I1|I1];
   [destruct (Qle_bool_spec income (income_max p)) as [I2|I2]; [discriminate Hn|]|]); cbn [andb app] in Hn;
  (destruct (Qle_bool_spec (target_age_min p) age) as [A1|A1]; [discriminate Hn|]); cbn [app] in Hn;
  (destruct (Qle_bool_spec (education_min p) edu) as [F1|F1]; [discriminate Hn|]);
  (apply Qle_lt_trans with (py_round (147 # 2) 1); [apply py_round_mono; unfold demo_overall | vm_compute; reflexivity]);
  specialize (Hdo ltac:(lra)); specialize (Hio ltac:(lra)); specialize (Hao ltac:(lra)); specialize (Heo ltac:(lra)); lra.
Qed.

End DemoAgent.
