(* ===== verification/CompAgent.v ===== *)
(** * CompAgent: src/backend/agents/agno/comp_agent.py

    [CompAgent.analyze_competition] counts the competitors of OSM
    ([OSM.Competitor], the dictionaries of [OSMService.get_competitors]),
    computes the competitors per 1,000 residents and the nearest distance,
    asks the model for a reasoning text, and scores the competition: a
    saturation score from the ratio, a bonus or malus from the nearest
    distance, a penalty for a large count, clamped to [0, 100].

    The nearest distance is [None] without competitors; Python's
    truthiness makes a distance of [0] count as no distance ([truthy_dist]).
    [str.lower()] of the cuisines is [AgentBase.lower]. *)

From S2P Require Import Prelude AgentBase OSM.
Local Open Scope string_scope.

Module CompAgent.

Definition assess_saturation (competitors_per_1k : Q) : string :=
  if Qltb competitors_per_1k 2 then "low" else if Qltb competitors_per_1k 5 then "moderate" else "high".

Definition saturation_score (per_1k : Q) : Q :=
  if Qltb per_1k 2 then 90 else if Qltb per_1k 3 then 75 else if Qltb per_1k 5 then 60
  else if Qltb per_1k 7 then 45 else 30.

Definition distance_bonus (nearest_distance : option Q) : Q :=
  match nearest_distance with
  | Some d => if truthy_dist nearest_distance then
                if Qgtb d 500 then 10 else if Qgtb d 300 then 5 else if Qltb d 100 then -10 else 0
              else 0
  | None => 0
  end.

Definition count_penalty (count : nat) : Q :=
  if (25 <? count)%nat then 15 else if (20 <? count)%nat then 10 else if (15 <? count)%nat then 5 else 0.

(** [_calculate_competition_score]: [max(min(score, 100), 0)]. *)
Definition calculate_competition_score (count : nat) (per_1k : Q) (nearest_distance : option Q) : Q :=
  let score := saturation_score per_1k + distance_bonus nearest_distance - count_penalty count in
  py_max (py_min score 100) 0.

Definition assess_pressure (count : nat) (nearest_distance : option Q) : string :=
  if (count <? 8)%nat && (negb (truthy_dist nearest_distance) ||
                          match nearest_distance with Some d => Qgtb d 300 | None => false end)
  then "low"
  else if (20 <? count)%nat || (truthy_dist nearest_distance &&
                               match nearest_distance with Some d => Qltb d 150 | None => false end)
  then "high" else "medium".

(** [{c.get("cuisine", "").lower() for c in competitors if c.get("cuisine")}] *)
Definition cuisines (competitors : list OSM.Competitor) : list string :=
  map (fun c => lower (OSM.c_cuisine c)) (filter (fun c => negb (String.eqb (OSM.c_cuisine c) "")) competitors).

Definition any_in (l cs : list string) : bool := existsb (fun c => str_in c cs) l.

(** [gap_checks], in the order of the dictionary, and [gaps[:3]]. *)
Definition identify_gaps (competitors : list OSM.Competitor) (concept : string) : list string :=
  let cs := cuisines competitors in
  let gap_checks :=
    [("No vegan-focused restaurants", negb (str_in "vegan" cs));
     ("No fine dining options", negb (str_in "fine_dining" cs));
     ("Limited Asian cuisine", negb (any_in ["asian"; "chinese"; "japanese"; "thai"] cs));
     ("No Mediterranean restaurants", negb (any_in ["mediterranean"; "greek"; "italian"] cs));
     ("Limited breakfast/brunch spots", negb (str_in "breakfast" cs) && negb (str_in "brunch" cs))] in
  firstn 3 (map fst (filter snd gap_checks)).

Inductive CompInsight :=
| FewCompetitors (count : nat)
| ModerateMarket (count : nat)
| CompetitiveMarket (count : nat)
| GoodSeparation (nearest : Q)
| CloseProximity (nearest : Q)
| MarketGap (gap : string).

Definition comp_insights (count : nat) (nearest_distance : option Q) (market_gaps : list string) : list CompInsight :=
  (if (count <? 10)%nat then [FewCompetitors count]
   else if (count <? 20)%nat then [ModerateMarket count] else [CompetitiveMarket count]) ++
  (match nearest_distance with
   | Some d => if truthy_dist nearest_distance && Qgtb d 300 then [GoodSeparation d]
               else if truthy_dist nearest_distance && Qltb d 150 then [CloseProximity d] else []
   | None => []
   end) ++
  (match market_gaps with g :: _ => [MarketGap g] | [] => [] end).

(** [min(...)] of a non-empty list: the first smallest. *)
Definition list_min (x : Q) (l : list Q) : Q := fold_left (fun m y => if Qltb y m then y else m) l x.

Definition nearest_of (competitors : list OSM.Competitor) : option Q :=
  match map OSM.c_distance_m competitors with d :: ds => Some (list_min d ds) | [] => None end.

Record CompResult := mkCompResult {
  competition_score : Q;
  c_confidence : string;
  competitor_count : nat;
  saturation_level : string;
  competitors_per_1k : Q;
  nearest_competitor_m : option Q;
  competitive_pressure : string;
  market_gaps : list string;
  c_reasoning : string;
  c_insights : list CompInsight;
  top_competitors : list OSM.Competitor
}.

Section WithModel.
Variable run : AgentName -> res string.

Definition analyze_competition (concept : string) (competitors : list OSM.Competitor) (population : pyval)
  : res CompResult :=
  let count := length competitors in
  pop <- num population ;;
  per_1k <- (if Qgtb pop 0 then py_div (inject_Z (Z.of_nat count)) (pop / 1000) else Ok 0) ;;
  let nearest_distance := nearest_of competitors in
  response <- run COMP ;;
  let score := calculate_competition_score count per_1k nearest_distance in
  let gaps := identify_gaps competitors concept in
  Ok (mkCompResult (py_round score 1)
        (if Qgtb pop 0 && negb (match competitors with [] => true | _ => false end) then "high" else "medium")
        count (assess_saturation per_1k) (py_round per_1k 2) nearest_distance
        (assess_pressure count nearest_distance) gaps response (comp_insights count nearest_distance gaps)
        (firstn 5 competitors)).

End WithModel.

(** ** The score and the insights *)

Lemma calculate_competition_score_range count per_1k nearest :
  0 <= calculate_competition_score count per_1k nearest <= 100.
Proof.
  unfold calculate_competition_score. split; [apply py_max_ge_r|].
  apply py_max_lub; [apply py_min_le_r | lra].
Qed.

(** The first insight, on the count, is always there. *)
Lemma comp_insights_nonempty count nearest gaps : comp_insights count nearest gaps <> [].
Proof.
  unfold comp_insights. destruct (count <? 10)%nat; [|destruct (count <? 20)%nat]; discriminate.
Qed.

Lemma analyze_competition_spec run concept competitors population r :
  analyze_competition run concept competitors population = Ok r ->
  0 <= competition_score r <= 100 /\ c_insights r <> [].
Proof.
  unfold analyze_competition. intros H. res_inv H. apply Ok_inj in H. subst r. cbn.
  split; [apply (py_round_Zrange 0 100), calculate_competition_score_range | apply comp_insights_nonempty].
Qed.

End CompAgent.
