(* ===== verification/TransitAgent.v ===== *)
(** * TransitAgent: src/backend/agents/agno/transit_agent.py

    [TransitAgent.analyze_transit] reads the nearest metro and tram
    distances and the stop lists of the transit dictionary
    ([OSM.Transit], what [OSMService.get_transit_stops] returns), asks the
    model for a reasoning text, and scores the access: up to 50 points for
    the metro, 40 for the tram and a bonus of 10 for several stops, capped
    at 100; the walkability score is a step function of the POI count; the
    transit score is [0.7 * transit + 0.3 * walkability], rounded.

    The insights quote the distances under Python's truthiness: a stop at
    0 m gives none ([truthy_dist]). *)

From S2P Require Import Prelude AgentBase OSM.
Local Open Scope string_scope.

Module TransitAgent.

Definition metro_points (metro_distance : option Q) : Q :=
  match metro_distance with
  | Some d => if Qltb d 200 then 50 else if Qltb d 300 then 45 else if Qltb d 400 then 38
              else if Qltb d 500 then 30 else if Qltb d 600 then 20 else 10
  | None => 0
  end.

Definition tram_points (tram_distance : option Q) : Q :=
  match tram_distance with
  | Some d => if Qltb d 150 then 40 else if Qltb d 250 then 35 else if Qltb d 350 then 28
              else if Qltb d 500 then 20 else 10
  | None => 0
  end.

Definition multi_bonus (metro_count tram_count : nat) : Q :=
  if (1 <? metro_count)%nat || (2 <? tram_count)%nat
  then inject_Z (Z.of_nat (Nat.min (metro_count + tram_count * 2) 10)) else 0.

(** [_calculate_transit_score] *)
Definition calculate_transit_score (metro_distance tram_distance : option Q) (metro_count tram_count : nat) : Q :=
  py_min (metro_points metro_distance + tram_points tram_distance + multi_bonus metro_count tram_count) 100.

(** [_calculate_walkability_score] *)
Definition calculate_walkability_score (poi_count : Q) : Q :=
  if Qgeb poi_count 50 then 100 else if Qgeb poi_count 40 then 90 else if Qgeb poi_count 30 then 75
  else if Qgeb poi_count 20 then 60 else if Qgeb poi_count 10 then 45 else py_max (poi_count * 3) 20.

(** [min([d for d in [metro, tram] if d is not None], default=None)] *)
Definition best_distance (metro_distance tram_distance : option Q) : option Q :=
  match metro_distance, tram_distance with
  | Some m, Some t => Some (py_min m t)
  | Some m, None => Some m
  | None, t => t
  end.

Definition rate_transit_access (metro_distance tram_distance : option Q) : string :=
  match best_distance metro_distance tram_distance with
  | None => "poor"
  | Some b => if Qltb b 200 then "excellent" else if Qltb b 400 then "good" else if Qltb b 600 then "fair" else "poor"
  end.

Definition rate_walkability (poi_count : Q) : string :=
  if Qgeb poi_count 40 then "high" else if Qgeb poi_count 20 then "moderate" else "low".

(** [_generate_summary]: the two dictionaries and their defaults. *)
Definition generate_summary (transit_rating walkability_rating : string) : string :=
  let transit_desc :=
    if String.eqb transit_rating "excellent" then "Excellent public transit access"
    else if String.eqb transit_rating "good" then "Good public transit access"
    else if String.eqb transit_rating "fair" then "Fair public transit access"
    else if String.eqb transit_rating "poor" then "Limited public transit access"
    else "Transit access unknown" in
  let walk_desc :=
    if String.eqb walkability_rating "high" then "highly walkable area"
    else if String.eqb walkability_rating "moderate" then "moderately walkable area"
    else if String.eqb walkability_rating "low" then "low walkability area" else "area" in
  transit_desc ++ " in " ++ walk_desc.

Definition assess_confidence (transit_data : OSM.Transit) (poi_count : Q) : string :=
  let has_metro := match OSM.t_nearest_metro transit_data with Some _ => true | None => false end in
  let has_tram := match OSM.t_nearest_tram transit_data with Some _ => true | None => false end in
  let has_walkability := Qgtb poi_count 0 in
  if has_metro && has_tram && has_walkability then "high"
  else if (has_metro || has_tram) && has_walkability then "medium" else "low".

Inductive TransitInsight :=
| TramAccess (tram_distance : Q)
| MetroConnectivity (metro_distance : Q)
| VibrantArea (poi_count : Q)
| ModerateFootTraffic (poi_count : Q).

Definition transit_insights (metro_distance tram_distance : option Q) (poi_count : Q) : list TransitInsight :=
  (match tram_distance with
   | Some d => if truthy_dist tram_distance && Qltb d 200 then [TramAccess d] else []
   | None => [] end) ++
  (match metro_distance with
   | Some d => if truthy_dist metro_distance && Qltb d 300 then [MetroConnectivity d] else []
   | None => [] end) ++
  (if Qgtb poi_count 40 then [VibrantArea poi_count]
   else if Qgtb poi_count 20 then [ModerateFootTraffic poi_count] else []).

Record TransitResult := mkTransitResult {
  transit_score : Q;
  t_confidence : string;
  nearest_metro_m : option Q;
  nearest_tram_m : option Q;
  metro_stations_nearby : nat;
  tram_stops_nearby : nat;
  transit_access_rating : string;
  walkability_score : Q;
  walkability_poi_count : Q;
  walkability_rating : string;
  accessibility_summary : string;
  t_reasoning : string;
  t_insights : list TransitInsight
}.

Definition transit_overall (transit_score walkability_score : Q) : Q :=
  transit_score * (7 # 10) + walkability_score * (3 # 10).

Section WithModel.
Variable run : AgentName -> res string.

(** The prompt formats the values without a format specification; the
    POI count is compared after the model's answer, where [None] raises. *)
Definition analyze_transit (transit_data : OSM.Transit) (walkability_poi_count : pyval) : res TransitResult :=
  let metro_distance := OSM.t_nearest_metro transit_data in
  let tram_distance := OSM.t_nearest_tram transit_data in
  let metro_count := length (OSM.t_metro_stations transit_data) in
  let tram_count := length (OSM.t_tram_stops transit_data) in
  response <- run TRANSIT ;;
  let ts := calculate_transit_score metro_distance tram_distance metro_count tram_count in
  poi <- num walkability_poi_count ;;
  let ws := calculate_walkability_score poi in
  let transit_rating := rate_transit_access metro_distance tram_distance in
  let walkability_rating := rate_walkability poi in
  Ok (mkTransitResult (py_round (transit_overall ts ws) 1) (assess_confidence transit_data poi)
        metro_distance tram_distance metro_count tram_count transit_rating ws poi walkability_rating
        (generate_summary transit_rating walkability_rating) response
        (transit_insights metro_distance tram_distance poi)).

End WithModel.

(** ** Ranges of the scores *)

Lemma metro_points_range m : 0 <= metro_points m <= 50.
Proof. destruct m as [d|]; cbn; [qsplit | lra]. Qed.

Lemma tram_points_range t : 0 <= tram_points t <= 40.
Proof. destruct t as [d|]; cbn; [qsplit | lra]. Qed.

Lemma multi_bonus_range mc tc : 0 <= multi_bonus mc tc <= 10.
Proof.
  unfold multi_bonus. destruct (_ || _); [|lra].
  rewrite <- (Nat2Z.id 10) at 2. change 0 with (inject_Z 0). change 10 with (inject_Z 10).
  rewrite <- !Zle_Qle. lia.
Qed.

Lemma calculate_transit_score_range m t mc tc : 0 <= calculate_transit_score m t mc tc <= 100.
Proof.
  unfold calculate_transit_score.
  pose proof (metro_points_range m). pose proof (tram_points_range t). pose proof (multi_bonus_range mc tc).
  split; [apply py_min_glb; lra | apply py_min_le_r].
Qed.

Lemma calculate_walkability_score_range poi : 20 <= calculate_walkability_score poi <= 100.
Proof.
  unfold calculate_walkability_score. qsplit.
  split; [apply py_max_ge_r | apply py_max_lub; lra].
Qed.

Lemma analyze_transit_range run transit_data poi t :
  analyze_transit run transit_data poi = Ok t -> 0 <= transit_score t <= 100.
Proof.
  unfold analyze_transit. intros H. res_inv H. apply Ok_inj in H. subst t. cbn.
  apply (py_round_Zrange 0 100). unfold transit_overall.
  match goal with |- context [calculate_transit_score ?m ?t ?a ?b] =>
    pose proof (calculate_transit_score_range m t a b) end.
  match goal with |- context [calculate_walkability_score ?p] => pose proof (calculate_walkability_score_range p) end.
  change (inject_Z 0) with 0. change (inject_Z 100) with 100.
  set (x := calculate_transit_score _ _ _ _) in *. set (y := calculate_walkability_score _) in *. lra.
Qed.

End TransitAgent.
