(* ===== verification/RiskAgent.v ===== *)
(** * RiskAgent: src/backend/agents/agno/risk_agent.py

    [RiskAgent.assess_risk_and_confidence] reads the confidence and score
    of the four earlier agents ([GeoAgent], [DemoAgent], [CompAgent],
    [TransitAgent]), asks the model for a reasoning text, and computes an
    overall confidence ([0.6] of the mean confidence level, [0.4] of the
    mean score), the risk factors, the missing data, a risk level, a
    confidence rating, recommendations and a transparency warning.

    The agents' dictionaries are read through their result records; the
    keys the risk agent reads with a default are always present in them,
    except on the geocoding failure ([GeoAgent.geo_confidence] and
    [GeoAgent.geo_quality] give the failure dictionary's values). *)

From S2P Require Import Prelude AgentBase GeoAgent DemoAgent CompAgent TransitAgent.
Local Open Scope string_scope.

Module RiskAgent.

(** [confidence_scores.get(c, 70)] *)
Definition confidence_level (c : string) : Q :=
  if String.eqb c "high" then 90 else if String.eqb c "medium" then 70 else if String.eqb c "low" then 40 else 70.

Inductive Severity := SevHigh | SevMedium.

Inductive RiskFactor :=
| HighCompetition (competitor_count : nat)
| LimitedTransit
| DemographicMismatch
| DataQualityConcerns.

Definition severity (f : RiskFactor) : Severity :=
  match f with DemographicMismatch => SevHigh | _ => SevMedium end.

(** The ["factor"] text of each risk factor. *)
Definition factor_name (f : RiskFactor) : string :=
  match f with
  | HighCompetition _ => "High competition"
  | LimitedTransit => "Limited transit access"
  | DemographicMismatch => "Demographic mismatch"
  | DataQualityConcerns => "Data quality concerns"
  end.

Definition risk_factors (competitor_count : nat) (transit_rating : string) (demo_score overall_confidence : Q)
  : list RiskFactor :=
  (if (20 <? competitor_count)%nat then [HighCompetition competitor_count] else []) ++
  (if String.eqb transit_rating "poor" then [LimitedTransit] else []) ++
  (if Qltb demo_score 60 then [DemographicMismatch] else []) ++
  (if Qltb overall_confidence 70 then [DataQualityConcerns] else []).

Definition missing_data (has_postal_code : bool) (demo_score : Q) : list string :=
  (if negb has_postal_code then ["Postal code data"] else []) ++
  (if Qltb demo_score 50 then ["Complete demographic data"] else []) ++
  ["Crime statistics"; "Foot traffic counts"; "Parking availability"; "Rent/lease costs"].

Definition risk_level (overall_confidence : Q) (nfactors : nat) : string :=
  if Qgeb overall_confidence 80 && (nfactors <? 2)%nat then "low"
  else if Qgeb overall_confidence 65 && (nfactors <? 3)%nat then "medium" else "high".

Definition confidence_rating (overall_confidence : Q) : string :=
  if Qgeb overall_confidence 85 then "very high" else if Qgeb overall_confidence 75 then "high"
  else if Qgeb overall_confidence 60 then "medium" else "low".

Inductive Recommendation := FootTrafficData | DifferentiationAnalysis | OnSiteVisit.

Definition recommendations (transit_score : Q) (competitor_count : nat) (overall_confidence : Q) : list Recommendation :=
  (if Qltb transit_score 70 then [FootTrafficData] else []) ++
  (if (15 <? competitor_count)%nat then [DifferentiationAnalysis] else []) ++
  (if Qltb overall_confidence 75 then [OnSiteVisit] else []).

(** [_generate_transparency_warning]: the warning text's data. *)
Inductive Warning :=
| RiskWarning (confidence_rating risk_level : string) (missing : list string)
| NoteWarning (confidence_rating : string).

Definition transparency_warning (rating level : string) (missing : list string) : option Warning :=
  if String.eqb rating "low" || String.eqb level "high" then Some (RiskWarning rating level (firstn 3 missing))
  else if String.eqb rating "medium" || String.eqb level "medium" then Some (NoteWarning rating) else None.

(** [avg_confidence * 0.6 + data_quality_avg * 0.4] *)
Definition overall_of (avg_confidence data_quality_avg : Q) : Q :=
  avg_confidence * (6 # 10) + data_quality_avg * (4 # 10).

Record DataCoverage := mkDataCoverage { cov_geocoding : Q; cov_demographics : Q; cov_competition : Q; cov_transit : Q }.

Record RiskResult := mkRiskResult {
  overall_confidence : Q;
  r_confidence_rating : string;
  data_quality_score : Q;
  r_risk_level : string;
  r_missing_data : list string;
  r_risk_factors : list RiskFactor;
  data_coverage : DataCoverage;
  r_reasoning : string;
  r_recommendations : list Recommendation;
  r_transparency_warning : option Warning
}.

Section WithModel.
Variable run : AgentName -> res string.

Definition assess_risk_and_confidence (geo : GeoAgent.GeoResult) (demo : DemoAgent.DemoResult)
  (comp : CompAgent.CompResult) (transit : TransitAgent.TransitResult) : res RiskResult :=
  let geo_quality := inject_Z (GeoAgent.geo_quality geo) in
  let demo_score := DemoAgent.demographic_score demo in
  let comp_score := CompAgent.competition_score comp in
  let transit_score := TransitAgent.transit_score transit in
  let count := CompAgent.competitor_count comp in
  response <- run RISK ;;
  let avg_confidence :=
    (confidence_level (GeoAgent.geo_confidence geo) + confidence_level (DemoAgent.d_confidence demo) +
     confidence_level (CompAgent.c_confidence comp) + confidence_level (TransitAgent.t_confidence transit)) / 4 in
  let data_quality_avg := (geo_quality + demo_score + comp_score + transit_score) / 4 in
  let oc := overall_of avg_confidence data_quality_avg in
  let factors := risk_factors count (TransitAgent.transit_access_rating transit) demo_score oc in
  let missing := missing_data (GeoAgent.geo_has_postal_code geo) demo_score in
  let level := risk_level oc (length factors) in
  let rating := confidence_rating oc in
  Ok (mkRiskResult (py_round oc 1) rating (py_round data_quality_avg 1) level (firstn 5 missing) factors
        (mkDataCoverage (py_round geo_quality 1) (py_round (py_min demo_score 100) 1)
           (py_round (py_min comp_score 100) 1) (py_round (py_min transit_score 100) 1))
        response (recommendations transit_score count oc) (transparency_warning rating level missing)).

End WithModel.

(** ** The overall confidence *)

Lemma confidence_level_range c : 40 <= confidence_level c <= 90.
Proof.
  unfold confidence_level.
  repeat match goal with |- context [if ?b then _ else _] => destruct b end; lra.
Qed.

(** With every score in [0, 100], the overall confidence lies in
    [0.6 * 40 + 0, 0.6 * 90 + 0.4 * 100]. *)
Lemma assess_risk_bounds run geo demo comp transit r :
  (0 <= GeoAgent.geo_quality geo <= 100)%Z ->
  0 <= DemoAgent.demographic_score demo <= 100 -> 0 <= CompAgent.competition_score comp <= 100 ->
  0 <= TransitAgent.transit_score transit <= 100 ->
  assess_risk_and_confidence run geo demo comp transit = Ok r -> 24 <= overall_confidence r <= 94.
Proof.
  intros Hg Hd Hc Ht H. unfold assess_risk_and_confidence in H. res_inv H. apply Ok_inj in H. subst r. cbn.
  apply (py_round_Zrange 24 94). change (inject_Z 24) with 24. change (inject_Z 94) with 94. unfold overall_of.
  assert (Hq : 0 <= inject_Z (GeoAgent.geo_quality geo) <= 100).
  { change 0 with (inject_Z 0). change 100 with (inject_Z 100). rewrite <- !Zle_Qle. exact Hg. }
  pose proof (confidence_level_range (GeoAgent.geo_confidence geo)).
  pose proof (confidence_level_range (DemoAgent.d_confidence demo)).
  pose proof (confidence_level_range (CompAgent.c_confidence comp)).
  pose proof (confidence_level_range (TransitAgent.t_confidence transit)).
  rewrite !(Qdiv_Zpos _ 4). lra.
Qed.

End RiskAgent.
