(* ===== verification/RevenueAgent.v ===== *)
(** * RevenueAgent: src/backend/agents/agno/revenue_agent.py

    [RevenueAgent.predict_revenue] reads the four scores of the earlier
    agents and the risk agent's overall confidence, asks the model for a
    reasoning text, and predicts the monthly revenue: the concept's base
    ([avg_check * daily_covers * operating_days]) plus one adjustment per
    factor ([base * weight * (score - 50) / 50]) and a location adjustment
    from the geographic context; the pessimistic and optimistic revenues
    scale it by the confidence; the opportunity score weighs the four
    scores; the key drivers are sorted by the absolute value of their
    contribution, largest first ([Sorting.sort_by], stable as Python's
    [sort(reverse=True)]). *)

From S2P Require Import Prelude AgentBase Sorting GeoAgent DemoAgent CompAgent TransitAgent RiskAgent.
From Stdlib Require Import Permutation.
Local Open Scope string_scope.

Module RevenueAgent.

Record ConceptParams := mkConceptParams { avg_check : Q; daily_covers : Q; operating_days : Q }.

(** [params.get(concept, params["casual_dining"])] *)
Definition get_concept_parameters (concept : string) : ConceptParams :=
  if String.eqb concept "fine_dining" then mkConceptParams 85 50 24
  else if String.eqb concept "quick_service" then mkConceptParams 12 250 28
  else mkConceptParams 28 120 26.

Definition base_revenue (p : ConceptParams) : Q := avg_check p * daily_covers p * operating_days p.

(** [_calculate_adjustment]: [base * weight * ((score - 50) / 50)]. *)
Definition calculate_adjustment (score base weight : Q) : Q :=
  let normalized := (score - 50) / 50 in
  let max_adjustment := base * weight in
  max_adjustment * normalized.

(** [multipliers.get(context, 0.0)]; [None] is no key. *)
Definition location_multiplier (context : option string) : Q :=
  match context with
  | Some c => if String.eqb c "dense urban core" then 1 else if String.eqb c "suburban/small city" then 1 # 2 else 0
  | None => 0
  end.

Definition calculate_location_adjustment (context : option string) (base weight : Q) : Q :=
  base * weight * location_multiplier context.

Definition rate_confidence (confidence : Q) : string :=
  if Qgeb confidence 85 then "very high" else if Qgeb confidence 75 then "high"
  else if Qgeb confidence 60 then "medium" else "low".

Definition impact (score : Q) : string :=
  if Qgtb score 75 then "positive" else if Qgtb score 60 then "neutral" else "negative".

Inductive Factor := Demographics | Competition | TransitAccess | LocationQuality.

Record Driver := mkDriver { factor : Factor; d_impact : string; weight : Q; d_score : Q; contribution : Q }.

Definition key_drivers (demo_score comp_score transit_score confidence demo_adj comp_adj transit_adj location_adj : Q)
  : list Driver :=
  sort_by (fun d => Qabs (contribution d))
    [mkDriver Demographics (impact demo_score) (35 # 100) demo_score demo_adj;
     mkDriver Competition (impact comp_score) (25 # 100) comp_score comp_adj;
     mkDriver TransitAccess (impact transit_score) (20 # 100) transit_score transit_adj;
     mkDriver LocationQuality (if Qgtb confidence 75 then "positive" else "neutral") (20 # 100) confidence location_adj].

Definition opportunity_of (demo_score comp_score transit_score confidence : Q) : Q :=
  demo_score * (35 # 100) + comp_score * (25 # 100) + transit_score * (20 # 100) + confidence * (20 # 100).

Record RevenueRange := mkRevenueRange { pessimistic : Q; realistic : Q; optimistic : Q }.

Record RevenueResult := mkRevenueResult {
  opportunity_score : Q;
  predicted_monthly_revenue : Q;
  revenue_confidence : string;
  revenue_range : RevenueRange;
  v_key_drivers : list Driver;
  v_reasoning : string;
  v_base_revenue : Q
}.

Section WithModel.
Variable run : AgentName -> res string.

Definition predict_revenue (concept : string) (geo : GeoAgent.GeoResult) (demo : DemoAgent.DemoResult)
  (comp : CompAgent.CompResult) (transit : TransitAgent.TransitResult) (risk : RiskAgent.RiskResult)
  : res RevenueResult :=
  let demo_score := DemoAgent.demographic_score demo in
  let comp_score := CompAgent.competition_score comp in
  let transit_score := TransitAgent.transit_score transit in
  let confidence := RiskAgent.overall_confidence risk in
  let params := get_concept_parameters concept in
  response <- run REVENUE ;;
  let base := base_revenue params in
  let demo_adj := calculate_adjustment demo_score base (35 # 100) in
  let comp_adj := calculate_adjustment comp_score base (25 # 100) in
  let transit_adj := calculate_adjustment transit_score base (20 # 100) in
  let location_adj := calculate_location_adjustment (GeoAgent.geo_context geo) base (20 # 100) in
  let realistic_revenue := base + demo_adj + comp_adj + transit_adj + location_adj in
  let confidence_factor := confidence / 100 in
  let pessimistic_revenue := realistic_revenue * ((65 # 100) + (15 # 100) * confidence_factor) in
  let optimistic_revenue := realistic_revenue * ((120 # 100) + (10 # 100) * confidence_factor) in
  Ok (mkRevenueResult (py_round (opportunity_of demo_score comp_score transit_score confidence) 1)
        (py_round realistic_revenue 0) (rate_confidence confidence)
        (mkRevenueRange (py_round pessimistic_revenue 0) (py_round realistic_revenue 0) (py_round optimistic_revenue 0))
        (key_drivers demo_score comp_score transit_score confidence demo_adj comp_adj transit_adj location_adj)
        response (py_round base 0)).

End WithModel.

(** ** The prediction *)

Lemma location_multiplier_range c : 0 <= location_multiplier c <= 1.
Proof.
  unfold location_multiplier. destruct c as [c|]; [|lra].
  repeat match goal with |- context [if ?b then _ else _] => destruct b end; lra.
Qed.

(** The base revenue of each concept: 87,360, 102,000 or 84,000 euros. *)
Lemma base_revenue_cases concept :
  base_revenue (get_concept_parameters concept) = 87360 \/ base_revenue (get_concept_parameters concept) = 102000 \/
  base_revenue (get_concept_parameters concept) = 84000.
Proof.
  unfold get_concept_parameters.
  repeat match goal with |- context [if ?b then _ else _] => destruct b end; cbv; auto.
Qed.

(** [realistic] stays above a fifth of the base: each adjustment takes at
    most its weight's share, and the four weights sum to 0.8 below. *)
Lemma realistic_lower base d c t m :
  0 < base -> 0 <= d <= 100 -> 0 <= c <= 100 -> 0 <= t <= 100 -> 0 <= m <= 1 ->
  base * (2 # 10) <= base + calculate_adjustment d base (35 # 100) + calculate_adjustment c base (25 # 100)
                     + calculate_adjustment t base (20 # 100) + base * (20 # 100) * m.
Proof.
  intros Hb Hd Hc Ht Hm. unfold calculate_adjustment. rewrite !(Qdiv_Zpos _ 50).
  assert (0 <= base * m) by (apply Qmult_le_0_compat; lra). nra.
Qed.

Lemma scaled_le r a b : 0 <= r -> a <= b -> r * a <= r * b.
Proof. intros Hr Hab. rewrite !(Qmult_comm r). apply Qmult_le_compat_r; assumption. Qed.

Lemma predict_revenue_range run concept geo demo comp transit risk v :
  0 <= DemoAgent.demographic_score demo <= 100 -> 0 <= CompAgent.competition_score comp <= 100 ->
  0 <= TransitAgent.transit_score transit <= 100 -> 0 <= RiskAgent.overall_confidence risk <= 100 ->
  predict_revenue run concept geo demo comp transit risk = Ok v ->
  16800 <= realistic (revenue_range v) /\
  pessimistic (revenue_range v) <= realistic (revenue_range v) <= optimistic (revenue_range v).
Proof.
  intros Hd Hc Ht Hr H. unfold predict_revenue in H. res_inv H. apply Ok_inj in H. subst v. cbn.
  set (base := base_revenue _).
  assert (Hb : 84000 <= base) by (destruct (base_revenue_cases concept) as [Eb|[Eb|Eb]]; unfold base; rewrite Eb; lra).
  pose proof (location_multiplier_range (GeoAgent.geo_context geo)).
  unfold calculate_location_adjustment.
  match goal with |- context [py_round ?x 0] =>
    match x with base + _ + _ + _ + _ => set (real := x) end end.
  assert (Hreal : 16800 <= real).
  { apply Qle_trans with (base * (2 # 10)); [lra | apply realistic_lower; lra]. }
  rewrite !(Qdiv_Zpos _ 100). set (cf := RiskAgent.overall_confidence risk * (1 # 100)).
  assert (Hcf : 0 <= cf <= 1) by (unfold cf; lra).
  split; [|split]; apply py_round_mono || (rewrite <- (py_round_Z 16800 0); apply py_round_mono).
  - exact Hreal.
  - rewrite <- (Qmult_1_r real) at 2. apply scaled_le; lra.
  - rewrite <- (Qmult_1_r real) at 1. apply scaled_le; lra.
Qed.

Lemma predict_revenue_drivers run concept geo demo comp transit risk v :
  predict_revenue run concept geo demo comp transit risk = Ok v -> v_key_drivers v <> [].
Proof.
  unfold predict_revenue. intros H. res_inv H. apply Ok_inj in H. subst v. cbn [v_key_drivers].
  unfold key_drivers. match goal with |- sort_by ?k ?l <> [] => destruct (sort_by_spec k l) as [P _] end.
  intros Hn. rewrite Hn in P. apply Permutation_length in P. discriminate P.
Qed.

Lemma predict_revenue_realistic run concept geo demo comp transit risk v :
  predict_revenue run concept geo demo comp transit risk = Ok v ->
  predicted_monthly_revenue v = realistic (revenue_range v).
Proof. unfold predict_revenue. intros H. res_inv H. apply Ok_inj in H. now subst v. Qed.

(** The location driver contributes the base's 20 % scaled by the
    context's multiplier. *)
Lemma predict_revenue_location run concept geo demo comp transit risk v d :
  predict_revenue run concept geo demo comp transit risk = Ok v -> In d (v_key_drivers v) ->
  factor d = LocationQuality ->
  contribution d = base_revenue (get_concept_parameters concept) * (20 # 100) * location_multiplier (GeoAgent.geo_context geo).
Proof.
  unfold predict_revenue. intros H Hin Hf. res_inv H. apply Ok_inj in H. subst v. cbn [v_key_drivers] in Hin.
  unfold key_drivers in Hin. match type of Hin with In d (sort_by ?k ?l) => destruct (sort_by_spec k l) as [P _] end.
  apply (Permutation_in _ (Permutation_sym P)) in Hin.
  destruct Hin as [<-|[<-|[<-|[<-|[]]]]]; cbn in Hf |- *; [discriminate..|reflexivity].
Qed.

Lemma predict_revenue_opportunity run concept geo demo comp transit risk v :
  0 <= DemoAgent.demographic_score demo <= 100 -> 0 <= CompAgent.competition_score comp <= 100 ->
  0 <= TransitAgent.transit_score transit <= 100 -> 0 <= RiskAgent.overall_confidence risk <= 100 ->
  predict_revenue run concept geo demo comp transit risk = Ok v -> 0 <= opportunity_score v <= 100.
Proof.
  intros Hd Hc Ht Hr H. unfold predict_revenue in H. res_inv H. apply Ok_inj in H. subst v. cbn.
  apply (py_round_Zrange 0 100). change (inject_Z 0) with 0. change (inject_Z 100) with 100.
  unfold opportunity_of. lra.
Qed.

End RevenueAgent.
