(* ===== verification/Orchestrator.v ===== *)
(** * Orchestrator: src/backend/agents/agno/orchestrator.py

    [OrchestratorAgent.analyze_site] calls the six specialist agents in
    order (GEO, DEMO, COMP, TRANSIT, RISK, REVENUE), each on the raw data
    and the results of the earlier ones, and then [_synthesize_analysis]:
    a recommendation from the opportunity score and the overall confidence,
    the key strengths quoting the first insight of each agent whose score
    reaches 75, the key concerns from the risk factors, the action items
    from the risk agent's recommendations, and an executive summary.

    [raw_data] is the record [RawData]: the keys the orchestrator reads
    with a default are modelled with the default applied ([competitors]
    [[]], [transit] [{}], [walkability_poi_count] [0]); the grid's
    [total_population] is a [pyval] whose absence gives [10000].  The
    geocoder of [data_services] and the model's [run] are Section
    variables. *)

From S2P Require Import Prelude AgentBase OSM Digitransit GeoAgent DemoAgent CompAgent TransitAgent RiskAgent RevenueAgent.
Local Open Scope string_scope.
Local Open Scope list_scope.

Module Orchestrator.

Record RawData := mkRawData {
  rd_postal_code : string;
  rd_demographics : option DemoAgent.DemoInput;
  rd_population_grid : DemoAgent.GridInput;
  rd_competitors : list OSM.Competitor;
  rd_transit : OSM.Transit;
  rd_walkability_poi_count : pyval
}.

Inductive Recommendation := HighlyRecommended | Recommended | ConsiderAlternatives | NotRecommended.

(** The rule of the code (lines 282-293). *)
Definition recommend (opportunity_score confidence : Q) : Recommendation :=
  if Qgeb opportunity_score 85 && Qgeb confidence 80 then HighlyRecommended
  else if Qgeb opportunity_score 70 && Qgeb confidence 65 then Recommended
  else if Qgeb opportunity_score 55 || Qgeb confidence 65 then ConsiderAlternatives
  else NotRecommended.

(** The rule the synthesis prompt states to the model (lines 254-258),
    read as a list of cases whose first match applies. *)
Definition prompt_recommendation (opportunity_score confidence : Q) : Recommendation :=
  if Qgeb opportunity_score 85 && Qgeb confidence 80 then HighlyRecommended
  else if Qgeb opportunity_score 70 && Qgeb confidence 65 then Recommended
  else if Qgeb opportunity_score 55 || Qltb confidence 65 then ConsiderAlternatives
  else NotRecommended.

Inductive Strength :=
| StrongDemographics (i : DemoAgent.DemoInsight)
| LowCompetition (i : CompAgent.CompInsight)
| ExcellentAccess (i : TransitAgent.TransitInsight).

Inductive Concern := RiskConcern (f : RiskAgent.RiskFactor) | NoMajorConcerns.

Inductive ActionItem := FromRisk (r : RiskAgent.Recommendation) | ProceedWithSiteVisit.

(** The executive summary's data: the recommendation, the concept, the
    score, the confidence, the revenue and the first strength, if any. *)
Record Summary := mkSummary {
  s_recommendation : Recommendation; s_concept : string; s_score : Q; s_confidence : Q;
  s_revenue : Q; s_first_strength : option Strength
}.

Record Synthesis := mkSynthesis {
  recommendation : Recommendation;
  executive_summary : Summary;
  key_strengths : list Strength;
  key_concerns : list Concern;
  action_items : list ActionItem;
  y_reasoning : string
}.

(** [key_strengths], in the order of the code: each [.get('insights',
    [...])[0]] raises on an empty list of insights. *)
Definition strengths (demo : DemoAgent.DemoResult) (comp : CompAgent.CompResult)
  (transit : TransitAgent.TransitResult) : res (list Strength) :=
  s1 <- (if Qgeb (DemoAgent.demographic_score demo) 75
         then i <- item0 (DemoAgent.d_insights demo) ;; Ok [StrongDemographics i] else Ok []) ;;
  s2 <- (if Qgeb (CompAgent.competition_score comp) 75
         then i <- item0 (CompAgent.c_insights comp) ;; Ok [LowCompetition i] else Ok []) ;;
  s3 <- (if Qgeb (TransitAgent.transit_score transit) 75
         then i <- item0 (TransitAgent.t_insights transit) ;; Ok [ExcellentAccess i] else Ok []) ;;
  Ok (s1 ++ s2 ++ s3).

(** Every risk factor has severity ["high"] or ["medium"]. *)
Definition concerns (factors : list RiskAgent.RiskFactor) : list Concern :=
  match map RiskConcern factors with [] => [NoMajorConcerns] | cs => cs end.

Definition actions (rs : list RiskAgent.Recommendation) : list ActionItem :=
  match map FromRisk rs with [] => [ProceedWithSiteVisit] | a => a end.

Record SiteAnalysis := mkSiteAnalysis {
  a_address : string; a_concept : string;
  a_opportunity_score : Q; a_predicted_monthly_revenue : Q;
  a_confidence : Q; a_confidence_rating : string;
  a_recommendation : Recommendation; a_executive_summary : Summary;
  geo_analysis : GeoAgent.GeoResult; demographic_analysis : DemoAgent.DemoResult;
  competition_analysis : CompAgent.CompResult; transit_analysis : TransitAgent.TransitResult;
  risk_analysis : RiskAgent.RiskResult; revenue_analysis : RevenueAgent.RevenueResult;
  a_key_strengths : list Strength; a_key_concerns : list Concern; a_action_items : list ActionItem
}.

Section WithAgents.
Variable geocoder : string -> res (option GeoAgent.GeocodeDict).
Variable run : AgentName -> res string.

(** The prompt indexes [key_drivers[0]]; then the model answers. *)
Definition synthesize_analysis (concept : string) (demo : DemoAgent.DemoResult) (comp : CompAgent.CompResult)
  (transit : TransitAgent.TransitResult) (risk : RiskAgent.RiskResult) (revenue : RevenueAgent.RevenueResult)
  : res Synthesis :=
  let opportunity_score := RevenueAgent.opportunity_score revenue in
  let predicted_revenue := RevenueAgent.predicted_monthly_revenue revenue in
  let confidence := RiskAgent.overall_confidence risk in
  _ <- item0 (RevenueAgent.v_key_drivers revenue) ;;
  response <- run ORCHESTRATOR ;;
  let rec_ := recommend opportunity_score confidence in
  ks <- strengths demo comp transit ;;
  let kc := concerns (RiskAgent.r_risk_factors risk) in
  let ai := actions (RiskAgent.r_recommendations risk) in
  let summary := mkSummary rec_ concept opportunity_score confidence predicted_revenue (hd_error ks) in
  Ok (mkSynthesis rec_ summary (firstn 3 ks) (firstn 3 kc) (firstn 3 ai) response).

Definition analyze_site (address concept : string) (raw_data : RawData) : res SiteAnalysis :=
  geo <- GeoAgent.geocode_and_validate geocoder run address ;;
  demo <- DemoAgent.analyze_demographics run (rd_postal_code raw_data) concept (rd_demographics raw_data)
            (rd_population_grid raw_data) ;;
  comp <- CompAgent.analyze_competition run concept (rd_competitors raw_data)
            (get_default (DemoAgent.gi_total_population (rd_population_grid raw_data)) 10000) ;;
  transit <- TransitAgent.analyze_transit run (rd_transit raw_data) (rd_walkability_poi_count raw_data) ;;
  risk <- RiskAgent.assess_risk_and_confidence run geo demo comp transit ;;
  revenue <- RevenueAgent.predict_revenue run concept geo demo comp transit risk ;;
  synthesis <- synthesize_analysis concept demo comp transit risk revenue ;;
  Ok (mkSiteAnalysis address concept (RevenueAgent.opportunity_score revenue)
        (RevenueAgent.predicted_monthly_revenue revenue) (RiskAgent.overall_confidence risk)
        (RiskAgent.r_confidence_rating risk) (recommendation synthesis) (executive_summary synthesis)
        geo demo comp transit risk revenue (key_strengths synthesis) (key_concerns synthesis)
        (action_items synthesis)).

End WithAgents.

(** ** Sample inputs *)

(** A geocoder answering coordinates only, and a model answering an
    empty text. *)
Definition sample_geocoder (_ : string) : res (option GeoAgent.GeocodeDict) :=
  Ok (Some [("latitude", Digitransit.JNum (6017 # 100)); ("longitude", Digitransit.JNum (2494 # 100))]).

Definition sample_run (_ : AgentName) : res string := Ok "".

(** Pelias' answer for any search: one feature in central Helsinki. *)
Definition sample_pelias (_ : Digitransit.PeliasRequest) : option Digitransit.PeliasResponse :=
  Some (Digitransit.mkPeliasResponse 200 (Digitransit.JsonObject (Some
    [Digitransit.mkPeliasFeature (Some (Digitransit.mkPeliasGeometry (Some [2494 # 100; 6017 # 100])))
       (Some (Digitransit.mkPeliasProps (Some "Mannerheimintie 1, Helsinki") (Some "00100") (Some "Helsinki")
                (PyNum (9 # 10))))]))).

Definition sample_stop (d : Q) : OSM.Stop := OSM.mkStop "Stop" (6017 # 100) (2494 # 100) d.

(** Two metro entrances 300 m away, four tram stops 200 m away, and the
    given number of walkability POIs. *)
Definition sample_raw (poi : Q) : RawData :=
  mkRawData "00100"
    (Some (DemoAgent.mkDemoInput (PyNum 20000) (PyNum 50000) (PyNum 55000) (PyNum 70) (PyNum 50)))
    (DemoAgent.mkGridInput (PyNum 10000) (PyNum 8000)) []
    (OSM.mkTransit [sample_stop 300; sample_stop 300] [sample_stop 200; sample_stop 200; sample_stop 200; sample_stop 200]
       (Some 300) (Some 200))
    (PyNum poi).

(** ** The recommendation *)

Lemma recommend_prompt_agree s c : 55 <= s -> recommend s c = prompt_recommendation s c.
Proof. intros Hs. unfold recommend, prompt_recommendation. qsplit; reflexivity. Qed.

(** C17: The code's recommendation rule and the rule the synthesis prompt
    states agree on every opportunity score of at least 55; below 55 they
    are opposite: the code says "Not Recommended" exactly when the
    confidence is below 65, where the prompt says "Consider Alternatives",
    and "Consider Alternatives" at a confidence of 65 or more, where the
    prompt says "Not Recommended". *)
Theorem recommendation_inverts_prompt s c :
  (55 <= s -> recommend s c = prompt_recommendation s c) /\
  (s < 55 -> (recommend s c = NotRecommended <-> prompt_recommendation s c <> NotRecommended)).
Proof.
  split; [apply recommend_prompt_agree|]. intros Hs. unfold recommend, prompt_recommendation.
  qsplit; split; congruence.
Qed.

(** ** The synthesis *)

Lemma guard_ok {A} (b : bool) (l : list A) (f : A -> Strength) :
  (b = true -> l <> []) -> exists x, (if b then i <- item0 l ;; Ok [f i] else Ok []) = Ok x.
Proof. destruct b, l; intros H; try (eexists; reflexivity). exfalso; now apply H. Qed.

(** The strengths fail only on the transit agent's insights: the demographic
    insights are there whenever its score reaches 75, and the competition
    insights always. *)
Lemma strengths_outcome demo comp transit :
  (DemoAgent.d_insights demo = [] -> DemoAgent.demographic_score demo < 75) ->
  CompAgent.c_insights comp <> [] ->
  (75 <= TransitAgent.transit_score transit /\ TransitAgent.t_insights transit = [] /\
   strengths demo comp transit = Raise IndexError) \/
  (~ (75 <= TransitAgent.transit_score transit /\ TransitAgent.t_insights transit = []) /\
   exists ks, strengths demo comp transit = Ok ks).
Proof.
  intros Hd Hc. unfold strengths.
  destruct (guard_ok (Qgeb (DemoAgent.demographic_score demo) 75) (DemoAgent.d_insights demo) StrongDemographics)
    as [s1 ->].
  { intros Hq Hn. apply Hd in Hn. unfold Qgeb in Hq. apply Qle_bool_iff in Hq. lra. }
  destruct (guard_ok (Qgeb (CompAgent.competition_score comp) 75) (CompAgent.c_insights comp) LowCompetition)
    as [s2 ->]; [intros _; exact Hc|]. cbn [bind].
  unfold Qgeb. destruct (Qle_bool_spec 75 (TransitAgent.transit_score transit)) as [Ht|Ht];
    destruct (TransitAgent.t_insights transit) as [|i rest]; cbn [item0 bind].
  - left. auto.
  - right. split; [intros [_ Hn]; discriminate Hn | eexists; reflexivity].
  - right. split; [intros [H' _]; lra | eexists; reflexivity].
  - right. split; [intros [H' _]; lra | eexists; reflexivity].
Qed.

(** The results of a successful analysis are those of the six agents in
    their order. *)
Lemma analyze_site_Ok geocoder run address concept raw a :
  analyze_site geocoder run address concept raw = Ok a ->
  GeoAgent.geocode_and_validate geocoder run address = Ok (geo_analysis a) /\
  DemoAgent.analyze_demographics run (rd_postal_code raw) concept (rd_demographics raw) (rd_population_grid raw)
    = Ok (demographic_analysis a) /\
  CompAgent.analyze_competition run concept (rd_competitors raw)
    (get_default (DemoAgent.gi_total_population (rd_population_grid raw)) 10000) = Ok (competition_analysis a) /\
  TransitAgent.analyze_transit run (rd_transit raw) (rd_walkability_poi_count raw) = Ok (transit_analysis a) /\
  RiskAgent.assess_risk_and_confidence run (geo_analysis a) (demographic_analysis a) (competition_analysis a)
    (transit_analysis a) = Ok (risk_analysis a) /\
  RevenueAgent.predict_revenue run concept (geo_analysis a) (demographic_analysis a) (competition_analysis a)
    (transit_analysis a) (risk_analysis a) = Ok (revenue_analysis a) /\
  a_confidence a = RiskAgent.overall_confidence (risk_analysis a) /\
  a_opportunity_score a = RevenueAgent.opportunity_score (revenue_analysis a) /\
  a_predicted_monthly_revenue a = RevenueAgent.predicted_monthly_revenue (revenue_analysis a).
Proof.
  unfold analyze_site. intros H. res_inv H. apply Ok_inj in H. subst a. cbn.
  repeat match goal with |- _ /\ _ => split end; first [assumption | reflexivity].
Qed.

(** The four scores of a successful analysis lie in [0, 100]. *)
Lemma site_scores geocoder run address concept raw a :
  analyze_site geocoder run address concept raw = Ok a ->
  (0 <= GeoAgent.geo_quality (geo_analysis a) <= 100)%Z /\
  0 <= DemoAgent.demographic_score (demographic_analysis a) <= 100 /\
  0 <= CompAgent.competition_score (competition_analysis a) <= 100 /\
  0 <= TransitAgent.transit_score (transit_analysis a) <= 100.
Proof.
  intros H. destruct (analyze_site_Ok _ _ _ _ _ _ H) as (Hg & Hd & Hc & Ht & _).
  split; [exact (GeoAgent.geocode_and_validate_quality _ _ _ _ Hg)|].
  split; [exact (proj1 (DemoAgent.analyze_demographics_score _ _ _ _ _ _ Hd))|].
  split; [exact (proj1 (CompAgent.analyze_competition_spec _ _ _ _ _ Hc))|].
  exact (TransitAgent.analyze_transit_range _ _ _ _ Ht).
Qed.

(** Once the model answers, the synthesis of agent-built results either
    raises IndexError on the transit quote or returns. *)
Lemma synthesis_outcome run postal_code concept dd gd competitors population geo transit risk demo comp revenue s :
  DemoAgent.analyze_demographics run postal_code concept dd gd = Ok demo ->
  CompAgent.analyze_competition run concept competitors population = Ok comp ->
  RevenueAgent.predict_revenue run concept geo demo comp transit risk = Ok revenue ->
  run ORCHESTRATOR = Ok s ->
  (75 <= TransitAgent.transit_score transit /\ TransitAgent.t_insights transit = [] /\
   synthesize_analysis run concept demo comp transit risk revenue = Raise IndexError) \/
  (~ (75 <= TransitAgent.transit_score transit /\ TransitAgent.t_insights transit = []) /\
   exists y, synthesize_analysis run concept demo comp transit risk revenue = Ok y).
Proof.
  intros Hd Hc Hv Hr.
  destruct (DemoAgent.analyze_demographics_score _ _ _ _ _ _ Hd) as [_ Hdi].
  destruct (CompAgent.analyze_competition_spec _ _ _ _ _ Hc) as [_ Hci].
  unfold synthesize_analysis.
  destruct (RevenueAgent.v_key_drivers revenue) eqn:Ek;
    [exfalso; exact (RevenueAgent.predict_revenue_drivers _ _ _ _ _ _ _ _ Hv Ek)|].
  cbn [item0 bind]. rewrite Hr. cbn [bind].
  destruct (strengths_outcome demo comp transit Hdi Hci) as [(Ht & Hi & ->) | (Hn & ks & ->)]; cbn [bind].
  - left. auto.
  - right. split; [exact Hn | eexists; reflexivity].
Qed.

(** C15: When the demographic and competition results come from their agents
    and the revenue prediction succeeded, the synthesis, once the model has
    answered, raises exactly when the transit score reaches 75 while the
    transit agent produced no insight (the IndexError of
    [transit_results.get('insights', [...])[0]]), and it raises nothing
    else. *)
Theorem synthesis_index_error run postal_code concept dd gd competitors population geo transit risk demo comp
  revenue s :
  DemoAgent.analyze_demographics run postal_code concept dd gd = Ok demo ->
  CompAgent.analyze_competition run concept competitors population = Ok comp ->
  RevenueAgent.predict_revenue run concept geo demo comp transit risk = Ok revenue ->
  run ORCHESTRATOR = Ok s ->
  (synthesize_analysis run concept demo comp transit risk revenue = Raise IndexError <->
   75 <= TransitAgent.transit_score transit /\ TransitAgent.t_insights transit = []) /\
  (forall e, synthesize_analysis run concept demo comp transit risk revenue = Raise e -> e = IndexError).
Proof.
  intros Hd Hc Hv Hr.
  destruct (synthesis_outcome _ _ _ _ _ _ _ _ _ _ _ _ _ _ Hd Hc Hv Hr) as [(Ht & Hi & ->) | (Hn & y & ->)].
  - split; [tauto | intros e He; congruence].
  - split; [split; [discriminate | intros H; contradiction] | intros e He; discriminate].
Qed.

Lemma synthesis_index_error_witness :
  exists geo, GeoAgent.geocode_and_validate sample_geocoder sample_run "Mannerheimintie 1" = Ok geo /\
  exists demo, DemoAgent.analyze_demographics sample_run "00100" "casual_dining" (rd_demographics (sample_raw 20))
                 (rd_population_grid (sample_raw 20)) = Ok demo /\
  exists comp, CompAgent.analyze_competition sample_run "casual_dining" [] (PyNum 10000) = Ok comp /\
  exists transit, TransitAgent.analyze_transit sample_run (rd_transit (sample_raw 20)) (PyNum 20) = Ok transit /\
  exists risk, RiskAgent.assess_risk_and_confidence sample_run geo demo comp transit = Ok risk /\
  exists revenue, RevenueAgent.predict_revenue sample_run "casual_dining" geo demo comp transit risk = Ok revenue /\
    sample_run ORCHESTRATOR = Ok "" /\
    (synthesize_analysis sample_run "casual_dining" demo comp transit risk revenue = Raise IndexError <->
     75 <= TransitAgent.transit_score transit /\ TransitAgent.t_insights transit = []) /\
    (forall e, synthesize_analysis sample_run "casual_dining" demo comp transit risk revenue = Raise e ->
     e = IndexError).
Proof.
  do 6 exists_ok. split; [reflexivity|].
  eapply (synthesis_index_error sample_run "00100" "casual_dining"); first [eassumption | reflexivity].
Defined.

(** The risk and revenue agents only fail when the model does. *)
Lemma assess_risk_ok run geo demo comp transit :
  (exists s, run RISK = Ok s) -> exists r, RiskAgent.assess_risk_and_confidence run geo demo comp transit = Ok r.
Proof. intros [s Hs]. unfold RiskAgent.assess_risk_and_confidence. rewrite Hs. eexists; reflexivity. Qed.

Lemma predict_revenue_ok run concept geo demo comp transit risk :
  (exists s, run REVENUE = Ok s) -> exists v, RevenueAgent.predict_revenue run concept geo demo comp transit risk = Ok v.
Proof. intros [s Hs]. unfold RevenueAgent.predict_revenue. rewrite Hs. eexists; reflexivity. Qed.

(** C16: Whenever the model answers and the geocoding, demographic,
    competition and transit agents succeed on a site, [analyze_site]
    raises IndexError exactly when the transit score reaches 75 without a
    transit insight, and otherwise returns an analysis: the risk, revenue
    and synthesis steps add no other failure. *)
Theorem analyze_site_index_error geocoder run address concept raw geo demo comp transit :
  (forall n, exists s, run n = Ok s) ->
  GeoAgent.geocode_and_validate geocoder run address = Ok geo ->
  DemoAgent.analyze_demographics run (rd_postal_code raw) concept (rd_demographics raw) (rd_population_grid raw)
    = Ok demo ->
  CompAgent.analyze_competition run concept (rd_competitors raw)
    (get_default (DemoAgent.gi_total_population (rd_population_grid raw)) 10000) = Ok comp ->
  TransitAgent.analyze_transit run (rd_transit raw) (rd_walkability_poi_count raw) = Ok transit ->
  (analyze_site geocoder run address concept raw = Raise IndexError <->
   75 <= TransitAgent.transit_score transit /\ TransitAgent.t_insights transit = []) /\
  (~ (75 <= TransitAgent.transit_score transit /\ TransitAgent.t_insights transit = []) ->
   exists a, analyze_site geocoder run address concept raw = Ok a).
Proof.
  intros Hrun Hg Hd Hc Ht. unfold analyze_site. rewrite Hg, Hd, Hc, Ht. cbn [bind].
  destruct (assess_risk_ok run geo demo comp transit (Hrun RISK)) as [risk Hr]. rewrite Hr. cbn [bind].
  destruct (predict_revenue_ok run concept geo demo comp transit risk (Hrun REVENUE)) as [v Hv]. rewrite Hv.
  cbn [bind]. destruct (Hrun ORCHESTRATOR) as [s Hs].
  destruct (synthesis_outcome _ _ _ _ _ _ _ _ _ _ _ _ _ _ Hd Hc Hv Hs) as [(H1 & H2 & ->) | (Hn & y & ->)];
    cbn [bind].
  - split; [tauto | intros Hn; exfalso; exact (Hn (conj H1 H2))].
  - split; [split; [discriminate | intros H; contradiction] | intros _; eexists; reflexivity].
Qed.

Lemma analyze_site_index_error_witness :
  exists geo, GeoAgent.geocode_and_validate sample_geocoder sample_run "Mannerheimintie 1" = Ok geo /\
  exists demo, DemoAgent.analyze_demographics sample_run "00100" "casual_dining" (rd_demographics (sample_raw 20))
                 (rd_population_grid (sample_raw 20)) = Ok demo /\
  exists comp, CompAgent.analyze_competition sample_run "casual_dining" []
                 (get_default (DemoAgent.gi_total_population (rd_population_grid (sample_raw 20))) 10000) = Ok comp /\
  exists transit, TransitAgent.analyze_transit sample_run (rd_transit (sample_raw 20)) (PyNum 20) = Ok transit /\
    (forall n, exists s, sample_run n = Ok s) /\
    (analyze_site sample_geocoder sample_run "Mannerheimintie 1" "casual_dining" (sample_raw 20) = Raise IndexError <->
     75 <= TransitAgent.transit_score transit /\ TransitAgent.t_insights transit = []) /\
    (~ (75 <= TransitAgent.transit_score transit /\ TransitAgent.t_insights transit = []) ->
     exists a, analyze_site sample_geocoder sample_run "Mannerheimintie 1" "casual_dining" (sample_raw 20) = Ok a).
Proof.
  do 4 exists_ok.
  assert (Hrun : forall n, exists s, sample_run n = Ok s) by (intros n; exists ""; reflexivity).
  split; [exact Hrun|].
  exact (analyze_site_index_error sample_geocoder sample_run "Mannerheimintie 1" "casual_dining" (sample_raw 20)
           _ _ _ _ Hrun Hok Hok0 Hok1 Hok2).
Defined.

(** C19: Every successful site analysis reports an overall confidence in
    [24, 94], an opportunity score in [0, 100], a predicted monthly revenue
    of at least 16,800 euros (a fifth of the smallest concept base), and a
    revenue range ordered pessimistic <= realistic <= optimistic. *)
Theorem site_analysis_bounds geocoder run address concept raw a :
  analyze_site geocoder run address concept raw = Ok a ->
  24 <= a_confidence a <= 94 /\ 0 <= a_opportunity_score a <= 100 /\ 16800 <= a_predicted_monthly_revenue a /\
  RevenueAgent.pessimistic (RevenueAgent.revenue_range (revenue_analysis a)) <=
    RevenueAgent.realistic (RevenueAgent.revenue_range (revenue_analysis a)) <=
    RevenueAgent.optimistic (RevenueAgent.revenue_range (revenue_analysis a)).
Proof.
  intros H. destruct (site_scores _ _ _ _ _ _ H) as (Hq & Hd & Hc & Ht).
  destruct (analyze_site_Ok _ _ _ _ _ _ H) as (_ & _ & _ & _ & Hr & Hv & -> & -> & ->).
  pose proof (RiskAgent.assess_risk_bounds _ _ _ _ _ _ Hq Hd Hc Ht Hr) as Hb.
  assert (Hb' : 0 <= RiskAgent.overall_confidence (risk_analysis a) <= 100) by lra.
  destruct (RevenueAgent.predict_revenue_range _ _ _ _ _ _ _ _ Hd Hc Ht Hb' Hv) as [Hl Ho].
  rewrite (RevenueAgent.predict_revenue_realistic _ _ _ _ _ _ _ _ Hv).
  repeat split; try apply Hb; try apply Ho; try exact Hl;
    apply (RevenueAgent.predict_revenue_opportunity _ _ _ _ _ _ _ _ Hd Hc Ht Hb' Hv).
Qed.

Lemma site_analysis_bounds_witness :
  exists a, analyze_site sample_geocoder sample_run "Mannerheimintie 1" "casual_dining" (sample_raw 50) = Ok a /\
    (24 <= a_confidence a <= 94 /\ 0 <= a_opportunity_score a <= 100 /\ 16800 <= a_predicted_monthly_revenue a /\
     RevenueAgent.pessimistic (RevenueAgent.revenue_range (revenue_analysis a)) <=
       RevenueAgent.realistic (RevenueAgent.revenue_range (revenue_analysis a)) <=
       RevenueAgent.optimistic (RevenueAgent.revenue_range (revenue_analysis a))).
Proof.
  exists_ok. exact (site_analysis_bounds _ _ _ _ _ _ Hok).
Defined.

(** C18: With DigitransitService as the orchestrator's geocoder, whose
    dictionary has no [municipality], no successful analysis has a "high"
    geocoding confidence, and the revenue's location driver always
    contributes 0: the dense-urban and suburban premiums of
    [_calculate_location_adjustment] are never applied. *)
Theorem digitransit_site_no_location_premium pelias_get run address concept raw a :
  analyze_site (GeoAgent.digitransit_geocoder pelias_get) run address concept raw = Ok a ->
  GeoAgent.geo_confidence (geo_analysis a) <> "high" /\
  (forall d, In d (RevenueAgent.v_key_drivers (revenue_analysis a)) ->
   RevenueAgent.factor d = RevenueAgent.LocationQuality -> RevenueAgent.contribution d == 0).
Proof.
  intros H. destruct (analyze_site_Ok _ _ _ _ _ _ H) as (Hg & _ & _ & _ & _ & Hv & _).
  destruct (GeoAgent.digitransit_geo_grades _ _ _ _ Hg) as (Hc & Hx & _). split; [exact Hc|].
  intros d Hin Hf. rewrite (RevenueAgent.predict_revenue_location _ _ _ _ _ _ _ _ _ Hv Hin Hf).
  assert (Hm : RevenueAgent.location_multiplier (GeoAgent.geo_context (geo_analysis a)) = 0)
    by (destruct Hx as [-> | ->]; reflexivity).
  rewrite Hm. ring.
Qed.

Lemma digitransit_site_no_location_premium_witness :
  exists a, analyze_site (GeoAgent.digitransit_geocoder sample_pelias) sample_run "Mannerheimintie 1" "casual_dining"
              (sample_raw 50) = Ok a /\
    (GeoAgent.geo_confidence (geo_analysis a) <> "high" /\
     (forall d, In d (RevenueAgent.v_key_drivers (revenue_analysis a)) ->
      RevenueAgent.factor d = RevenueAgent.LocationQuality -> RevenueAgent.contribution d == 0)).
Proof.
  exists_ok. exact (digitransit_site_no_location_premium _ _ _ _ _ _ Hok).
Defined.

End Orchestrator.
